(** * Intel ICH / SIS7012 AC97 playback driver (mpxplay/au_cards/sc_ich.c)

    A shallow embedding of the hardware control path of the driver: the
    device table, codec bus access, playback preparation (channel format,
    SPDIF rate, DAC rate, buffer descriptor list), rate selection, start,
    stop, close, the position query and the interrupt routine.

    The driver talks to the chip through port I/O.  Every port read takes
    its value from a script held in the world ([w_ports]); every read,
    write, delay and call to a host service is appended to a trace
    ([w_trace]).  Statements about "what the driver programs" are
    statements about that trace.

    Integer widths are those of the i386 target the driver is built for:
    [unsigned char] is 8 bits, [unsigned int], [unsigned long] and pointers
    are 32 bits. *)

From Stdlib Require Import ZArith QArith List Bool.
From Stdlib Require Import Floats.SpecFloat.
From stdpp Require Import base option list strings gmap.

Local Open Scope Z_scope.

(** ** Machine integers *)

Inductive width := W8 | W16 | W32.

Definition width_bits (sz : width) : Z :=
  match sz with W8 => 8 | W16 => 16 | W32 => 32 end.

(** Conversion to an unsigned integer of the given width. *)
Definition trunc (sz : width) (v : Z) : Z := v mod 2 ^ width_bits sz.

Definition u8 (v : Z) : Z := trunc W8 v.
Definition u16 (v : Z) : Z := trunc W16 v.
Definition u32 (v : Z) : Z := trunc W32 v.

(** [int] of the target: 32 bits, two's complement. *)
Definition s32 (v : Z) : Z := (v + 2 ^ 31) mod 2 ^ 32 - 2 ^ 31.

(** funcbit_enable(var,bit) is [var |= bit], funcbit_disable(var,bit) is
    [var &= ~bit] (newfunc.h). *)
Definition funcbit_enable (var bit : Z) : Z := Z.lor var bit.
Definition funcbit_disable (var bit : Z) : Z := Z.land var (Z.lnot bit).

(** ** Register map (sc_ich.c, lines 100-152) *)

Definition ICH_PO_CR_REG : Z := 0x1b.
Definition ICH_PO_CR_START : Z := 0x01.
Definition ICH_PO_CR_RESET : Z := 0x02.
Definition ICH_PO_CR_LVBIE : Z := 0x04.
Definition ICH_PO_CR_FEIE : Z := 0x08.
Definition ICH_PO_CR_IOCE : Z := 0x10.

Definition ICH_PO_SR_DCH : Z := 0x01.
Definition ICH_PO_SR_LVBCI : Z := 0x04.
Definition ICH_PO_SR_BCIS : Z := 0x08.
Definition ICH_PO_SR_FIFO : Z := 0x10.

Definition ICH_GLOB_CNT_REG : Z := 0x2c.
Definition ICH_GLOB_CNT_ACLINKOFF : Z := 0x00000008.
Definition ICH_GLOB_CNT_AC97WARM : Z := 0x00000004.
Definition ICH_GLOB_CNT_AC97COLD : Z := 0x00000002.

Definition ICH_PCM_20BIT : Z := 0x00400000.
Definition ICH_PCM_246_MASK : Z := 0x00300000.
Definition ICH_SIS_PCM_246_MASK : Z := 0x000000c0.

Definition ICH_GLOB_STAT_REG : Z := 0x30.
Definition ICH_GLOB_STAT_PCR : Z := 0x00000100.
Definition ICH_GLOB_STAT_RCS : Z := 0x00008000.
Definition ICH_SAMPLE_CAP : Z := 0x00c00000.
Definition ICH_SAMPLE_16_20 : Z := 0x00400000.

Definition ICH_PO_BDBAR_REG : Z := 0x10.
Definition ICH_PO_LVI_REG : Z := 0x15.
Definition ICH_PO_CIV_REG : Z := 0x14.

Definition ICH_ACC_SEMA_REG : Z := 0x34.
Definition ICH_CODEC_BUSY : Z := 0x01.

Definition ICH_BD_IOC : Z := 0x8000.

Definition ICH_DMABUF_MAX_PERIODS : Z := 32.
Definition ICH_DMABUF_PERIODS : Z := 4.
Definition ICH_BDL_ENTRY_SIZE : Z := 2 * 4.
Definition ICH_DMABUF_ALIGN : Z := ICH_DMABUF_MAX_PERIODS * ICH_BDL_ENTRY_SIZE.

Definition ICH_DEFAULT_RETRY : nat := 1000.

(** enum { DEVICE_INTEL, DEVICE_INTEL_ICH4, DEVICE_NFORCE, DEVICE_SIS } *)
Inductive device_type_t :=
  DEVICE_INTEL | DEVICE_INTEL_ICH4 | DEVICE_NFORCE | DEVICE_SIS.

Definition device_type_eqb (a b : device_type_t) : bool :=
  match a, b with
  | DEVICE_INTEL, DEVICE_INTEL
  | DEVICE_INTEL_ICH4, DEVICE_INTEL_ICH4
  | DEVICE_NFORCE, DEVICE_NFORCE
  | DEVICE_SIS, DEVICE_SIS => true
  | _, _ => false
  end.

(** enum SIS7012_DebugVars (sis7012_debug.h), as indices into g_counts. *)
Definition SIS7012_DEBUG_IOC_COUNT : nat := 0.
Definition SIS7012_DEBUG_BUP_COUNT : nat := 1.
Definition SIS7012_DEBUG_FIFO_COUNT : nat := 2.
Definition SIS7012_DEBUG_LAST : nat := 3.

(** ** What the driver takes from outside sc_ich.c *)

(** The build switch SBEMU and the constants of ac97_def.h and au_cards.h
    that the modelled functions use.  Neither header is among the sources,
    so the constants are parameters of the development. *)
Class Headers := {
  SBEMU : bool;
  AC97_SPDIF_CONTROL : Z;
  AC97_SC_SPSR_MASK : Z;
  AC97_SC_SPSR_32K : Z;
  AC97_SC_SPSR_44K : Z;
  AC97_SC_SPSR_48K : Z;
  AC97_PCM_FRONT_DAC_RATE : Z;
  AUINFOS_CARDINFOBIT_DMAUNDERRUN : Z;
  MPXPLAY_WAVEID_PCM_SLE : Z;
  AUCARDS_DMABUFSIZE_NORMAL : Z
}.

(** The floating-point arithmetic of the C implementation.  The driver
    keeps its clock corrector in a [float] and mixes [float] and [double]
    operations; how results are rounded depends on the compiler's
    evaluation method, so the operations are an interface. *)
Class FloatOps := {
  cfloat : Type;
  f_dec : Z -> Z -> cfloat;            (* the literal m * 10^e *)
  f_of_int : Z -> cfloat;              (* (float)n *)
  f_mul : cfloat -> cfloat -> cfloat;  (* product in float *)
  f_div : cfloat -> cfloat -> cfloat;  (* quotient in float *)
  d_mul : cfloat -> cfloat -> cfloat;  (* product in double *)
  d_div : cfloat -> cfloat -> cfloat;  (* quotient in double *)
  f_store : cfloat -> cfloat;          (* assignment to a float object *)
  f_lt : cfloat -> cfloat -> bool;     (* a < b *)
  f_nonzero : cfloat -> bool;          (* if(a) *)
  f_to_long : cfloat -> option Z       (* (long)a, undefined out of range *)
}.

(** ** Data *)

(** cardmem_t (dmairq.h): a DMA allocation with its linear and physical
    base address. *)
Record cardmem_t := {
  linearptr : Z;
  physicalptr : Z
}.

(** Modelled from the spec: pds_cardmem_physicalptr is a macro of a header
    that is not among the sources.  The DMA memory allocator "hands back a
    linear pointer plus a physical-address translator"; the allocation is
    contiguous, so the translator keeps the offset from the linear base. *)
Definition pds_cardmem_physicalptr (cm : cardmem_t) (ptr : Z) : Z :=
  physicalptr cm + (ptr - linearptr cm).

(** The fields of pci_config_s (pcibios.h) the driver reads. *)
Record pci_config_s := {
  vendor_id : Z;
  device_id : Z;
  pci_device_type : device_type_t
}.

(** One row of a pci_device_s table. *)
Record pci_device_s := {
  device_name : string;
  dev_vendor_id : Z;
  dev_device_id : Z;
  dev_device_type : device_type_t
}.

(** ** The monad of driver code *)

(** Driver code is a function of the world.  [Fault] is undefined
    behaviour of the C program (a NULL dereference, a division by zero, a
    float-to-integer conversion out of range); [Exhausted] means the clock
    script ended while the driver was still polling the time. *)
Inductive outcome (S A : Type) :=
  | Ok (a : A) (w : S)
  | Fault
  | Exhausted.
Arguments Ok {S A} a w.
Arguments Fault {S A}.
Arguments Exhausted {S A}.

Definition ret {S A} (a : A) : S -> outcome S A := fun w => Ok a w.

Definition bind {S A B} (m : S -> outcome S A) (k : A -> S -> outcome S B)
  : S -> outcome S B :=
  fun w => match m w with
           | Ok a w' => k a w'
           | Fault => Fault
           | Exhausted => Exhausted
           end.

Notation "'let*' x := m 'in' k" := (bind m (fun x => k))
  (at level 10, x name, m at level 100, k at level 200).
Notation "m ;;; k" := (bind m (fun _ => k))
  (at level 100, k at level 200, right associativity).

Definition fault {S A} : S -> outcome S A := fun _ => Fault.

Section Driver.
Context {H : Headers} {F : FloatOps}.

(** struct intel_card_s.  Pointers that may be NULL are options;
    [buffer_descriptor_list] and [pcmout_buffer] are linear addresses. *)
Record intel_card_s := {
  baseport_bm : Z;
  baseport_codec : Z;
  irq : Z;
  device_type : device_type_t;
  pci_dev : option pci_config_s;
  dm : option cardmem_t;
  buffer_descriptor_list : Z;
  pcmout_buffer : Z;
  pcmout_bufsize : Z;
  period_size_bytes : Z;
  vra : Z;
  ac97_clock_detected : Z;
  ac97_clock_corrector : cfloat
}.

Definition set_period_size_bytes (v : Z) (c : intel_card_s) : intel_card_s :=
  {| baseport_bm := baseport_bm c; baseport_codec := baseport_codec c;
     irq := irq c; device_type := device_type c; pci_dev := pci_dev c;
     dm := dm c; buffer_descriptor_list := buffer_descriptor_list c;
     pcmout_buffer := pcmout_buffer c; pcmout_bufsize := pcmout_bufsize c;
     period_size_bytes := v; vra := vra c;
     ac97_clock_detected := ac97_clock_detected c;
     ac97_clock_corrector := ac97_clock_corrector c |}.

Definition set_ac97_clock_detected (v : Z) (c : intel_card_s) : intel_card_s :=
  {| baseport_bm := baseport_bm c; baseport_codec := baseport_codec c;
     irq := irq c; device_type := device_type c; pci_dev := pci_dev c;
     dm := dm c; buffer_descriptor_list := buffer_descriptor_list c;
     pcmout_buffer := pcmout_buffer c; pcmout_bufsize := pcmout_bufsize c;
     period_size_bytes := period_size_bytes c; vra := vra c;
     ac97_clock_detected := v;
     ac97_clock_corrector := ac97_clock_corrector c |}.

Definition set_ac97_clock_corrector (v : cfloat) (c : intel_card_s) : intel_card_s :=
  {| baseport_bm := baseport_bm c; baseport_codec := baseport_codec c;
     irq := irq c; device_type := device_type c; pci_dev := pci_dev c;
     dm := dm c; buffer_descriptor_list := buffer_descriptor_list c;
     pcmout_buffer := pcmout_buffer c; pcmout_bufsize := pcmout_bufsize c;
     period_size_bytes := period_size_bytes c; vra := vra c;
     ac97_clock_detected := ac97_clock_detected c;
     ac97_clock_corrector := v |}.

(** The fields of struct mpxplay_audioout_info_s (au_cards.h) that the
    modelled functions touch.  [card_private_data] is the pointer to the
    card; the card is owned by this handle alone, so it is kept by value
    and [None] is the NULL pointer. *)
Record mpxplay_audioout_info_s := {
  card_private_data : option intel_card_s;
  freq_card : Z;
  chan_card : Z;
  bits_card : Z;
  bits_set : Z;
  card_wave_id : Z;
  card_infobits : Z;
  card_dmasize : Z;
  card_dma_lastgoodpos : Z;
  card_samples_per_int : Z
}.

Definition set_card_private_data (v : option intel_card_s)
    (a : mpxplay_audioout_info_s) : mpxplay_audioout_info_s :=
  {| card_private_data := v; freq_card := freq_card a;
     chan_card := chan_card a; bits_card := bits_card a;
     bits_set := bits_set a; card_wave_id := card_wave_id a;
     card_infobits := card_infobits a; card_dmasize := card_dmasize a;
     card_dma_lastgoodpos := card_dma_lastgoodpos a;
     card_samples_per_int := card_samples_per_int a |}.

Definition set_freq_card (v : Z) (a : mpxplay_audioout_info_s) :=
  {| card_private_data := card_private_data a; freq_card := v;
     chan_card := chan_card a; bits_card := bits_card a;
     bits_set := bits_set a; card_wave_id := card_wave_id a;
     card_infobits := card_infobits a; card_dmasize := card_dmasize a;
     card_dma_lastgoodpos := card_dma_lastgoodpos a;
     card_samples_per_int := card_samples_per_int a |}.

Definition set_chan_card (v : Z) (a : mpxplay_audioout_info_s) :=
  {| card_private_data := card_private_data a; freq_card := freq_card a;
     chan_card := v; bits_card := bits_card a;
     bits_set := bits_set a; card_wave_id := card_wave_id a;
     card_infobits := card_infobits a; card_dmasize := card_dmasize a;
     card_dma_lastgoodpos := card_dma_lastgoodpos a;
     card_samples_per_int := card_samples_per_int a |}.

Definition set_bits_card (v : Z) (a : mpxplay_audioout_info_s) :=
  {| card_private_data := card_private_data a; freq_card := freq_card a;
     chan_card := chan_card a; bits_card := v;
     bits_set := bits_set a; card_wave_id := card_wave_id a;
     card_infobits := card_infobits a; card_dmasize := card_dmasize a;
     card_dma_lastgoodpos := card_dma_lastgoodpos a;
     card_samples_per_int := card_samples_per_int a |}.

Definition set_card_wave_id (v : Z) (a : mpxplay_audioout_info_s) :=
  {| card_private_data := card_private_data a; freq_card := freq_card a;
     chan_card := chan_card a; bits_card := bits_card a;
     bits_set := bits_set a; card_wave_id := v;
     card_infobits := card_infobits a; card_dmasize := card_dmasize a;
     card_dma_lastgoodpos := card_dma_lastgoodpos a;
     card_samples_per_int := card_samples_per_int a |}.

Definition set_card_infobits (v : Z) (a : mpxplay_audioout_info_s) :=
  {| card_private_data := card_private_data a; freq_card := freq_card a;
     chan_card := chan_card a; bits_card := bits_card a;
     bits_set := bits_set a; card_wave_id := card_wave_id a;
     card_infobits := v; card_dmasize := card_dmasize a;
     card_dma_lastgoodpos := card_dma_lastgoodpos a;
     card_samples_per_int := card_samples_per_int a |}.

Definition set_card_dmasize (v : Z) (a : mpxplay_audioout_info_s) :=
  {| card_private_data := card_private_data a; freq_card := freq_card a;
     chan_card := chan_card a; bits_card := bits_card a;
     bits_set := bits_set a; card_wave_id := card_wave_id a;
     card_infobits := card_infobits a; card_dmasize := v;
     card_dma_lastgoodpos := card_dma_lastgoodpos a;
     card_samples_per_int := card_samples_per_int a |}.

Definition set_card_dma_lastgoodpos (v : Z) (a : mpxplay_audioout_info_s) :=
  {| card_private_data := card_private_data a; freq_card := freq_card a;
     chan_card := chan_card a; bits_card := bits_card a;
     bits_set := bits_set a; card_wave_id := card_wave_id a;
     card_infobits := card_infobits a; card_dmasize := card_dmasize a;
     card_dma_lastgoodpos := v;
     card_samples_per_int := card_samples_per_int a |}.

Definition set_card_samples_per_int (v : Z) (a : mpxplay_audioout_info_s) :=
  {| card_private_data := card_private_data a; freq_card := freq_card a;
     chan_card := chan_card a; bits_card := bits_card a;
     bits_set := bits_set a; card_wave_id := card_wave_id a;
     card_infobits := card_infobits a; card_dmasize := card_dmasize a;
     card_dma_lastgoodpos := card_dma_lastgoodpos a;
     card_samples_per_int := v |}.

(** ** The world: driver state, hardware script, trace *)

Inductive event :=
  | EvIn (sz : width) (port v : Z)        (* inb / inw / inl returned v *)
  | EvOut (sz : width) (port v : Z)       (* outb / outw / outl *)
  | EvDelay (n : Z)                       (* pds_delay_10us(n) *)
  | EvTime (t : Z)                        (* pds_gettimeu() returned t *)
  | EvClearBuf                            (* MDma_clearbuf(aui) *)
  | EvInitBuf (maxbufsize pagesize size : Z) (* MDma_init_pcmoutbuf *)
  | EvFreeCardmem                         (* MDma_free_cardmem(card->dm) *)
  | EvFreePciDev                          (* pds_free(card->pci_dev) *)
  | EvFreeCard.                           (* pds_free(card) *)

Record world := {
  w_aui : mpxplay_audioout_info_s;   (* the handle the host passes in *)
  w_mem : gmap Z Z;                  (* DMA memory, 32-bit words by address *)
  w_counts : list Z;                 (* g_counts[SIS7012_DEBUG_LAST] *)
  w_ports : list Z;                  (* what the environment will deliver *)
  w_clock : list Z;                  (* what pds_gettimeu will deliver *)
  w_trace : list event               (* what the driver did, oldest first *)
}.

Definition with_aui (a : mpxplay_audioout_info_s) (w : world) : world :=
  {| w_aui := a; w_mem := w_mem w; w_counts := w_counts w;
     w_ports := w_ports w; w_clock := w_clock w; w_trace := w_trace w |}.

Definition with_mem (m : gmap Z Z) (w : world) : world :=
  {| w_aui := w_aui w; w_mem := m; w_counts := w_counts w;
     w_ports := w_ports w; w_clock := w_clock w; w_trace := w_trace w |}.

Definition with_counts (c : list Z) (w : world) : world :=
  {| w_aui := w_aui w; w_mem := w_mem w; w_counts := c;
     w_ports := w_ports w; w_clock := w_clock w; w_trace := w_trace w |}.

Definition with_io (p : list Z) (t : list event) (w : world) : world :=
  {| w_aui := w_aui w; w_mem := w_mem w; w_counts := w_counts w;
     w_ports := p; w_clock := w_clock w; w_trace := t |}.

Definition with_clock (c : list Z) (t : list event) (w : world) : world :=
  {| w_aui := w_aui w; w_mem := w_mem w; w_counts := w_counts w;
     w_ports := w_ports w; w_clock := c; w_trace := t |}.

Definition M (A : Type) : Type := world -> outcome world A.

Definition get_aui : M mpxplay_audioout_info_s := fun w => Ok (w_aui w) w.

Definition modify_aui (f : mpxplay_audioout_info_s -> mpxplay_audioout_info_s)
  : M unit := fun w => Ok tt (with_aui (f (w_aui w)) w).

(** [card->...]: the card behind aui->card_private_data; dereferencing the
    NULL pointer faults. *)
Definition deref_card : M intel_card_s :=
  fun w => match card_private_data (w_aui w) with
           | Some c => Ok c w
           | None => Fault
           end.

Definition modify_card (f : intel_card_s -> intel_card_s) : M unit :=
  fun w => match card_private_data (w_aui w) with
           | Some c => Ok tt (with_aui (set_card_private_data (Some (f c)) (w_aui w)) w)
           | None => Fault
           end.

Definition emit (e : event) : M unit :=
  fun w => Ok tt (with_io (w_ports w) (w_trace w ++ [e]) w).

(** ** Port I/O and host services *)

(** A port read of the given width: the next value of the script,
    converted to the width; an exhausted script reads as 0. *)
Definition port_in (sz : width) (port : Z) : M Z :=
  fun w => let v := trunc sz (hd 0 (w_ports w)) in
           Ok v (with_io (tl (w_ports w)) (w_trace w ++ [EvIn sz port v]) w).

Definition port_out (sz : width) (port v : Z) : M unit :=
  emit (EvOut sz port (trunc sz v)).

Definition inb := port_in W8.
Definition inw := port_in W16.
Definition inl := port_in W32.
Definition outb := port_out W8.
Definition outw := port_out W16.
Definition outl := port_out W32.

Definition pds_delay_10us (n : Z) : M unit := emit (EvDelay n).

(** Modelled from the spec: pds_gettimeu is a host service (a microsecond
    clock); each call delivers the next sample of the clock script. *)
Definition pds_gettimeu : M Z :=
  fun w => match w_clock w with
           | t :: ts => Ok t (with_clock ts (w_trace w ++ [EvTime t]) w)
           | [] => Exhausted
           end.

(** Modelled from the spec: MDma_clearbuf belongs to the host DMA helper
    (dmairq.c), which is not among the sources; it "clears the buffer
    contents".  The PCM samples are not part of the model, so the call is
    recorded in the trace. *)
Definition MDma_clearbuf : M unit := emit EvClearBuf.

(** Modelled from the spec: MDma_init_pcmoutbuf belongs to the host DMA
    helper.  It chooses the total DMA buffer size for the current format
    (at most [maxbufsize], a multiple of [pagesize]), declares it in
    aui->card_dmasize and returns it.  The size is taken from the
    environment script. *)
Definition MDma_init_pcmoutbuf (maxbufsize pagesize : Z) : M Z :=
  fun w => let size := u32 (hd 0 (w_ports w)) in
           Ok size
              (with_aui (set_card_dmasize size (w_aui w))
                 (with_io (tl (w_ports w))
                    (w_trace w ++ [EvInitBuf maxbufsize pagesize size]) w)).

(** snd_intel_read_N / snd_intel_write_N (lines 184-190). *)
Definition snd_intel_write_8 (reg data : Z) : M unit :=
  let* card := deref_card in outb (baseport_bm card + reg) data.
Definition snd_intel_write_16 (reg data : Z) : M unit :=
  let* card := deref_card in outw (baseport_bm card + reg) data.
Definition snd_intel_write_32 (reg data : Z) : M unit :=
  let* card := deref_card in outl (baseport_bm card + reg) data.
Definition snd_intel_read_8 (reg : Z) : M Z :=
  let* card := deref_card in inb (baseport_bm card + reg).
Definition snd_intel_read_16 (reg : Z) : M Z :=
  let* card := deref_card in inw (baseport_bm card + reg).
Definition snd_intel_read_32 (reg : Z) : M Z :=
  let* card := deref_card in inl (baseport_bm card + reg).

(** ICH_PO_SR_REG and ICH_PO_PICB_REG depend on the family (lines 108, 136). *)
Definition ICH_PO_SR_REG (card : intel_card_s) : Z :=
  if device_type_eqb (device_type card) DEVICE_SIS then 0x18 else 0x16.
Definition ICH_PO_PICB_REG (card : intel_card_s) : Z :=
  if device_type_eqb (device_type card) DEVICE_SIS then 0x16 else 0x18.


(** ** Codec bus (lines 192-251) *)

(** The body of the polling loop of snd_intel_codec_ready with [retry]
    attempts left; the result is the value of [retry] on leaving the
    loop. *)
Fixpoint codec_ready_loop (codec : Z) (retry : nat) : M Z :=
  match retry with
  | O => ret 0
  | S r =>
      let* v := snd_intel_read_32 ICH_GLOB_STAT_REG in
      if negb (Z.land v codec =? 0) then ret (Z.of_nat retry)
      else pds_delay_10us 10 ;;; codec_ready_loop codec r
  end.

Definition snd_intel_codec_ready (codec : Z) : M Z :=
  let codec := if codec =? 0 then ICH_GLOB_STAT_PCR else codec in
  codec_ready_loop codec ICH_DEFAULT_RETRY.

(** The semaphore loop; [true] when it left through [return], [false]
    when the retries ran out. *)
Fixpoint codec_semaphore_loop (retry : nat) : M bool :=
  match retry with
  | O => ret false
  | S r =>
      let* v := snd_intel_read_8 ICH_ACC_SEMA_REG in
      if Z.land v ICH_CODEC_BUSY =? 0 then ret true
      else pds_delay_10us 10 ;;; codec_semaphore_loop r
  end.

Definition snd_intel_codec_semaphore (codec : Z) : M unit :=
  snd_intel_codec_ready codec ;;;
  let* free := codec_semaphore_loop ICH_DEFAULT_RETRY in
  if free then ret tt
  else
    let* card := deref_card in
    inw (baseport_codec card) ;;; ret tt.

Definition snd_intel_codec_write (reg data : Z) : M unit :=
  snd_intel_codec_semaphore ICH_GLOB_STAT_PCR ;;;
  let* card := deref_card in
  outw (baseport_codec card + reg) data.

(** The read loop; the result is the last value sampled. *)
Fixpoint codec_read_loop (reg : Z) (data : Z) (retry : nat) : M Z :=
  match retry with
  | O => ret data
  | S r =>
      let* card := deref_card in
      let* data := inw (baseport_codec card + reg) in
      let* st := snd_intel_read_32 ICH_GLOB_STAT_REG in
      if Z.land st ICH_GLOB_STAT_RCS =? 0 then ret data
      else pds_delay_10us 10 ;;; codec_read_loop reg data r
  end.

Definition snd_intel_codec_read (reg : Z) : M Z :=
  snd_intel_codec_semaphore ICH_GLOB_STAT_PCR ;;;
  codec_read_loop reg 0 ICH_DEFAULT_RETRY.

(** ** snd_intel_chip_close (lines 377-381) *)

Definition snd_intel_chip_close : M unit :=
  let* card := deref_card in
  if negb (baseport_bm card =? 0)
  then snd_intel_write_8 ICH_PO_CR_REG ICH_PO_CR_RESET
  else ret tt.

(** ** snd_intel_prepare_playback (lines 404-507), block by block *)

(** Lines 411-417: wait until the DMA engine reports halted. *)
Fixpoint prepare_wait_dma_loop (retry : nat) : M Z :=
  match retry with
  | O => ret 0
  | S r =>
      let* card := deref_card in
      let* v := snd_intel_read_8 (ICH_PO_SR_REG card) in
      if negb (Z.land v ICH_PO_SR_DCH =? 0) then ret (Z.of_nat retry)
      else pds_delay_10us 1 ;;; prepare_wait_dma_loop r
  end.

(** Line 420: reset the PCM-out channel. *)
Definition prepare_reset : M unit :=
  let* v := snd_intel_read_8 ICH_PO_CR_REG in
  snd_intel_write_8 ICH_PO_CR_REG (Z.lor v ICH_PO_CR_RESET).

(** Lines 423-441: channel count and sample format. *)
Definition prepare_channels : M unit :=
  let* card := deref_card in
  if device_type_eqb (device_type card) DEVICE_SIS then
    let* cmd := snd_intel_read_32 ICH_GLOB_CNT_REG in
    let cmd := Z.land cmd (Z.lnot ICH_SIS_PCM_246_MASK) in
    snd_intel_write_32 ICH_GLOB_CNT_REG cmd
  else
    let* cmd := snd_intel_read_32 ICH_GLOB_CNT_REG in
    let cmd := funcbit_disable cmd (Z.lor ICH_PCM_246_MASK ICH_PCM_20BIT) in
    let* aui := get_aui in
    let* cmd :=
      if 16 <? bits_set aui then
        if device_type_eqb (device_type card) DEVICE_INTEL_ICH4 then
          let* st := snd_intel_read_32 ICH_GLOB_STAT_REG in
          if Z.land st ICH_SAMPLE_CAP =? ICH_SAMPLE_16_20 then
            modify_aui (set_bits_card 32) ;;;
            ret (funcbit_enable cmd ICH_PCM_20BIT)
          else ret cmd
        else ret cmd
      else ret cmd in
    snd_intel_write_32 ICH_GLOB_CNT_REG cmd.

(** Lines 444-448: the switch on aui->freq_card. *)
Definition spdif_rate_of (freq : Z) : Z :=
  if freq =? 32000 then AC97_SC_SPSR_32K
  else if freq =? 44100 then AC97_SC_SPSR_44K
  else AC97_SC_SPSR_48K.

(** Lines 444-453: SPDIF sample rate. *)
Definition prepare_spdif : M unit :=
  let* aui := get_aui in
  let spdif_rate := spdif_rate_of (freq_card aui) in
  let* cmd := snd_intel_codec_read AC97_SPDIF_CONTROL in
  let cmd := Z.land cmd AC97_SC_SPSR_MASK in
  let cmd := Z.lor cmd spdif_rate in
  snd_intel_codec_write AC97_SPDIF_CONTROL cmd ;;;
  pds_delay_10us 10.

(** [(long)x]: undefined when the value does not fit. *)
Definition long_of_float (x : cfloat) : M Z :=
  match f_to_long x with
  | Some v => ret v
  | None => fault
  end.

(** Lines 455-468: front DAC rate, adjusted by the clock corrector. *)
Definition prepare_dac_rate : M unit :=
  let* card := deref_card in
  let* aui := get_aui in
  (if f_nonzero (ac97_clock_corrector card) then
     if negb (vra card =? 0) then
       let* rate := long_of_float
         (f_mul (f_of_int (freq_card aui)) (ac97_clock_corrector card)) in
       snd_intel_codec_write AC97_PCM_FRONT_DAC_RATE (u32 rate)
     else
       let* rate := long_of_float
         (f_div (f_of_int (freq_card aui)) (ac97_clock_corrector card)) in
       modify_aui (set_freq_card (u32 rate)) ;;;
       snd_intel_codec_write AC97_PCM_FRONT_DAC_RATE (u32 rate)
   else
     snd_intel_codec_write AC97_PCM_FRONT_DAC_RATE (freq_card aui)) ;;;
  pds_delay_10us 1600.

(** [table_base[k] = v] on the 32-bit words of the descriptor list. *)
Definition table_store (table_base : Z) (k : Z) (v : Z) : M unit :=
  fun w => Ok tt (with_mem (<[table_base + 4 * k := u32 v]> (w_mem w)) w).

(** One pass of the first loop (lines 475-482). *)
Definition bdl_fill_entry (period_size_samples : Z) (i : Z) : M unit :=
  let* card := deref_card in
  match dm card with
  | None => fault
  | Some cm =>
      let table_base := buffer_descriptor_list card in
      table_store table_base (i * 2)
        (pds_cardmem_physicalptr cm
           (u32 (pcmout_buffer card + u32 (i * period_size_bytes card)))) ;;;
      let len :=
        if device_type_eqb (device_type card) DEVICE_SIS
        then period_size_bytes card else period_size_samples in
      let len := if SBEMU then Z.lor len (Z.shiftl ICH_BD_IOC 16) else len in
      table_store table_base (i * 2 + 1) len
  end.

(** One pass of the second loop (lines 486-490). *)
Definition bdl_clear_entry (i : Z) : M unit :=
  let* card := deref_card in
  let table_base := buffer_descriptor_list card in
  table_store table_base (i * 2) 0 ;;;
  table_store table_base (i * 2 + 1) 0.

(** [for(i = from; i < from + count; i++) body(i)] *)
Fixpoint for_loop (from : Z) (count : nat) (body : Z -> M unit) : M unit :=
  match count with
  | O => ret tt
  | S n => body from ;;; for_loop (from + 1) n body
  end.

(** Lines 472-490: the buffer descriptor list.  The result is
    [period_size_samples], which the end of the function uses again. *)
Definition prepare_bdl : M Z :=
  let* card := deref_card in
  let* aui := get_aui in
  let bytes_per_sample := Z.shiftr (bits_card aui) 3 in
  if bytes_per_sample =? 0 then fault
  else
    let period_size_samples := period_size_bytes card / bytes_per_sample in
    for_loop 0 (Z.to_nat ICH_DMABUF_PERIODS)
      (bdl_fill_entry period_size_samples) ;;;
    for_loop ICH_DMABUF_PERIODS
      (Z.to_nat (ICH_DMABUF_MAX_PERIODS - ICH_DMABUF_PERIODS))
      bdl_clear_entry ;;;
    ret period_size_samples.

(** Lines 492-506: publish the list and clear the status bits. *)
Definition prepare_publish (period_size_samples : Z) : M unit :=
  let* card := deref_card in
  match dm card with
  | None => fault
  | Some cm =>
      snd_intel_write_32 ICH_PO_BDBAR_REG
        (pds_cardmem_physicalptr cm (buffer_descriptor_list card)) ;;;
      snd_intel_write_8 ICH_PO_LVI_REG (ICH_DMABUF_PERIODS - 1) ;;;
      snd_intel_write_8 ICH_PO_CIV_REG 0 ;;;
      snd_intel_write_8 (ICH_PO_SR_REG card)
        (Z.lor (Z.lor ICH_PO_SR_LVBCI ICH_PO_SR_BCIS) ICH_PO_SR_FIFO) ;;;
      if SBEMU
      then modify_aui (set_card_samples_per_int (period_size_samples / 2))
      else ret tt
  end.

Definition snd_intel_prepare_playback : M unit :=
  prepare_wait_dma_loop ICH_DEFAULT_RETRY ;;;
  prepare_reset ;;;
  prepare_channels ;;;
  prepare_spdif ;;;
  prepare_dac_rate ;;;
  let* period_size_samples := prepare_bdl in
  prepare_publish period_size_samples.

(** ** INTELICH_start and INTELICH_stop (lines 688-712) *)

Definition INTELICH_start : M unit :=
  snd_intel_codec_ready ICH_GLOB_STAT_PCR ;;;
  if SBEMU then
    let* v := snd_intel_read_8 ICH_PO_CR_REG in
    snd_intel_write_8 ICH_PO_CR_REG
      (Z.lor (Z.lor (Z.lor v ICH_PO_CR_LVBIE) ICH_PO_CR_IOCE) ICH_PO_CR_START)
  else ret tt.

Definition INTELICH_stop : M unit :=
  let* cmd := snd_intel_read_8 ICH_PO_CR_REG in
  let cmd := u8 (funcbit_disable cmd ICH_PO_CR_START) in
  snd_intel_write_8 ICH_PO_CR_REG cmd.

(** ** INTELICH_close (lines 639-650) *)

Definition INTELICH_close : M unit :=
  let* aui := get_aui in
  match card_private_data aui with
  | Some card =>
      snd_intel_chip_close ;;;
      emit EvFreeCardmem ;;;
      match pci_dev card with
      | Some _ => emit EvFreePciDev
      | None => ret tt
      end ;;;
      emit EvFreeCard ;;;
      modify_aui (set_card_private_data None)
  | None => ret tt
  end.

(** ** snd_intel_measure_ac97_clock (lines 714-764) *)

(** The polling loop of lines 736-740.  Every pass that does not leave
    through [break] asks the clock once, so the number of passes is
    bounded by the length of the clock script; [fuel] is that bound. *)
Fixpoint measure_poll (starttime : Z) (fuel : nat) : M unit :=
  match fuel with
  | O => fun _ => Exhausted
  | S n =>
      let* a := snd_intel_read_8 ICH_PO_CIV_REG in
      let* reached :=
        if ICH_DMABUF_PERIODS - 1 <=? a then
          let* b := snd_intel_read_8 ICH_PO_CIV_REG in
          ret (ICH_DMABUF_PERIODS - 1 <=? b)
        else ret false in
      if reached then ret tt
      else
        let* now := pds_gettimeu in
        if now <=? starttime + 1000000 then measure_poll starttime n
        else ret tt
  end.

(** Lines 753-759: the corrector computed from the measured time, and its
    plausibility filter. *)
Definition measured_corrector (freq chan bits dmabufsize timelen : Z) : cfloat :=
  f_store
    (d_div
       (f_mul (f_mul (f_of_int freq) (f_of_int chan)) (f_of_int (bits / 8)))
       (d_div (d_mul (f_of_int dmabufsize) (f_dec 1000000 0))
              (f_of_int timelen))).

Definition filter_corrector (c : cfloat) : cfloat :=
  let c := if f_lt (f_dec 99 (-2)) c && f_lt c (f_dec 101 (-2))
           then f_store (f_dec 0 0) else c in
  let c := if f_lt c (f_dec 60 (-2)) || f_lt (f_dec 15 (-1)) c
           then f_store (f_dec 0 0) else c in
  c.

Definition snd_intel_measure_ac97_clock : M unit :=
  let* aui := get_aui in
  let freq_save := freq_card aui in
  modify_aui (set_freq_card 48000) ;;;
  modify_aui (set_chan_card 2) ;;;
  modify_aui (set_bits_card 16) ;;;
  let* card := deref_card in
  let dmabufsize := Z.min (pcmout_bufsize card) AUCARDS_DMABUFSIZE_NORMAL in
  let* dmabufsize := MDma_init_pcmoutbuf dmabufsize ICH_DMABUF_ALIGN in
  modify_card (set_period_size_bytes
                 (u32 (Z.quot (s32 dmabufsize) ICH_DMABUF_PERIODS))) ;;;
  snd_intel_prepare_playback ;;;
  MDma_clearbuf ;;;
  let* cr := if SBEMU then
               let* cr := snd_intel_read_8 ICH_PO_CR_REG in
               snd_intel_write_8 ICH_PO_CR_REG 0 ;;; ret cr
             else ret 0 in
  INTELICH_start ;;;
  let* starttime := pds_gettimeu in
  (fun w => measure_poll starttime (S (length (w_clock w))) w) ;;;
  let* endtime := pds_gettimeu in
  let timelen := if starttime <? endtime then endtime - starttime else 0 in
  INTELICH_stop ;;;
  (if SBEMU then snd_intel_write_8 ICH_PO_CR_REG cr else ret tt) ;;;
  (if negb (timelen =? 0) && (timelen <? 1000000) then
     let* card := deref_card in
     let* aui := get_aui in
     let dmabufsize :=
       s32 (u32 (period_size_bytes card * (ICH_DMABUF_PERIODS - 1))) in
     modify_card (set_ac97_clock_corrector
                    (filter_corrector
                       (measured_corrector (freq_card aui) (chan_card aui)
                          (bits_card aui) dmabufsize timelen)))
   else ret tt) ;;;
  modify_aui (set_freq_card freq_save) ;;;
  modify_card (set_ac97_clock_detected 1).

(** ** INTELICH_setrate (lines 652-686) *)

(** Lines 665-673: the rate the card will run at. *)
Definition setrate_freq (vra freq : Z) : Z :=
  if vra =? 0 then 48000
  else if freq <? 8000 then 8000
  else if 48000 <? freq then 48000
  else freq.

(** Lines 654-657: the one-time clock measurement. *)
Definition setrate_calibrate : M unit :=
  let* card := deref_card in
  if device_type_eqb (device_type card) DEVICE_INTEL
     && (ac97_clock_detected card =? 0)
  then snd_intel_measure_ac97_clock
  else ret tt.

(** Lines 659-683: output format, rate and period size. *)
Definition setrate_configure : M unit :=
  modify_aui (set_card_wave_id MPXPLAY_WAVEID_PCM_SLE) ;;;
  modify_aui (set_chan_card 2) ;;;
  modify_aui (set_bits_card 16) ;;;
  let* card := deref_card in
  modify_aui (fun a => set_freq_card (setrate_freq (vra card) (freq_card a)) a) ;;;
  let* dmabufsize := MDma_init_pcmoutbuf (pcmout_bufsize card) ICH_DMABUF_ALIGN in
  modify_card (set_period_size_bytes (dmabufsize / ICH_DMABUF_PERIODS)).

Definition INTELICH_setrate : M unit :=
  setrate_calibrate ;;;
  setrate_configure ;;;
  snd_intel_prepare_playback.

(** ** INTELICH_getbufpos (lines 787-846) *)

(** One pass of the do-while body with [retry] attempts left.  The result
    is [true] when the pass leaves the loop through [break], and [false]
    when it reaches the loop condition (through [continue] or by falling
    off the end of the body). *)
Definition getbufpos_attempt (retry : nat) : M bool :=
  let* card := deref_card in
  let* index := snd_intel_read_8 ICH_PO_CIV_REG in
  if negb SBEMU && (ICH_DMABUF_PERIODS <=? index) then
    if (1 <? retry)%nat then ret false
    else
      MDma_clearbuf ;;;
      snd_intel_write_8 ICH_PO_CIV_REG 0 ;;;
      modify_aui (fun a => set_card_infobits
        (funcbit_enable (card_infobits a) AUINFOS_CARDINFOBIT_DMAUNDERRUN) a) ;;;
      ret false
  else
    let* pcmpos := snd_intel_read_16 (ICH_PO_PICB_REG card) in
    let* aui := get_aui in
    let pcmpos :=
      if negb (device_type_eqb (device_type card) DEVICE_SIS)
      then u32 (pcmpos * Z.shiftr (bits_card aui) 3) else pcmpos in
    let* stale :=
      if (pcmpos =? 0) || (period_size_bytes card <? pcmpos) then
        let* lvi := snd_intel_read_8 ICH_PO_LVI_REG in
        (if lvi =? index then
           MDma_clearbuf ;;;
           modify_aui (fun a => set_card_infobits
             (funcbit_enable (card_infobits a) AUINFOS_CARDINFOBIT_DMAUNDERRUN) a)
         else ret tt) ;;;
        ret (negb SBEMU)
      else ret false in
    if stale then ret false
    else
      let* moved :=
        if negb SBEMU then
          let* again := snd_intel_read_8 ICH_PO_CIV_REG in
          ret (negb (again =? index))
        else ret false in
      if moved then ret false
      else
        let pcmpos := u32 (period_size_bytes card - pcmpos) in
        let bufpos := u32 (u32 (index * period_size_bytes card) + pcmpos) in
        let* aui := get_aui in
        if bufpos <? card_dmasize aui then
          modify_aui (set_card_dma_lastgoodpos bufpos) ;;; ret true
        else ret false.

(** The do-while loop; the result tells whether it was left through
    [break] ([true]) or because the attempts ran out ([false]). *)
Fixpoint getbufpos_loop (retry : nat) : M bool :=
  match retry with
  | O => ret false
  | S r =>
      let* accepted := getbufpos_attempt retry in
      if accepted then ret true else getbufpos_loop r
  end.

Definition INTELICH_getbufpos : M Z :=
  getbufpos_loop 3 ;;;
  let* aui := get_aui in
  ret (card_dma_lastgoodpos aui).

(** ** INTELICH_IRQRoutine (lines 872-912, SBEMU builds only) *)

(** [g_counts[var]++] *)
Definition count (var : nat) : M unit :=
  fun w => Ok tt (with_counts
                    (<[var := s32 (w_counts w !!! var + 1)]> (w_counts w)) w).

Definition INTELICH_IRQRoutine : M Z :=
  let* card := deref_card in
  let* status := snd_intel_read_8 (ICH_PO_SR_REG card) in
  (if negb (Z.land status ICH_PO_SR_LVBCI =? 0) then
     count SIS7012_DEBUG_BUP_COUNT ;;;
     let* cr := snd_intel_read_8 ICH_PO_CR_REG in
     snd_intel_write_8 ICH_PO_CR_REG
       (Z.lor (Z.lor (Z.lor (Z.lor cr ICH_PO_CR_START) ICH_PO_CR_IOCE)
                 ICH_PO_CR_FEIE) ICH_PO_CR_LVBIE) ;;;
     snd_intel_write_8 ICH_PO_LVI_REG (ICH_DMABUF_PERIODS - 1)
   else ret tt) ;;;
  (if negb (Z.land status ICH_PO_SR_BCIS =? 0) then
     count SIS7012_DEBUG_IOC_COUNT ;;;
     let* lvi := snd_intel_read_8 ICH_PO_LVI_REG in
     snd_intel_write_8 ICH_PO_LVI_REG ((lvi + 1) mod ICH_DMABUF_PERIODS)
   else ret tt) ;;;
  (if negb (Z.land status ICH_PO_SR_FIFO =? 0) then
     count SIS7012_DEBUG_FIFO_COUNT
   else ret tt) ;;;
  snd_intel_write_8 (ICH_PO_SR_REG card)
    (Z.land status
       (Z.lor (Z.lor ICH_PO_SR_LVBCI ICH_PO_SR_BCIS) ICH_PO_SR_FIFO)) ;;;
  ret (if status =? 0 then 0 else 1).

End Driver.

(** ** The device table (lines 510-534) *)

Definition ich_devices : list pci_device_s :=
  [ Build_pci_device_s "82801AA" 0x8086 0x2415 DEVICE_INTEL;
    Build_pci_device_s "82901AB" 0x8086 0x2425 DEVICE_INTEL;
    Build_pci_device_s "82801BA" 0x8086 0x2445 DEVICE_INTEL;
    Build_pci_device_s "ICH3" 0x8086 0x2485 DEVICE_INTEL;
    Build_pci_device_s "ICH4" 0x8086 0x24c5 DEVICE_INTEL_ICH4;
    Build_pci_device_s "ICH5" 0x8086 0x24d5 DEVICE_INTEL_ICH4;
    Build_pci_device_s "ESB" 0x8086 0x25a6 DEVICE_INTEL_ICH4;
    Build_pci_device_s "ICH6" 0x8086 0x266e DEVICE_INTEL_ICH4;
    Build_pci_device_s "ICH7" 0x8086 0x27de DEVICE_INTEL_ICH4;
    Build_pci_device_s "ESB2" 0x8086 0x2698 DEVICE_INTEL_ICH4;
    Build_pci_device_s "440MX" 0x8086 0x7195 DEVICE_INTEL;
    Build_pci_device_s "SI7012" 0x1039 0x7012 DEVICE_SIS;
    Build_pci_device_s "NFORCE" 0x10de 0x01b1 DEVICE_NFORCE;
    Build_pci_device_s "MCP04" 0x10de 0x003a DEVICE_NFORCE;
    Build_pci_device_s "NFORCE2" 0x10de 0x006a DEVICE_NFORCE;
    Build_pci_device_s "CK804" 0x10de 0x0059 DEVICE_NFORCE;
    Build_pci_device_s "CK8" 0x10de 0x008a DEVICE_NFORCE;
    Build_pci_device_s "NFORCE3" 0x10de 0x00da DEVICE_NFORCE;
    Build_pci_device_s "CK8S" 0x10de 0x00ea DEVICE_NFORCE;
    Build_pci_device_s "AMD8111" 0x1022 0x746d DEVICE_INTEL;
    Build_pci_device_s "AMD768" 0x1022 0x7445 DEVICE_INTEL ].

(** Modelled from the spec: the lookup itself is done by
    pcibios_search_devices (pcibios.c), which is not among the sources.
    "resolve(vendorId, deviceId) -> DeviceProfile | NotFound.  Pure lookup
    against a static table; no side effects."  [None] is NotFound. *)
Definition resolve_in (table : list pci_device_s) (vendorId deviceId : Z)
  : option pci_device_s :=
  find (fun d => (dev_vendor_id d =? vendorId) && (dev_device_id d =? deviceId))
       table.

Definition resolve : Z -> Z -> option pci_device_s := resolve_in ich_devices.

(** ** Bring-up: chip and codec initialisation, mixer access, counters *)

(** ICH_MCINT, ICH_POINT, ICH_PIINT (lines 320-322). *)
Definition ICH_MCINT : Z := 0x00000080.
Definition ICH_POINT : Z := 0x00000040.
Definition ICH_PIINT : Z := 0x00000020.

(** The constants of ac97_def.h that the bring-up code uses, and whether
    mpxplay_debugf evaluates its arguments.  The macro comes from a header
    that is not among the sources; sc_ich.c defines MPXPLAY_USE_DEBUGF
    (line 18), and two of its debug calls have a port read as argument
    (lines 369 and 371), which happens only if the macro expands to a
    call. *)
Class BringupHeaders := {
  AC97_MASTER_VOL_STEREO : Z;
  AC97_PCMOUT_VOL : Z;
  AC97_HEADPHONE_VOL : Z;
  AC97_EXTENDED_STATUS : Z;
  AC97_EA_SPDIF : Z;
  mpxplay_debugf_evaluates : bool
}.

Section Bringup.
Context {H : Headers} {F : FloatOps} {B : BringupHeaders}.

(** The loop of lines 345-351 in snd_intel_chip_init: wait for the warm
    reset bit to clear; the result is [retry] on leaving the loop. *)
Fixpoint chip_init_reset_loop (retry : nat) : M Z :=
  match retry with
  | O => ret 0
  | S r =>
      let* cntreg := snd_intel_read_32 ICH_GLOB_CNT_REG in
      if Z.land cntreg ICH_GLOB_CNT_AC97WARM =? 0 then ret (Z.of_nat retry)
      else pds_delay_10us 10 ;;; chip_init_reset_loop r
  end.

(** Lines 327-334: the global control word written back for the word read. *)
Definition chip_init_control (dt : device_type_t) (cmd : Z) : Z :=
  let cmd :=
    if device_type_eqb dt DEVICE_SIS
    then Z.land cmd (Z.lnot (Z.lor ICH_GLOB_CNT_ACLINKOFF ICH_SIS_PCM_246_MASK))
    else Z.land cmd (Z.lnot (Z.lor ICH_GLOB_CNT_ACLINKOFF ICH_PCM_246_MASK)) in
  Z.lor cmd (if Z.land cmd ICH_GLOB_CNT_AC97COLD =? 0
             then ICH_GLOB_CNT_AC97COLD else ICH_GLOB_CNT_AC97WARM).

(** A debug call whose argument is a read of the SIS7012 register 0x4c
    (lines 369, 371). *)
Definition debugf_read_4c : M unit :=
  if mpxplay_debugf_evaluates then snd_intel_read_16 0x4c ;;; ret tt
  else ret tt.

(** snd_intel_chip_init (lines 309-375). *)
Definition snd_intel_chip_init : M unit :=
  let* cmd := snd_intel_read_32 ICH_GLOB_STAT_REG in
  snd_intel_write_32 ICH_GLOB_STAT_REG
    (Z.land cmd (Z.lor (Z.lor (Z.lor ICH_GLOB_STAT_RCS ICH_MCINT) ICH_POINT)
                   ICH_PIINT)) ;;;
  let* cmd := snd_intel_read_32 ICH_GLOB_CNT_REG in
  let* card := deref_card in
  snd_intel_write_32 ICH_GLOB_CNT_REG (chip_init_control (device_type card) cmd) ;;;
  chip_init_reset_loop ICH_DEFAULT_RETRY ;;;
  snd_intel_codec_ready ICH_GLOB_STAT_PCR ;;;
  snd_intel_codec_read 0 ;;;
  snd_intel_write_8 ICH_PO_CR_REG ICH_PO_CR_RESET ;;;
  (if SBEMU
   then snd_intel_write_8 ICH_PO_CR_REG
          (Z.lor (Z.lor ICH_PO_CR_LVBIE ICH_PO_CR_IOCE) ICH_PO_CR_FEIE)
   else ret tt) ;;;
  if device_type_eqb (device_type card) DEVICE_SIS then
    debugf_read_4c ;;;
    let* v := snd_intel_read_16 0x4c in
    snd_intel_write_16 0x4c (Z.lor v 1) ;;;
    debugf_read_4c
  else ret tt.

(** snd_intel_ac97_init (lines 383-402); [freq_set] is not used. *)
Definition snd_intel_ac97_init (freq_set : Z) : M unit :=
  snd_intel_codec_write AC97_MASTER_VOL_STEREO 0x0202 ;;;
  snd_intel_codec_write AC97_PCMOUT_VOL 0x0202 ;;;
  snd_intel_codec_write AC97_HEADPHONE_VOL 0x0202 ;;;
  snd_intel_codec_write AC97_EXTENDED_STATUS AC97_EA_SPDIF.

(** INTELICH_writeMIXER and INTELICH_readMIXER (lines 851-861). *)
Definition INTELICH_writeMIXER (reg val : Z) : M unit :=
  snd_intel_codec_write reg val.

Definition INTELICH_readMIXER (reg : Z) : M Z :=
  snd_intel_codec_read reg.

(** sis7012_get (lines 866-869): [g_counts[var]]; an index past the end
    of the array is undefined. *)
Definition sis7012_get (var : nat) : M Z :=
  fun w => match w_counts w !! var with
           | Some v => Ok v w
           | None => Fault
           end.

End Bringup.

(** ** Detection: snd_intel_buffer_init and INTELICH_adetect
       (lines 255-307 and 548-637) *)

(** The configuration-space offsets of pcibios.h that detection uses; the
    header is not among the sources. *)
Class PciHeaders := {
  PCIR_NAMBAR : Z;
  PCIR_NABMBAR : Z;
  PCIR_INTR_LN : Z
}.

(** What detection asks of the host beside port I/O, with the answer
    where there is one. *)
Inductive host_call :=
  | HcCallocCard (ok : bool)        (* pds_calloc(1,sizeof(struct intel_card_s)) *)
  | HcCallocPciDev (ok : bool)      (* pds_calloc(1,sizeof(struct pci_config_s)) *)
  | HcSearchDevices (found : option pci_config_s) (* pcibios_search_devices *)
  | HcSetMaster                     (* pcibios_set_master *)
  | HcReadConfigByte (reg v : Z)    (* pcibios_ReadConfig_Byte returned v *)
  | HcReadConfigDword (reg v : Z)   (* pcibios_ReadConfig_Dword returned v *)
  | HcWriteConfigByte (reg v : Z)   (* pcibios_WriteConfig_Byte *)
  | HcWriteConfigDword (reg v : Z)  (* pcibios_WriteConfig_Dword *)
  | HcGetMaxBufsize (max_bufsize pagesize samplesize freq_config size : Z)
                                    (* MDma_get_max_pcmoutbufsize returned size *)
  | HcAllocCardmem (size : Z) (cm : option cardmem_t) (* MDma_alloc_cardmem *)
  | HcMemset (ptr c n : Z).         (* memset *)

Section Detection.
Context {H : Headers} {F : FloatOps} {B : BringupHeaders} {P : PciHeaders}.

Definition set_baseport_bm (v : Z) (c : intel_card_s) : intel_card_s :=
  {| baseport_bm := v; baseport_codec := baseport_codec c;
     irq := irq c; device_type := device_type c; pci_dev := pci_dev c;
     dm := dm c; buffer_descriptor_list := buffer_descriptor_list c;
     pcmout_buffer := pcmout_buffer c; pcmout_bufsize := pcmout_bufsize c;
     period_size_bytes := period_size_bytes c; vra := vra c;
     ac97_clock_detected := ac97_clock_detected c;
     ac97_clock_corrector := ac97_clock_corrector c |}.

Definition set_baseport_codec (v : Z) (c : intel_card_s) : intel_card_s :=
  {| baseport_bm := baseport_bm c; baseport_codec := v;
     irq := irq c; device_type := device_type c; pci_dev := pci_dev c;
     dm := dm c; buffer_descriptor_list := buffer_descriptor_list c;
     pcmout_buffer := pcmout_buffer c; pcmout_bufsize := pcmout_bufsize c;
     period_size_bytes := period_size_bytes c; vra := vra c;
     ac97_clock_detected := ac97_clock_detected c;
     ac97_clock_corrector := ac97_clock_corrector c |}.

Definition set_irq (v : Z) (c : intel_card_s) : intel_card_s :=
  {| baseport_bm := baseport_bm c; baseport_codec := baseport_codec c;
     irq := v; device_type := device_type c; pci_dev := pci_dev c;
     dm := dm c; buffer_descriptor_list := buffer_descriptor_list c;
     pcmout_buffer := pcmout_buffer c; pcmout_bufsize := pcmout_bufsize c;
     period_size_bytes := period_size_bytes c; vra := vra c;
     ac97_clock_detected := ac97_clock_detected c;
     ac97_clock_corrector := ac97_clock_corrector c |}.

Definition set_device_type (v : device_type_t) (c : intel_card_s) : intel_card_s :=
  {| baseport_bm := baseport_bm c; baseport_codec := baseport_codec c;
     irq := irq c; device_type := v; pci_dev := pci_dev c;
     dm := dm c; buffer_descriptor_list := buffer_descriptor_list c;
     pcmout_buffer := pcmout_buffer c; pcmout_bufsize := pcmout_bufsize c;
     period_size_bytes := period_size_bytes c; vra := vra c;
     ac97_clock_detected := ac97_clock_detected c;
     ac97_clock_corrector := ac97_clock_corrector c |}.

Definition set_pci_dev (v : option pci_config_s) (c : intel_card_s) : intel_card_s :=
  {| baseport_bm := baseport_bm c; baseport_codec := baseport_codec c;
     irq := irq c; device_type := device_type c; pci_dev := v;
     dm := dm c; buffer_descriptor_list := buffer_descriptor_list c;
     pcmout_buffer := pcmout_buffer c; pcmout_bufsize := pcmout_bufsize c;
     period_size_bytes := period_size_bytes c; vra := vra c;
     ac97_clock_detected := ac97_clock_detected c;
     ac97_clock_corrector := ac97_clock_corrector c |}.

Definition set_dm (v : option cardmem_t) (c : intel_card_s) : intel_card_s :=
  {| baseport_bm := baseport_bm c; baseport_codec := baseport_codec c;
     irq := irq c; device_type := device_type c; pci_dev := pci_dev c;
     dm := v; buffer_descriptor_list := buffer_descriptor_list c;
     pcmout_buffer := pcmout_buffer c; pcmout_bufsize := pcmout_bufsize c;
     period_size_bytes := period_size_bytes c; vra := vra c;
     ac97_clock_detected := ac97_clock_detected c;
     ac97_clock_corrector := ac97_clock_corrector c |}.

Definition set_buffer_descriptor_list (v : Z) (c : intel_card_s) : intel_card_s :=
  {| baseport_bm := baseport_bm c; baseport_codec := baseport_codec c;
     irq := irq c; device_type := device_type c; pci_dev := pci_dev c;
     dm := dm c; buffer_descriptor_list := v;
     pcmout_buffer := pcmout_buffer c; pcmout_bufsize := pcmout_bufsize c;
     period_size_bytes := period_size_bytes c; vra := vra c;
     ac97_clock_detected := ac97_clock_detected c;
     ac97_clock_corrector := ac97_clock_corrector c |}.

Definition set_pcmout_buffer (v : Z) (c : intel_card_s) : intel_card_s :=
  {| baseport_bm := baseport_bm c; baseport_codec := baseport_codec c;
     irq := irq c; device_type := device_type c; pci_dev := pci_dev c;
     dm := dm c; buffer_descriptor_list := buffer_descriptor_list c;
     pcmout_buffer := v; pcmout_bufsize := pcmout_bufsize c;
     period_size_bytes := period_size_bytes c; vra := vra c;
     ac97_clock_detected := ac97_clock_detected c;
     ac97_clock_corrector := ac97_clock_corrector c |}.

Definition set_pcmout_bufsize (v : Z) (c : intel_card_s) : intel_card_s :=
  {| baseport_bm := baseport_bm c; baseport_codec := baseport_codec c;
     irq := irq c; device_type := device_type c; pci_dev := pci_dev c;
     dm := dm c; buffer_descriptor_list := buffer_descriptor_list c;
     pcmout_buffer := pcmout_buffer c; pcmout_bufsize := v;
     period_size_bytes := period_size_bytes c; vra := vra c;
     ac97_clock_detected := ac97_clock_detected c;
     ac97_clock_corrector := ac97_clock_corrector c |}.

(** A struct intel_card_s as pds_calloc hands it out: all bytes zero.
    DEVICE_INTEL is the enumerator 0, and the float with all bits zero is
    +0.0, the value of [(float)0]. *)
Definition calloc_card : intel_card_s :=
  {| baseport_bm := 0; baseport_codec := 0; irq := 0;
     device_type := DEVICE_INTEL; pci_dev := None; dm := None;
     buffer_descriptor_list := 0; pcmout_buffer := 0; pcmout_bufsize := 0;
     period_size_bytes := 0; vra := 0; ac97_clock_detected := 0;
     ac97_clock_corrector := f_of_int 0 |}.

(** A struct pci_config_s with all bytes zero. *)
Definition calloc_pci_config : pci_config_s :=
  {| vendor_id := 0; device_id := 0; pci_device_type := DEVICE_INTEL |}.

(** The machine that detection runs on: the world of the driver; the
    three fields of the handle that only detection touches, kept beside
    the handle record of the playback path; what the host services will
    answer; and the calls made so far. *)
Record host := {
  h_world : world;
  h_freq_set : Z;                    (* aui->freq_set *)
  h_card_irq : Z;                    (* aui->card_irq *)
  h_card_DMABUFF : Z;                (* aui->card_DMABUFF *)
  h_calloc : list bool;              (* does the next pds_calloc succeed *)
  h_found : option pci_config_s;     (* what pcibios_search_devices finds *)
  h_config : list Z;                 (* what configuration reads deliver *)
  h_max_bufsize : Z;                 (* MDma_get_max_pcmoutbufsize *)
  h_cardmem : option cardmem_t;      (* MDma_alloc_cardmem *)
  h_calls : list host_call           (* calls into the host, oldest first *)
}.

Definition with_world (w : world) (h : host) : host :=
  {| h_world := w; h_freq_set := h_freq_set h; h_card_irq := h_card_irq h;
     h_card_DMABUFF := h_card_DMABUFF h; h_calloc := h_calloc h;
     h_found := h_found h; h_config := h_config h;
     h_max_bufsize := h_max_bufsize h; h_cardmem := h_cardmem h;
     h_calls := h_calls h |}.

Definition with_card_irq (v : Z) (h : host) : host :=
  {| h_world := h_world h; h_freq_set := h_freq_set h; h_card_irq := v;
     h_card_DMABUFF := h_card_DMABUFF h; h_calloc := h_calloc h;
     h_found := h_found h; h_config := h_config h;
     h_max_bufsize := h_max_bufsize h; h_cardmem := h_cardmem h;
     h_calls := h_calls h |}.

Definition with_card_DMABUFF (v : Z) (h : host) : host :=
  {| h_world := h_world h; h_freq_set := h_freq_set h;
     h_card_irq := h_card_irq h;
     h_card_DMABUFF := v; h_calloc := h_calloc h;
     h_found := h_found h; h_config := h_config h;
     h_max_bufsize := h_max_bufsize h; h_cardmem := h_cardmem h;
     h_calls := h_calls h |}.

(** The host after a call: the scripts that are left and the call
    recorded. *)
Definition with_call (calloc : list bool) (config : list Z) (c : host_call)
    (h : host) : host :=
  {| h_world := h_world h; h_freq_set := h_freq_set h;
     h_card_irq := h_card_irq h;
     h_card_DMABUFF := h_card_DMABUFF h; h_calloc := calloc;
     h_found := h_found h; h_config := config;
     h_max_bufsize := h_max_bufsize h; h_cardmem := h_cardmem h;
     h_calls := h_calls h ++ [c] |}.

(** Detection code is a function of the machine. *)
Definition D (A : Type) : Type := host -> outcome host A.

(** Driver code run on the world of the machine. *)
Definition lift {A} (m : M A) : D A :=
  fun h => match m (h_world h) with
           | Ok a w => Ok a (with_world w h)
           | Fault => Fault
           | Exhausted => Exhausted
           end.

Definition call (c : host_call) : D unit :=
  fun h => Ok tt (with_call (h_calloc h) (h_config h) c h).

(** The three fields of the handle. *)
Definition get_freq_set : D Z := fun h => Ok (h_freq_set h) h.
Definition get_card_irq : D Z := fun h => Ok (h_card_irq h) h.
Definition set_card_irq (v : Z) : D unit := fun h => Ok tt (with_card_irq v h).
Definition set_card_DMABUFF (v : Z) : D unit :=
  fun h => Ok tt (with_card_DMABUFF v h).

(** Modelled from the spec: pds_calloc is a host service that is not
    among the sources; like calloc it hands out zero-filled memory or
    NULL.  Whether it succeeds is taken from the script; an exhausted
    script fails. *)
Definition pds_calloc (what : bool -> host_call) : D bool :=
  fun h => let ok := hd false (h_calloc h) in
           Ok ok (with_call (tl (h_calloc h)) (h_config h) (what ok) h).

(** Modelled from the spec: the PCI config service "resolves a device by
    vendor/device id and reads/writes its configuration registers"
    (pcibios.c is not among the sources).  pcibios_search_devices fills
    the record it is given when it finds a device of the table; what it
    finds is a given of the machine. *)
Definition pcibios_search_devices : D (option pci_config_s) :=
  fun h => Ok (h_found h)
              (with_call (h_calloc h) (h_config h) (HcSearchDevices (h_found h)) h).

(** Modelled from the spec: pcibios_set_master belongs to the same
    service; the call is recorded. *)
Definition pcibios_set_master : D unit := call HcSetMaster.

(** Modelled from the spec: a configuration read delivers the next value
    of the script, converted to the width of the register; an exhausted
    script reads as 0. *)
Definition pcibios_ReadConfig_Byte (reg : Z) : D Z :=
  fun h => let v := u8 (hd 0 (h_config h)) in
           Ok v (with_call (h_calloc h) (tl (h_config h)) (HcReadConfigByte reg v) h).

(** Modelled from the spec: the 32-bit configuration read, as the 8-bit
    one. *)
Definition pcibios_ReadConfig_Dword (reg : Z) : D Z :=
  fun h => let v := u32 (hd 0 (h_config h)) in
           Ok v (with_call (h_calloc h) (tl (h_config h)) (HcReadConfigDword reg v) h).

(** Modelled from the spec: a configuration write is recorded with the
    value converted to the width of the register; what the device makes
    of it shows in the reads that follow. *)
Definition pcibios_WriteConfig_Byte (reg v : Z) : D unit :=
  call (HcWriteConfigByte reg (u8 v)).

(** Modelled from the spec: the 32-bit configuration write, as the 8-bit
    one. *)
Definition pcibios_WriteConfig_Dword (reg v : Z) : D unit :=
  call (HcWriteConfigDword reg (u32 v)).

(** Modelled from the spec: MDma_get_max_pcmoutbufsize belongs to the
    host DMA helper (dmairq.c), which is not among the sources.  The size
    it offers is a given of the machine. *)
Definition MDma_get_max_pcmoutbufsize (max_bufsize pagesize samplesize
    freq_config : Z) : D Z :=
  fun h => Ok (h_max_bufsize h)
              (with_call (h_calloc h) (h_config h)
                 (HcGetMaxBufsize max_bufsize pagesize samplesize freq_config
                    (h_max_bufsize h)) h).

(** Modelled from the spec: MDma_alloc_cardmem belongs to the same
    helper, the "DMA memory allocator that hands back a linear pointer
    plus a physical-address translator".  The allocation, or NULL, is a
    given of the machine. *)
Definition MDma_alloc_cardmem (size : Z) : D (option cardmem_t) :=
  fun h => Ok (h_cardmem h)
              (with_call (h_calloc h) (h_config h)
                 (HcAllocCardmem size (h_cardmem h)) h).

(** memset of the C library on the PCM buffer; the samples are not part
    of the model, so the call is recorded. *)
Definition memset (ptr c n : Z) : D unit := call (HcMemset ptr c (u32 n)).

(** snd_intel_buffer_init (lines 255-307).  [card->dm->linearptr] with a
    NULL allocation is a fault. *)
Definition snd_intel_buffer_init : D Z :=
  let* aui := lift get_aui in
  let bytes_per_sample := if 16 <? bits_set aui then 4 else 2 in
  let* size := MDma_get_max_pcmoutbufsize 0 ICH_DMABUF_ALIGN bytes_per_sample 0 in
  lift (modify_card (set_pcmout_bufsize size)) ;;;
  let buffer_descriptor_list_size := ICH_DMABUF_MAX_PERIODS * ICH_BDL_ENTRY_SIZE in
  let* card := lift deref_card in
  let* cm := MDma_alloc_cardmem
               (u32 (buffer_descriptor_list_size + pcmout_bufsize card)) in
  lift (modify_card (set_dm cm)) ;;;
  match cm with
  | None => fault
  | Some cm =>
      lift (modify_card (set_buffer_descriptor_list (linearptr cm))) ;;;
      lift (modify_card
              (set_pcmout_buffer (linearptr cm + buffer_descriptor_list_size))) ;;;
      let* card := lift deref_card in
      set_card_DMABUFF (pcmout_buffer card) ;;;
      (if SBEMU then memset (pcmout_buffer card) 0 (pcmout_bufsize card)
       else ret tt) ;;;
      ret 1
  end.

(** The label err_adetect (lines 634-636). *)
Definition err_adetect : D Z := lift INTELICH_close ;;; ret 0.

(** Lines 565-571: legacy I/O space for ICH4, in SBEMU builds. *)
Definition adetect_legacy_io : D unit :=
  if SBEMU then
    let* card := lift deref_card in
    match pci_dev card with
    | None => fault
    | Some cfg =>
        if device_type_eqb (pci_device_type cfg) DEVICE_INTEL_ICH4
        then pcibios_WriteConfig_Byte 0x41 1
        else ret tt
    end
  else ret tt.

(** Lines 580-594: the bus-master base; the result is [iobase]. *)
Definition adetect_bm_base : D Z :=
  let* v := pcibios_ReadConfig_Dword PCIR_NABMBAR in
  lift (modify_card (set_baseport_bm (Z.land v 0xfff0))) ;;;
  if SBEMU then
    let iobase := 0xF000 in
    let* card := lift deref_card in
    if baseport_bm card =? 0 then
      let iobase := Z.land iobase (Z.lnot 0x3F) in
      pcibios_WriteConfig_Dword PCIR_NABMBAR iobase ;;;
      let* v := pcibios_ReadConfig_Dword PCIR_NABMBAR in
      lift (modify_card (set_baseport_bm (Z.land v 0xfff0))) ;;;
      ret iobase
    else ret iobase
  else ret 0.

(** Lines 599-611: the codec base. *)
Definition adetect_codec_base (iobase : Z) : D unit :=
  let* v := pcibios_ReadConfig_Dword PCIR_NAMBAR in
  lift (modify_card (set_baseport_codec (Z.land v 0xfff0))) ;;;
  if SBEMU then
    let* card := lift deref_card in
    if baseport_codec card =? 0 then
      let iobase := iobase - 256 in
      let iobase := Z.land iobase (Z.lnot 0xFF) in
      pcibios_WriteConfig_Dword PCIR_NAMBAR iobase ;;;
      let* v := pcibios_ReadConfig_Dword PCIR_NAMBAR in
      lift (modify_card (set_baseport_codec (Z.land v 0xfff0)))
    else ret tt
  else ret tt.

(** [aui->card_irq = card->irq = pcibios_ReadConfig_Byte(...)]. *)
Definition adetect_read_irq : D unit :=
  let* v := pcibios_ReadConfig_Byte PCIR_INTR_LN in
  lift (modify_card (set_irq v)) ;;;
  set_card_irq v.

(** Lines 614-623: the interrupt line. *)
Definition adetect_irq : D unit :=
  adetect_read_irq ;;;
  if SBEMU then
    let* card_irq := get_card_irq in
    if (card_irq =? 0xFF) || (card_irq =? 0) then
      pcibios_WriteConfig_Byte PCIR_INTR_LN 11 ;;;
      adetect_read_irq
    else ret tt
  else ret tt.

(** Lines 625-633: family, buffers and bring-up. *)
Definition adetect_bringup : D Z :=
  let* card := lift deref_card in
  match pci_dev card with
  | None => fault
  | Some cfg =>
      lift (modify_card (set_device_type (pci_device_type cfg))) ;;;
      let* ok := snd_intel_buffer_init in
      if ok =? 0 then err_adetect
      else
        lift snd_intel_chip_init ;;;
        let* freq_set := get_freq_set in
        lift (snd_intel_ac97_init freq_set) ;;;
        ret 1
  end.

(** Lines 557-633 of INTELICH_adetect: what follows once the card is
    behind the handle. *)
Definition adetect_probe : D Z :=
  let* ok := pds_calloc HcCallocPciDev in
  if negb ok then err_adetect
  else
    lift (modify_card (set_pci_dev (Some calloc_pci_config))) ;;;
    let* found := pcibios_search_devices in
    match found with
    | None => err_adetect
    | Some cfg =>
        lift (modify_card (set_pci_dev (Some cfg))) ;;;
        adetect_legacy_io ;;;
        pcibios_set_master ;;;
        let* iobase := adetect_bm_base in
        let* card := lift deref_card in
        if baseport_bm card =? 0 then err_adetect
        else
          adetect_codec_base iobase ;;;
          let* card := lift deref_card in
          if baseport_codec card =? 0 then err_adetect
          else
            adetect_irq ;;;
            adetect_bringup
    end.

(** INTELICH_adetect (lines 548-637). *)
Definition INTELICH_adetect : D Z :=
  let* ok := pds_calloc HcCallocCard in
  if negb ok then ret 0
  else
    lift (modify_aui (set_card_private_data (Some calloc_card))) ;;;
    adetect_probe.

End Detection.

(** ** Instances for running the model *)

(** The codec register numbers and SPDIF rate codes are those of the AC'97
    2.3 register map, which ac97_def.h transcribes; the three au_cards.h
    values only label trace entries and flag bits. *)
Definition headers (sbemu : bool) : Headers :=
  {| SBEMU := sbemu;
     AC97_SPDIF_CONTROL := 0x3a;
     AC97_SC_SPSR_MASK := 0x3000;
     AC97_SC_SPSR_32K := 0x3000;
     AC97_SC_SPSR_44K := 0x0000;
     AC97_SC_SPSR_48K := 0x2000;
     AC97_PCM_FRONT_DAC_RATE := 0x2c;
     AUINFOS_CARDINFOBIT_DMAUNDERRUN := 8;
     MPXPLAY_WAVEID_PCM_SLE := 1;
     AUCARDS_DMABUFSIZE_NORMAL := 32768 |}.

(** IEEE 754 arithmetic without excess precision: [float] is binary32,
    [double] is binary64, every operation rounds to nearest even. *)
Module Ieee.

Definition canon (prec emax : Z) (x : spec_float) : spec_float :=
  match x with
  | S754_finite s m e => binary_normalize prec emax (cond_Zopp s (Zpos m)) e s
  | _ => x
  end.

Definition of_int (z : Z) : spec_float := binary_normalize 24 128 z 0 false.

Definition dec (m e : Z) : spec_float :=
  if 0 <=? e then binary_normalize 53 1024 (m * 10 ^ e) 0 false
  else SFdiv 53 1024 (binary_normalize 53 1024 m 0 false)
                     (binary_normalize 53 1024 (10 ^ (- e)) 0 false).

Definition ltb (a b : spec_float) : bool :=
  SFltb (canon 53 1024 a) (canon 53 1024 b).

Definition nonzero (x : spec_float) : bool :=
  match x with S754_zero _ => false | _ => true end.

Definition to_long (x : spec_float) : option Z :=
  match x with
  | S754_zero _ => Some 0
  | S754_finite s m e =>
      let v := cond_Zopp s (if 0 <=? e then Zpos m * 2 ^ e
                            else Zpos m / 2 ^ (- e)) in
      if (- 2 ^ 31 <=? v) && (v <? 2 ^ 31) then Some v else None
  | _ => None
  end.

(** A zero or a finite number: neither an infinity nor a NaN. *)
Definition finite (x : spec_float) : bool :=
  match x with
  | S754_zero _ | S754_finite _ _ _ => true
  | _ => false
  end.

(** The exact value of a finite number, m * 2^e, as a fraction. *)
Definition exact (x : spec_float) : Q :=
  match x with
  | S754_finite s m e =>
      Qmake (cond_Zopp s (Zpos m) * 2 ^ Z.max e 0)
            (Z.to_pos (2 ^ Z.max (- e) 0))
  | _ => 0%Q
  end.

Definition ops : FloatOps :=
  {| cfloat := spec_float;
     f_dec := dec;
     f_of_int := of_int;
     f_mul := SFmul 24 128;
     f_div := SFdiv 24 128;
     d_mul := SFmul 53 1024;
     d_div := SFdiv 53 1024;
     f_store := canon 24 128;
     f_lt := ltb;
     f_nonzero := nonzero;
     f_to_long := to_long |}.

End Ieee.

(** The correctors the clock measurement may leave beside 0.0, as the
    specification words them: the numbers within [0.60, 0.99) or
    (1.01, 1.5]. *)
Definition corrector_in_range (c : spec_float) : Prop :=
  Ieee.finite c = true /\
  ((60 # 100 <= Ieee.exact c /\ Ieee.exact c < 99 # 100) \/
   (101 # 100 < Ieee.exact c /\ Ieee.exact c <= 15 # 10))%Q.

(** AC'97 2.3 register numbers for the bring-up constants; debug calls
    evaluate their arguments. *)
Definition bringup_headers (debugf : bool) : BringupHeaders :=
  {| AC97_MASTER_VOL_STEREO := 0x02;
     AC97_PCMOUT_VOL := 0x18;
     AC97_HEADPHONE_VOL := 0x04;
     AC97_EXTENDED_STATUS := 0x2a;
     AC97_EA_SPDIF := 0x0004;
     mpxplay_debugf_evaluates := debugf |}.

(** The standard PCI configuration header: BAR0 is the mixer base
    (NAMBAR), BAR1 the bus-master base (NABMBAR). *)
Definition pci_headers : PciHeaders :=
  {| PCIR_NAMBAR := 0x10; PCIR_NABMBAR := 0x14; PCIR_INTR_LN := 0x3c |}.

(** A machine before detection: NULL handle, nothing on the ports, and a
    host that offers 16384 bytes of PCM buffer. *)
Definition sample_host (found : option pci_config_s) (calloc : list bool)
    (config : list Z) (cm : option cardmem_t) : @host Ieee.ops :=
  {| h_world :=
       {| w_aui :=
            {| card_private_data := None;
               freq_card := 44100; chan_card := 2; bits_card := 16;
               bits_set := 16; card_wave_id := 0; card_infobits := 0;
               card_dmasize := 0; card_dma_lastgoodpos := 0;
               card_samples_per_int := 0 |};
          w_mem := ∅; w_counts := [0; 0; 0]; w_ports := []; w_clock := [];
          w_trace := [] |};
     h_freq_set := 44100; h_card_irq := 0; h_card_DMABUFF := 0;
     h_calloc := calloc; h_found := found;
     h_config := config; h_max_bufsize := 16384; h_cardmem := cm;
     h_calls := [] |}.

(** The PCI record of an ICH4 (8086:24c5). *)
Definition sample_ich4 : pci_config_s :=
  {| vendor_id := 0x8086; device_id := 0x24c5;
     pci_device_type := DEVICE_INTEL_ICH4 |}.

(** A card as INTELICH_adetect leaves it: descriptor list at the start of
    the DMA allocation, PCM buffer 256 bytes further, calibration done,
    no clock correction. *)
Definition sample_card (dt : device_type_t) (vra_flag : Z)
  : @intel_card_s Ieee.ops :=
  {| baseport_bm := 0xd000; baseport_codec := 0xd400; irq := 11;
     device_type := dt;
     pci_dev := Some {| vendor_id := 0x8086; device_id := 0x2415;
                        pci_device_type := dt |};
     dm := Some {| linearptr := 0x100000; physicalptr := 0x200000 |};
     buffer_descriptor_list := 0x100000;
     pcmout_buffer := 0x100100;
     pcmout_bufsize := 16384;
     period_size_bytes := 4096;
     vra := vra_flag;
     ac97_clock_detected := 1;
     ac97_clock_corrector := (S754_zero false : @cfloat Ieee.ops) |}.

Definition sample_aui (dt : device_type_t) (vra_flag freq bits : Z)
  : @mpxplay_audioout_info_s Ieee.ops :=
  {| card_private_data := Some (sample_card dt vra_flag);
     freq_card := freq; chan_card := 2; bits_card := 16; bits_set := bits;
     card_wave_id := 0; card_infobits := 0; card_dmasize := 16384;
     card_dma_lastgoodpos := 0; card_samples_per_int := 0 |}.

(** A world around that card, with a script for the ports. *)
Definition sample_world (dt : device_type_t) (vra_flag freq bits : Z)
    (ports : list Z)
  : @world Ieee.ops :=
  {| w_aui := sample_aui dt vra_flag freq bits; w_mem := ∅; w_counts := [0; 0; 0];
     w_ports := ports; w_clock := []; w_trace := [] |}.

(** ** Vocabulary of the statements *)

Section Vocabulary.
Context {H : Headers} {F : FloatOps}.
Implicit Types (w : world) (card : intel_card_s).

(** The handle points to [card]. *)
Definition has_card w card : Prop := card_private_data (w_aui w) = Some card.

(** [m], run from [w], returns normally, and its result and final world
    satisfy [Q]. *)
Definition returns {A} (m : M A) w (Q : A -> world -> Prop) : Prop :=
  exists a w', m w = Ok a w' /\ Q a w'.

(** Only port traffic, delays and buffer clearing happened between [w]
    and [w']: the driver state is the same and the trace grew by [evs]. *)
Definition quiet w w' (evs : list event) : Prop :=
  w_aui w' = w_aui w /\ w_mem w' = w_mem w /\ w_counts w' = w_counts w /\
  w_clock w' = w_clock w /\ w_trace w' = w_trace w ++ evs.

(** [m] returns and was quiet. *)
Definition quietly {A} (m : M A) w (Q : A -> list event -> Prop) : Prop :=
  returns m w (fun a w' => exists evs, quiet w w' evs /\ Q a evs).

(** What close leaves in the trace for [card]. *)
Definition close_events card : list event :=
  (if baseport_bm card =? 0 then []
   else [EvOut W8 (baseport_bm card + ICH_PO_CR_REG) ICH_PO_CR_RESET]) ++
  [EvFreeCardmem] ++
  match pci_dev card with Some _ => [EvFreePciDev] | None => [] end ++
  [EvFreeCard].

(** The 20-bit-sample bit of a global control value. *)
Definition pcm_20bit (cmd : Z) : bool := negb (Z.land cmd ICH_PCM_20BIT =? 0).

(** The condition of lines 434-435 on the values at hand. *)
Definition wants_20bit card (bits_set glob_stat : Z) : bool :=
  (16 <? bits_set) &&
  device_type_eqb (device_type card) DEVICE_INTEL_ICH4 &&
  (Z.land glob_stat ICH_SAMPLE_CAP =? ICH_SAMPLE_16_20).

(** The length field of the second word of a descriptor. *)
Definition bd_length (word : Z) : Z := Z.land word 0xFFFF.

(** The handle with the underrun flag set. *)
Definition flag_underrun (a : mpxplay_audioout_info_s) : mpxplay_audioout_info_s :=
  set_card_infobits
    (funcbit_enable (card_infobits a) AUINFOS_CARDINFOBIT_DMAUNDERRUN) a.

(** The event is a write to a port. *)
Definition is_port_write (e : event) : bool :=
  match e with EvOut _ _ _ => true | _ => false end.

(** The handle and card as lines 659-683 leave them. *)
Definition configured card (size : Z) (a : mpxplay_audioout_info_s)
  : mpxplay_audioout_info_s :=
  set_card_private_data
    (Some (set_period_size_bytes (size / ICH_DMABUF_PERIODS) card))
    (set_card_dmasize size
       (set_freq_card (setrate_freq (vra card) (freq_card a))
          (set_bits_card 16
             (set_chan_card 2
                (set_card_wave_id MPXPLAY_WAVEID_PCM_SLE a))))).

(** [m] relates every world it returns from to the world it started in. *)
Definition preserves {A} (R : world -> world -> Prop) (m : M A) : Prop :=
  forall w a w', m w = Ok a w' -> R w w'.

(** The card is still there, with the same variable-rate flag. *)
Definition same_vra w w' : Prop :=
  option_map vra (card_private_data (w_aui w')) =
  option_map vra (card_private_data (w_aui w)).

(** Between [w] and [w'] the card and the card frequency are the same and
    the effective sample width is as it was or has become 32. *)
Definition steady w w' : Prop :=
  card_private_data (w_aui w') = card_private_data (w_aui w) /\
  freq_card (w_aui w') = freq_card (w_aui w) /\
  chan_card (w_aui w') = chan_card (w_aui w) /\
  (bits_card (w_aui w') = bits_card (w_aui w) \/ bits_card (w_aui w') = 32).

(** The member of {32000, 44100, 48000} nearest to a frequency, as the
    specification words the SPDIF rate ("the nearest of"), and the rate
    code that stands for a member. *)
Definition spdif_nearest (freq : Z) : Z :=
  let d r := Z.abs (freq - r) in
  if (d 32000 <=? d 44100) && (d 32000 <=? d 48000) then 32000
  else if d 44100 <=? d 48000 then 44100
  else 48000.

Definition spdif_code_of (rate : Z) : Z :=
  if rate =? 32000 then AC97_SC_SPSR_32K
  else if rate =? 44100 then AC97_SC_SPSR_44K
  else AC97_SC_SPSR_48K.

End Vocabulary.

(** ** Vocabulary of the further properties *)

Section Footprints.
Context {H : Headers} {F : FloatOps}.
Implicit Types (w : world) (card : intel_card_s) (evs : list event).

(** The event is a read of a port. *)
Definition is_port_read (e : event) : bool :=
  match e with EvIn _ _ _ => true | _ => false end.

(** How many ports a stretch of the trace reads. *)
Definition port_reads evs : nat := length (List.filter is_port_read evs).

(** The port writes of a stretch of the trace, in order. *)
Definition port_writes evs : list event := List.filter is_port_write evs.

(** The time a stretch of the trace spends in pds_delay_10us, in units of
    10 microseconds. *)
Fixpoint waited evs : Z :=
  match evs with
  | [] => 0
  | EvDelay n :: rest => n + waited rest
  | _ :: rest => waited rest
  end.

(** A stretch of the trace reads at most [r] ports, waits at most [d] and
    writes exactly [ws]. *)
Definition within evs (r d : Z) (ws : list event) : Prop :=
  Z.of_nat (port_reads evs) <= r /\ 0 <= waited evs <= d /\ port_writes evs = ws.

(** One unsuccessful poll of [port]: the read and the delay after it. *)
Definition missed_poll (sz : width) (port delay v : Z) : list event :=
  [EvIn sz port v; EvDelay delay].

(** [n] unsuccessful polls, with the values read. *)
Definition missed_polls (sz : width) (port delay : Z) (vs : list Z) : list event :=
  concat (map (missed_poll sz port delay) vs).

(** The address lies outside the descriptor list of [card]. *)
Definition outside_bdl card (a : Z) : Prop :=
  a < buffer_descriptor_list card \/
  buffer_descriptor_list card + ICH_DMABUF_ALIGN <= a.

(** The fields of the handle that preparation has no business with. *)
Definition same_request w w' : Prop :=
  bits_set (w_aui w') = bits_set (w_aui w) /\
  card_wave_id (w_aui w') = card_wave_id (w_aui w) /\
  card_infobits (w_aui w') = card_infobits (w_aui w) /\
  card_dmasize (w_aui w') = card_dmasize (w_aui w) /\
  card_dma_lastgoodpos (w_aui w') = card_dma_lastgoodpos (w_aui w).

(** Between [w] and [w'] the driver went on with the same card: [steady]
    and [same_request], counters and clock untouched, DMA memory changed
    at most inside the descriptor list of [card], and the trace grown by
    [evs]. *)
Definition moved card w w' evs : Prop :=
  steady w w' /\ same_request w w' /\
  (forall a, outside_bdl card a -> w_mem w' !! a = w_mem w !! a) /\
  w_counts w' = w_counts w /\ w_clock w' = w_clock w /\
  w_trace w' = w_trace w ++ evs.

(** [m] returns and the driver went on as in [moved]. *)
Definition moving {A} card (m : M A) w (Q : A -> list event -> Prop) : Prop :=
  returns m w (fun a w' => exists evs, moved card w w' evs /\ Q a evs).

(** The port writes of snd_intel_prepare_playback for the values [cr],
    [cmd] and [spdif] it computes from what it reads. *)
Definition prepare_writes card cm (freq cr cmd spdif : Z) : list event :=
  [EvOut W8 (baseport_bm card + ICH_PO_CR_REG) (Z.lor cr ICH_PO_CR_RESET);
   EvOut W32 (baseport_bm card + ICH_GLOB_CNT_REG) cmd;
   EvOut W16 (baseport_codec card + AC97_SPDIF_CONTROL) spdif;
   EvOut W16 (baseport_codec card + AC97_PCM_FRONT_DAC_RATE) (u16 freq);
   EvOut W32 (baseport_bm card + ICH_PO_BDBAR_REG)
     (u32 (pds_cardmem_physicalptr cm (buffer_descriptor_list card)));
   EvOut W8 (baseport_bm card + ICH_PO_LVI_REG) 3;
   EvOut W8 (baseport_bm card + ICH_PO_CIV_REG) 0;
   EvOut W8 (baseport_bm card + ICH_PO_SR_REG card) 0x1c].

(** The descriptor list in the DMA memory [m], for periods of [period]
    bytes and samples of [bits] bits. *)
Definition ring_at card cm (period bits : Z) (m : gmap Z Z) : Prop :=
  let tb := buffer_descriptor_list card in
  let base := pds_cardmem_physicalptr cm (pcmout_buffer card) in
  let samples := period / Z.shiftr bits 3 in
  let len := if device_type_eqb (device_type card) DEVICE_SIS
             then period else samples in
  let word := if SBEMU then Z.lor len (Z.shiftl ICH_BD_IOC 16) else len in
  (forall i, 0 <= i < ICH_DMABUF_PERIODS ->
     m !! (tb + 8 * i) = Some (u32 (base + i * period)) /\
     m !! (tb + 8 * i + 4) = Some (u32 word)) /\
  (forall i, ICH_DMABUF_PERIODS <= i < ICH_DMABUF_MAX_PERIODS ->
     m !! (tb + 8 * i) = Some 0 /\ m !! (tb + 8 * i + 4) = Some 0).

(** Between [w] and [w'] nothing of the driver state changed but, at
    most, the underrun flag (set) and the stored position. *)
Definition position_only w w' : Prop :=
  card_private_data (w_aui w') = card_private_data (w_aui w) /\
  freq_card (w_aui w') = freq_card (w_aui w) /\
  chan_card (w_aui w') = chan_card (w_aui w) /\
  bits_card (w_aui w') = bits_card (w_aui w) /\
  bits_set (w_aui w') = bits_set (w_aui w) /\
  card_wave_id (w_aui w') = card_wave_id (w_aui w) /\
  card_dmasize (w_aui w') = card_dmasize (w_aui w) /\
  card_samples_per_int (w_aui w') = card_samples_per_int (w_aui w) /\
  w_mem w' = w_mem w /\ w_counts w' = w_counts w /\ w_clock w' = w_clock w /\
  (card_infobits (w_aui w') = card_infobits (w_aui w) \/
   card_infobits (w_aui w') =
   funcbit_enable (card_infobits (w_aui w)) AUINFOS_CARDINFOBIT_DMAUNDERRUN).

(** What the interrupt routine may write: the transfer-control register
    with the start bit and the three interrupt enables set, the last valid
    index with a value inside the ring, or the status register with
    nothing but interrupt causes. *)
Definition irq_write card (e : event) : Prop :=
  exists v, 0 <= v < 256 /\
    (e = EvOut W8 (baseport_bm card + ICH_PO_CR_REG) v /\
       Z.land v 0x1d = 0x1d \/
     e = EvOut W8 (baseport_bm card + ICH_PO_LVI_REG) v /\
       v < ICH_DMABUF_PERIODS \/
     e = EvOut W8 (baseport_bm card + ICH_PO_SR_REG card) v /\
       Z.land v (Z.lnot 0x1c) = 0).

End Footprints.

(** ** Vocabulary of detection *)

Section DetectionVocabulary.
Context {H : Headers} {F : FloatOps} {B : BringupHeaders} {P : PciHeaders}.
Implicit Types (w : world) (card : intel_card_s) (evs : list event) (h : host).

(** The world with [card] behind the handle. *)
Definition with_card card w : world :=
  with_aui (set_card_private_data (Some card) (w_aui w)) w.

(** The world after INTELICH_close has released [card]. *)
Definition closed card w : world :=
  with_aui (set_card_private_data None (w_aui w))
    (with_io (w_ports w) (w_trace w ++ close_events card) w).

(** The call changes the PCI configuration space: a register write, or
    pcibios_set_master, which enables PCI I/O and bus mastering in the
    command register (lines 572-573). *)
Definition is_config_write (c : host_call) : bool :=
  match c with
  | HcSetMaster | HcWriteConfigByte _ _ | HcWriteConfigDword _ _ => true
  | _ => false
  end.

(** The run of detection on [h] gets as far as a device: both
    allocations succeed and the search finds one. *)
Definition reaches_device h : bool :=
  hd false (h_calloc h) && hd false (tl (h_calloc h)) &&
  match h_found h with Some _ => true | None => false end.

(** [m], run on [h], returns with [Q], or faults and [E] holds; it does
    not run out of clock. *)
Definition runs {A} (m : D A) h (Q : A -> host -> Prop) (E : Prop) : Prop :=
  match m h with
  | Ok a h' => Q a h'
  | Fault => E
  | Exhausted => False
  end.

(** The machine [h] after detection has put [card] behind the handle,
    stored [irq] and [dmabuff] in the handle, left [calloc] and [cfg] of
    the scripts and made [calls].  Ports, DMA memory, counters, clock and
    trace are those of [h]. *)
Definition probed card (irq dmabuff : Z) (calloc : list bool) (cfg : list Z)
    (calls : list host_call) h : host :=
  {| h_world := with_card card (h_world h);
     h_freq_set := h_freq_set h; h_card_irq := irq;
     h_card_DMABUFF := dmabuff; h_calloc := calloc;
     h_found := h_found h; h_config := cfg;
     h_max_bufsize := h_max_bufsize h; h_cardmem := h_cardmem h;
     h_calls := h_calls h ++ calls |}.

(** What detection may do to the PCI configuration space beside its one
    call of pcibios_set_master: nothing in a build without SBEMU; with
    SBEMU the legacy I/O enable of ICH4 and the three assignments for
    what the BIOS left unset. *)
Definition config_write_allowed (c : host_call) : Prop :=
  is_config_write c = true ->
  SBEMU = true /\
  (c = HcWriteConfigByte 0x41 1 \/
   c = HcWriteConfigDword PCIR_NABMBAR 0xF000 \/
   c = HcWriteConfigDword PCIR_NAMBAR 0xEF00 \/
   c = HcWriteConfigByte PCIR_INTR_LN 11).

(** The host calls of a run of detection: pcibios_set_master once when
    the run [reached] a device and not at all otherwise, and around it
    only what [config_write_allowed] allows. *)
Definition detection_calls (reached : bool) (calls : list host_call) : Prop :=
  if reached
  then exists pre post,
         calls = pre ++ HcSetMaster :: post /\
         Forall config_write_allowed pre /\
         Forall config_write_allowed post
  else Forall config_write_allowed calls.

(** The card after snd_intel_buffer_init has laid out the allocation
    [cm] of [size] bytes of PCM buffer. *)
Definition buffer_init_card (cm : cardmem_t) (size : Z) card : intel_card_s :=
  set_pcmout_buffer (linearptr cm + ICH_DMABUF_ALIGN)
    (set_buffer_descriptor_list (linearptr cm)
       (set_dm (Some cm) (set_pcmout_bufsize size card))).

(** The host calls of snd_intel_buffer_init for the requested sample
    width [bits], the size the host offers and the allocation it hands
    out. *)
Definition buffer_init_calls (cm : cardmem_t) (bits size : Z) : list host_call :=
  [HcGetMaxBufsize 0 ICH_DMABUF_ALIGN (if 16 <? bits then 4 else 2) 0 size;
   HcAllocCardmem (u32 (ICH_DMABUF_ALIGN + size)) (Some cm)] ++
  (if SBEMU
   then [HcMemset (linearptr cm + ICH_DMABUF_ALIGN) 0 (u32 size)]
   else []).

(** The card as snd_intel_buffer_init lays it out in the allocation [cm]:
    descriptor list first, PCM buffer right after its 32 slots. *)
Definition laid_out card (cm : cardmem_t) (size : Z) : Prop :=
  dm card = Some cm /\
  buffer_descriptor_list card = linearptr cm /\
  pcmout_buffer card = linearptr cm + ICH_DMABUF_ALIGN /\
  pcmout_bufsize card = size.

(** Nothing of the card has been calibrated or configured yet. *)
Definition unconfigured card : Prop :=
  vra card = 0 /\ ac97_clock_detected card = 0 /\
  ac97_clock_corrector card = f_of_int 0 /\ period_size_bytes card = 0.

(** How INTELICH_adetect ends when it returns 0. *)
Definition detection_failed h h' : Prop :=
  let w := h_world h in
  (hd false (h_calloc h) = false /\ h_world h' = w) \/
  (hd false (h_calloc h) = true /\
   exists card,
     h_world h' = closed card w /\
     dm card = None /\
     (pci_dev card = None <-> hd false (tl (h_calloc h)) = false) /\
     (baseport_bm card <> 0 -> baseport_codec card = 0)).

(** The port traffic of the bring-up at the end of detection: that of
    snd_intel_chip_init, then that of snd_intel_ac97_init with its four
    codec writes. *)
Definition bringup_traffic card evs : Prop :=
  exists e1 e2 ws,
    evs = e1 ++ e2 /\ within e1 6006 50000 ws /\
    within e2 8004 80000
      [EvOut W16 (baseport_codec card + AC97_MASTER_VOL_STEREO) 0x0202;
       EvOut W16 (baseport_codec card + AC97_PCMOUT_VOL) 0x0202;
       EvOut W16 (baseport_codec card + AC97_HEADPHONE_VOL) 0x0202;
       EvOut W16 (baseport_codec card + AC97_EXTENDED_STATUS) (u16 AC97_EA_SPDIF)].

(** How INTELICH_adetect ends when it returns 1. *)
Definition detection_succeeded h h' : Prop :=
  exists card cm pci evs,
    h_found h = Some pci /\ h_cardmem h = Some cm /\
    quiet (with_card card (h_world h)) (h_world h') evs /\
    bringup_traffic card evs /\
    pci_dev card = Some pci /\ device_type card = pci_device_type pci /\
    baseport_bm card <> 0 /\ baseport_codec card <> 0 /\
    irq card = h_card_irq h' /\
    laid_out card cm (h_max_bufsize h) /\
    h_card_DMABUFF h' = pcmout_buffer card /\
    unconfigured card.

(** The calls made on a run of detection and how it ended. *)
Definition probe_ends h (calloc : list bool) (r : Z) (h' : host) : Prop :=
  (exists calls,
     h_calls h' = h_calls h ++ HcCallocCard true :: calls /\
     detection_calls
       (hd false calloc && match h_found h with Some _ => true | None => false end)
       calls) /\
  ((r = 0 /\
    exists card,
      h_world h' = closed card (h_world h) /\
      dm card = None /\
      (pci_dev card = None <-> hd false calloc = false) /\
      (baseport_bm card <> 0 -> baseport_codec card = 0)) \/
   (r = 1 /\ detection_succeeded h h')).

End DetectionVocabulary.

(** ** Reasoning about driver code *)

Section Properties.
Context {H : Headers} {F : FloatOps}.
Implicit Types (w : world) (card : intel_card_s).

Lemma returns_ret {A} (a : A) w (Q : A -> world -> Prop) :
  Q a w -> returns (ret a) w Q.
Proof. intros HQ. exists a, w. split; [reflexivity | exact HQ]. Qed.

Lemma returns_bind {A B} (m : M A) (k : A -> M B) w (Q : B -> world -> Prop) :
  returns m w (fun a w1 => returns (k a) w1 Q) -> returns (bind m k) w Q.
Proof.
  intros (a & w1 & Hm & b & w2 & Hk & HQ).
  exists b, w2. split; [| exact HQ].
  unfold bind. rewrite Hm. exact Hk.
Qed.

Lemma returns_mono {A} (m : M A) w (P Q : A -> world -> Prop) :
  returns m w P -> (forall a w', P a w' -> Q a w') -> returns m w Q.
Proof. intros (a & w' & Hm & HP) HPQ. exists a, w'. auto. Qed.

Lemma bind_inv {A B} (m : M A) (k : A -> M B) w b w' :
  bind m k w = Ok b w' -> exists a w1, m w = Ok a w1 /\ k a w1 = Ok b w'.
Proof.
  unfold bind. destruct (m w) as [a w1 | |]; try discriminate.
  intros Hk. exists a, w1. auto.
Qed.

Lemma quiet_refl w : quiet w w [].
Proof. unfold quiet. rewrite app_nil_r. auto. Qed.

Lemma quiet_trans w1 w2 w3 e1 e2 :
  quiet w1 w2 e1 -> quiet w2 w3 e2 -> quiet w1 w3 (e1 ++ e2).
Proof.
  unfold quiet. intros (-> & -> & -> & -> & ->) (-> & -> & -> & -> & ->).
  rewrite app_assoc. auto.
Qed.

Lemma quiet_has_card w w' evs card :
  quiet w w' evs -> has_card w card -> has_card w' card.
Proof. unfold quiet, has_card. intros (-> & _). auto. Qed.

Lemma quietly_ret {A} (a : A) w (Q : A -> list event -> Prop) :
  Q a [] -> quietly (ret a) w Q.
Proof. intros HQ. apply returns_ret. exists []. split; [apply quiet_refl | exact HQ]. Qed.

Lemma quietly_bind {A B} (m : M A) (k : A -> M B) w
    (P : A -> list event -> Prop) (Q : B -> list event -> Prop) :
  quietly m w P ->
  (forall a w1 e1, quiet w w1 e1 -> P a e1 ->
     quietly (k a) w1 (fun b e2 => Q b (e1 ++ e2))) ->
  quietly (bind m k) w Q.
Proof.
  intros Hm Hk. apply returns_bind.
  eapply returns_mono; [exact Hm |].
  intros a w1 (e1 & Hq1 & HP).
  eapply returns_mono; [exact (Hk a w1 e1 Hq1 HP) |].
  intros b w2 (e2 & Hq2 & HQ).
  exists (e1 ++ e2). split; [eapply quiet_trans; eassumption | exact HQ].
Qed.

Lemma quietly_mono {A} (m : M A) w (P Q : A -> list event -> Prop) :
  quietly m w P -> (forall a evs, P a evs -> Q a evs) -> quietly m w Q.
Proof.
  intros Hm HPQ. eapply returns_mono; [exact Hm |].
  intros a w' (evs & Hq & HP). exists evs. auto.
Qed.

(** *** Port access *)

Lemma emit_quietly e w : quietly (emit e) w (fun _ evs => evs = [e]).
Proof.
  eexists tt, _. split; [reflexivity |].
  exists [e]. split; [| reflexivity]. unfold quiet. simpl. auto.
Qed.

Lemma port_in_quietly sz port w :
  quietly (port_in sz port) w
    (fun v evs => v = trunc sz (hd 0 (w_ports w)) /\ evs = [EvIn sz port v]).
Proof.
  eexists _, _. split; [reflexivity |].
  eexists. split; [| split; reflexivity]. unfold quiet. simpl. auto.
Qed.

Lemma deref_card_quietly w card :
  has_card w card -> quietly deref_card w (fun c evs => c = card /\ evs = []).
Proof.
  intros Hc. exists card, w. split.
  - unfold deref_card. rewrite Hc. reflexivity.
  - exists []. split; [apply quiet_refl | auto].
Qed.

Lemma port_read_quietly sz reg w card :
  has_card w card ->
  quietly (let* c := deref_card in port_in sz (baseport_bm c + reg)) w
    (fun v evs => evs = [EvIn sz (baseport_bm card + reg) v]).
Proof.
  intros Hc. eapply quietly_bind; [apply deref_card_quietly, Hc |].
  intros c w1 e1 Hq [-> ->]. simpl.
  eapply quietly_mono; [apply port_in_quietly |].
  intros v evs [_ ->]. reflexivity.
Qed.

Lemma port_write_quietly sz reg data w card :
  has_card w card ->
  quietly (let* c := deref_card in port_out sz (baseport_bm c + reg) data) w
    (fun _ evs => evs = [EvOut sz (baseport_bm card + reg) (trunc sz data)]).
Proof.
  intros Hc. eapply quietly_bind; [apply deref_card_quietly, Hc |].
  intros c w1 e1 Hq [-> ->]. simpl. apply emit_quietly.
Qed.

(** *** The codec bus always answers *)

Lemma codec_ready_loop_quietly codec retry w card :
  has_card w card ->
  quietly (codec_ready_loop codec retry) w (fun _ _ => True).
Proof.
  revert w. induction retry as [| r IH]; intros w Hc; simpl.
  - apply quietly_ret. exact I.
  - eapply quietly_bind; [apply (port_read_quietly W32), Hc |].
    intros v w1 e1 Hq _. simpl.
    destruct (negb (Z.land v codec =? 0)).
    + apply quietly_ret. exact I.
    + eapply quietly_bind; [apply emit_quietly |].
      intros _ w2 e2 Hq2 _. simpl.
      eapply quietly_mono; [apply IH | auto].
      eapply quiet_has_card; [exact Hq2 |].
      eapply quiet_has_card; eassumption.
Qed.

(** *** Straight-line code *)

Lemma bind_ok {A B} (m : M A) (k : A -> M B) w a w1 :
  m w = Ok a w1 -> bind m k w = k a w1.
Proof. intros Hm. unfold bind. rewrite Hm. reflexivity. Qed.

Lemma deref_card_ok w card : has_card w card -> deref_card w = Ok card w.
Proof. intros Hc. unfold deref_card. rewrite Hc. reflexivity. Qed.

Lemma has_card_with_io w card p t :
  has_card w card -> has_card (with_io p t w) card.
Proof. exact (fun Hc => Hc). Qed.

Lemma has_card_with_counts w card c :
  has_card w card -> has_card (with_counts c w) card.
Proof. exact (fun Hc => Hc). Qed.

Lemma has_card_with_mem w card m :
  has_card w card -> has_card (with_mem m w) card.
Proof. exact (fun Hc => Hc). Qed.

Lemma snd_intel_read_8_ok reg w card :
  has_card w card ->
  snd_intel_read_8 reg w =
  Ok (u8 (hd 0 (w_ports w)))
     (with_io (tl (w_ports w))
        (w_trace w ++ [EvIn W8 (baseport_bm card + reg) (u8 (hd 0 (w_ports w)))]) w).
Proof.
  intros Hc. unfold snd_intel_read_8.
  rewrite (bind_ok _ _ _ _ _ (deref_card_ok _ _ Hc)). reflexivity.
Qed.

Lemma snd_intel_read_16_ok reg w card :
  has_card w card ->
  snd_intel_read_16 reg w =
  Ok (u16 (hd 0 (w_ports w)))
     (with_io (tl (w_ports w))
        (w_trace w ++ [EvIn W16 (baseport_bm card + reg) (u16 (hd 0 (w_ports w)))]) w).
Proof.
  intros Hc. unfold snd_intel_read_16.
  rewrite (bind_ok _ _ _ _ _ (deref_card_ok _ _ Hc)). reflexivity.
Qed.

Lemma snd_intel_read_32_ok reg w card :
  has_card w card ->
  snd_intel_read_32 reg w =
  Ok (u32 (hd 0 (w_ports w)))
     (with_io (tl (w_ports w))
        (w_trace w ++ [EvIn W32 (baseport_bm card + reg) (u32 (hd 0 (w_ports w)))]) w).
Proof.
  intros Hc. unfold snd_intel_read_32.
  rewrite (bind_ok _ _ _ _ _ (deref_card_ok _ _ Hc)). reflexivity.
Qed.

Lemma snd_intel_write_8_ok reg data w card :
  has_card w card ->
  snd_intel_write_8 reg data w =
  Ok tt (with_io (w_ports w)
           (w_trace w ++ [EvOut W8 (baseport_bm card + reg) (u8 data)]) w).
Proof.
  intros Hc. unfold snd_intel_write_8.
  rewrite (bind_ok _ _ _ _ _ (deref_card_ok _ _ Hc)). reflexivity.
Qed.

Lemma snd_intel_write_32_ok reg data w card :
  has_card w card ->
  snd_intel_write_32 reg data w =
  Ok tt (with_io (w_ports w)
           (w_trace w ++ [EvOut W32 (baseport_bm card + reg) (u32 data)]) w).
Proof.
  intros Hc. unfold snd_intel_write_32.
  rewrite (bind_ok _ _ _ _ _ (deref_card_ok _ _ Hc)). reflexivity.
Qed.

Lemma u8_range v : 0 <= u8 v < 256.
Proof. unfold u8, trunc. simpl. apply Z.mod_pos_bound. lia. Qed.

Lemma u8_small v : 0 <= v < 256 -> u8 v = v.
Proof. intros Hv. unfold u8, trunc. simpl. apply Z.mod_small. lia. Qed.

Lemma u8_land a m : 0 <= m < 256 -> u8 (Z.land a m) = Z.land a m.
Proof.
  intros Hm. unfold u8, trunc. simpl width_bits.
  rewrite <- Z.land_ones by lia. rewrite <- Z.land_assoc.
  rewrite (Z.land_ones m) by lia. rewrite (Z.mod_small m); [reflexivity | lia].
Qed.

End Properties.

(** *** Stepping through straight-line code *)

Section Steps.
Context {H : Headers} {F : FloatOps}.
Implicit Types (w : world).

Lemma bind_ret {A B} (a : A) (k : A -> M B) w : bind (ret a) k w = k a w.
Proof. reflexivity. Qed.

Lemma bind_assoc {A B C} (m : M A) (k1 : A -> M B) (k2 : B -> M C) w :
  bind (bind m k1) k2 w = bind m (fun a => bind (k1 a) k2) w.
Proof. unfold bind. destruct (m w); reflexivity. Qed.

Lemma bind_count {B} var (k : unit -> M B) w :
  bind (count var) k w =
  k tt (with_counts (<[var := s32 (w_counts w !!! var + 1)]> (w_counts w)) w).
Proof. reflexivity. Qed.

Lemma bind_get_aui {B} (k : mpxplay_audioout_info_s -> M B) w :
  bind get_aui k w = k (w_aui w) w.
Proof. reflexivity. Qed.

Lemma bind_modify_aui {B} f (k : unit -> M B) w :
  bind (modify_aui f) k w = k tt (with_aui (f (w_aui w)) w).
Proof. reflexivity. Qed.

Lemma bind_emit {B} e (k : unit -> M B) w :
  bind (emit e) k w = k tt (with_io (w_ports w) (w_trace w ++ [e]) w).
Proof. reflexivity. Qed.

End Steps.

(** The head of the run is a pure step. *)
Ltac run_pure1 :=
  match goal with
  | |- context [bind (bind _ _) _ _] => rewrite bind_assoc
  | |- context [bind (ret _) _ _] => rewrite bind_ret
  | |- context [bind (count _) _ _] => rewrite bind_count
  | |- context [bind get_aui _ _] => rewrite bind_get_aui
  | |- context [bind (modify_aui _) _ _] => rewrite bind_modify_aui
  | |- context [bind (emit _) _ _] => rewrite bind_emit
  end.

Ltac run_pure := repeat run_pure1.

(** The head of the run is an access through the card, whose presence
    [Hc] states. *)
Ltac run_step Hc :=
  match goal with
  | |- context [bind deref_card ?k ?w0] =>
      rewrite (bind_ok deref_card k w0 _ _ (deref_card_ok w0 _ Hc))
  | |- context [bind (snd_intel_read_8 ?r) ?k ?w0] =>
      rewrite (bind_ok _ k w0 _ _ (snd_intel_read_8_ok r w0 _ Hc))
  | |- context [bind (snd_intel_read_16 ?r) ?k ?w0] =>
      rewrite (bind_ok _ k w0 _ _ (snd_intel_read_16_ok r w0 _ Hc))
  | |- context [bind (snd_intel_read_32 ?r) ?k ?w0] =>
      rewrite (bind_ok _ k w0 _ _ (snd_intel_read_32_ok r w0 _ Hc))
  | |- context [bind (snd_intel_write_8 ?r ?d) ?k ?w0] =>
      rewrite (bind_ok _ k w0 _ _ (snd_intel_write_8_ok r d w0 _ Hc))
  | |- context [bind (snd_intel_write_32 ?r ?d) ?k ?w0] =>
      rewrite (bind_ok _ k w0 _ _ (snd_intel_write_32_ok r d w0 _ Hc))
  | |- context [snd_intel_read_8 ?r ?w0] =>
      rewrite (snd_intel_read_8_ok r w0 _ Hc)
  | |- context [snd_intel_write_8 ?r ?d ?w0] =>
      rewrite (snd_intel_write_8_ok r d w0 _ Hc)
  | |- context [snd_intel_write_32 ?r ?d ?w0] =>
      rewrite (snd_intel_write_32_ok r d w0 _ Hc)
  end.

(** Projections of updated worlds. *)
Ltac run_norm :=
  cbn [w_ports w_trace w_aui w_mem w_counts w_clock
       with_io with_aui with_mem with_counts with_clock].

Ltac run Hc :=
  repeat (first [progress run_pure | run_step Hc | progress run_norm]).

(** The trace grew by a first event, some events, and a last event. *)
Ltac trace_middle :=
  simpl; rewrite <- ?app_assoc; simpl;
  first [ exists []; reflexivity
        | eexists [_]; reflexivity
        | eexists [_; _]; reflexivity
        | eexists [_; _; _]; reflexivity
        | eexists [_; _; _; _]; reflexivity
        | eexists [_; _; _; _; _]; reflexivity
        | eexists [_; _; _; _; _; _]; reflexivity ].

(** Equations between bitwise expressions, bit by bit. *)
Ltac bitwise :=
  apply Z.bits_inj'; intros ?n ?Hn;
  repeat first [ rewrite Z.land_spec | rewrite Z.lor_spec
               | rewrite Z.lnot_spec by lia | rewrite Z.bits_0 ];
  repeat match goal with
         | |- context [Z.testbit ?a ?n] => destruct (Z.testbit a n)
         end; reflexivity.

(** Case analysis on the first test the run is stuck on. *)
Ltac branch :=
  match goal with
  | |- context [if ?b then _ else _] => destruct b eqn:?
  end.

Section Claims.
Context {H : Headers} {F : FloatOps}.
Implicit Types (w : world) (card : intel_card_s).

(** ** The interrupt routine *)

(** C10.  The interrupt routine reports 1 exactly when the status byte it
    read is not 0, and always ends by writing back that byte masked to the
    three interrupt causes.  A status of DMA-halted alone (bit 0) is
    therefore reported as handled, while the acknowledgement written is 0
    and nothing else is done. *)
Theorem irq_reports_raw_status w card :
  has_card w card ->
  let status := u8 (hd 0 (w_ports w)) in
  let sr := baseport_bm card + ICH_PO_SR_REG card in
  let causes := Z.lor (Z.lor ICH_PO_SR_LVBCI ICH_PO_SR_BCIS) ICH_PO_SR_FIFO in
  exists handled w',
    INTELICH_IRQRoutine w = Ok handled w' /\
    (handled = 1 <-> status <> 0) /\ (handled = 0 <-> status = 0) /\
    (exists evs, w_trace w' =
       w_trace w ++ [EvIn W8 sr status] ++ evs ++
       [EvOut W8 sr (Z.land status causes)]) /\
    (status = ICH_PO_SR_DCH ->
       handled = 1 /\ Z.land status causes = 0 /\
       w_trace w' = w_trace w ++ [EvIn W8 sr status; EvOut W8 sr 0] /\
       w_counts w' = w_counts w).
Proof.
  intros Hc status sr causes.
  assert (Hack : u8 (Z.land status causes) = Z.land status causes)
    by (apply u8_land; change causes with 28; lia).
  assert (Hres : forall r : Z, r = (if status =? 0 then 0 else 1) ->
            (r = 1 <-> status <> 0) /\ (r = 0 <-> status = 0)).
  { intros r ->. destruct (Z.eqb_spec status 0); lia. }
  unfold INTELICH_IRQRoutine.
  run_step Hc. run_step Hc.
  fold status. fold sr. fold causes.
  destruct (Z.land status ICH_PO_SR_LVBCI =? 0) eqn:E1,
           (Z.land status ICH_PO_SR_BCIS =? 0) eqn:E2,
           (Z.land status ICH_PO_SR_FIFO =? 0) eqn:E3;
    cbn [negb]; run Hc; rewrite ?Hack; fold sr;
    (eexists _, _; split; [reflexivity |]);
    (split; [apply Hres; reflexivity |]);
    (split; [apply Hres; reflexivity |]).
  all: split; [trace_middle |].
  all: intros Hs; rewrite Hs in *;
       try (vm_compute in E1; discriminate);
       try (vm_compute in E2; discriminate);
       try (vm_compute in E3; discriminate).
  split; [reflexivity |]. split; [reflexivity |].
  split; [simpl; rewrite <- app_assoc; reflexivity | reflexivity].
Qed.

(** ** Stop and close *)

Lemma land_u8 v m : 0 <= v < 256 -> u8 (Z.land v m) = Z.land v m.
Proof. intros Hv. rewrite Z.land_comm. apply u8_land. exact Hv. Qed.

Lemma land_lnot_clear v b : Z.land v b = 0 -> Z.land v (Z.lnot b) = v.
Proof.
  intros Hb. rewrite <- Z.ldiff_land.
  rewrite <- (Z.lor_ldiff_and v b) at 2. rewrite Hb, Z.lor_0_r. reflexivity.
Qed.

Lemma INTELICH_stop_ok w card :
  has_card w card ->
  INTELICH_stop w =
  Ok tt (with_io (tl (w_ports w))
           (w_trace w ++
              [EvIn W8 (baseport_bm card + ICH_PO_CR_REG) (u8 (hd 0 (w_ports w)));
               EvOut W8 (baseport_bm card + ICH_PO_CR_REG)
                 (Z.land (u8 (hd 0 (w_ports w))) (Z.lnot ICH_PO_CR_START))]) w).
Proof.
  intros Hc. unfold INTELICH_stop. run Hc.
  unfold funcbit_disable. rewrite !land_u8 by apply u8_range.
  simpl. rewrite <- app_assoc. reflexivity.
Qed.

Lemma INTELICH_stop_null w :
  card_private_data (w_aui w) = None -> INTELICH_stop w = Fault.
Proof.
  intros Hn. unfold INTELICH_stop, snd_intel_read_8, bind, deref_card.
  rewrite Hn. reflexivity.
Qed.

Lemma INTELICH_close_null w :
  card_private_data (w_aui w) = None -> INTELICH_close w = Ok tt w.
Proof. intros Hn. unfold INTELICH_close. run_pure. rewrite Hn. reflexivity. Qed.

Lemma INTELICH_close_ok w card :
  has_card w card ->
  INTELICH_close w =
  Ok tt (with_aui (set_card_private_data None (w_aui w))
           (with_io (w_ports w) (w_trace w ++ close_events card) w)).
Proof.
  intros Hc. unfold INTELICH_close, snd_intel_chip_close, close_events.
  run_pure. rewrite Hc. run Hc.
  destruct (baseport_bm card =? 0); cbn [negb]; run Hc;
    destruct (pci_dev card); run Hc; unfold modify_aui; simpl;
    rewrite <- ?app_assoc; reflexivity.
Qed.

(** C9 (amended).  On an open card, stop reads the transfer-control
    register and writes it back with only the start bit cleared, which is
    the value read when the card was already stopped; the driver state is
    untouched.  A following close resets the channel (when the bus-master
    base is set), releases the DMA memory, the PCI record and the card
    once, and nulls the handle; every further close changes nothing. *)
Theorem stop_then_close_on_open_card w card :
  has_card w card ->
  let cr := baseport_bm card + ICH_PO_CR_REG in
  let v := u8 (hd 0 (w_ports w)) in
  exists w1 w2,
    INTELICH_stop w = Ok tt w1 /\
    w_aui w1 = w_aui w /\ w_mem w1 = w_mem w /\
    w_trace w1 = w_trace w ++
      [EvIn W8 cr v; EvOut W8 cr (Z.land v (Z.lnot ICH_PO_CR_START))] /\
    (Z.land v ICH_PO_CR_START = 0 ->
       Z.land v (Z.lnot ICH_PO_CR_START) = v) /\
    INTELICH_close w1 = Ok tt w2 /\
    card_private_data (w_aui w2) = None /\
    w_trace w2 = w_trace w1 ++ close_events card /\
    INTELICH_close w2 = Ok tt w2.
Proof.
  intros Hc cr v.
  eexists _, _. split; [apply INTELICH_stop_ok, Hc |].
  split; [reflexivity |]. split; [reflexivity |]. split; [reflexivity |].
  split; [apply land_lnot_clear |].
  split; [apply INTELICH_close_ok, Hc |].
  split; [reflexivity |]. split; [reflexivity |].
  apply INTELICH_close_null. reflexivity.
Qed.

(** ** The device table *)

Lemma resolve_in_none table v d :
  (forall e, In e table -> ~ (dev_vendor_id e = v /\ dev_device_id e = d)) ->
  resolve_in table v d = None.
Proof.
  unfold resolve_in. induction table as [| e table IH]; intros Hno; simpl.
  - reflexivity.
  - destruct (Z.eqb_spec (dev_vendor_id e) v) as [Hv | Hv];
      destruct (Z.eqb_spec (dev_device_id e) d) as [Hd | Hd]; simpl;
      try (apply IH; intros e' He'; apply Hno; right; exact He').
    exfalso. apply (Hno e); [left; reflexivity | split; assumption].
Qed.

Lemma resolve_in_some table v d e :
  resolve_in table v d = Some e ->
  In e table /\ dev_vendor_id e = v /\ dev_device_id e = d.
Proof.
  unfold resolve_in. intros Hf. apply find_some in Hf.
  destruct Hf as [Hin Hm]. apply andb_true_iff in Hm.
  destruct Hm as [Hv Hd]. apply Z.eqb_eq in Hv, Hd. auto.
Qed.

(** C7.  Vendor 0x1039, device 0x7012 resolves to the SIS7012 row; for
    that family the status register is at 0x18 and the position register
    at 0x16, for the other families it is the other way round; a pair that
    is in no row of the table resolves to nothing. *)
Theorem resolve_sis7012_and_unknown :
  (exists e, resolve 0x1039 0x7012 = Some e /\
             dev_device_type e = DEVICE_SIS) /\
  (forall card, device_type card = DEVICE_SIS ->
     ICH_PO_SR_REG card = 0x18 /\ ICH_PO_PICB_REG card = 0x16) /\
  (forall card, device_type card <> DEVICE_SIS ->
     ICH_PO_SR_REG card = 0x16 /\ ICH_PO_PICB_REG card = 0x18) /\
  (forall v d,
     (forall e, In e ich_devices ->
        ~ (dev_vendor_id e = v /\ dev_device_id e = d)) ->
     resolve v d = None).
Proof.
  split; [eexists; split; reflexivity |].
  split; [| split].
  - intros card Hd. unfold ICH_PO_SR_REG, ICH_PO_PICB_REG. rewrite Hd. auto.
  - intros card Hd. unfold ICH_PO_SR_REG, ICH_PO_PICB_REG.
    destruct (device_type card); try congruence; auto.
  - intros v d. apply resolve_in_none.
Qed.

(** ** Channel count and sample format *)

Lemma land_disable_clear r m b :
  Z.land (funcbit_disable r (Z.lor m b)) b = 0.
Proof. unfold funcbit_disable. bitwise. Qed.

Lemma land_enable_set x b : Z.land (funcbit_enable x b) b = b.
Proof. unfold funcbit_enable. bitwise. Qed.

Lemma land_other_mask r s b :
  Z.land s b = 0 -> Z.land (Z.land r (Z.lnot s)) b = Z.land r b.
Proof.
  intros Hs. rewrite <- Z.land_assoc. f_equal.
  rewrite Z.land_comm. apply land_lnot_clear. rewrite Z.land_comm. exact Hs.
Qed.

Lemma u32_land x b : Z.land (Z.ones 32) b = b -> Z.land (u32 x) b = Z.land x b.
Proof.
  intros Hb. unfold u32, trunc. simpl width_bits.
  rewrite <- Z.land_ones by lia. rewrite <- Z.land_assoc, Hb. reflexivity.
Qed.

(** C6.  The channel/format block ends by writing the global control
    register.  For a family other than ICH4 the effective sample width is
    left as it was (16, as INTELICH_setrate has just set it) whatever
    width was requested, and the 20-bit-sample bit is not set: it is
    written cleared for Standard and NForce, and as it was read for
    SIS7012.  The bit is written set, and 32 effective bits are reported,
    exactly when more than 16 bits were requested, the family is ICH4 and
    the capability bits of the global status read back as the 16-/20-bit
    value. *)
Theorem channels_20bit_only_on_ich4 w card :
  has_card w card ->
  let glob_cnt := u32 (hd 0 (w_ports w)) in
  let glob_stat := u32 (hd 0 (tl (w_ports w))) in
  let twenty := wants_20bit card (bits_set (w_aui w)) glob_stat in
  exists w' cmd evs,
    prepare_channels w = Ok tt w' /\
    w_trace w' = w_trace w ++ evs ++
      [EvOut W32 (baseport_bm card + ICH_GLOB_CNT_REG) cmd] /\
    bits_card (w_aui w') = (if twenty then 32 else bits_card (w_aui w)) /\
    (twenty = true -> pcm_20bit cmd = true) /\
    (twenty = false ->
       pcm_20bit cmd =
       if device_type_eqb (device_type card) DEVICE_SIS
       then pcm_20bit glob_cnt else false) /\
    (device_type card <> DEVICE_INTEL_ICH4 ->
       twenty = false /\ bits_card (w_aui w') = bits_card (w_aui w) /\
       (pcm_20bit glob_cnt = false -> pcm_20bit cmd = false)).
Proof.
  intros Hc glob_cnt glob_stat twenty.
  assert (H20 : Z.land (Z.ones 32) ICH_PCM_20BIT = ICH_PCM_20BIT) by reflexivity.
  assert (Hgoal : forall w' cmd evs,
    prepare_channels w = Ok tt w' ->
    w_trace w' = w_trace w ++ evs ++
      [EvOut W32 (baseport_bm card + ICH_GLOB_CNT_REG) cmd] ->
    bits_card (w_aui w') = (if twenty then 32 else bits_card (w_aui w)) ->
    (twenty = true -> pcm_20bit cmd = true) ->
    (twenty = false ->
       pcm_20bit cmd =
       if device_type_eqb (device_type card) DEVICE_SIS
       then pcm_20bit glob_cnt else false) ->
    exists w' cmd evs,
    prepare_channels w = Ok tt w' /\
    w_trace w' = w_trace w ++ evs ++
      [EvOut W32 (baseport_bm card + ICH_GLOB_CNT_REG) cmd] /\
    bits_card (w_aui w') = (if twenty then 32 else bits_card (w_aui w)) /\
    (twenty = true -> pcm_20bit cmd = true) /\
    (twenty = false ->
       pcm_20bit cmd =
       if device_type_eqb (device_type card) DEVICE_SIS
       then pcm_20bit glob_cnt else false) /\
    (device_type card <> DEVICE_INTEL_ICH4 ->
       twenty = false /\ bits_card (w_aui w') = bits_card (w_aui w) /\
       (pcm_20bit glob_cnt = false -> pcm_20bit cmd = false))).
  { intros w' cmd evs Hrun Htr Hbits Hset Hclr.
    exists w', cmd, evs. repeat (split; [assumption |]).
    intros Hfam.
    assert (Ht : twenty = false).
    { unfold twenty, wants_20bit.
      destruct (device_type card); try congruence;
        rewrite andb_false_r; reflexivity. }
    split; [exact Ht |]. rewrite Ht in Hbits. split; [exact Hbits |].
    intros Hrd. rewrite (Hclr Ht). destruct (device_type_eqb _ _); auto. }
  destruct (device_type_eqb (device_type card) DEVICE_SIS) eqn:Esis.
  - (* SIS7012 *)
    assert (Ht : twenty = false).
    { unfold twenty, wants_20bit. destruct (device_type card); try discriminate.
      rewrite andb_false_r. reflexivity. }
    eapply (Hgoal _ _ [_]).
    + unfold prepare_channels. run_step Hc. rewrite Esis. run Hc. reflexivity.
    + simpl. rewrite <- app_assoc. reflexivity.
    + rewrite Ht. reflexivity.
    + rewrite Ht. discriminate.
    + intros _. unfold pcm_20bit. fold glob_cnt.
      rewrite (u32_land _ _ H20), land_other_mask by reflexivity. reflexivity.
  - destruct (16 <? bits_set (w_aui w)) eqn:Ebits;
      [destruct (device_type_eqb (device_type card) DEVICE_INTEL_ICH4) eqn:Eich;
       [destruct (Z.land glob_stat ICH_SAMPLE_CAP =? ICH_SAMPLE_16_20) eqn:Ecap |] |].
    + (* ICH4, more than 16 bits, capability present *)
      assert (Ht : twenty = true).
      { unfold twenty, wants_20bit. rewrite Ebits, Eich, Ecap. reflexivity. }
      eapply (Hgoal _ _ [_; _]).
      * unfold prepare_channels. run_step Hc. rewrite Esis. run Hc.
        simpl. rewrite Ebits, Eich. run Hc. simpl. fold glob_stat.
        rewrite Ecap. run Hc. reflexivity.
      * simpl. rewrite <- !app_assoc. reflexivity.
      * rewrite Ht. reflexivity.
      * intros _. unfold pcm_20bit.
        rewrite (u32_land _ _ H20), land_enable_set. reflexivity.
      * rewrite Ht. discriminate.
    + assert (Ht : twenty = false).
      { unfold twenty, wants_20bit. rewrite Ebits, Eich, Ecap. reflexivity. }
      eapply (Hgoal _ _ [_; _]).
      * unfold prepare_channels. run_step Hc. rewrite Esis. run Hc.
        simpl. rewrite Ebits, Eich. run Hc. simpl. fold glob_stat.
        rewrite Ecap. run Hc. reflexivity.
      * simpl. rewrite <- !app_assoc. reflexivity.
      * rewrite Ht. reflexivity.
      * rewrite Ht. discriminate.
      * intros _. unfold pcm_20bit. fold glob_cnt.
        rewrite (u32_land _ _ H20), land_disable_clear. reflexivity.
    + assert (Ht : twenty = false).
      { unfold twenty, wants_20bit. rewrite Ebits, Eich. reflexivity. }
      eapply (Hgoal _ _ [_]).
      * unfold prepare_channels. run_step Hc. rewrite Esis. run Hc.
        simpl. rewrite Ebits, Eich. run Hc. reflexivity.
      * simpl. rewrite <- !app_assoc. reflexivity.
      * rewrite Ht. reflexivity.
      * rewrite Ht. discriminate.
      * intros _. unfold pcm_20bit. fold glob_cnt.
        rewrite (u32_land _ _ H20), land_disable_clear. reflexivity.
    + assert (Ht : twenty = false).
      { unfold twenty, wants_20bit. rewrite Ebits. reflexivity. }
      eapply (Hgoal _ _ [_]).
      * unfold prepare_channels. run_step Hc. rewrite Esis. run Hc.
        simpl. rewrite Ebits. run Hc. reflexivity.
      * simpl. rewrite <- !app_assoc. reflexivity.
      * rewrite Ht. reflexivity.
      * rewrite Ht. discriminate.
      * intros _. unfold pcm_20bit. fold glob_cnt.
        rewrite (u32_land _ _ H20), land_disable_clear. reflexivity.
Qed.

(** ** SPDIF sample rate *)

Lemma codec_semaphore_loop_quietly retry w card :
  has_card w card ->
  quietly (codec_semaphore_loop retry) w (fun _ _ => True).
Proof.
  revert w. induction retry as [| r IH]; intros w Hc; simpl.
  - apply quietly_ret. exact I.
  - eapply quietly_bind; [apply (port_read_quietly W8), Hc |].
    intros v w1 e1 Hq _. cbv beta.
    destruct (Z.land v ICH_CODEC_BUSY =? 0).
    + apply quietly_ret. exact I.
    + eapply quietly_bind; [apply emit_quietly |].
      intros _ w2 e2 Hq2 _. cbv beta.
      eapply quietly_mono; [apply IH | auto].
      eapply quiet_has_card; [exact Hq2 |].
      eapply quiet_has_card; eassumption.
Qed.

Lemma snd_intel_codec_semaphore_quietly codec w card :
  has_card w card ->
  quietly (snd_intel_codec_semaphore codec) w (fun _ _ => True).
Proof.
  intros Hc. unfold snd_intel_codec_semaphore, snd_intel_codec_ready.
  eapply quietly_bind; [eapply codec_ready_loop_quietly, Hc |].
  intros _ w1 e1 Hq1 _. cbv beta.
  assert (Hc1 : has_card w1 card) by (eapply quiet_has_card; eassumption).
  eapply quietly_bind; [eapply codec_semaphore_loop_quietly, Hc1 |].
  intros free w2 e2 Hq2 _. cbv beta.
  assert (Hc2 : has_card w2 card) by (eapply quiet_has_card; eassumption).
  destruct free.
  - apply quietly_ret. exact I.
  - eapply quietly_bind; [apply deref_card_quietly, Hc2 |].
    intros c w3 e3 Hq3 _. cbv beta.
    eapply quietly_bind; [apply port_in_quietly |].
    intros v w4 e4 Hq4 _. cbv beta. apply quietly_ret. exact I.
Qed.

Lemma snd_intel_codec_write_quietly reg data w card :
  has_card w card ->
  quietly (snd_intel_codec_write reg data) w
    (fun _ evs => exists pre,
       evs = pre ++ [EvOut W16 (baseport_codec card + reg) (u16 data)]).
Proof.
  intros Hc. unfold snd_intel_codec_write.
  eapply quietly_bind; [eapply snd_intel_codec_semaphore_quietly, Hc |].
  intros _ w1 e1 Hq1 _. cbv beta.
  assert (Hc1 : has_card w1 card) by (eapply quiet_has_card; eassumption).
  eapply quietly_bind; [apply deref_card_quietly, Hc1 |].
  intros c w2 e2 Hq2 [-> ->]. cbv beta.
  eapply quietly_mono; [apply emit_quietly |].
  intros _ evs ->. exists e1. reflexivity.
Qed.

Lemma codec_read_loop_quietly reg data retry w card :
  has_card w card ->
  quietly (codec_read_loop reg data retry) w (fun _ _ => True).
Proof.
  revert data w. induction retry as [| r IH]; intros data w Hc; simpl.
  - apply quietly_ret. exact I.
  - eapply quietly_bind; [apply deref_card_quietly, Hc |].
    intros c w1 e1 Hq1 _. cbv beta.
    eapply quietly_bind; [apply port_in_quietly |].
    intros v w2 e2 Hq2 _. cbv beta.
    assert (Hc2 : has_card w2 card).
    { eapply quiet_has_card; [exact Hq2 |]. eapply quiet_has_card; eassumption. }
    eapply quietly_bind; [apply (port_read_quietly W32), Hc2 |].
    intros st w3 e3 Hq3 _. cbv beta.
    destruct (Z.land st ICH_GLOB_STAT_RCS =? 0).
    + apply quietly_ret. exact I.
    + eapply quietly_bind; [apply emit_quietly |].
      intros _ w4 e4 Hq4 _. cbv beta.
      eapply quietly_mono; [apply IH | auto].
      eapply quiet_has_card; [exact Hq4 |].
      eapply quiet_has_card; eassumption.
Qed.

Lemma snd_intel_codec_read_quietly reg w card :
  has_card w card ->
  quietly (snd_intel_codec_read reg) w (fun _ _ => True).
Proof.
  intros Hc. unfold snd_intel_codec_read.
  eapply quietly_bind; [eapply snd_intel_codec_semaphore_quietly, Hc |].
  intros _ w1 e1 Hq1 _. cbv beta.
  eapply quietly_mono; [eapply codec_read_loop_quietly | auto].
  eapply quiet_has_card; eassumption.
Qed.

Lemma u16_lor_land x c : Z.land (u16 (Z.lor x c)) c = u16 c.
Proof.
  unfold u16, trunc. simpl width_bits. rewrite <- !Z.land_ones by lia.
  bitwise.
Qed.

Lemma prepare_spdif_quietly w card :
  has_card w card ->
  quietly prepare_spdif w (fun _ evs => exists pre cmd,
    evs = pre ++
      [EvOut W16 (baseport_codec card + AC97_SPDIF_CONTROL) cmd; EvDelay 10] /\
    Z.land cmd (spdif_rate_of (freq_card (w_aui w))) =
    u16 (spdif_rate_of (freq_card (w_aui w)))).
Proof.
  intros Hc. unfold prepare_spdif.
  eapply quietly_bind with (P := fun a evs => a = w_aui w /\ evs = []).
  { eexists _, _. split; [reflexivity |]. exists []. split; [apply quiet_refl | auto]. }
  intros aui w1 e1 Hq1 [-> ->]. cbv beta.
  assert (Hc1 : has_card w1 card) by (eapply quiet_has_card; eassumption).
  eapply quietly_bind; [eapply snd_intel_codec_read_quietly, Hc1 |].
  intros r w2 e2 Hq2 _. cbv beta.
  assert (Hc2 : has_card w2 card) by (eapply quiet_has_card; eassumption).
  eapply quietly_bind; [eapply snd_intel_codec_write_quietly, Hc2 |].
  intros _ w3 e3 Hq3 [pre ->]. cbv beta.
  eapply quietly_mono; [apply emit_quietly |].
  intros _ evs ->.
  exists (e2 ++ pre),
    (u16 (Z.lor (Z.land r AC97_SC_SPSR_MASK)
            (spdif_rate_of (freq_card (w_aui w))))).
  split; [rewrite <- !app_assoc; reflexivity |].
  apply u16_lor_land.
Qed.

(** ** The buffer descriptor list *)

(** A loop whose pass [i] stores [f i] and [g i] in the two words of
    descriptor [i]. *)
Lemma for_loop_store_pairs (P : world -> Prop) (body : Z -> M unit)
    (tb : Z) (f g : Z -> Z) :
  (forall w m, P w -> P (with_mem m w)) ->
  (forall i w, P w ->
     body i w =
     Ok tt (with_mem (<[tb + 8 * i + 4 := g i]>
                        (<[tb + 8 * i := f i]> (w_mem w))) w)) ->
  forall passes from w, P w ->
  exists m',
    for_loop from passes body w = Ok tt (with_mem m' w) /\
    (forall i, from <= i < from + Z.of_nat passes ->
       m' !! (tb + 8 * i) = Some (f i) /\
       m' !! (tb + 8 * i + 4) = Some (g i)) /\
    (forall a, a < tb + 8 * from \/ tb + 8 * (from + Z.of_nat passes) <= a ->
       m' !! a = w_mem w !! a).
Proof.
  intros HP Hbody. induction passes as [| n IH]; intros from w Hw.
  - exists (w_mem w). split; [destruct w; reflexivity |].
    split; [intros i Hi; lia | reflexivity].
  - cbn [for_loop]. rewrite (bind_ok _ _ _ _ _ (Hbody from w Hw)).
    set (m1 := <[tb + 8 * from + 4 := g from]>
                 (<[tb + 8 * from := f from]> (w_mem w))).
    destruct (IH (from + 1) (with_mem m1 w) (HP _ _ Hw))
      as (m' & Hrun & Hin & Hout).
    exists m'. split; [exact Hrun |]. split.
    + intros i Hi. destruct (Z.eq_dec i from) as [-> | Hne].
      * rewrite !Hout by lia. simpl. unfold m1.
        rewrite lookup_insert_ne by lia.
        rewrite !lookup_insert_eq. auto.
      * apply Hin. lia.
    + intros a Ha. rewrite Hout by lia. simpl. unfold m1.
      rewrite !lookup_insert_ne by lia. reflexivity.
Qed.

Lemma u32_idem_r a b : u32 (a + u32 b) = u32 (a + b).
Proof. unfold u32, trunc. apply Z.add_mod_idemp_r. simpl. lia. Qed.

Lemma u32_0 : u32 0 = 0.
Proof. reflexivity. Qed.

Lemma bd_length_with_flags len flags :
  0 <= len <= 0xFFFE -> Z.land flags 0xFFFF = 0 ->
  bd_length (u32 (Z.lor len flags)) = len.
Proof.
  intros Hlen Hfl. unfold bd_length.
  rewrite u32_land by reflexivity.
  rewrite Z.land_lor_distr_l, Hfl, Z.lor_0_r.
  change 0xFFFF with (Z.ones 16). rewrite Z.land_ones by lia.
  apply Z.mod_small. lia.
Qed.

Lemma bd_length_plain len : 0 <= len <= 0xFFFE -> bd_length (u32 len) = len.
Proof.
  intros Hlen. rewrite <- (Z.lor_0_r len) at 1.
  apply bd_length_with_flags; [exact Hlen | reflexivity].
Qed.

(** The descriptor-list block only writes the 64 words of the list. *)
Lemma prepare_bdl_run w card cm :
  has_card w card ->
  dm card = Some cm ->
  Z.shiftr (bits_card (w_aui w)) 3 <> 0 ->
  let tb := buffer_descriptor_list card in
  let period := period_size_bytes card in
  let base := pds_cardmem_physicalptr cm (pcmout_buffer card) in
  let samples := period / Z.shiftr (bits_card (w_aui w)) 3 in
  let len := if device_type_eqb (device_type card) DEVICE_SIS
             then period else samples in
  let word := if SBEMU then Z.lor len (Z.shiftl ICH_BD_IOC 16) else len in
  exists m,
    prepare_bdl w = Ok samples (with_mem m w) /\
    (forall i, 0 <= i < ICH_DMABUF_PERIODS ->
       m !! (tb + 8 * i) = Some (u32 (base + i * period)) /\
       m !! (tb + 8 * i + 4) = Some (u32 word)) /\
    (forall i, ICH_DMABUF_PERIODS <= i < ICH_DMABUF_MAX_PERIODS ->
       m !! (tb + 8 * i) = Some 0 /\
       m !! (tb + 8 * i + 4) = Some 0).
Proof.
  intros Hc Hdm Hbps tb period base samples len word.
  set (P := fun w0 : world => has_card w0 card).
  assert (HP : forall w0 m, P w0 -> P (with_mem m w0)) by (intros; assumption).
  assert (Hfill : forall i w0, P w0 ->
    bdl_fill_entry samples i w0 =
    Ok tt (with_mem (<[tb + 8 * i + 4 := u32 word]>
                       (<[tb + 8 * i := u32 (base + i * period)]> (w_mem w0)))
             w0)).
  { intros i w0 Hw0. unfold bdl_fill_entry. run_step Hw0. rewrite Hdm.
    unfold table_store, bind. fold tb period. cbn [w_mem with_mem].
    replace (tb + 4 * (i * 2 + 1)) with (tb + 8 * i + 4) by lia.
    replace (tb + 4 * (i * 2)) with (tb + 8 * i) by lia.
    replace (u32 (pds_cardmem_physicalptr cm
                    (u32 (pcmout_buffer card + u32 (i * period)))))
      with (u32 (base + i * period)).
    2:{ unfold base, pds_cardmem_physicalptr.
        replace (physicalptr cm +
                 (u32 (pcmout_buffer card + u32 (i * period)) - linearptr cm))
          with (physicalptr cm - linearptr cm +
                u32 (pcmout_buffer card + u32 (i * period))) by lia.
        rewrite u32_idem_r, Z.add_assoc, u32_idem_r. f_equal. lia. }
    destruct w0; reflexivity. }
  assert (Hclear : forall i w0, P w0 ->
    bdl_clear_entry i w0 =
    Ok tt (with_mem (<[tb + 8 * i + 4 := 0]>
                       (<[tb + 8 * i := 0]> (w_mem w0))) w0)).
  { intros i w0 Hw0. unfold bdl_clear_entry. run_step Hw0.
    unfold table_store, bind. fold tb. cbn [w_mem with_mem]. rewrite u32_0.
    replace (tb + 4 * (i * 2 + 1)) with (tb + 8 * i + 4) by lia.
    replace (tb + 4 * (i * 2)) with (tb + 8 * i) by lia.
    destruct w0; reflexivity. }
  destruct (for_loop_store_pairs P _ tb _ _ HP Hfill
              (Z.to_nat ICH_DMABUF_PERIODS) 0 w Hc) as (m1 & Hrun1 & Hin1 & _).
  destruct (for_loop_store_pairs P _ tb _ _ HP Hclear
              (Z.to_nat (ICH_DMABUF_MAX_PERIODS - ICH_DMABUF_PERIODS))
              ICH_DMABUF_PERIODS (with_mem m1 w) Hc)
    as (m2 & Hrun2 & Hin2 & Hout2).
  assert (Hslots : forall i, 0 <= i < ICH_DMABUF_PERIODS ->
       m2 !! (tb + 8 * i) = Some (u32 (base + i * period)) /\
       m2 !! (tb + 8 * i + 4) = Some (u32 word)).
  { intros i Hi. unfold ICH_DMABUF_PERIODS in *.
    rewrite !Hout2 by lia. apply Hin1. simpl. lia. }
  exists m2. split.
  { unfold prepare_bdl. run_step Hc. run_pure.
    destruct (Z.eqb_spec (Z.shiftr (bits_card (w_aui w)) 3) 0) as [E | _];
      [contradiction |].
    fold period samples.
    rewrite (bind_ok _ _ _ _ _ Hrun1), (bind_ok _ _ _ _ _ Hrun2). reflexivity. }
  split; [exact Hslots |].
  intros i Hi. apply Hin2. unfold ICH_DMABUF_MAX_PERIODS, ICH_DMABUF_PERIODS in *.
  simpl. lia.
Qed.

(** C2.  After the descriptor-list block has run, each of the first 4 of
    the 32 descriptors holds the physical address of the PCM buffer plus
    [i] periods, and a second word made of the period length in the unit
    of the family (bytes for SIS7012, samples otherwise; with the
    interrupt-on-completion flag in SBEMU builds), whose length field is
    that length for every accepted period size (at most 0xFFFE); the other
    28 descriptors hold address 0 and length 0.  With a period of 4096
    bytes, descriptor 0 points to the buffer base and descriptor 3 to the
    base plus 12288. *)
Theorem bdl_four_periods_rest_zero w card cm :
  has_card w card ->
  dm card = Some cm ->
  Z.shiftr (bits_card (w_aui w)) 3 <> 0 ->
  let tb := buffer_descriptor_list card in
  let period := period_size_bytes card in
  let base := pds_cardmem_physicalptr cm (pcmout_buffer card) in
  let samples := period / Z.shiftr (bits_card (w_aui w)) 3 in
  let len := if device_type_eqb (device_type card) DEVICE_SIS
             then period else samples in
  let word := if SBEMU then Z.lor len (Z.shiftl ICH_BD_IOC 16) else len in
  exists w',
    prepare_bdl w = Ok samples w' /\
    w_aui w' = w_aui w /\ w_trace w' = w_trace w /\
    (forall i, 0 <= i < ICH_DMABUF_PERIODS ->
       w_mem w' !! (tb + 8 * i) = Some (u32 (base + i * period)) /\
       w_mem w' !! (tb + 8 * i + 4) = Some (u32 word)) /\
    (forall i, ICH_DMABUF_PERIODS <= i < ICH_DMABUF_MAX_PERIODS ->
       w_mem w' !! (tb + 8 * i) = Some 0 /\
       w_mem w' !! (tb + 8 * i + 4) = Some 0) /\
    (0 <= len <= 0xFFFE -> bd_length (u32 word) = len) /\
    (period = 4096 ->
       w_mem w' !! tb = Some (u32 base) /\
       w_mem w' !! (tb + 8 * 3) = Some (u32 (base + 12288))).
Proof.
  intros Hc Hdm Hbps tb period base samples len word.
  destruct (prepare_bdl_run w card cm Hc Hdm Hbps) as (m & Hrun & Hslots & Hrest).
  exists (with_mem m w).
  split; [exact Hrun |]. split; [reflexivity |]. split; [reflexivity |].
  split; [exact Hslots |]. split; [exact Hrest |]. split.
  { intros Hlen. unfold word. destruct SBEMU.
    - apply bd_length_with_flags; [exact Hlen | reflexivity].
    - apply bd_length_plain. exact Hlen. }
  intros Hper. split.
  - destruct (Hslots 0) as [H0 _]; [unfold ICH_DMABUF_PERIODS; lia |].
    rewrite Z.mul_0_r, Z.add_0_r, Z.mul_0_l, Z.add_0_r in H0. exact H0.
  - destruct (Hslots 3) as [H3 _]; [unfold ICH_DMABUF_PERIODS; lia |].
    unfold period in Hper. rewrite Hper in H3. exact H3.
Qed.

(** ** The position query *)

(** What one pass of the loop can do to the handle: it may set the
    underrun flag and, only when it accepts a position, store it. *)
Lemma getbufpos_attempt_spec retry w card :
  has_card w card ->
  exists accepted w',
    getbufpos_attempt retry w = Ok accepted w' /\
    has_card w' card /\
    card_dmasize (w_aui w') = card_dmasize (w_aui w) /\
    (accepted = true ->
       card_dma_lastgoodpos (w_aui w') < card_dmasize (w_aui w)) /\
    (accepted = false ->
       card_dma_lastgoodpos (w_aui w') = card_dma_lastgoodpos (w_aui w)).
Proof.
  intros Hc. unfold getbufpos_attempt, MDma_clearbuf.
  run Hc.
  repeat (first [ progress run Hc | branch ]).
  all: eexists _, _; (split; [reflexivity |]).
  all: split; [exact Hc |]; split; [reflexivity |].
  all: split; intros Hacc; try discriminate Hacc; try reflexivity.
  all: cbn; match goal with
            | E : (_ <? _) = true |- _ => apply Z.ltb_lt in E; exact E
            end.
Qed.

Lemma getbufpos_loop_spec retry w card :
  has_card w card ->
  exists accepted w',
    getbufpos_loop retry w = Ok accepted w' /\
    has_card w' card /\
    card_dmasize (w_aui w') = card_dmasize (w_aui w) /\
    (accepted = true ->
       card_dma_lastgoodpos (w_aui w') < card_dmasize (w_aui w)) /\
    (accepted = false ->
       card_dma_lastgoodpos (w_aui w') = card_dma_lastgoodpos (w_aui w)).
Proof.
  revert w. induction retry as [| r IH]; intros w Hc.
  - exists false, w. split; [reflexivity |]. repeat split; auto; try discriminate.
  - destruct (getbufpos_attempt_spec (S r) w card Hc)
      as (acc & w1 & Hrun & Hc1 & Hsz & Hyes & Hno).
    cbn [getbufpos_loop]. rewrite (bind_ok _ _ _ _ _ Hrun).
    destruct acc.
    + exists true, w1. split; [reflexivity |]. repeat split; auto; try discriminate.
    + destruct (IH w1 Hc1) as (acc & w2 & Hrun2 & Hc2 & Hsz2 & Hyes2 & Hno2).
      exists acc, w2. split; [exact Hrun2 |]. split; [exact Hc2 |].
      split; [congruence |]. split.
      * intros Ha. rewrite <- Hsz. apply Hyes2, Ha.
      * intros Ha. rewrite Hno2 by exact Ha. apply Hno. reflexivity.
Qed.

(** C1.  With a card present and the stored last known-good position
    below the declared DMA buffer size, the position query returns, and
    what it returns is below that size and is the position it leaves
    stored.  A freshly computed position is stored only when it is below
    the size; when the 3 attempts run out without one, the stored position
    is returned unchanged. *)
Theorem getbufpos_below_dmasize w card :
  has_card w card ->
  card_dma_lastgoodpos (w_aui w) < card_dmasize (w_aui w) ->
  exists pos accepted w',
    getbufpos_loop 3 w = Ok accepted w' /\
    INTELICH_getbufpos w = Ok pos w' /\
    pos = card_dma_lastgoodpos (w_aui w') /\
    card_dmasize (w_aui w') = card_dmasize (w_aui w) /\
    pos < card_dmasize (w_aui w) /\
    (accepted = false -> pos = card_dma_lastgoodpos (w_aui w)).
Proof.
  intros Hc Hinv.
  destruct (getbufpos_loop_spec 3 w card Hc)
    as (acc & w' & Hrun & Hc' & Hsz & Hyes & Hno).
  exists (card_dma_lastgoodpos (w_aui w')), acc, w'.
  split; [exact Hrun |]. split.
  { unfold INTELICH_getbufpos. rewrite (bind_ok _ _ _ _ _ Hrun).
    run_pure. reflexivity. }
  split; [reflexivity |]. split; [exact Hsz |]. split.
  - destruct acc; [apply Hyes; reflexivity | rewrite Hno by reflexivity; exact Hinv].
  - exact Hno.
Qed.

Lemma bad_index_early retry w card :
  has_card w card -> SBEMU = false ->
  ICH_DMABUF_PERIODS <= u8 (hd 0 (w_ports w)) ->
  (1 < retry)%nat ->
  getbufpos_attempt retry w =
  Ok false
    (with_io (tl (w_ports w))
       (w_trace w ++ [EvIn W8 (baseport_bm card + ICH_PO_CIV_REG)
                        (u8 (hd 0 (w_ports w)))]) w).
Proof.
  intros Hc HS Hbad Hretry. unfold getbufpos_attempt. run Hc.
  rewrite HS. apply Z.leb_le in Hbad. rewrite Hbad.
  apply Nat.ltb_lt in Hretry. rewrite Hretry. reflexivity.
Qed.

Lemma bad_index_last retry w card :
  has_card w card -> SBEMU = false ->
  ICH_DMABUF_PERIODS <= u8 (hd 0 (w_ports w)) ->
  (retry <= 1)%nat ->
  getbufpos_attempt retry w =
  Ok false
    (with_aui (flag_underrun (w_aui w))
       (with_io (tl (w_ports w))
          (w_trace w ++ [EvIn W8 (baseport_bm card + ICH_PO_CIV_REG)
                           (u8 (hd 0 (w_ports w)));
                         EvClearBuf;
                         EvOut W8 (baseport_bm card + ICH_PO_CIV_REG) 0]) w)).
Proof.
  intros Hc HS Hbad Hretry. unfold getbufpos_attempt, MDma_clearbuf. run Hc.
  rewrite HS. apply Z.leb_le in Hbad. rewrite Hbad.
  assert (Hr : (1 <? retry)%nat = false) by (apply Nat.ltb_ge; exact Hretry).
  cbn [negb andb]. rewrite Hr. run Hc.
  unfold ret, flag_underrun. cbn. rewrite <- !app_assoc. reflexivity.
Qed.

(** C3 (amended).  In a build without SBEMU, a current index of 4 or more
    ends the attempt at once and consumes it; on the first two attempts
    nothing else is done, and only on the last one the buffer is cleared,
    0 is written to the current-index register and the underrun flag is
    set.  Three such readings in a row therefore return the stored
    position with the buffer cleared once.  In a build with SBEMU the
    index is not checked: the attempt goes on to read the position
    register and never writes to a port. *)
Theorem bad_index_clears_on_last_attempt_only w card :
  has_card w card ->
  let civ := baseport_bm card + ICH_PO_CIV_REG in
  let index := u8 (hd 0 (w_ports w)) in
  (SBEMU = false -> ICH_DMABUF_PERIODS <= index ->
     forall retry,
       ((1 < retry)%nat ->
        getbufpos_attempt retry w =
        Ok false (with_io (tl (w_ports w))
                    (w_trace w ++ [EvIn W8 civ index]) w)) /\
       ((retry <= 1)%nat ->
        getbufpos_attempt retry w =
        Ok false
          (with_aui (flag_underrun (w_aui w))
             (with_io (tl (w_ports w))
                (w_trace w ++ [EvIn W8 civ index; EvClearBuf; EvOut W8 civ 0])
                w)))) /\
  (SBEMU = false ->
     forall a b c rest,
       w_ports w = a :: b :: c :: rest ->
       ICH_DMABUF_PERIODS <= u8 a -> ICH_DMABUF_PERIODS <= u8 b ->
       ICH_DMABUF_PERIODS <= u8 c ->
       INTELICH_getbufpos w =
       Ok (card_dma_lastgoodpos (w_aui w))
          (with_aui (flag_underrun (w_aui w))
             (with_io rest
                (w_trace w ++ [EvIn W8 civ (u8 a); EvIn W8 civ (u8 b);
                               EvIn W8 civ (u8 c); EvClearBuf;
                               EvOut W8 civ 0]) w))) /\
  (SBEMU = true ->
     forall retry, exists accepted w' evs,
       getbufpos_attempt retry w = Ok accepted w' /\
       w_trace w' = w_trace w ++
         [EvIn W8 civ index;
          EvIn W16 (baseport_bm card + ICH_PO_PICB_REG card)
            (u16 (hd 0 (tl (w_ports w))))] ++ evs /\
       existsb is_port_write evs = false).
Proof.
  intros Hc civ index. split; [| split].
  - intros HS Hbad retry. split; intros Hr.
    + apply bad_index_early; assumption.
    + apply bad_index_last; assumption.
  - intros HS a b c rest Hports Ha Hb Hcc.
    unfold INTELICH_getbufpos. cbn [getbufpos_loop]. run_pure.
    rewrite (bind_ok _ _ _ _ _ (bad_index_early 3 w card Hc HS
               ltac:(rewrite Hports; exact Ha) ltac:(lia))).
    rewrite Hports. cbn [hd tl]. cbv beta iota. run_pure.
    set (w1 := with_io _ _ w).
    rewrite (bind_ok _ _ _ _ _ (bad_index_early 2 w1 card Hc HS
               ltac:(exact Hb) ltac:(lia))).
    subst w1. cbn [w_ports w_trace with_io hd tl]. cbv beta iota. run_pure.
    set (w2 := with_io _ _ _).
    rewrite (bind_ok _ _ _ _ _ (bad_index_last 1 w2 card Hc HS
               ltac:(exact Hcc) ltac:(lia))).
    subst w2. cbn. rewrite <- !app_assoc. reflexivity.
  - intros HS retry. unfold getbufpos_attempt, MDma_clearbuf. run Hc.
    rewrite HS. cbn [negb andb]. run Hc.
    repeat (first [ progress run Hc | branch ]).
    all: eexists _, _, _; (split; [reflexivity |]).
    all: cbn [w_trace w_ports with_io with_aui]; rewrite <- ?app_assoc.
    all: split; [cbn [app]; reflexivity | reflexivity].
Qed.

(** ** Rate selection *)

Lemma modify_card_ok f w card :
  has_card w card ->
  modify_card f w =
  Ok tt (with_aui (set_card_private_data (Some (f card)) (w_aui w)) w).
Proof. intros Hc. unfold modify_card. rewrite Hc. reflexivity. Qed.

Lemma setrate_freq_range vra freq :
  vra <> 0 ->
  8000 <= setrate_freq vra freq <= 48000 /\
  (freq < 8000 -> setrate_freq vra freq = 8000) /\
  (48000 < freq -> setrate_freq vra freq = 48000) /\
  (8000 <= freq <= 48000 -> setrate_freq vra freq = freq).
Proof.
  intros Hv. unfold setrate_freq.
  destruct (Z.eqb_spec vra 0); [contradiction |].
  destruct (Z.ltb_spec freq 8000); destruct (Z.ltb_spec 48000 freq); lia.
Qed.

Lemma setrate_freq_fixed freq : setrate_freq 0 freq = 48000.
Proof. reflexivity. Qed.

Lemma setrate_configure_ok w card :
  has_card w card ->
  setrate_configure w =
  Ok tt
    (with_aui (configured card (u32 (hd 0 (w_ports w))) (w_aui w))
       (with_io (tl (w_ports w))
          (w_trace w ++
             [EvInitBuf (pcmout_bufsize card) ICH_DMABUF_ALIGN
                (u32 (hd 0 (w_ports w)))]) w)).
Proof.
  intros Hc. unfold setrate_configure. run Hc.
  unfold bind at 1. unfold MDma_init_pcmoutbuf. cbv beta iota. run_norm.
  unfold modify_card. cbn. rewrite Hc. reflexivity.
Qed.

(** *** What no driver function changes *)

Lemma preserves_ret {A} (a : A) : preserves same_vra (ret a).
Proof. intros w a' w' E. inversion E. reflexivity. Qed.

Lemma preserves_bind {A B} (m : M A) (k : A -> M B) :
  preserves same_vra m -> (forall a, preserves same_vra (k a)) ->
  preserves same_vra (bind m k).
Proof.
  intros Hm Hk w b w' E. apply bind_inv in E.
  destruct E as (a & w1 & E1 & E2).
  unfold same_vra. rewrite (Hk a w1 b w' E2). apply (Hm w a w1 E1).
Qed.

Lemma preserves_fault {A} : preserves same_vra (@fault world A).
Proof. intros w a w' E. discriminate. Qed.

Lemma preserves_get_aui : preserves same_vra get_aui.
Proof. intros w a w' E. inversion E. reflexivity. Qed.

Lemma preserves_deref_card : preserves same_vra deref_card.
Proof.
  intros w a w' E. unfold deref_card in E.
  destruct (card_private_data (w_aui w)); inversion E. reflexivity.
Qed.

Lemma preserves_emit e : preserves same_vra (emit e).
Proof. intros w a w' E. inversion E. reflexivity. Qed.

Lemma preserves_port_in sz port : preserves same_vra (port_in sz port).
Proof. intros w a w' E. inversion E. reflexivity. Qed.

Lemma preserves_gettimeu : preserves same_vra pds_gettimeu.
Proof.
  intros w a w' E. unfold pds_gettimeu in E.
  destruct (w_clock w); inversion E. reflexivity.
Qed.

Lemma preserves_init_pcmoutbuf a b :
  preserves same_vra (MDma_init_pcmoutbuf a b).
Proof. intros w x w' E. inversion E. reflexivity. Qed.

Lemma preserves_table_store tb k v : preserves same_vra (table_store tb k v).
Proof. intros w x w' E. inversion E. reflexivity. Qed.

Lemma preserves_modify_aui f :
  (forall a, card_private_data (f a) = card_private_data a) ->
  preserves same_vra (modify_aui f).
Proof.
  intros Hf w x w' E. inversion E. unfold same_vra. simpl.
  rewrite Hf. reflexivity.
Qed.

Lemma preserves_modify_card f :
  (forall c, vra (f c) = vra c) -> preserves same_vra (modify_card f).
Proof.
  intros Hf w x w' E. unfold modify_card in E. unfold same_vra.
  destruct (card_private_data (w_aui w)) as [c |]; inversion E.
  simpl. rewrite Hf. reflexivity.
Qed.

(** Frame reasoning through a composite function; [known] closes the
    calls whose frame has been proved already. *)
Ltac frame_with known :=
  repeat first
    [ known
    | apply preserves_ret
    | apply preserves_fault
    | apply preserves_get_aui
    | apply preserves_deref_card
    | apply preserves_emit
    | apply preserves_port_in
    | apply preserves_gettimeu
    | apply preserves_init_pcmoutbuf
    | apply preserves_table_store
    | apply preserves_modify_aui; intros ?; reflexivity
    | apply preserves_modify_card; intros ?; reflexivity
    | match goal with
      | |- preserves _ (if ?b then _ else _) => destruct b
      | |- preserves _ (match ?x with _ => _ end) => destruct x
      end
    | apply preserves_bind; [| intros ?] ].

Ltac frame := frame_with fail.

Lemma preserves_read_8 reg : preserves same_vra (snd_intel_read_8 reg).
Proof. unfold snd_intel_read_8, inb. frame. Qed.
Lemma preserves_read_16 reg : preserves same_vra (snd_intel_read_16 reg).
Proof. unfold snd_intel_read_16, inw. frame. Qed.
Lemma preserves_read_32 reg : preserves same_vra (snd_intel_read_32 reg).
Proof. unfold snd_intel_read_32, inl. frame. Qed.
Lemma preserves_write_8 reg v : preserves same_vra (snd_intel_write_8 reg v).
Proof. unfold snd_intel_write_8, outb, port_out. frame. Qed.
Lemma preserves_write_32 reg v : preserves same_vra (snd_intel_write_32 reg v).
Proof. unfold snd_intel_write_32, outl, port_out. frame. Qed.

Ltac frame_io :=
  first [ apply preserves_read_8 | apply preserves_read_16
        | apply preserves_read_32 | apply preserves_write_8
        | apply preserves_write_32 ].

Lemma preserves_codec_ready_loop codec retry :
  preserves same_vra (codec_ready_loop codec retry).
Proof.
  induction retry as [| r IH]; cbn [codec_ready_loop];
    unfold pds_delay_10us; frame_with ltac:(first [frame_io | exact IH]).
Qed.

Lemma preserves_codec_semaphore_loop retry :
  preserves same_vra (codec_semaphore_loop retry).
Proof.
  induction retry as [| r IH]; cbn [codec_semaphore_loop];
    unfold pds_delay_10us; frame_with ltac:(first [frame_io | exact IH]).
Qed.

Lemma preserves_codec_read_loop reg data retry :
  preserves same_vra (codec_read_loop reg data retry).
Proof.
  revert data. induction retry as [| r IH]; intros data;
    cbn [codec_read_loop]; unfold pds_delay_10us, inw;
    frame_with ltac:(first [frame_io | apply IH]).
Qed.

Lemma preserves_wait_dma_loop retry :
  preserves same_vra (prepare_wait_dma_loop retry).
Proof.
  induction retry as [| r IH]; cbn [prepare_wait_dma_loop];
    unfold pds_delay_10us; frame_with ltac:(first [frame_io | exact IH]).
Qed.

Lemma preserves_for_loop body passes from :
  (forall i, preserves same_vra (body i)) ->
  preserves same_vra (for_loop from passes body).
Proof.
  intros Hbody. revert from.
  induction passes as [| n IH]; intros from; cbn [for_loop];
    frame_with ltac:(first [apply Hbody | apply IH]).
Qed.

Lemma preserves_measure_poll starttime fuel :
  preserves same_vra (measure_poll starttime fuel).
Proof.
  induction fuel as [| n IH]; cbn [measure_poll].
  - intros w a w' E. discriminate.
  - frame_with ltac:(first [frame_io | exact IH]).
Qed.

Lemma preserves_measure_poll_clock starttime :
  preserves same_vra
    (fun w => measure_poll starttime (S (length (w_clock w))) w).
Proof. intros w a w' E. exact (preserves_measure_poll _ _ _ _ _ E). Qed.

Lemma preserves_codec_semaphore codec :
  preserves same_vra (snd_intel_codec_semaphore codec).
Proof.
  unfold snd_intel_codec_semaphore, snd_intel_codec_ready, inw.
  frame_with ltac:(first [ apply preserves_codec_ready_loop
                         | apply preserves_codec_semaphore_loop ]).
Qed.

Lemma preserves_codec_write reg data :
  preserves same_vra (snd_intel_codec_write reg data).
Proof.
  unfold snd_intel_codec_write, outw, port_out.
  frame_with ltac:(apply preserves_codec_semaphore).
Qed.

Lemma preserves_codec_read reg :
  preserves same_vra (snd_intel_codec_read reg).
Proof.
  unfold snd_intel_codec_read.
  frame_with ltac:(first [ apply preserves_codec_semaphore
                         | apply preserves_codec_read_loop ]).
Qed.

Lemma preserves_prepare_playback :
  preserves same_vra snd_intel_prepare_playback.
Proof.
  unfold snd_intel_prepare_playback, prepare_reset, prepare_channels,
    prepare_spdif, prepare_dac_rate, prepare_bdl, prepare_publish,
    long_of_float, pds_delay_10us.
  frame_with ltac:(first
    [ frame_io
    | apply preserves_wait_dma_loop
    | apply preserves_codec_read
    | apply preserves_codec_write
    | apply preserves_for_loop; intros ?;
      unfold bdl_fill_entry, bdl_clear_entry ]).
Qed.

Lemma preserves_start : preserves same_vra INTELICH_start.
Proof.
  unfold INTELICH_start, snd_intel_codec_ready.
  frame_with ltac:(first [frame_io | apply preserves_codec_ready_loop]).
Qed.

Lemma preserves_stop : preserves same_vra INTELICH_stop.
Proof. unfold INTELICH_stop. frame_with frame_io. Qed.

Lemma preserves_measure : preserves same_vra snd_intel_measure_ac97_clock.
Proof.
  unfold snd_intel_measure_ac97_clock, MDma_clearbuf.
  frame_with ltac:(first
    [ frame_io
    | apply preserves_prepare_playback
    | apply preserves_start
    | apply preserves_stop
    | apply preserves_measure_poll_clock ]).
Qed.

Lemma measure_restores_freq w w' :
  snd_intel_measure_ac97_clock w = Ok tt w' ->
  freq_card (w_aui w') = freq_card (w_aui w).
Proof.
  unfold snd_intel_measure_ac97_clock. rewrite bind_get_aui.
  intros E.
  repeat (apply bind_inv in E; destruct E as (? & ? & ?E & E)).
  unfold modify_card in E.
  destruct (card_private_data (w_aui _)) in E; inversion E; subst w'.
  match goal with
  | E1 : modify_aui (set_freq_card _) _ = Ok _ _ |- _ =>
      inversion E1; reflexivity
  end.
Qed.

Lemma calibrate_frame w w' card :
  has_card w card ->
  setrate_calibrate w = Ok tt w' ->
  freq_card (w_aui w') = freq_card (w_aui w) /\
  exists card', has_card w' card' /\ vra card' = vra card.
Proof.
  intros Hc. unfold setrate_calibrate. run_step Hc.
  destruct (_ && _).
  - intros E. split; [apply measure_restores_freq, E |].
    pose proof (preserves_measure _ _ _ E) as Hv.
    unfold same_vra in Hv. rewrite Hc in Hv. simpl in Hv.
    unfold has_card.
    destruct (card_private_data (w_aui w')) as [c' |]; [| discriminate].
    exists c'. split; [reflexivity |]. simpl in Hv. congruence.
  - intros E. inversion E; subst w'. split; [reflexivity |].
    exists card. split; [exact Hc | reflexivity].
Qed.

(** The frequency with which INTELICH_setrate enters
    snd_intel_prepare_playback. *)
Lemma setrate_hands_over w w' card :
  has_card w card ->
  INTELICH_setrate w = Ok tt w' ->
  exists w0 w1,
    setrate_calibrate w = Ok tt w0 /\
    setrate_configure w0 = Ok tt w1 /\
    snd_intel_prepare_playback w1 = Ok tt w' /\
    chan_card (w_aui w1) = 2 /\ bits_card (w_aui w1) = 16 /\
    freq_card (w_aui w1) = setrate_freq (vra card) (freq_card (w_aui w)).
Proof.
  intros Hc E. unfold INTELICH_setrate in E.
  apply bind_inv in E. destruct E as ([] & w0 & E0 & E).
  apply bind_inv in E. destruct E as ([] & w1 & E1 & E).
  destruct (calibrate_frame _ _ _ Hc E0) as (Hf & card' & Hc' & Hv).
  exists w0, w1. split; [exact E0 |]. split; [exact E1 |].
  split; [exact E |].
  rewrite (setrate_configure_ok _ _ Hc') in E1. inversion E1.
  split; [reflexivity |]. split; [reflexivity |].
  simpl. rewrite Hv, Hf. reflexivity.
Qed.

(** *** Preparation always returns when no clock correction is pending *)

Lemma steady_refl w : steady w w.
Proof. unfold steady. auto. Qed.

Lemma steady_trans w1 w2 w3 : steady w1 w2 -> steady w2 w3 -> steady w1 w3.
Proof.
  unfold steady. intros (Hc1 & Hf1 & Hn1 & Hb1) (Hc2 & Hf2 & Hn2 & Hb2).
  repeat split; try congruence.
  destruct Hb2 as [Hb2 | Hb2]; [rewrite Hb2; exact Hb1 | right; exact Hb2].
Qed.

Lemma quiet_steady w w' evs : quiet w w' evs -> steady w w'.
Proof. unfold quiet, steady. intros (-> & _). auto. Qed.

Lemma steady_has_card w w' card : steady w w' -> has_card w card -> has_card w' card.
Proof. unfold steady, has_card. intros (-> & _). auto. Qed.

Lemma quietly_steadily {A} (m : M A) w (Q : A -> list event -> Prop) :
  quietly m w Q -> returns m w (fun _ w' => steady w w').
Proof.
  intros Hq. eapply returns_mono; [exact Hq |].
  intros a w' (evs & Hqu & _). eapply quiet_steady, Hqu.
Qed.

Lemma returns_steady_bind {A B} (m : M A) (k : A -> M B) w :
  returns m w (fun _ w1 => steady w w1) ->
  (forall a w1, steady w w1 -> returns (k a) w1 (fun _ w2 => steady w1 w2)) ->
  returns (bind m k) w (fun _ w2 => steady w w2).
Proof.
  intros Hm Hk. apply returns_bind. eapply returns_mono; [exact Hm |].
  intros a w1 Hs. eapply returns_mono; [apply Hk, Hs |].
  intros b w2 Hs2. cbv beta in *. eapply steady_trans; eassumption.
Qed.

Lemma prepare_wait_dma_loop_quietly retry w card :
  has_card w card ->
  quietly (prepare_wait_dma_loop retry) w (fun _ _ => True).
Proof.
  revert w. induction retry as [| r IH]; intros w Hc; simpl.
  - apply quietly_ret. exact I.
  - eapply quietly_bind; [apply deref_card_quietly, Hc |].
    intros c w0 e0 Hq0 _. cbv beta.
    assert (Hc0 : has_card w0 card) by (eapply quiet_has_card; eassumption).
    eapply quietly_bind; [apply (port_read_quietly W8), Hc0 |].
    intros v w1 e1 Hq _. cbv beta.
    destruct (negb (Z.land v ICH_PO_SR_DCH =? 0)).
    + apply quietly_ret. exact I.
    + eapply quietly_bind; [apply emit_quietly |].
      intros _ w2 e2 Hq2 _. cbv beta.
      eapply quietly_mono; [apply IH | auto].
      eapply quiet_has_card; [exact Hq2 |].
      eapply quiet_has_card; eassumption.
Qed.

Lemma prepare_reset_steady w card :
  has_card w card -> returns prepare_reset w (fun _ w' => steady w w').
Proof.
  intros Hc. unfold returns, prepare_reset. run Hc.
  eexists _, _. split; [reflexivity |]. unfold steady. cbn. auto.
Qed.

Lemma prepare_channels_steady w card :
  has_card w card -> returns prepare_channels w (fun _ w' => steady w w').
Proof.
  intros Hc. unfold returns, prepare_channels. run Hc.
  repeat (first [ progress run Hc | branch ]).
  all: eexists _, _; (split; [reflexivity |]).
  all: unfold steady; cbn; auto.
Qed.

Lemma prepare_dac_rate_steady w card :
  has_card w card ->
  f_nonzero (ac97_clock_corrector card) = false ->
  returns prepare_dac_rate w (fun _ w' => steady w w').
Proof.
  intros Hc Hz. unfold returns, prepare_dac_rate. run Hc. rewrite Hz.
  change (returns (snd_intel_codec_write AC97_PCM_FRONT_DAC_RATE (freq_card (w_aui w)) ;;; pds_delay_10us 1600) w (fun _ w' => steady w w')).
  eapply (quietly_steadily _ _ (fun _ _ => True)).
  eapply quietly_bind; [eapply snd_intel_codec_write_quietly, Hc |].
  intros _ w1 e1 Hq1 _. cbv beta.
  eapply quietly_mono; [apply emit_quietly |].
  intros ? ? ?. exact I.
Qed.

Lemma prepare_publish_steady pss w card cm :
  has_card w card -> dm card = Some cm ->
  returns (prepare_publish pss) w (fun _ w' => steady w w').
Proof.
  intros Hc Hdm. unfold returns, prepare_publish. run Hc. rewrite Hdm. run Hc.
  destruct SBEMU; run Hc; (eexists _, _; split; [reflexivity |]);
    unfold steady; cbn; auto.
Qed.

Lemma prepare_bdl_steady w card cm :
  has_card w card -> dm card = Some cm ->
  bits_card (w_aui w) = 16 \/ bits_card (w_aui w) = 32 ->
  returns prepare_bdl w (fun _ w' => steady w w').
Proof.
  intros Hc Hdm Hbits.
  assert (Hbps : Z.shiftr (bits_card (w_aui w)) 3 <> 0)
    by (destruct Hbits as [-> | ->]; discriminate).
  destruct (prepare_bdl_run w card cm Hc Hdm Hbps) as (m & Hrun & _).
  eexists _, _. split; [exact Hrun |]. unfold steady. cbn. auto.
Qed.

Lemma prepare_playback_returns w card cm :
  has_card w card -> dm card = Some cm ->
  f_nonzero (ac97_clock_corrector card) = false ->
  bits_card (w_aui w) = 16 ->
  returns snd_intel_prepare_playback w (fun _ w' => steady w w').
Proof.
  intros Hc Hdm Hz Hbits. unfold snd_intel_prepare_playback.
  apply returns_steady_bind.
  { eapply quietly_steadily, prepare_wait_dma_loop_quietly, Hc. }
  intros _ w1 S1. apply returns_steady_bind.
  { eapply prepare_reset_steady, steady_has_card; eassumption. }
  intros _ w2 S2. pose proof (steady_trans _ _ _ S1 S2) as S12.
  apply returns_steady_bind.
  { eapply prepare_channels_steady, steady_has_card; eassumption. }
  intros _ w3 S3. pose proof (steady_trans _ _ _ S12 S3) as S13.
  apply returns_steady_bind.
  { eapply quietly_steadily, prepare_spdif_quietly, steady_has_card; eassumption. }
  intros _ w4 S4. pose proof (steady_trans _ _ _ S13 S4) as S14.
  apply returns_steady_bind.
  { eapply prepare_dac_rate_steady; [eapply steady_has_card; eassumption | exact Hz]. }
  intros _ w5 S5. pose proof (steady_trans _ _ _ S14 S5) as S15.
  apply returns_steady_bind.
  { eapply prepare_bdl_steady;
      [eapply steady_has_card; eassumption | exact Hdm |].
    destruct S15 as (_ & _ & _ & [Hb | Hb]);
      [left; rewrite Hb; exact Hbits | right; exact Hb]. }
  intros pss w6 S6. pose proof (steady_trans _ _ _ S15 S6) as S16.
  eapply prepare_publish_steady; [eapply steady_has_card; eassumption | exact Hdm].
Qed.

Lemma setrate_returns w card cm :
  has_card w card -> dm card = Some cm ->
  f_nonzero (ac97_clock_corrector card) = false ->
  device_type card <> DEVICE_INTEL \/ ac97_clock_detected card <> 0 ->
  exists w',
    INTELICH_setrate w = Ok tt w' /\
    chan_card (w_aui w') = 2 /\
    (bits_card (w_aui w') = 16 \/ bits_card (w_aui w') = 32) /\
    freq_card (w_aui w') = setrate_freq (vra card) (freq_card (w_aui w)).
Proof.
  intros Hc Hdm Hz Hskip.
  assert (Hcal : setrate_calibrate w = Ok tt w).
  { unfold setrate_calibrate. run_step Hc.
    destruct Hskip as [Hd | Hd].
    - destruct (device_type card); try congruence; reflexivity.
    - destruct (Z.eqb_spec (ac97_clock_detected card) 0); [contradiction |].
      rewrite andb_false_r. reflexivity. }
  pose proof (setrate_configure_ok w card Hc) as Hcfg.
  set (w1 := with_aui _ _) in Hcfg.
  destruct (prepare_playback_returns w1
              (set_period_size_bytes
                 (u32 (hd 0 (w_ports w)) / ICH_DMABUF_PERIODS) card) cm)
    as ([] & w' & Hrun & Hcard & Hfreq & Hchan & Hb); try reflexivity; try assumption.
  exists w'. split.
  { unfold INTELICH_setrate.
    rewrite (bind_ok _ _ _ _ _ Hcal), (bind_ok _ _ _ _ _ Hcfg). exact Hrun. }
  split; [rewrite Hchan; reflexivity |].
  split; [exact Hb |]. rewrite Hfreq. reflexivity.
Qed.

(** C5.  INTELICH_setrate enters snd_intel_prepare_playback with the card
    frequency forced to 48000 when the variable-rate flag of the card is
    clear, and clamped into [8000, 48000] when it is set: requests below
    8000 become 8000, requests above 48000 become 48000, requests in
    between are kept.  When no clock measurement is due and no clock
    correction is stored, the call returns and that frequency is the one
    the caller sees afterwards. *)
Theorem setrate_clamps_or_forces_48000 w card :
  has_card w card ->
  let request := freq_card (w_aui w) in
  let chosen := setrate_freq (vra card) request in
  (vra card = 0 -> chosen = 48000) /\
  (vra card <> 0 ->
     8000 <= chosen <= 48000 /\
     (request < 8000 -> chosen = 8000) /\
     (48000 < request -> chosen = 48000) /\
     (8000 <= request <= 48000 -> chosen = request)) /\
  (forall w', INTELICH_setrate w = Ok tt w' ->
     exists w0 w1,
       setrate_calibrate w = Ok tt w0 /\
       setrate_configure w0 = Ok tt w1 /\
       snd_intel_prepare_playback w1 = Ok tt w' /\
       freq_card (w_aui w1) = chosen) /\
  (forall cm,
     dm card = Some cm ->
     f_nonzero (ac97_clock_corrector card) = false ->
     device_type card <> DEVICE_INTEL \/ ac97_clock_detected card <> 0 ->
     exists w', INTELICH_setrate w = Ok tt w' /\
                freq_card (w_aui w') = chosen).
Proof.
  intros Hc request chosen. split; [| split; [| split]].
  - intros Hv. unfold chosen. rewrite Hv. apply setrate_freq_fixed.
  - intros Hv. apply setrate_freq_range, Hv.
  - intros w' Hrun.
    destruct (setrate_hands_over w w' card Hc Hrun)
      as (w0 & w1 & Hcal & Hcfg & Hprep & _ & _ & Hfreq).
    exists w0, w1. auto.
  - intros cm Hdm Hz Hskip.
    destruct (setrate_returns w card cm Hc Hdm Hz Hskip)
      as (w' & Hrun & _ & _ & Hfreq).
    exists w'. split; [exact Hrun | exact Hfreq].
Qed.

End Claims.
(** ** The statements at concrete inputs *)

(** C1 at a Standard card with period 4096 and a 16384-byte buffer: the
    hardware reports period 1 with 100 samples left. *)
Lemma getbufpos_below_dmasize_witness :
  has_card (sample_world DEVICE_INTEL 0 48000 16 [1; 100; 1])
           (sample_card DEVICE_INTEL 0) /\
  card_dma_lastgoodpos (w_aui (sample_world DEVICE_INTEL 0 48000 16 [1; 100; 1]))
  < card_dmasize (w_aui (sample_world DEVICE_INTEL 0 48000 16 [1; 100; 1])) /\
  exists pos w',
    INTELICH_getbufpos (H := headers false)
      (sample_world DEVICE_INTEL 0 48000 16 [1; 100; 1]) = Ok pos w' /\
    pos < 16384.
Proof.
  split; [reflexivity |]. split; [reflexivity |].
  destruct (getbufpos_below_dmasize (H := headers false)
              (sample_world DEVICE_INTEL 0 48000 16 [1; 100; 1])
              (sample_card DEVICE_INTEL 0) eq_refl eq_refl)
    as (pos & acc & w' & _ & Hrun & _ & _ & Hlt & _).
  exists pos, w'. split; [exact Hrun | exact Hlt].
Defined.

(** C2 at the same card (Scenario B): period 4096, buffer base at
    physical 0x200100. *)
Lemma bdl_four_periods_rest_zero_witness :
  has_card (sample_world DEVICE_INTEL 0 48000 16 []) (sample_card DEVICE_INTEL 0) /\
  dm (sample_card DEVICE_INTEL 0) =
    Some {| linearptr := 0x100000; physicalptr := 0x200000 |} /\
  Z.shiftr (bits_card (w_aui (sample_world DEVICE_INTEL 0 48000 16 []))) 3 <> 0 /\
  exists w',
    prepare_bdl (H := headers true) (sample_world DEVICE_INTEL 0 48000 16 []) =
      Ok 2048 w' /\
    w_mem w' !! 0x100000 = Some 0x200100 /\
    w_mem w' !! (0x100000 + 8 * 3) = Some (0x200100 + 12288) /\
    w_mem w' !! (0x100000 + 8 * 4) = Some 0 /\
    w_mem w' !! (0x100000 + 8 * 31 + 4) = Some 0.
Proof.
  assert (Hbps : Z.shiftr (bits_card
            (w_aui (sample_world DEVICE_INTEL 0 48000 16 []))) 3 <> 0)
    by discriminate.
  split; [reflexivity |]. split; [reflexivity |]. split; [exact Hbps |].
  destruct (bdl_four_periods_rest_zero (H := headers true)
              (sample_world DEVICE_INTEL 0 48000 16 [])
              (sample_card DEVICE_INTEL 0)
              {| linearptr := 0x100000; physicalptr := 0x200000 |}
              eq_refl eq_refl Hbps)
    as (w' & Hrun & _ & _ & _ & Hrest & _ & Hscn).
  exists w'. split; [exact Hrun |].
  destruct (Hscn eq_refl) as [H0 H3].
  split; [exact H0 |]. split; [exact H3 |].
  split; [apply (Hrest 4); split; [discriminate | reflexivity]
         | apply (Hrest 31); split; [discriminate | reflexivity]].
Defined.

(** C3 (amended) in a build without SBEMU: three readings of index 7. *)
Lemma bad_index_clears_on_last_attempt_only_witness :
  has_card (sample_world DEVICE_INTEL 0 48000 16 [7; 7; 7])
           (sample_card DEVICE_INTEL 0) /\
  INTELICH_getbufpos (H := headers false)
    (sample_world DEVICE_INTEL 0 48000 16 [7; 7; 7]) =
  Ok 0
    (with_aui
       (flag_underrun (H := headers false)
          (sample_aui DEVICE_INTEL 0 48000 16))
       (with_io []
          [EvIn W8 0xd014 7; EvIn W8 0xd014 7; EvIn W8 0xd014 7;
           EvClearBuf; EvOut W8 0xd014 0]
          (sample_world DEVICE_INTEL 0 48000 16 [7; 7; 7]))).
Proof.
  split; [reflexivity |].
  destruct (bad_index_clears_on_last_attempt_only (H := headers false)
              (sample_world DEVICE_INTEL 0 48000 16 [7; 7; 7])
              (sample_card DEVICE_INTEL 0) eq_refl)
    as (_ & Hthree & _).
  assert (Hbad : ICH_DMABUF_PERIODS <= u8 7) by discriminate.
  exact (Hthree eq_refl 7 7 7 [] eq_refl Hbad Hbad Hbad).
Defined.

(** C3 as stated fails: the first reading of index 7 is passed over in
    silence.  Without SBEMU the next attempt succeeds and the buffer is
    never cleared, the index never written, the underrun flag never set;
    with SBEMU the index is not even checked and the position register is
    read next. *)
Lemma bad_index_passed_over :
  (exists w',
     INTELICH_getbufpos (H := headers false)
       (sample_world DEVICE_INTEL 0 48000 16 [7; 1; 100; 1]) = Ok 7992 w' /\
     w_trace w' =
       [EvIn W8 0xd014 7; EvIn W8 0xd014 1; EvIn W16 0xd018 100;
        EvIn W8 0xd014 1] /\
     ~ In EvClearBuf (w_trace w') /\
     card_infobits (w_aui w') = 0) /\
  (exists w',
     INTELICH_getbufpos (H := headers true)
       (sample_world DEVICE_INTEL 0 48000 16 [7; 100; 1; 100]) = Ok 7992 w' /\
     w_trace w' =
       [EvIn W8 0xd014 7; EvIn W16 0xd018 100;
        EvIn W8 0xd014 1; EvIn W16 0xd018 100] /\
     ~ In EvClearBuf (w_trace w') /\
     card_infobits (w_aui w') = 0).
Proof.
  split; eexists; (split; [reflexivity |]);
    (split; [reflexivity |]); (split; [| reflexivity]);
    intros Hin; repeat (destruct Hin as [Hin | Hin]; [discriminate |]);
    exact Hin.
Qed.

(** C5 with the variable-rate flag set and a request of 4000 Hz. *)
Lemma setrate_clamps_or_forces_48000_witness :
  has_card (sample_world DEVICE_INTEL 1 4000 16 [16384])
           (sample_card DEVICE_INTEL 1) /\
  exists w',
    INTELICH_setrate (H := headers true)
      (sample_world DEVICE_INTEL 1 4000 16 [16384]) = Ok tt w' /\
    freq_card (w_aui w') = 8000.
Proof.
  split; [reflexivity |].
  destruct (setrate_clamps_or_forces_48000 (H := headers true)
              (sample_world DEVICE_INTEL 1 4000 16 [16384])
              (sample_card DEVICE_INTEL 1) eq_refl)
    as (_ & _ & _ & Hrun).
  assert (Hdone : ac97_clock_detected (sample_card DEVICE_INTEL 1) <> 0)
    by discriminate.
  exact (Hrun {| linearptr := 0x100000; physicalptr := 0x200000 |} eq_refl
           eq_refl (or_intror Hdone)).
Defined.

(** C6, Scenario D: 24 bits requested on the Standard family, with the
    20-bit-sample bit set in the register as read. *)
Lemma channels_20bit_only_on_ich4_witness :
  has_card (sample_world DEVICE_INTEL 0 48000 24 [0x00400000])
           (sample_card DEVICE_INTEL 0) /\
  exists w' cmd evs,
    prepare_channels (sample_world DEVICE_INTEL 0 48000 24 [0x00400000]) =
      Ok tt w' /\
    w_trace w' = evs ++ [EvOut W32 0xd02c cmd] /\
    bits_card (w_aui w') = 16 /\
    pcm_20bit cmd = false.
Proof.
  split; [reflexivity |].
  destruct (channels_20bit_only_on_ich4
              (sample_world DEVICE_INTEL 0 48000 24 [0x00400000])
              (sample_card DEVICE_INTEL 0) eq_refl)
    as (w' & cmd & evs & Hrun & Htr & Hbits & _ & Hclr & _).
  exists w', cmd, evs. split; [exact Hrun |]. split; [exact Htr |].
  split; [exact Hbits | exact (Hclr eq_refl)].
Defined.

(** C7 at a pair that is in no row of the table. *)
Lemma resolve_sis7012_and_unknown_witness :
  (forall e, In e ich_devices ->
     ~ (dev_vendor_id e = 0x8086 /\ dev_device_id e = 0x1234)) /\
  resolve 0x8086 0x1234 = None /\
  ICH_PO_SR_REG (sample_card DEVICE_SIS 0) = 0x18 /\
  ICH_PO_PICB_REG (sample_card DEVICE_SIS 0) = 0x16.
Proof.
  assert (Hno : forall e, In e ich_devices ->
            ~ (dev_vendor_id e = 0x8086 /\ dev_device_id e = 0x1234)).
  { intros e Hin [_ Hd]. simpl in Hin.
    repeat (destruct Hin as [<- | Hin]; [discriminate Hd |]). exact Hin. }
  split; [exact Hno |].
  destruct (resolve_sis7012_and_unknown (F := Ieee.ops))
    as (_ & Hsis & _ & Hnone).
  split; [exact (Hnone 0x8086 0x1234 Hno) |].
  exact (Hsis (sample_card DEVICE_SIS 0) eq_refl).
Defined.

(** C9 (amended) at a stopped card: the transfer-control register reads
    0x14 (interrupt enables set, start bit clear). *)
Lemma stop_then_close_on_open_card_witness :
  has_card (sample_world DEVICE_INTEL 0 48000 16 [0x14])
           (sample_card DEVICE_INTEL 0) /\
  exists w1 w2,
    INTELICH_stop (sample_world DEVICE_INTEL 0 48000 16 [0x14]) = Ok tt w1 /\
    w_trace w1 = [EvIn W8 0xd01b 0x14; EvOut W8 0xd01b 0x14] /\
    INTELICH_close w1 = Ok tt w2 /\
    card_private_data (w_aui w2) = None /\
    INTELICH_close w2 = Ok tt w2.
Proof.
  split; [reflexivity |].
  destruct (stop_then_close_on_open_card
              (sample_world DEVICE_INTEL 0 48000 16 [0x14])
              (sample_card DEVICE_INTEL 0) eq_refl)
    as (w1 & w2 & Hstop & _ & _ & Htr & _ & Hclose & Hnull & _ & Hagain).
  exists w1, w2. split; [exact Hstop |]. split; [exact Htr |].
  split; [exact Hclose |]. split; [exact Hnull | exact Hagain].
Defined.

(** C9 as stated fails on a closed card: after close the handle is null,
    and stop dereferences it. *)
Lemma stop_on_closed_card_faults :
  exists w1,
    INTELICH_close (sample_world DEVICE_INTEL 0 48000 16 []) = Ok tt w1 /\
    card_private_data (w_aui w1) = None /\
    INTELICH_stop w1 = Fault /\
    (INTELICH_stop ;;; INTELICH_close) w1 = Fault.
Proof.
  eexists. split; [reflexivity |].
  split; [reflexivity |]. split; reflexivity.
Qed.

(** C10 at a status of DMA-halted alone. *)
Lemma irq_reports_raw_status_witness :
  has_card (sample_world DEVICE_INTEL 0 48000 16 [1])
           (sample_card DEVICE_INTEL 0) /\
  exists w',
    INTELICH_IRQRoutine (sample_world DEVICE_INTEL 0 48000 16 [1]) = Ok 1 w' /\
    w_trace w' = [EvIn W8 0xd016 1; EvOut W8 0xd016 0] /\
    w_counts w' = [0; 0; 0].
Proof.
  split; [reflexivity |].
  destruct (irq_reports_raw_status
              (sample_world DEVICE_INTEL 0 48000 16 [1])
              (sample_card DEVICE_INTEL 0) eq_refl)
    as (handled & w' & Hrun & _ & _ & _ & Hdch).
  destruct (Hdch eq_refl) as (-> & _ & Htr & Hcnt).
  exists w'. split; [exact Hrun |]. split; [exact Htr | exact Hcnt].
Defined.

(** * Further properties of the driver *)

(** ** Footprints: port reads, delays and port writes *)

Section CoverageTools.
Context {H : Headers} {F : FloatOps}.
Implicit Types (w : world) (card : intel_card_s) (evs : list event).

Lemma port_reads_app e1 e2 :
  port_reads (e1 ++ e2) = (port_reads e1 + port_reads e2)%nat.
Proof. unfold port_reads. rewrite List.filter_app, length_app. reflexivity. Qed.

Lemma port_writes_app e1 e2 :
  port_writes (e1 ++ e2) = port_writes e1 ++ port_writes e2.
Proof. unfold port_writes. apply List.filter_app. Qed.

Lemma waited_app e1 e2 : waited (e1 ++ e2) = waited e1 + waited e2.
Proof.
  induction e1 as [| e e1 IH]; simpl; [reflexivity |].
  destruct e; rewrite ?IH; lia.
Qed.

Lemma within_nil : within [] 0 0 [].
Proof. unfold within. cbn. split; [lia | split; [lia | reflexivity]]. Qed.

Lemma within_app e1 e2 r1 r2 d1 d2 ws1 ws2 :
  within e1 r1 d1 ws1 -> within e2 r2 d2 ws2 ->
  within (e1 ++ e2) (r1 + r2) (d1 + d2) (ws1 ++ ws2).
Proof.
  unfold within. intros (Hr1 & Hd1 & Hw1) (Hr2 & Hd2 & Hw2).
  rewrite port_reads_app, waited_app, port_writes_app, Hw1, Hw2.
  split; [lia | split; [lia | reflexivity]].
Qed.

Lemma within_weaken evs r d ws r' d' :
  within evs r d ws -> r <= r' -> d <= d' -> within evs r' d' ws.
Proof.
  unfold within. intros (Hr & Hd & Hw) Hr' Hd'.
  split; [lia | split; [lia | exact Hw]].
Qed.

Lemma within_read sz port v : within [EvIn sz port v] 1 0 [].
Proof. unfold within. cbn. split; [lia | split; [lia | reflexivity]]. Qed.

Lemma within_write sz port v : within [EvOut sz port v] 0 0 [EvOut sz port v].
Proof. unfold within. cbn. split; [lia | split; [lia | reflexivity]]. Qed.

Lemma within_delay n : 0 <= n -> within [EvDelay n] 0 n [].
Proof.
  intros Hn. unfold within. cbn. split; [lia | split; [lia | reflexivity]].
Qed.

Lemma missed_polls_cons sz port delay v vs :
  missed_polls sz port delay (v :: vs) =
  EvIn sz port v :: EvDelay delay :: missed_polls sz port delay vs.
Proof. reflexivity. Qed.

Lemma missed_polls_within sz port delay vs :
  0 <= delay ->
  port_reads (missed_polls sz port delay vs) = length vs /\
  waited (missed_polls sz port delay vs) = delay * Z.of_nat (length vs) /\
  port_writes (missed_polls sz port delay vs) = [].
Proof.
  intros Hd. induction vs as [| v vs (IHr & IHw & IHp)].
  - cbn. split; [reflexivity | split; [lia | reflexivity]].
  - rewrite missed_polls_cons. unfold port_reads, port_writes in *.
    cbn [List.filter is_port_read is_port_write length waited].
    rewrite IHr, IHw, IHp. split; [reflexivity | split; [lia | reflexivity]].
Qed.

(** *** The polling loops, poll by poll *)

Lemma codec_ready_loop_polls codec retry w card :
  has_card w card ->
  quietly (codec_ready_loop codec retry) w (fun r evs =>
    exists vs hit,
      evs = missed_polls W32 (baseport_bm card + ICH_GLOB_STAT_REG) 10 vs ++ hit /\
      Forall (fun v => Z.land v codec = 0) vs /\
      r = Z.of_nat retry - Z.of_nat (length vs) /\
      (length vs <= retry)%nat /\
      ((r <> 0 /\ exists v, hit = [EvIn W32 (baseport_bm card + ICH_GLOB_STAT_REG) v]
                            /\ Z.land v codec <> 0) \/
       (r = 0 /\ hit = []))).
Proof.
  revert w. induction retry as [| n IH]; intros w Hc; cbn [codec_ready_loop].
  - apply quietly_ret. exists [], []. split; [reflexivity |].
    split; [constructor |]. split; [reflexivity |].
    split; [cbn [length]; lia |]. right. auto.
  - eapply quietly_bind; [apply (port_read_quietly W32), Hc |].
    intros v w1 e1 Hq1 ->. cbv beta.
    assert (Hc1 : has_card w1 card) by (eapply quiet_has_card; eassumption).
    destruct (Z.eqb_spec (Z.land v codec) 0) as [Hz | Hnz]; cbn [negb].
    + eapply quietly_bind; [apply emit_quietly |].
      intros _ w2 e2 Hq2 ->. cbv beta.
      assert (Hc2 : has_card w2 card) by (eapply quiet_has_card; eassumption).
      eapply quietly_mono; [apply IH, Hc2 |].
      intros r evs (vs & hit & -> & Hvs & -> & Hlen & Hhit).
      exists (v :: vs), hit. split; [reflexivity |].
      split; [constructor; assumption |].
      split; [cbn [length]; lia |]. split; [cbn [length]; lia |].
      cbn [length]. 
      replace (Z.of_nat (S n) - Z.of_nat (S (length vs)))
        with (Z.of_nat n - Z.of_nat (length vs)) by lia.
      exact Hhit.
    + apply quietly_ret. exists [], [EvIn W32 (baseport_bm card + ICH_GLOB_STAT_REG) v].
      split; [reflexivity |]. split; [constructor |].
      split; [cbn [length]; lia |]. split; [cbn [length]; lia |].
      left. split; [cbn [length]; lia |]. exists v. auto.
Qed.

Lemma polls_within sz port delay vs hit n :
  0 <= delay ->
  (length vs + length hit <= n)%nat ->
  hit = [] \/ (exists v, hit = [EvIn sz port v]) ->
  within (missed_polls sz port delay vs ++ hit) (Z.of_nat n) (delay * Z.of_nat n) [].
Proof.
  intros Hd Hn Hhit.
  destruct (missed_polls_within sz port delay vs Hd) as (Hr & Hw & Hp).
  unfold within. rewrite port_reads_app, waited_app, port_writes_app, Hr, Hw, Hp.
  destruct Hhit as [-> | (v & ->)]; cbn in *.
  - split; [lia | split; [nia | reflexivity]].
  - split; [lia | split; [nia | reflexivity]].
Qed.

Lemma trunc_range sz v : 0 <= trunc sz v < 2 ^ width_bits sz.
Proof. unfold trunc. apply Z.mod_pos_bound. destruct sz; reflexivity. Qed.

Lemma codec_ready_within codec w card :
  has_card w card ->
  quietly (snd_intel_codec_ready codec) w (fun _ evs => within evs 1000 10000 []).
Proof.
  intros Hc. unfold snd_intel_codec_ready.
  eapply quietly_mono; [apply codec_ready_loop_polls, Hc |].
  intros r evs (vs & hit & -> & _ & Hr & Hlen & Hhit).
  change 10000 with (10 * Z.of_nat ICH_DEFAULT_RETRY).
  change 1000 with (Z.of_nat ICH_DEFAULT_RETRY) at 1.
  destruct Hhit as [(Hnz & v & -> & _) | (_ & ->)].
  - apply polls_within; [lia | cbn [length]; lia | right; eauto].
  - apply polls_within; [lia | cbn [length]; lia | left; reflexivity].
Qed.

Lemma codec_semaphore_loop_polls retry w card :
  has_card w card ->
  quietly (codec_semaphore_loop retry) w (fun free evs =>
    exists vs hit,
      evs = missed_polls W8 (baseport_bm card + ICH_ACC_SEMA_REG) 10 vs ++ hit /\
      Forall (fun v => Z.land v ICH_CODEC_BUSY <> 0) vs /\
      (length vs <= retry)%nat /\
      ((free = true /\ (length vs < retry)%nat /\
        exists v, hit = [EvIn W8 (baseport_bm card + ICH_ACC_SEMA_REG) v] /\
                  Z.land v ICH_CODEC_BUSY = 0) \/
       (free = false /\ hit = [] /\ length vs = retry))).
Proof.
  revert w. induction retry as [| n IH]; intros w Hc; cbn [codec_semaphore_loop].
  - apply quietly_ret. exists [], []. split; [reflexivity |].
    split; [constructor |]. split; [cbn [length]; lia |]. right. auto.
  - eapply quietly_bind; [apply (port_read_quietly W8), Hc |].
    intros v w1 e1 Hq1 ->. cbv beta.
    assert (Hc1 : has_card w1 card) by (eapply quiet_has_card; eassumption).
    destruct (Z.eqb_spec (Z.land v ICH_CODEC_BUSY) 0) as [Hz | Hnz].
    + apply quietly_ret.
      exists [], [EvIn W8 (baseport_bm card + ICH_ACC_SEMA_REG) v].
      split; [reflexivity |]. split; [constructor |].
      split; [cbn [length]; lia |].
      left. split; [reflexivity |]. split; [cbn [length]; lia |]. exists v. auto.
    + eapply quietly_bind; [apply emit_quietly |].
      intros _ w2 e2 Hq2 ->. cbv beta.
      assert (Hc2 : has_card w2 card) by (eapply quiet_has_card; eassumption).
      eapply quietly_mono; [apply IH, Hc2 |].
      intros free evs (vs & hit & -> & Hvs & Hlen & Hhit).
      exists (v :: vs), hit. split; [reflexivity |].
      split; [constructor; assumption |].
      split; [cbn [length]; lia |].
      destruct Hhit as [(-> & Hlt & Hv) | (-> & -> & Hfull)].
      * left. split; [reflexivity |]. split; [cbn [length]; lia | exact Hv].
      * right. split; [reflexivity |]. split; [reflexivity |].
        cbn [length]. lia.
Qed.

(** Acquiring the codec: at most 2001 port reads, at most 200 ms of
    delay, no port write. *)
Lemma codec_semaphore_within codec w card :
  has_card w card ->
  quietly (snd_intel_codec_semaphore codec) w
    (fun _ evs => within evs 2001 20000 []).
Proof.
  intros Hc. unfold snd_intel_codec_semaphore.
  eapply quietly_bind; [eapply codec_ready_within, Hc |].
  intros r0 w1 e1 Hq1 He1. cbv beta.
  assert (Hc1 : has_card w1 card) by (eapply quiet_has_card; eassumption).
  eapply quietly_bind; [apply codec_semaphore_loop_polls, Hc1 |].
  intros free w2 e2 Hq2 (vs & hit & -> & _ & Hlen & Hhit). cbv beta.
  assert (Hc2 : has_card w2 card) by (eapply quiet_has_card; eassumption).
  destruct Hhit as [(-> & Hlt & v & -> & _) | (-> & -> & Hfull)].
  - apply quietly_ret. rewrite app_nil_r.
    apply (within_weaken _ (1000 + 1000) (10000 + 10000) _); [| lia | lia].
    change [] with (@nil event ++ []) at 2.
    apply within_app; [exact He1 |].
    change 10000 with (10 * Z.of_nat ICH_DEFAULT_RETRY).
    change 1000 with (Z.of_nat ICH_DEFAULT_RETRY).
    apply polls_within; [lia | cbn [length]; lia | right; eauto].
  - eapply quietly_bind; [apply deref_card_quietly, Hc2 |].
    intros c w3 e3 Hq3 [-> ->]. cbv beta.
    eapply quietly_bind; [apply port_in_quietly |].
    intros v w4 e4 Hq4 [_ ->]. cbv beta.
    apply quietly_ret. rewrite !app_nil_r, app_nil_l.
    apply (within_weaken _ (1000 + (1000 + 1)) (10000 + (10000 + 0)) _); [| lia | lia].
    change [] with (@nil event ++ ([] ++ [])) at 2.
    apply within_app; [exact He1 |].
    apply within_app; [| apply within_read].
    change 10000 with (10 * Z.of_nat ICH_DEFAULT_RETRY).
    change 1000 with (Z.of_nat ICH_DEFAULT_RETRY).
    rewrite <- (app_nil_r (missed_polls _ _ _ _)).
    apply polls_within; [lia | cbn [length]; lia | left; reflexivity].
Qed.

Lemma codec_write_lands reg data w card :
  has_card w card ->
  quietly (snd_intel_codec_write reg data) w (fun _ evs =>
    exists pre,
      evs = pre ++ [EvOut W16 (baseport_codec card + reg) (u16 data)] /\
      within pre 2001 20000 []).
Proof.
  intros Hc. unfold snd_intel_codec_write.
  eapply quietly_bind; [eapply codec_semaphore_within, Hc |].
  intros r0 w1 e1 Hq1 He1. cbv beta.
  assert (Hc1 : has_card w1 card) by (eapply quiet_has_card; eassumption).
  eapply quietly_bind; [apply deref_card_quietly, Hc1 |].
  intros c w2 e2 Hq2 [-> ->]. cbv beta.
  eapply quietly_mono; [apply emit_quietly |].
  intros _ evs ->. exists e1. split; [reflexivity | exact He1].
Qed.

Lemma codec_read_loop_samples reg data retry w card :
  has_card w card ->
  quietly (codec_read_loop reg data retry) w (fun r evs =>
    within evs (2 * Z.of_nat retry) (10 * Z.of_nat retry) [] /\
    (retry = O -> r = data /\ evs = []) /\
    ((0 < retry)%nat ->
       0 <= r < 65536 /\
       exists pre st,
         evs = pre ++
           [EvIn W16 (baseport_codec card + reg) r;
            EvIn W32 (baseport_bm card + ICH_GLOB_STAT_REG) st] ++
           (if Z.land st ICH_GLOB_STAT_RCS =? 0 then [] else [EvDelay 10]))).
Proof.
  revert data w. induction retry as [| n IH]; intros data w Hc;
    cbn [codec_read_loop].
  - apply quietly_ret. split; [apply within_nil |].
    split; [auto | intros Hlt; lia].
  - eapply quietly_bind; [apply deref_card_quietly, Hc |].
    intros c w1 e1 Hq1 [-> ->]. cbv beta.
    eapply quietly_bind; [apply port_in_quietly |].
    intros d w2 e2 Hq2 [Hd ->]. cbv beta.
    assert (Hc2 : has_card w2 card).
    { eapply quiet_has_card; [exact Hq2 |]. eapply quiet_has_card; eassumption. }
    assert (Hrange : 0 <= d < 65536) by (rewrite Hd; apply (trunc_range W16)).
    eapply quietly_bind; [apply (port_read_quietly W32), Hc2 |].
    intros st w3 e3 Hq3 ->. cbv beta.
    assert (Hc3 : has_card w3 card) by (eapply quiet_has_card; eassumption).
    destruct (Z.land st ICH_GLOB_STAT_RCS =? 0) eqn:Est.
    + apply quietly_ret. rewrite app_nil_l, app_nil_r.
      split; [| split; [intros Hz; discriminate Hz |]].
      * unfold within. cbn. split; [lia | split; [lia | reflexivity]].
      * intros _. split; [exact Hrange |].
        exists [], st. rewrite Est. reflexivity.
    + eapply quietly_bind; [apply emit_quietly |].
      intros _ w4 e4 Hq4 ->. cbv beta.
      assert (Hc4 : has_card w4 card) by (eapply quiet_has_card; eassumption).
      eapply quietly_mono; [apply IH, Hc4 |].
      intros r evs (Hin & Hzero & Hpos). rewrite app_nil_l.
      split; [| split; [intros Hz; discriminate Hz |]].
      * apply (within_weaken _ (1 + (1 + (0 + 2 * Z.of_nat n))) (0 + (0 + (10 + 10 * Z.of_nat n))) _);
          [| lia | lia].
        change (@nil event) with (@nil event ++ ([] ++ ([] ++ []))).
        apply (within_app [_]); [apply within_read |].
        apply (within_app [_]); [apply within_read |].
        apply (within_app [_]); [apply within_delay; lia | exact Hin].
      * intros _. destruct n as [| n'].
        -- destruct (Hzero eq_refl) as [-> ->].
           split; [exact Hrange |]. exists [], st. rewrite Est. reflexivity.
        -- destruct Hpos as (Hr & pre & st' & ->); [lia |].
           split; [exact Hr |].
           exists ([EvIn W16 (baseport_codec card + reg) d] ++
                   [EvIn W32 (baseport_bm card + ICH_GLOB_STAT_REG) st] ++
                   [EvDelay 10] ++ pre), st'.
           rewrite <- !app_assoc. reflexivity.
Qed.

Lemma codec_read_samples reg w card :
  has_card w card ->
  quietly (snd_intel_codec_read reg) w (fun r evs =>
    0 <= r < 65536 /\
    within evs 4001 30000 [] /\
    exists pre st,
      evs = pre ++
        [EvIn W16 (baseport_codec card + reg) r;
         EvIn W32 (baseport_bm card + ICH_GLOB_STAT_REG) st] ++
        (if Z.land st ICH_GLOB_STAT_RCS =? 0 then [] else [EvDelay 10])).
Proof.
  intros Hc. unfold snd_intel_codec_read.
  eapply quietly_bind; [eapply codec_semaphore_within, Hc |].
  intros r0 w1 e1 Hq1 He1. cbv beta.
  assert (Hc1 : has_card w1 card) by (eapply quiet_has_card; eassumption).
  eapply quietly_mono; [apply codec_read_loop_samples, Hc1 |].
  intros r evs (Hin & _ & Hpos).
  destruct Hpos as (Hr & pre & st & ->); [unfold ICH_DEFAULT_RETRY; lia |].
  split; [exact Hr |]. split.
  - apply (within_weaken _ (2001 + 2 * Z.of_nat ICH_DEFAULT_RETRY)
             (20000 + 10 * Z.of_nat ICH_DEFAULT_RETRY) _);
      [| unfold ICH_DEFAULT_RETRY; lia | unfold ICH_DEFAULT_RETRY; lia].
    change (@nil event) with (@nil event ++ []).
    apply within_app; assumption.
  - exists (e1 ++ pre), st. rewrite <- !app_assoc. reflexivity.
Qed.

(** Sequencing of quiet code on a card that stays in place. *)
Lemma quietly_then {A B} (m : M A) (k : A -> M B) w card
    (P : A -> list event -> Prop) (Q : B -> list event -> Prop) :
  has_card w card ->
  quietly m w P ->
  (forall a w1 e1, has_card w1 card -> P a e1 ->
     quietly (k a) w1 (fun b e2 => Q b (e1 ++ e2))) ->
  quietly (bind m k) w Q.
Proof.
  intros Hc Hm Hk. eapply quietly_bind; [exact Hm |].
  intros a w1 e1 Hq HP. apply Hk; [| exact HP].
  eapply quiet_has_card; eassumption.
Qed.

Lemma read_within sz reg w card :
  has_card w card ->
  quietly (let* c := deref_card in port_in sz (baseport_bm c + reg)) w
    (fun v evs => 0 <= v < 2 ^ width_bits sz /\
                  evs = [EvIn sz (baseport_bm card + reg) v]).
Proof.
  intros Hc. eapply quietly_bind; [apply deref_card_quietly, Hc |].
  intros c w1 e1 Hq [-> ->]. cbv beta.
  eapply quietly_mono; [apply port_in_quietly |].
  intros v evs [-> ->]. split; [apply trunc_range | reflexivity].
Qed.

Lemma write_within sz reg data w card :
  has_card w card ->
  quietly (let* c := deref_card in port_out sz (baseport_bm c + reg) data) w
    (fun _ evs => evs = [EvOut sz (baseport_bm card + reg) (trunc sz data)]).
Proof. apply port_write_quietly. Qed.

Lemma null_read sz reg w :
  card_private_data (w_aui w) = None ->
  (let* c := deref_card in port_in sz (baseport_bm c + reg)) w = Fault.
Proof. intros Hn. unfold bind, deref_card. rewrite Hn. reflexivity. Qed.

Lemma codec_ready_null codec w :
  card_private_data (w_aui w) = None -> snd_intel_codec_ready codec w = Fault.
Proof.
  intros Hn. unfold snd_intel_codec_ready, ICH_DEFAULT_RETRY.
  change 1000%nat with (S 999). cbn [codec_ready_loop].
  unfold bind at 1. unfold snd_intel_read_32, inl. rewrite null_read by exact Hn.
  reflexivity.
Qed.

Lemma codec_semaphore_null codec w :
  card_private_data (w_aui w) = None -> snd_intel_codec_semaphore codec w = Fault.
Proof.
  intros Hn. unfold snd_intel_codec_semaphore, bind at 1.
  rewrite codec_ready_null by exact Hn. reflexivity.
Qed.

Lemma within_eq (evs : list event) r d ws r' d' ws' :
  within evs r d ws -> ws = ws' -> r <= r' -> d <= d' ->
  within evs r' d' ws'.
Proof. intros Hw <- Hr Hd. eapply within_weaken; eassumption. Qed.

End CoverageTools.

(** The footprint of a stretch of the trace from the footprints of its
    pieces. *)
Ltac within_pieces :=
  repeat match goal with
         | |- within (_ ++ _) _ _ _ => eapply within_app
         | |- within [] _ _ _ => apply within_nil
         | |- within [EvIn _ _ _] _ _ _ => apply within_read
         | |- within [EvOut _ _ _] _ _ _ => apply within_write
         | |- within [EvDelay _] _ _ _ => apply within_delay; lia
         | |- within _ _ _ _ => eassumption
         end.

Ltac within_bound :=
  try change (Z.of_nat ICH_DEFAULT_RETRY) with 1000; lia.

Ltac within_sum :=
  eapply within_eq;
    [within_pieces | cbn [app]; try reflexivity | within_bound | within_bound].

Section Coverage.
Context {H : Headers} {F : FloatOps} {BH : BringupHeaders}.
Implicit Types (w : world) (card : intel_card_s) (evs : list event).

Lemma chip_init_reset_loop_within retry w card :
  has_card w card ->
  quietly (chip_init_reset_loop retry) w
    (fun _ evs => within evs (Z.of_nat retry) (10 * Z.of_nat retry) []).
Proof.
  revert w. induction retry as [| n IH]; intros w Hc; cbn [chip_init_reset_loop].
  - apply quietly_ret. apply within_nil.
  - eapply quietly_then; [exact Hc | apply (read_within W32), Hc |].
    intros v w1 e1 Hc1 [_ ->]. cbv beta.
    destruct (Z.land v ICH_GLOB_CNT_AC97WARM =? 0).
    + apply quietly_ret. within_sum.
    + eapply quietly_then; [exact Hc1 | apply emit_quietly |].
      intros _ w2 e2 Hc2 ->. cbv beta.
      eapply quietly_mono; [apply IH, Hc2 |].
      intros r evs Hin. cbv beta in Hin. within_sum.
Qed.

Lemma debugf_read_4c_within w card :
  has_card w card ->
  quietly debugf_read_4c w (fun _ evs => within evs 1 0 []).
Proof.
  intros Hc. unfold debugf_read_4c. destruct mpxplay_debugf_evaluates.
  - eapply quietly_then; [exact Hc | apply (read_within W16), Hc |].
    intros v w1 e1 Hc1 [_ ->]. cbv beta. apply quietly_ret. within_sum.
  - apply quietly_ret. within_sum.
Qed.

Lemma land_lnot_disjoint a m b :
  Z.land b m = b -> Z.land (Z.land a (Z.lnot m)) b = 0.
Proof.
  intros Hb. rewrite <- Hb. bitwise.
Qed.

Lemma land_pow2 x k :
  0 <= k -> Z.land x (2 ^ k) = 0 \/ Z.land x (2 ^ k) = 2 ^ k.
Proof.
  intros Hk. destruct (Z.testbit x k) eqn:E; [right | left];
    apply Z.bits_inj'; intros n Hn;
    rewrite Z.land_spec, ?Z.bits_0, Z.pow2_bits_eqb by lia;
    destruct (Z.eqb_spec k n) as [<- | _];
    rewrite ?E, ?andb_false_r; reflexivity.
Qed.

(** The control word of lines 327-334, bit by bit. *)
Lemma chip_init_control_bits dt cnt :
  let ctl := chip_init_control dt cnt in
  let mask := if device_type_eqb dt DEVICE_SIS
              then ICH_SIS_PCM_246_MASK else ICH_PCM_246_MASK in
  Z.land ctl ICH_GLOB_CNT_ACLINKOFF = 0 /\
  Z.land ctl mask = 0 /\
  Z.land ctl ICH_GLOB_CNT_AC97COLD = ICH_GLOB_CNT_AC97COLD /\
  (Z.land cnt ICH_GLOB_CNT_AC97COLD = 0 ->
     Z.land ctl ICH_GLOB_CNT_AC97WARM = Z.land cnt ICH_GLOB_CNT_AC97WARM) /\
  (Z.land cnt ICH_GLOB_CNT_AC97COLD <> 0 ->
     Z.land ctl ICH_GLOB_CNT_AC97WARM = ICH_GLOB_CNT_AC97WARM).
Proof.
  intros ctl mask. unfold ctl, chip_init_control. fold mask.
  replace (if device_type_eqb dt DEVICE_SIS
           then Z.land cnt (Z.lnot (Z.lor ICH_GLOB_CNT_ACLINKOFF ICH_SIS_PCM_246_MASK))
           else Z.land cnt (Z.lnot (Z.lor ICH_GLOB_CNT_ACLINKOFF ICH_PCM_246_MASK)))
    with (Z.land cnt (Z.lnot (Z.lor ICH_GLOB_CNT_ACLINKOFF mask)))
    by (unfold mask; destruct (device_type_eqb dt DEVICE_SIS); reflexivity).
  set (off := Z.lor ICH_GLOB_CNT_ACLINKOFF mask).
  assert (Hacl : Z.land ICH_GLOB_CNT_ACLINKOFF off = ICH_GLOB_CNT_ACLINKOFF)
    by (unfold off, mask; destruct (device_type_eqb dt DEVICE_SIS); reflexivity).
  assert (Hmask : Z.land mask off = mask)
    by (unfold off, mask; destruct (device_type_eqb dt DEVICE_SIS); reflexivity).
  assert (Hcold : Z.land off ICH_GLOB_CNT_AC97COLD = 0)
    by (unfold off, mask; destruct (device_type_eqb dt DEVICE_SIS); reflexivity).
  assert (Hwarm : Z.land off ICH_GLOB_CNT_AC97WARM = 0)
    by (unfold off, mask; destruct (device_type_eqb dt DEVICE_SIS); reflexivity).
  assert (Hm0 : forall x, x = ICH_GLOB_CNT_AC97COLD \/ x = ICH_GLOB_CNT_AC97WARM ->
                 Z.land x mask = 0 /\ Z.land x ICH_GLOB_CNT_ACLINKOFF = 0).
  { intros x [-> | ->]; unfold mask;
      destruct (device_type_eqb dt DEVICE_SIS); split; reflexivity. }
  rewrite (land_other_mask cnt off _ Hcold).
  destruct (land_pow2 cnt 1 ltac:(lia)) as [Hc | Hc];
    change (2 ^ 1) with ICH_GLOB_CNT_AC97COLD in Hc; rewrite Hc;
    cbn [Z.eqb ICH_GLOB_CNT_AC97COLD];
    rewrite !Z.land_lor_distr_l;
    rewrite (land_lnot_disjoint cnt off _ Hacl), (land_lnot_disjoint cnt off _ Hmask),
            (land_other_mask cnt off _ Hcold), (land_other_mask cnt off _ Hwarm), Hc.
  - destruct (Hm0 ICH_GLOB_CNT_AC97COLD (or_introl eq_refl)) as [-> ->].
    split; [reflexivity |]. split; [reflexivity |]. split; [reflexivity |].
    split; [intros _; apply Z.lor_0_r | intros Hne; contradiction].
  - destruct (Hm0 ICH_GLOB_CNT_AC97WARM (or_intror eq_refl)) as [-> ->].
    split; [reflexivity |]. split; [reflexivity |]. split; [reflexivity |].
    split; [intros He; discriminate He |].
    intros _. destruct (land_pow2 cnt 2 ltac:(lia)) as [Hw | Hw];
      change (2 ^ 2) with ICH_GLOB_CNT_AC97WARM in Hw; rewrite Hw; reflexivity.
Qed.

Lemma trunc_ones sz x : trunc sz x = Z.land x (Z.ones (width_bits sz)).
Proof. unfold trunc. rewrite Z.land_ones; [reflexivity | destruct sz; discriminate]. Qed.

Lemma trunc_small sz x : 0 <= x < 2 ^ width_bits sz -> trunc sz x = x.
Proof. intros Hx. unfold trunc. apply Z.mod_small. exact Hx. Qed.

Lemma trunc_lor sz a b : trunc sz (Z.lor a b) = Z.lor (trunc sz a) (trunc sz b).
Proof. rewrite !trunc_ones. apply Z.land_lor_distr_l. Qed.

Lemma trunc_land_l sz a b : trunc sz (Z.land a b) = Z.land (trunc sz a) b.
Proof.
  rewrite !trunc_ones. rewrite <- !Z.land_assoc. f_equal. apply Z.land_comm.
Qed.

Lemma trunc_control dt cnt :
  0 <= cnt < 2 ^ 32 ->
  trunc W32 (chip_init_control dt cnt) = chip_init_control dt cnt.
Proof.
  intros Hc. unfold chip_init_control.
  rewrite trunc_lor.
  destruct (device_type_eqb dt DEVICE_SIS);
    rewrite trunc_land_l, (trunc_small W32 cnt) by exact Hc;
    destruct (_ =? 0); reflexivity.
Qed.

(** snd_intel_chip_init, step by step. *)
Lemma chip_init_run w card :
  has_card w card ->
  let bm := baseport_bm card in
  quietly snd_intel_chip_init w (fun _ evs =>
    exists stat cnt unmute rest,
      0 <= cnt < 2 ^ 32 /\
      evs =
        [EvIn W32 (bm + ICH_GLOB_STAT_REG) stat;
         EvOut W32 (bm + ICH_GLOB_STAT_REG) (Z.land stat 0x80e0);
         EvIn W32 (bm + ICH_GLOB_CNT_REG) cnt;
         EvOut W32 (bm + ICH_GLOB_CNT_REG)
           (chip_init_control (device_type card) cnt)] ++ rest /\
      within evs 6006 50000
        ([EvOut W32 (bm + ICH_GLOB_STAT_REG) (Z.land stat 0x80e0);
          EvOut W32 (bm + ICH_GLOB_CNT_REG)
            (chip_init_control (device_type card) cnt);
          EvOut W8 (bm + ICH_PO_CR_REG) ICH_PO_CR_RESET] ++
         (if SBEMU then [EvOut W8 (bm + ICH_PO_CR_REG) 0x1c] else []) ++
         (if device_type_eqb (device_type card) DEVICE_SIS
          then [EvOut W16 (bm + 0x4c) (Z.lor unmute 1)] else []))).
Proof.
  intros Hc bm. unfold snd_intel_chip_init.
  eapply quietly_then; [exact Hc | apply (read_within W32), Hc |].
  intros stat w1 e1 Hc1 [Hstat ->]. cbv beta.
  eapply quietly_then; [exact Hc1 | apply (write_within W32), Hc1 |].
  intros _ w2 e2 Hc2 ->. cbv beta.
  eapply quietly_then; [exact Hc2 | apply (read_within W32), Hc2 |].
  intros cnt w3 e3 Hc3 [Hcnt ->]. cbv beta.
  eapply quietly_then; [exact Hc3 | apply deref_card_quietly, Hc3 |].
  intros c w4 e4 Hc4 [-> ->]. cbv beta.
  eapply quietly_then; [exact Hc4 | apply (write_within W32), Hc4 |].
  intros _ w5 e5 Hc5 ->. cbv beta.
  eapply quietly_then; [exact Hc5 | eapply chip_init_reset_loop_within, Hc5 |].
  intros r6 w6 e6 Hc6 He6. cbv beta in He6. cbv beta.
  eapply quietly_then; [exact Hc6 | eapply codec_ready_within, Hc6 |].
  intros r7 w7 e7 Hc7 He7. cbv beta in He7. cbv beta.
  eapply quietly_then; [exact Hc7 | eapply codec_read_samples, Hc7 |].
  intros r8 w8 e8 Hc8 (_ & He8 & _). cbv beta.
  eapply quietly_then; [exact Hc8 | apply (write_within W8), Hc8 |].
  intros _ w9 e9 Hc9 ->. cbv beta.
  eapply quietly_then with
    (P := fun _ evs => within evs 0 0
            (if SBEMU then [EvOut W8 (bm + ICH_PO_CR_REG) 0x1c] else []));
    [exact Hc9 | |].
  { destruct SBEMU.
    - eapply quietly_mono; [apply (write_within W8), Hc9 |].
      intros _ evs ->. apply within_write.
    - apply quietly_ret. apply within_nil. }
  intros _ w10 e10 Hc10 He10. cbv beta.
  assert (Hs : trunc W32 (Z.land stat
                 (Z.lor (Z.lor (Z.lor ICH_GLOB_STAT_RCS ICH_MCINT) ICH_POINT)
                    ICH_PIINT)) = Z.land stat 0x80e0)
    by (rewrite trunc_land_l, (trunc_small W32 stat) by exact Hstat; reflexivity).
  rewrite Hs, (trunc_control _ _ Hcnt).
  destruct (device_type_eqb (device_type card) DEVICE_SIS).
  - eapply quietly_then; [exact Hc10 | eapply debugf_read_4c_within, Hc10 |].
    intros r11 w11 e11 Hc11 He11. cbv beta in He11. cbv beta.
    eapply quietly_then; [exact Hc11 | apply (read_within W16), Hc11 |].
    intros v w12 e12 Hc12 [Hv ->]. cbv beta.
    eapply quietly_then; [exact Hc12 | apply (write_within W16), Hc12 |].
    intros _ w13 e13 Hc13 ->. cbv beta.
    eapply quietly_mono; [eapply debugf_read_4c_within, Hc13 |].
    intros r14 e14 He14. cbv beta in He14.
    assert (Hu : trunc W16 (Z.lor v 1) = Z.lor v 1)
      by (rewrite trunc_lor, (trunc_small W16 v) by exact Hv; reflexivity).
    rewrite Hu.
    exists stat, cnt, v. eexists. split; [exact Hcnt |].
    split; [cbn [app]; reflexivity |]. within_sum.
  - apply quietly_ret.
    exists stat, cnt, 0. eexists. split; [exact Hcnt |].
    split; [cbn [app]; reflexivity |]. within_sum.
Qed.

Lemma ac97_init_run freq_set w card :
  has_card w card ->
  let codec := baseport_codec card in
  quietly (snd_intel_ac97_init freq_set) w (fun _ evs =>
    within evs 8004 80000
      [EvOut W16 (codec + AC97_MASTER_VOL_STEREO) 0x0202;
       EvOut W16 (codec + AC97_PCMOUT_VOL) 0x0202;
       EvOut W16 (codec + AC97_HEADPHONE_VOL) 0x0202;
       EvOut W16 (codec + AC97_EXTENDED_STATUS) (u16 AC97_EA_SPDIF)]).
Proof.
  intros Hc codec. unfold snd_intel_ac97_init.
  eapply quietly_then; [exact Hc | eapply codec_write_lands, Hc |].
  intros _ w1 e1 Hc1 (p1 & -> & Hp1). cbv beta.
  eapply quietly_then; [exact Hc1 | eapply codec_write_lands, Hc1 |].
  intros _ w2 e2 Hc2 (p2 & -> & Hp2). cbv beta.
  eapply quietly_then; [exact Hc2 | eapply codec_write_lands, Hc2 |].
  intros _ w3 e3 Hc3 (p3 & -> & Hp3). cbv beta.
  eapply quietly_mono; [eapply codec_write_lands, Hc3 |].
  intros _ e4 (p4 & -> & Hp4). within_sum.
Qed.

Lemma lor_run_bits v :
  Z.lor (Z.lor (Z.lor v ICH_PO_CR_LVBIE) ICH_PO_CR_IOCE) ICH_PO_CR_START =
  Z.lor v 0x15.
Proof. rewrite <- !Z.lor_assoc. reflexivity. Qed.

Lemma start_run w card :
  has_card w card ->
  let cr := baseport_bm card + ICH_PO_CR_REG in
  quietly INTELICH_start w (fun _ evs =>
    exists pre v,
      within pre 1000 10000 [] /\
      evs = pre ++ (if SBEMU then [EvIn W8 cr v; EvOut W8 cr (Z.lor v 0x15)]
                    else [])).
Proof.
  intros Hc cr. unfold INTELICH_start.
  eapply quietly_then; [exact Hc | eapply codec_ready_within, Hc |].
  intros r1 w1 e1 Hc1 He1. cbv beta in He1. cbv beta.
  destruct SBEMU.
  - eapply quietly_then; [exact Hc1 | apply (read_within W8), Hc1 |].
    intros v w2 e2 Hc2 [Hv ->]. cbv beta.
    eapply quietly_mono; [apply (write_within W8), Hc2 |].
    intros _ e3 ->. exists e1, v. split; [exact He1 |].
    rewrite lor_run_bits, trunc_lor, (trunc_small W8 v) by exact Hv.
    reflexivity.
  - apply quietly_ret. exists e1, 0. split; [exact He1 | reflexivity].
Qed.

Lemma u32_small x : 0 <= x < 2 ^ 32 -> u32 x = x.
Proof. apply (trunc_small W32). Qed.

Lemma u16_small x : 0 <= x < 65536 -> u16 x = x.
Proof. apply (trunc_small W16). Qed.

(** The position a valid reading stands for. *)
Lemma getbufpos_attempt_accepts retry w card index left rest :
  has_card w card ->
  w_ports w = index :: left :: (if SBEMU then rest else index :: rest) ->
  0 <= index < ICH_DMABUF_PERIODS ->
  0 <= left < 65536 ->
  let period := period_size_bytes card in
  let bytes := if device_type_eqb (device_type card) DEVICE_SIS then left
               else left * Z.shiftr (bits_card (w_aui w)) 3 in
  0 < bytes <= period -> period < 2 ^ 30 ->
  let pos := index * period + (period - bytes) in
  pos < card_dmasize (w_aui w) ->
  getbufpos_attempt retry w =
  Ok true
    (with_aui (set_card_dma_lastgoodpos pos (w_aui w))
       (with_io rest
          (w_trace w ++
             [EvIn W8 (baseport_bm card + ICH_PO_CIV_REG) index;
              EvIn W16 (baseport_bm card + ICH_PO_PICB_REG card) left] ++
             (if SBEMU then []
              else [EvIn W8 (baseport_bm card + ICH_PO_CIV_REG) index])) w)).
Proof.
  intros Hc Hports Hidx Hleft period bytes Hbytes Hper pos Hpos.
  unfold ICH_DMABUF_PERIODS in *.
  assert (Hi8 : u8 index = index) by (apply u8_small; lia).
  assert (Hl16 : u16 left = left) by (apply u16_small; lia).
  unfold getbufpos_attempt. run_step Hc. run_step Hc. run_norm.
  rewrite Hports. cbn [hd tl]. rewrite Hi8.
  replace (ICH_DMABUF_PERIODS <=? index) with false
    by (symmetry; apply Z.leb_gt; unfold ICH_DMABUF_PERIODS; lia).
  rewrite andb_false_r. run_step Hc. run_norm. cbn [hd tl]. rewrite Hl16.
  run_pure. run_norm.
  set (scaled := if negb (device_type_eqb (device_type card) DEVICE_SIS)
                 then u32 (left * Z.shiftr (bits_card (w_aui w)) 3) else left).
  assert (Hscaled : scaled = bytes).
  { unfold scaled, bytes. destruct (device_type_eqb (device_type card) DEVICE_SIS);
      cbn [negb]; [reflexivity |].
    apply u32_small. unfold bytes in Hbytes.
    destruct (device_type_eqb (device_type card) DEVICE_SIS); lia. }
  rewrite Hscaled. fold period.
  replace (bytes =? 0) with false by (symmetry; apply Z.eqb_neq; lia).
  replace (period <? bytes) with false by (symmetry; apply Z.ltb_ge; lia).
  cbn [orb]. run_pure.
  assert (Hp1 : u32 (period - bytes) = period - bytes) by (apply u32_small; lia).
  assert (Hp2 : u32 (index * period) = index * period) by (apply u32_small; nia).
  assert (Hp3 : u32 (index * period + (period - bytes)) = pos)
    by (apply u32_small; unfold pos; nia).
  destruct SBEMU.
  - cbn [negb]. run_pure. run_norm. rewrite Hp1, Hp2, Hp3.
    apply Z.ltb_lt in Hpos. rewrite Hpos. run_pure.
    unfold ret. rewrite <- !app_assoc. reflexivity.
  - cbn [negb]. run_pure. run_step Hc. run_norm. cbn [hd tl].
    run_pure. rewrite Hi8, Z.eqb_refl.
    cbn [negb]. run_pure. run_norm. rewrite Hp1, Hp2, Hp3.
    apply Z.ltb_lt in Hpos. rewrite Hpos. run_pure.
    unfold ret. rewrite <- !app_assoc. reflexivity.
Qed.

Lemma u8_rearm x :
  u8 (Z.lor (Z.lor (Z.lor (Z.lor (u8 x) ICH_PO_CR_START) ICH_PO_CR_IOCE)
               ICH_PO_CR_FEIE) ICH_PO_CR_LVBIE) = Z.lor (u8 x) 0x1d.
Proof.
  rewrite <- !Z.lor_assoc. unfold u8 at 1. rewrite trunc_lor.
  fold (u8 (u8 x)). rewrite (u8_small (u8 x)) by apply u8_range. reflexivity.
Qed.

Lemma u8_next_lvi x :
  u8 ((u8 x + 1) mod ICH_DMABUF_PERIODS) = (u8 x + 1) mod ICH_DMABUF_PERIODS.
Proof.
  apply u8_small.
  pose proof (Z.mod_pos_bound (u8 x + 1) ICH_DMABUF_PERIODS eq_refl).
  unfold ICH_DMABUF_PERIODS in *. lia.
Qed.

Lemma u8_ack x :
  u8 (Z.land (u8 x)
        (Z.lor (Z.lor ICH_PO_SR_LVBCI ICH_PO_SR_BCIS) ICH_PO_SR_FIFO)) =
  Z.land (u8 x) 0x1c.
Proof. apply u8_land. change (Z.lor _ _) with 28. lia. Qed.

(** The interrupt routine, cause by cause. *)
Lemma irq_run w card c0 c1 c2 :
  has_card w card ->
  w_counts w = [c0; c1; c2] ->
  let status := u8 (hd 0 (w_ports w)) in
  let bm := baseport_bm card in
  let bump (bit c : Z) := if Z.land status bit =? 0 then c else s32 (c + 1) in
  exists w' cr lvi,
    INTELICH_IRQRoutine w = Ok (if status =? 0 then 0 else 1) w' /\
    w_aui w' = w_aui w /\ w_mem w' = w_mem w /\ w_clock w' = w_clock w /\
    w_counts w' = [bump ICH_PO_SR_BCIS c0; bump ICH_PO_SR_LVBCI c1;
                   bump ICH_PO_SR_FIFO c2] /\
    w_trace w' = w_trace w ++
      [EvIn W8 (bm + ICH_PO_SR_REG card) status] ++
      (if Z.land status ICH_PO_SR_LVBCI =? 0 then []
       else [EvIn W8 (bm + ICH_PO_CR_REG) cr;
             EvOut W8 (bm + ICH_PO_CR_REG) (Z.lor cr 0x1d);
             EvOut W8 (bm + ICH_PO_LVI_REG) 3]) ++
      (if Z.land status ICH_PO_SR_BCIS =? 0 then []
       else [EvIn W8 (bm + ICH_PO_LVI_REG) lvi;
             EvOut W8 (bm + ICH_PO_LVI_REG) ((lvi + 1) mod ICH_DMABUF_PERIODS)]) ++
      [EvOut W8 (bm + ICH_PO_SR_REG card) (Z.land status 0x1c)] /\
    0 <= cr < 256 /\ 0 <= lvi < 256.
Proof.
  intros Hc Hcnt status bm bump. subst status bm bump. cbv beta.
  unfold INTELICH_IRQRoutine. run_step Hc. run_step Hc.
  destruct (Z.land _ ICH_PO_SR_LVBCI =? 0) eqn:E1; cbn [negb];
    run Hc; rewrite ?u8_rearm;
    (destruct (Z.land _ ICH_PO_SR_BCIS =? 0) eqn:E2; cbn [negb];
     run Hc; rewrite ?u8_next_lvi;
     (destruct (Z.land _ ICH_PO_SR_FIFO =? 0) eqn:E3; cbn [negb];
      run Hc; rewrite ?u8_ack)).
  all: eexists _, _, _; (split; [reflexivity |]).
  all: split; [reflexivity |]; split; [reflexivity |]; split; [reflexivity |].
  all: split; [cbn [w_counts with_counts with_io]; rewrite Hcnt; reflexivity |].
  all: split; [cbn [w_trace with_io with_counts app]; rewrite <- ?app_assoc;
               cbn [app]; reflexivity |].
  all: split;
    match goal with
    | |- 0 <= ?x < 256 =>
        tryif is_evar x then (split; [apply Z.le_refl | reflexivity])
        else apply u8_range
    end.
Qed.

Lemma moved_refl card w : moved card w w [].
Proof.
  unfold moved, same_request. rewrite app_nil_r.
  split; [apply steady_refl |]. auto 10.
Qed.

Lemma moved_trans card w1 w2 w3 e1 e2 :
  moved card w1 w2 e1 -> moved card w2 w3 e2 -> moved card w1 w3 (e1 ++ e2).
Proof.
  intros (S1 & R1 & M1 & C1 & K1 & T1) (S2 & R2 & M2 & C2 & K2 & T2).
  split; [eapply steady_trans; eassumption |].
  split.
  { destruct R1 as (A1 & B1 & D1 & E1 & G1), R2 as (A2 & B2 & D2 & E2 & G2).
    unfold same_request. repeat split; congruence. }
  split; [intros a Ha; rewrite M2, M1 by exact Ha; reflexivity |].
  split; [congruence |]. split; [congruence |].
  rewrite T2, T1, app_assoc. reflexivity.
Qed.

Lemma quiet_moved card w w' evs : quiet w w' evs -> moved card w w' evs.
Proof.
  intros Hq. split; [eapply quiet_steady, Hq |].
  destruct Hq as (Ha & Hm & Hcn & Hk & Ht).
  split; [unfold same_request; rewrite Ha; auto 10 |].
  split; [intros a _; rewrite Hm; reflexivity |]. auto.
Qed.

Lemma moved_has_card card c w w' evs :
  moved card w w' evs -> has_card w c -> has_card w' c.
Proof. intros (S & _). apply steady_has_card, S. Qed.

Lemma quietly_moving {A} card (m : M A) w (Q : A -> list event -> Prop) :
  quietly m w Q -> moving card m w Q.
Proof.
  intros Hq. eapply returns_mono; [exact Hq |].
  intros a w' (evs & Hqu & HQ). exists evs. split; [apply quiet_moved, Hqu | exact HQ].
Qed.

(** *** The blocks of snd_intel_prepare_playback *)

Lemma prepare_wait_dma_loop_within retry w card :
  has_card w card ->
  quietly (prepare_wait_dma_loop retry) w
    (fun _ evs => within evs (Z.of_nat retry) (Z.of_nat retry) []).
Proof.
  revert w. induction retry as [| n IH]; intros w Hc; cbn [prepare_wait_dma_loop].
  - apply quietly_ret. apply within_nil.
  - eapply quietly_then; [exact Hc | apply deref_card_quietly, Hc |].
    intros c w0 e0 Hc0 [-> ->]. cbv beta.
    eapply quietly_then; [exact Hc0 | apply (read_within W8), Hc0 |].
    intros v w1 e1 Hc1 [_ ->]. cbv beta.
    destruct (negb (Z.land v ICH_PO_SR_DCH =? 0)).
    + apply quietly_ret. within_sum.
    + eapply quietly_then; [exact Hc1 | apply emit_quietly |].
      intros _ w2 e2 Hc2 ->. cbv beta.
      eapply quietly_mono; [apply IH, Hc2 |].
      intros r evs Hin. cbv beta in Hin. within_sum.
Qed.

Lemma prepare_reset_within w card :
  has_card w card ->
  quietly prepare_reset w (fun _ evs => exists cr,
    within evs 1 0
      [EvOut W8 (baseport_bm card + ICH_PO_CR_REG) (Z.lor cr ICH_PO_CR_RESET)]).
Proof.
  intros Hc. unfold prepare_reset.
  eapply quietly_then; [exact Hc | apply (read_within W8), Hc |].
  intros v w1 e1 Hc1 [Hv ->]. cbv beta.
  eapply quietly_mono; [apply (write_within W8), Hc1 |].
  intros _ e2 ->. exists v.
  rewrite trunc_lor, (trunc_small W8 v) by exact Hv. within_sum.
Qed.

Lemma prepare_channels_moving w card :
  has_card w card ->
  moving card prepare_channels w (fun _ evs => exists cmd,
    within evs 2 0 [EvOut W32 (baseport_bm card + ICH_GLOB_CNT_REG) cmd]).
Proof.
  intros Hc. unfold moving, returns, prepare_channels. run Hc.
  repeat (first [ progress run Hc | branch ]).
  all: eexists _, _; (split; [reflexivity |]).
  all: eexists; split;
    [ unfold moved, steady, same_request; cbn;
      rewrite <- ?app_assoc; cbn [app]; auto 15
    | eexists; unfold within; cbn; split; [lia | split; [lia | reflexivity]] ].
Qed.

Lemma u16_range v : 0 <= u16 v < 65536.
Proof. apply (trunc_range W16). Qed.

Lemma prepare_spdif_within w card :
  has_card w card ->
  quietly prepare_spdif w (fun _ evs => exists cmd,
    within evs 6002 50010
      [EvOut W16 (baseport_codec card + AC97_SPDIF_CONTROL) cmd] /\
    Z.land cmd (spdif_rate_of (freq_card (w_aui w))) =
    u16 (spdif_rate_of (freq_card (w_aui w)))).
Proof.
  intros Hc. unfold prepare_spdif.
  eapply quietly_bind with (P := fun a evs => a = w_aui w /\ evs = []).
  { eexists _, _. split; [reflexivity |]. exists []. split; [apply quiet_refl | auto]. }
  intros aui w1 e1 Hq1 [-> ->]. cbv beta.
  assert (Hc1 : has_card w1 card) by (eapply quiet_has_card; eassumption).
  eapply quietly_then; [exact Hc1 | eapply codec_read_samples, Hc1 |].
  intros r w2 e2 Hc2 (_ & He2 & _). cbv beta.
  eapply quietly_then; [exact Hc2 | eapply codec_write_lands, Hc2 |].
  intros _ w3 e3 Hc3 (pre & -> & Hpre). cbv beta.
  eapply quietly_mono; [apply emit_quietly |].
  intros _ e4 ->.
  exists (u16 (Z.lor (Z.land r AC97_SC_SPSR_MASK)
                 (spdif_rate_of (freq_card (w_aui w))))).
  split; [within_sum | apply u16_lor_land].
Qed.

Lemma prepare_dac_rate_within w card :
  has_card w card ->
  f_nonzero (ac97_clock_corrector card) = false ->
  quietly prepare_dac_rate w (fun _ evs =>
    within evs 2001 21600
      [EvOut W16 (baseport_codec card + AC97_PCM_FRONT_DAC_RATE)
         (u16 (freq_card (w_aui w)))]).
Proof.
  intros Hc Hz. unfold prepare_dac_rate.
  eapply quietly_bind; [apply deref_card_quietly, Hc |].
  intros c w1 e1 Hq1 [-> ->]. cbv beta.
  assert (Hc1 : has_card w1 card) by (eapply quiet_has_card; eassumption).
  assert (Ha1 : w_aui w1 = w_aui w) by (destruct Hq1 as (Ha & _); exact Ha).
  eapply quietly_bind with (P := fun a evs => a = w_aui w /\ evs = []).
  { eexists _, _. split; [reflexivity |]. exists []. split; [apply quiet_refl |].
    split; [exact Ha1 | reflexivity]. }
  intros aui w2 e2 Hq2 [-> ->]. cbv beta. rewrite Hz.
  assert (Hc2 : has_card w2 card) by (eapply quiet_has_card; eassumption).
  eapply quietly_then; [exact Hc2 | eapply codec_write_lands, Hc2 |].
  intros _ w3 e3 Hc3 (pre & -> & Hpre). cbv beta.
  eapply quietly_mono; [apply emit_quietly |].
  intros _ e4 ->. within_sum.
Qed.

Lemma prepare_publish_ok pss w card cm :
  has_card w card -> dm card = Some cm ->
  let bm := baseport_bm card in
  prepare_publish pss w =
  Ok tt
    (with_aui (if SBEMU then set_card_samples_per_int (pss / 2) (w_aui w)
               else w_aui w)
       (with_io (w_ports w)
          (w_trace w ++
             [EvOut W32 (bm + ICH_PO_BDBAR_REG)
                (u32 (pds_cardmem_physicalptr cm (buffer_descriptor_list card)));
              EvOut W8 (bm + ICH_PO_LVI_REG) 3;
              EvOut W8 (bm + ICH_PO_CIV_REG) 0;
              EvOut W8 (bm + ICH_PO_SR_REG card) 0x1c]) w)).
Proof.
  intros Hc Hdm bm. unfold prepare_publish. run_step Hc. rewrite Hdm. run Hc.
  destruct SBEMU; run Hc; unfold ret; rewrite <- !app_assoc; reflexivity.
Qed.

(** The descriptor-list block writes the 64 words of the list and no
    other word of the DMA memory. *)
Lemma prepare_bdl_framed w card cm :
  has_card w card ->
  dm card = Some cm ->
  Z.shiftr (bits_card (w_aui w)) 3 <> 0 ->
  let tb := buffer_descriptor_list card in
  let period := period_size_bytes card in
  let base := pds_cardmem_physicalptr cm (pcmout_buffer card) in
  let samples := period / Z.shiftr (bits_card (w_aui w)) 3 in
  let len := if device_type_eqb (device_type card) DEVICE_SIS
             then period else samples in
  let word := if SBEMU then Z.lor len (Z.shiftl ICH_BD_IOC 16) else len in
  exists m,
    prepare_bdl w = Ok samples (with_mem m w) /\
    (forall i, 0 <= i < ICH_DMABUF_PERIODS ->
       m !! (tb + 8 * i) = Some (u32 (base + i * period)) /\
       m !! (tb + 8 * i + 4) = Some (u32 word)) /\
    (forall i, ICH_DMABUF_PERIODS <= i < ICH_DMABUF_MAX_PERIODS ->
       m !! (tb + 8 * i) = Some 0 /\
       m !! (tb + 8 * i + 4) = Some 0) /\
    (forall a, outside_bdl card a -> m !! a = w_mem w !! a).
Proof.
  intros Hc Hdm Hbps tb period base samples len word.
  set (P := fun w0 : world => has_card w0 card).
  assert (HP : forall w0 m, P w0 -> P (with_mem m w0)) by (intros; assumption).
  assert (Hfill : forall i w0, P w0 ->
    bdl_fill_entry samples i w0 =
    Ok tt (with_mem (<[tb + 8 * i + 4 := u32 word]>
                       (<[tb + 8 * i := u32 (base + i * period)]> (w_mem w0)))
             w0)).
  { intros i w0 Hw0. unfold bdl_fill_entry. run_step Hw0. rewrite Hdm.
    unfold table_store, bind. fold tb period. cbn [w_mem with_mem].
    replace (tb + 4 * (i * 2 + 1)) with (tb + 8 * i + 4) by lia.
    replace (tb + 4 * (i * 2)) with (tb + 8 * i) by lia.
    replace (u32 (pds_cardmem_physicalptr cm
                    (u32 (pcmout_buffer card + u32 (i * period)))))
      with (u32 (base + i * period)).
    2:{ unfold base, pds_cardmem_physicalptr.
        replace (physicalptr cm +
                 (u32 (pcmout_buffer card + u32 (i * period)) - linearptr cm))
          with (physicalptr cm - linearptr cm +
                u32 (pcmout_buffer card + u32 (i * period))) by lia.
        rewrite u32_idem_r, Z.add_assoc, u32_idem_r. f_equal. lia. }
    destruct w0; reflexivity. }
  assert (Hclear : forall i w0, P w0 ->
    bdl_clear_entry i w0 =
    Ok tt (with_mem (<[tb + 8 * i + 4 := 0]>
                       (<[tb + 8 * i := 0]> (w_mem w0))) w0)).
  { intros i w0 Hw0. unfold bdl_clear_entry. run_step Hw0.
    unfold table_store, bind. fold tb. cbn [w_mem with_mem]. rewrite u32_0.
    replace (tb + 4 * (i * 2 + 1)) with (tb + 8 * i + 4) by lia.
    replace (tb + 4 * (i * 2)) with (tb + 8 * i) by lia.
    destruct w0; reflexivity. }
  destruct (for_loop_store_pairs P _ tb _ _ HP Hfill
              (Z.to_nat ICH_DMABUF_PERIODS) 0 w Hc) as (m1 & Hrun1 & Hin1 & Hout1).
  destruct (for_loop_store_pairs P _ tb _ _ HP Hclear
              (Z.to_nat (ICH_DMABUF_MAX_PERIODS - ICH_DMABUF_PERIODS))
              ICH_DMABUF_PERIODS (with_mem m1 w) Hc)
    as (m2 & Hrun2 & Hin2 & Hout2).
  assert (Hslots : forall i, 0 <= i < ICH_DMABUF_PERIODS ->
       m2 !! (tb + 8 * i) = Some (u32 (base + i * period)) /\
       m2 !! (tb + 8 * i + 4) = Some (u32 word)).
  { intros i Hi. unfold ICH_DMABUF_PERIODS in *.
    rewrite !Hout2 by lia. apply Hin1. simpl. lia. }
  exists m2. split.
  { unfold prepare_bdl. run_step Hc. run_pure.
    destruct (Z.eqb_spec (Z.shiftr (bits_card (w_aui w)) 3) 0) as [E | _];
      [contradiction |].
    fold period samples.
    rewrite (bind_ok _ _ _ _ _ Hrun1), (bind_ok _ _ _ _ _ Hrun2). reflexivity. }
  split; [exact Hslots |]. split.
  { intros i Hi. apply Hin2.
    unfold ICH_DMABUF_MAX_PERIODS, ICH_DMABUF_PERIODS in *. simpl. lia. }
  intros a Ha. unfold outside_bdl, ICH_DMABUF_ALIGN, ICH_DMABUF_MAX_PERIODS,
    ICH_BDL_ENTRY_SIZE in Ha. fold tb in Ha.
  rewrite Hout2 by (unfold ICH_DMABUF_MAX_PERIODS, ICH_DMABUF_PERIODS; simpl; lia).
  cbn [w_mem with_mem].
  apply Hout1. unfold ICH_DMABUF_PERIODS. simpl. lia.
Qed.

(** snd_intel_prepare_playback, block by block: the world [w5] in which
    the descriptor list is written, the memory [m] after it, and the
    world the call returns. *)
Lemma prepare_playback_run w card cm :
  has_card w card -> dm card = Some cm ->
  f_nonzero (ac97_clock_corrector card) = false ->
  bits_card (w_aui w) = 16 ->
  let bm := baseport_bm card in
  let codec := baseport_codec card in
  let tb := buffer_descriptor_list card in
  let period := period_size_bytes card in
  let base := pds_cardmem_physicalptr cm (pcmout_buffer card) in
  returns snd_intel_prepare_playback w (fun _ w' =>
    exists w5 m pre cr cmd spdif,
      moved card w w5 pre /\
      within pre 9006 72610
        [EvOut W8 (bm + ICH_PO_CR_REG) (Z.lor cr ICH_PO_CR_RESET);
         EvOut W32 (bm + ICH_GLOB_CNT_REG) cmd;
         EvOut W16 (codec + AC97_SPDIF_CONTROL) spdif;
         EvOut W16 (codec + AC97_PCM_FRONT_DAC_RATE)
           (u16 (freq_card (w_aui w)))] /\
      Z.land spdif (spdif_rate_of (freq_card (w_aui w))) =
      u16 (spdif_rate_of (freq_card (w_aui w))) /\
      (let samples := period / Z.shiftr (bits_card (w_aui w5)) 3 in
       let len := if device_type_eqb (device_type card) DEVICE_SIS
                  then period else samples in
       let word := if SBEMU then Z.lor len (Z.shiftl ICH_BD_IOC 16) else len in
       (forall i, 0 <= i < ICH_DMABUF_PERIODS ->
          m !! (tb + 8 * i) = Some (u32 (base + i * period)) /\
          m !! (tb + 8 * i + 4) = Some (u32 word)) /\
       (forall i, ICH_DMABUF_PERIODS <= i < ICH_DMABUF_MAX_PERIODS ->
          m !! (tb + 8 * i) = Some 0 /\ m !! (tb + 8 * i + 4) = Some 0) /\
       (forall a, outside_bdl card a -> m !! a = w_mem w5 !! a) /\
       w' = with_aui
              (if SBEMU
               then set_card_samples_per_int (samples / 2) (w_aui w5)
               else w_aui w5)
              (with_io (w_ports w5)
                 (w_trace w5 ++
                    [EvOut W32 (bm + ICH_PO_BDBAR_REG)
                       (u32 (pds_cardmem_physicalptr cm tb));
                     EvOut W8 (bm + ICH_PO_LVI_REG) 3;
                     EvOut W8 (bm + ICH_PO_CIV_REG) 0;
                     EvOut W8 (bm + ICH_PO_SR_REG card) 0x1c])
                 (with_mem m w5)))).
Proof.
  intros Hc Hdm Hz Hbits bm codec tb period base.
  unfold snd_intel_prepare_playback.
  apply returns_bind. eapply returns_mono;
    [eapply (quietly_moving card), prepare_wait_dma_loop_within, Hc |].
  intros r1 w1 (e1 & M1 & W1). cbv beta in W1. cbv beta.
  assert (Hc1 : has_card w1 card) by (eapply moved_has_card; eassumption).
  apply returns_bind. eapply returns_mono;
    [eapply (quietly_moving card), prepare_reset_within, Hc1 |].
  intros r2 w2 (e2 & M2 & cr & W2). cbv beta.
  assert (Hc2 : has_card w2 card) by (eapply moved_has_card; eassumption).
  pose proof (moved_trans _ _ _ _ _ _ M1 M2) as M12.
  apply returns_bind. eapply returns_mono;
    [eapply prepare_channels_moving, Hc2 |].
  intros r3 w3 (e3 & M3 & cmd & W3). cbv beta.
  assert (Hc3 : has_card w3 card) by (eapply moved_has_card; eassumption).
  pose proof (moved_trans _ _ _ _ _ _ M12 M3) as M13.
  apply returns_bind. eapply returns_mono;
    [eapply (quietly_moving card), prepare_spdif_within, Hc3 |].
  intros r4 w4 (e4 & M4 & spdif & W4 & Hsp). cbv beta.
  assert (Hc4 : has_card w4 card) by (eapply moved_has_card; eassumption).
  pose proof (moved_trans _ _ _ _ _ _ M13 M4) as M14.
  apply returns_bind. eapply returns_mono;
    [eapply (quietly_moving card), prepare_dac_rate_within; [exact Hc4 | exact Hz] |].
  intros r5 w5 (e5 & M5 & W5). cbv beta in W5. cbv beta.
  assert (Hc5 : has_card w5 card) by (eapply moved_has_card; eassumption).
  pose proof (moved_trans _ _ _ _ _ _ M14 M5) as M15.
  assert (Hf3 : freq_card (w_aui w3) = freq_card (w_aui w)).
  { destruct M13 as ((_ & Hf & _) & _). exact Hf. }
  assert (Hf4 : freq_card (w_aui w4) = freq_card (w_aui w)).
  { destruct M14 as ((_ & Hf & _) & _). exact Hf. }
  assert (Hb5 : bits_card (w_aui w5) = 16 \/ bits_card (w_aui w5) = 32).
  { destruct M15 as ((_ & _ & _ & [Hb | Hb]) & _);
      [left; rewrite Hb; exact Hbits | right; exact Hb]. }
  assert (Hbps : Z.shiftr (bits_card (w_aui w5)) 3 <> 0)
    by (destruct Hb5 as [-> | ->]; discriminate).
  destruct (prepare_bdl_framed w5 card cm Hc5 Hdm Hbps)
    as (m & Hrun & Hslots & Hrest & Hout).
  eexists tt, _. split.
  { rewrite (bind_ok _ _ _ _ _ Hrun).
    apply (prepare_publish_ok _ (with_mem m w5) card cm); [exact Hc5 | exact Hdm]. }
  exists w5, m, (e1 ++ e2 ++ e3 ++ e4 ++ e5), cr, cmd, spdif.
  split; [rewrite !app_assoc; exact M15 |].
  split.
  { rewrite Hf4 in W5. within_sum. }
  split; [rewrite <- Hf3; exact Hsp |].
  split; [exact Hslots |]. split; [exact Hrest |]. split; [exact Hout |].
  reflexivity.
Qed.

Lemma position_only_refl w : position_only w w.
Proof. unfold position_only. auto 15. Qed.

Lemma funcbit_enable_twice x b :
  funcbit_enable (funcbit_enable x b) b = funcbit_enable x b.
Proof. unfold funcbit_enable. rewrite <- Z.lor_assoc, Z.lor_diag. reflexivity. Qed.

Lemma position_only_trans w1 w2 w3 :
  position_only w1 w2 -> position_only w2 w3 -> position_only w1 w3.
Proof.
  unfold position_only.
  intros (A1 & B1 & C1 & D1 & E1 & F1 & G1 & H1 & I1 & J1 & K1 & L1)
         (A2 & B2 & C2 & D2 & E2 & F2 & G2 & H2 & I2 & J2 & K2 & L2).
  repeat (split; [congruence |]).
  destruct L2 as [L2 | L2]; rewrite L2; destruct L1 as [L1 | L1]; rewrite L1;
    rewrite ?funcbit_enable_twice; auto.
Qed.

(** One attempt of the position query: what it may touch. *)
Lemma getbufpos_attempt_footprint retry w card :
  has_card w card ->
  exists accepted w' evs,
    getbufpos_attempt retry w = Ok accepted w' /\
    position_only w w' /\
    w_trace w' = w_trace w ++ evs /\
    waited evs = 0 /\ (port_reads evs <= 3)%nat /\
    (port_writes evs = [] \/
     SBEMU = false /\ (retry <= 1)%nat /\
     port_writes evs = [EvOut W8 (baseport_bm card + ICH_PO_CIV_REG) 0]).
Proof.
  intros Hc. unfold getbufpos_attempt, MDma_clearbuf.
  run Hc.
  destruct SBEMU eqn:ES; cbn [negb andb].
  - repeat (first [ progress run Hc | branch ]).
    all: eexists _, _, _; (split; [reflexivity |]).
    all: split; [unfold position_only; cbn; auto 15 |].
    all: split; [cbn [w_trace with_io with_aui]; rewrite <- ?app_assoc;
                 cbn [app]; reflexivity |].
    all: split; [reflexivity |]; split; [cbn; lia |]; left; reflexivity.
  - destruct (ICH_DMABUF_PERIODS <=? u8 (hd 0 (w_ports w))) eqn:Ebad.
    + destruct (1 <? retry)%nat eqn:Er.
      * eexists _, _, _. split; [reflexivity |].
        split; [unfold position_only; cbn; auto 15 |].
        split; [cbn [w_trace with_io]; reflexivity |].
        split; [reflexivity |]. split; [cbn; lia |]. left. reflexivity.
      * run Hc. eexists _, _, _. split; [reflexivity |].
        split; [unfold position_only; cbn; auto 15 |].
        split; [cbn [w_trace with_io with_aui]; rewrite <- ?app_assoc;
                cbn [app]; reflexivity |].
        split; [reflexivity |]. split; [cbn; lia |]. right.
        split; [reflexivity |]. split; [apply Nat.ltb_ge in Er; exact Er |].
        reflexivity.
    + repeat (first [ progress run Hc | branch ]).
      all: eexists _, _, _; (split; [reflexivity |]).
      all: split; [unfold position_only; cbn; auto 15 |].
      all: split; [cbn [w_trace with_io with_aui]; rewrite <- ?app_assoc;
                   cbn [app]; reflexivity |].
      all: split; [reflexivity |]; split; [cbn; lia |]; left; reflexivity.
Qed.

Lemma position_only_has_card w w' card :
  position_only w w' -> has_card w card -> has_card w' card.
Proof. unfold position_only, has_card. intros (-> & _). auto. Qed.

Lemma getbufpos_loop_footprint retry w card :
  has_card w card ->
  exists accepted w' evs,
    getbufpos_loop retry w = Ok accepted w' /\
    position_only w w' /\
    w_trace w' = w_trace w ++ evs /\
    waited evs = 0 /\ (port_reads evs <= 3 * retry)%nat /\
    (port_writes evs = [] \/
     SBEMU = false /\
     port_writes evs = [EvOut W8 (baseport_bm card + ICH_PO_CIV_REG) 0]).
Proof.
  revert w. induction retry as [| r IH]; intros w Hc.
  - exists false, w, []. split; [reflexivity |].
    split; [apply position_only_refl |]. rewrite app_nil_r.
    split; [reflexivity |]. split; [reflexivity |]. split; [cbn; lia |].
    left. reflexivity.
  - destruct (getbufpos_attempt_footprint (S r) w card Hc)
      as (acc & w1 & e1 & Hrun & Hpo & Htr & Hwt & Hrd & Hwr).
    cbn [getbufpos_loop]. rewrite (bind_ok _ _ _ _ _ Hrun).
    destruct acc.
    + exists true, w1, e1. split; [reflexivity |]. split; [exact Hpo |].
      split; [exact Htr |]. split; [exact Hwt |]. split; [lia |].
      destruct Hwr as [Hwr | (HS & _ & Hwr)]; [left | right]; auto.
    + assert (Hc1 : has_card w1 card) by (eapply position_only_has_card; eassumption).
      destruct Hwr as [Hwr | (HS & Hlast & Hwr)].
      * destruct (IH w1 Hc1) as (acc & w2 & e2 & Hrun2 & Hpo2 & Htr2 & Hwt2 & Hrd2 & Hwr2).
        exists acc, w2, (e1 ++ e2). split; [exact Hrun2 |].
        split; [eapply position_only_trans; eassumption |].
        split; [rewrite Htr2, Htr, app_assoc; reflexivity |].
        split; [rewrite waited_app; lia |].
        split; [rewrite port_reads_app; lia |].
        rewrite port_writes_app, Hwr. exact Hwr2.
      * assert (r = O) by lia. subst r. cbn [getbufpos_loop].
        exists false, w1, e1. split; [reflexivity |]. split; [exact Hpo |].
        split; [exact Htr |]. split; [exact Hwt |]. split; [lia |].
        right. auto.
Qed.

(** In an SBEMU build a remaining count beyond the period size is not
    turned away: the position is computed modulo 2^32. *)
Lemma getbufpos_attempt_stale_sbemu retry w card index left lvi rest :
  SBEMU = true ->
  has_card w card ->
  w_ports w = index :: left :: lvi :: rest ->
  0 <= index < ICH_DMABUF_PERIODS ->
  0 <= left < 65536 -> 0 <= lvi < 256 ->
  let period := period_size_bytes card in
  let bytes := if device_type_eqb (device_type card) DEVICE_SIS then left
               else left * Z.shiftr (bits_card (w_aui w)) 3 in
  period < bytes -> bytes <= (index + 1) * period -> period < 2 ^ 30 ->
  let pos := (index + 1) * period - bytes in
  pos < card_dmasize (w_aui w) ->
  let drained := lvi =? index in
  getbufpos_attempt retry w =
  Ok true
    (with_aui
       (set_card_dma_lastgoodpos pos
          (if drained then flag_underrun (w_aui w) else w_aui w))
       (with_io rest
          (w_trace w ++
             [EvIn W8 (baseport_bm card + ICH_PO_CIV_REG) index;
              EvIn W16 (baseport_bm card + ICH_PO_PICB_REG card) left;
              EvIn W8 (baseport_bm card + ICH_PO_LVI_REG) lvi] ++
             (if drained then [EvClearBuf] else [])) w)).
Proof.
  intros HS Hc Hports Hidx Hleft Hlvi period bytes Hstale Hfit Hper pos Hpos drained.
  unfold ICH_DMABUF_PERIODS in *.
  assert (Hi8 : u8 index = index) by (apply u8_small; lia).
  assert (Hl16 : u16 left = left) by (apply u16_small; lia).
  assert (Hv8 : u8 lvi = lvi) by (apply u8_small; lia).
  unfold getbufpos_attempt, MDma_clearbuf. run_step Hc. run_step Hc. run_norm.
  rewrite Hports, HS. cbn [hd tl negb andb]. rewrite Hi8.
  run_step Hc. run_norm. cbn [hd tl]. rewrite Hl16.
  run_pure. run_norm.
  set (scaled := if negb (device_type_eqb (device_type card) DEVICE_SIS)
                 then u32 (left * Z.shiftr (bits_card (w_aui w)) 3) else left).
  assert (Hscaled : scaled = bytes).
  { unfold scaled, bytes. destruct (device_type_eqb (device_type card) DEVICE_SIS);
      cbn [negb]; [reflexivity |].
    apply u32_small. unfold bytes in *.
    destruct (device_type_eqb (device_type card) DEVICE_SIS); nia. }
  rewrite Hscaled. fold period.
  replace (period <? bytes) with true by (symmetry; apply Z.ltb_lt; lia).
  rewrite orb_true_r. run_pure. run_step Hc. run_norm. cbn [hd tl]. rewrite Hv8.
  fold drained.
  assert (Hwrap : u32 (u32 (index * period) + u32 (period - bytes)) = pos).
  { rewrite u32_idem_r. rewrite (u32_small (index * period)) by nia.
    replace (index * period + (period - bytes)) with pos by (unfold pos; lia).
    apply u32_small. unfold pos. nia. }
  destruct drained; run_pure; run_norm; rewrite Hwrap;
    cbn [card_dmasize set_card_infobits];
    apply Z.ltb_lt in Hpos; rewrite Hpos; run_pure;
    unfold ret, flag_underrun; cbn [w_aui with_aui with_io w_trace w_ports];
    rewrite <- !app_assoc; reflexivity.
Qed.

Lemma prepare_playback_moving w card cm :
  has_card w card -> dm card = Some cm ->
  f_nonzero (ac97_clock_corrector card) = false ->
  bits_card (w_aui w) = 16 ->
  returns snd_intel_prepare_playback w (fun _ w' =>
    exists evs cr cmd spdif,
      moved card w w' evs /\
      within evs 9006 72610
        (prepare_writes card cm (freq_card (w_aui w)) cr cmd spdif) /\
      ring_at card cm (period_size_bytes card) (bits_card (w_aui w')) (w_mem w') /\
      (SBEMU = true ->
       card_samples_per_int (w_aui w') =
       period_size_bytes card / Z.shiftr (bits_card (w_aui w')) 3 / 2)).
Proof.
  intros Hc Hdm Hz Hbits.
  eapply returns_mono; [apply (prepare_playback_run w card cm); assumption |].
  intros [] w' (w5 & m & pre & cr & cmd & spdif & M5 & W5 & _ & Hslots & Hrest & Hout & ->).
  exists (pre ++ [EvOut W32 (baseport_bm card + ICH_PO_BDBAR_REG)
                    (u32 (pds_cardmem_physicalptr cm (buffer_descriptor_list card)));
                  EvOut W8 (baseport_bm card + ICH_PO_LVI_REG) 3;
                  EvOut W8 (baseport_bm card + ICH_PO_CIV_REG) 0;
                  EvOut W8 (baseport_bm card + ICH_PO_SR_REG card) 0x1c]),
    cr, cmd, spdif.
  assert (Hbk : bits_card
            (if SBEMU
             then set_card_samples_per_int
                    (period_size_bytes card / Z.shiftr (bits_card (w_aui w5)) 3 / 2)
                    (w_aui w5)
             else w_aui w5) = bits_card (w_aui w5))
    by (destruct SBEMU; reflexivity).
  split.
  { eapply moved_trans; [exact M5 |].
    unfold moved, steady, same_request. cbn [w_aui w_mem w_counts w_clock w_trace
      with_aui with_io with_mem].
    destruct SBEMU; cbn; auto 20. }
  split.
  { unfold prepare_writes.
    change [EvOut W32 (baseport_bm card + ICH_PO_BDBAR_REG)
              (u32 (pds_cardmem_physicalptr cm (buffer_descriptor_list card)));
            EvOut W8 (baseport_bm card + ICH_PO_LVI_REG) 3;
            EvOut W8 (baseport_bm card + ICH_PO_CIV_REG) 0;
            EvOut W8 (baseport_bm card + ICH_PO_SR_REG card) 0x1c]
      with ([EvOut W32 (baseport_bm card + ICH_PO_BDBAR_REG)
               (u32 (pds_cardmem_physicalptr cm (buffer_descriptor_list card)))] ++
            [EvOut W8 (baseport_bm card + ICH_PO_LVI_REG) 3] ++
            [EvOut W8 (baseport_bm card + ICH_PO_CIV_REG) 0] ++
            [EvOut W8 (baseport_bm card + ICH_PO_SR_REG card) 0x1c]).
    within_sum. }
  cbn [w_aui w_mem with_aui with_io with_mem]. rewrite Hbk.
  split; [split; assumption |].
  intros HS. rewrite HS. reflexivity.
Qed.

Lemma bind_gettimeu {B} (k : Z -> M B) w t ts :
  w_clock w = t :: ts ->
  bind pds_gettimeu k w = k t (with_clock ts (w_trace w ++ [EvTime t]) w).
Proof. intros Hk. unfold bind, pds_gettimeu. rewrite Hk. reflexivity. Qed.

(** The polling loop of the clock measurement ends as soon as the clock
    has passed the one-second limit, whatever the hardware index does. *)
Lemma measure_poll_returns start card tlate tend :
  start + 1000000 < tlate ->
  forall ts fuel w,
    has_card w card ->
    w_clock w = ts ++ [tlate; tend] ->
    (length ts < fuel)%nat ->
    exists w',
      measure_poll start fuel w = Ok tt w' /\
      w_aui w' = w_aui w /\ w_mem w' = w_mem w /\ w_counts w' = w_counts w /\
      exists t rest, w_clock w' = t :: rest.
Proof.
  intros Hlate. induction ts as [| t ts IH]; intros fuel w Hc Hk Hfuel;
    (destruct fuel as [| n]; [cbn [length] in Hfuel; lia |]);
    cbn [measure_poll]; run_step Hc.
  - destruct (ICH_DMABUF_PERIODS - 1 <=? u8 (hd 0 (w_ports w))).
    + run Hc. destruct (ICH_DMABUF_PERIODS - 1 <=? _).
      * run_pure. eexists. split; [reflexivity |].
        cbn. rewrite Hk. eauto 10.
      * run_pure. rewrite (bind_gettimeu _ _ tlate [tend]) by (cbn; exact Hk).
        replace (tlate <=? start + 1000000) with false
          by (symmetry; apply Z.leb_gt; exact Hlate).
        eexists. split; [reflexivity |]. cbn. eauto 10.
    + run_pure. rewrite (bind_gettimeu _ _ tlate [tend]) by (cbn; exact Hk).
      replace (tlate <=? start + 1000000) with false
        by (symmetry; apply Z.leb_gt; exact Hlate).
      eexists. split; [reflexivity |]. cbn. eauto 10.
  - assert (Hstep : forall w1 : world,
              has_card w1 card -> w_aui w1 = w_aui w -> w_mem w1 = w_mem w ->
              w_counts w1 = w_counts w -> w_clock w1 = (t :: ts) ++ [tlate; tend] ->
              exists w',
                (let* now := pds_gettimeu in
                 if now <=? start + 1000000 then measure_poll start n
                 else ret tt) w1 = Ok tt w' /\
                w_aui w' = w_aui w /\ w_mem w' = w_mem w /\
                w_counts w' = w_counts w /\
                exists t' rest, w_clock w' = t' :: rest).
    { intros w1 Hc1 Ha1 Hm1 Hn1 Hk1.
      rewrite (bind_gettimeu _ _ t (ts ++ [tlate; tend])) by exact Hk1.
      destruct (t <=? start + 1000000).
      - destruct (IH n (with_clock (ts ++ [tlate; tend])
                          (w_trace w1 ++ [EvTime t]) w1))
          as (w' & Hrun & Ha & Hm & Hn & Hrest);
          [exact Hc1 | reflexivity | cbn [length] in Hfuel; lia |].
        exists w'. split; [exact Hrun |]. cbn in Ha, Hm, Hn.
        split; [congruence |]. split; [congruence |]. split; [congruence |].
        exact Hrest.
      - eexists. split; [reflexivity |]. cbn.
        split; [exact Ha1 |]. split; [exact Hm1 |]. split; [exact Hn1 |].
        destruct ts; cbn; eauto. }
    destruct (ICH_DMABUF_PERIODS - 1 <=? u8 (hd 0 (w_ports w))).
    + run Hc. destruct (ICH_DMABUF_PERIODS - 1 <=? _).
      * run_pure. eexists. split; [reflexivity |].
        cbn. rewrite Hk. cbn. eauto 10.
      * run_pure. apply Hstep; try reflexivity; [exact Hc | exact Hk].
    + run_pure. apply Hstep; try reflexivity; [exact Hc | exact Hk].
Qed.

Lemma calibrate_skips w card :
  has_card w card ->
  device_type card <> DEVICE_INTEL \/ ac97_clock_detected card <> 0 ->
  setrate_calibrate w = Ok tt w.
Proof.
  intros Hc Hskip. unfold setrate_calibrate. run_step Hc.
  destruct Hskip as [Hd | Hd].
  - destruct (device_type card); try congruence; reflexivity.
  - destruct (Z.eqb_spec (ac97_clock_detected card) 0); [contradiction |].
    rewrite andb_false_r. reflexivity.
Qed.

(** The end of the measurement, from the second reading of the clock
    on. *)
Lemma measure_tail w card freq_save starttime cr t rest :
  has_card w card ->
  w_clock w = t :: rest ->
  exists w' card',
    (let* endtime := pds_gettimeu in
     let timelen := if starttime <? endtime then endtime - starttime else 0 in
     INTELICH_stop ;;;
     (if SBEMU then snd_intel_write_8 ICH_PO_CR_REG cr else ret tt) ;;;
     (if negb (timelen =? 0) && (timelen <? 1000000) then
        let* card := deref_card in
        let* aui := get_aui in
        let dmabufsize :=
          s32 (u32 (period_size_bytes card * (ICH_DMABUF_PERIODS - 1))) in
        modify_card (set_ac97_clock_corrector
                       (filter_corrector
                          (measured_corrector (freq_card aui) (chan_card aui)
                             (bits_card aui) dmabufsize timelen)))
      else ret tt) ;;;
     modify_aui (set_freq_card freq_save) ;;;
     modify_card (set_ac97_clock_detected 1)) w = Ok tt w' /\
    has_card w' card' /\
    ac97_clock_detected card' = 1 /\
    vra card' = vra card /\ device_type card' = device_type card /\
    dm card' = dm card /\ period_size_bytes card' = period_size_bytes card /\
    (ac97_clock_corrector card' = ac97_clock_corrector card \/
     exists c, ac97_clock_corrector card' = filter_corrector c) /\
    freq_card (w_aui w') = freq_save /\
    chan_card (w_aui w') = chan_card (w_aui w) /\
    bits_card (w_aui w') = bits_card (w_aui w) /\
    w_mem w' = w_mem w.
Proof.
  intros Hc Hk.
  rewrite (bind_gettimeu _ _ t rest) by exact Hk. cbv zeta.
  set (w1 := with_clock rest (w_trace w ++ [EvTime t]) w).
  assert (Hc1 : has_card w1 card) by exact Hc.
  rewrite (bind_ok _ _ _ _ _ (INTELICH_stop_ok w1 card Hc1)).
  set (w2 := with_io _ _ w1).
  assert (Hc2 : has_card w2 card) by exact Hc.
  assert (Hsb : exists w3,
            (if SBEMU then snd_intel_write_8 ICH_PO_CR_REG cr else ret tt) w2 =
            Ok tt w3 /\ w_aui w3 = w_aui w /\ w_mem w3 = w_mem w).
  { destruct SBEMU.
    - rewrite (snd_intel_write_8_ok _ _ _ _ Hc2). eexists. split; [reflexivity |].
      split; reflexivity.
    - eexists. split; [reflexivity |]. split; reflexivity. }
  destruct Hsb as (w3 & Hrun3 & Ha3 & Hm3).
  rewrite (bind_ok _ _ _ _ _ Hrun3).
  assert (Hc3 : has_card w3 card) by (unfold has_card; rewrite Ha3; exact Hc).
  destruct (negb (_ =? 0) && (_ <? 1000000)).
  - run_pure. run_step Hc3. run_pure.
    rewrite (bind_ok _ _ _ _ _ (modify_card_ok _ _ _ Hc3)).
    run_pure. unfold modify_card. cbn.
    eexists _, _. split; [reflexivity |].
    split; [reflexivity |]. cbn. rewrite Ha3, Hm3.
    repeat (split; [reflexivity |]).
    split; [right; eexists; reflexivity |]. auto.
  - run_pure. unfold modify_card. cbn. rewrite Hc3.
    eexists _, _. split; [reflexivity |].
    split; [reflexivity |]. cbn. rewrite Ha3, Hm3.
    repeat (split; [reflexivity |]).
    split; [left; reflexivity |]. auto.
Qed.

Lemma bind_init_pcmoutbuf {B} a b (k : Z -> M B) w :
  bind (MDma_init_pcmoutbuf a b) k w =
  k (u32 (hd 0 (w_ports w)))
    (with_aui (set_card_dmasize (u32 (hd 0 (w_ports w))) (w_aui w))
       (with_io (tl (w_ports w))
          (w_trace w ++ [EvInitBuf a b (u32 (hd 0 (w_ports w)))]) w)).
Proof. reflexivity. Qed.

(** The clock measurement returns once the clock has passed the
    one-second limit. *)
Lemma measure_clock_run w card cm t0 ts tlate tend :
  has_card w card -> dm card = Some cm ->
  f_nonzero (ac97_clock_corrector card) = false ->
  w_clock w = t0 :: ts ++ [tlate; tend] ->
  t0 + 1000000 < tlate ->
  exists w' card',
    snd_intel_measure_ac97_clock w = Ok tt w' /\
    has_card w' card' /\
    ac97_clock_detected card' = 1 /\
    vra card' = vra card /\ device_type card' = device_type card /\
    dm card' = dm card /\
    (ac97_clock_corrector card' = ac97_clock_corrector card \/
     exists c, ac97_clock_corrector card' = filter_corrector c) /\
    freq_card (w_aui w') = freq_card (w_aui w) /\
    chan_card (w_aui w') = 2.
Proof.
  intros Hc Hdm Hz Hk Hlate.
  unfold snd_intel_measure_ac97_clock. run_pure. run_step Hc. run_norm.
  rewrite bind_init_pcmoutbuf. run_norm.
  set (size := u32 (hd 0 (w_ports w))).
  set (card2 := set_period_size_bytes
                  (u32 (Z.quot (s32 size) ICH_DMABUF_PERIODS)) card).
  match goal with
  | |- context [bind (modify_card ?f) ?k ?w0] =>
      rewrite (bind_ok _ k w0 _ _ (modify_card_ok f w0 card Hc))
  end.
  fold card2. set (w2 := with_aui (set_card_private_data (Some card2) _) _).
  assert (Hc2 : has_card w2 card2) by reflexivity.
  assert (Hk2 : w_clock w2 = t0 :: ts ++ [tlate; tend]) by exact Hk.
  assert (Hch2 : chan_card (w_aui w2) = 2) by reflexivity.
  destruct (prepare_playback_moving w2 card2 cm Hc2 Hdm Hz eq_refl)
    as ([] & w3 & Hrun3 & e3 & cr3 & cmd3 & sp3 & M3 & _).
  rewrite (bind_ok _ _ _ _ _ Hrun3).
  assert (Hc3 : has_card w3 card2) by (eapply moved_has_card; eassumption).
  assert (Hk3 : w_clock w3 = t0 :: ts ++ [tlate; tend]).
  { destruct M3 as (_ & _ & _ & _ & Hkk & _). rewrite Hkk. exact Hk2. }
  assert (Hch3 : chan_card (w_aui w3) = 2).
  { destruct M3 as ((_ & _ & Hch & _) & _). rewrite Hch. exact Hch2. }
  unfold MDma_clearbuf. run_pure.
  set (w4 := with_io _ _ w3).
  assert (Hc4 : has_card w4 card2) by exact Hc3.
  assert (Hcr : exists cr w5,
            (if SBEMU
             then let* cr := snd_intel_read_8 ICH_PO_CR_REG in
                  snd_intel_write_8 ICH_PO_CR_REG 0 ;;; ret cr
             else ret 0) w4 = Ok cr w5 /\
            w_aui w5 = w_aui w3 /\ w_clock w5 = w_clock w3).
  { destruct SBEMU.
    - run Hc4. eexists _, _. split; [reflexivity |]. split; reflexivity.
    - eexists _, _. split; [reflexivity |]. split; reflexivity. }
  destruct Hcr as (cr & w5 & Hrun5 & Ha5 & Hk5).
  rewrite (bind_ok _ _ _ _ _ Hrun5).
  assert (Hc5 : has_card w5 card2) by (unfold has_card; rewrite Ha5; exact Hc3).
  destruct (start_run w5 card2 Hc5)
    as ([] & w6 & Hrun6 & e6 & (Ha6 & _ & _ & Hk6 & _) & _).
  rewrite (bind_ok _ _ _ _ _ Hrun6).
  assert (Hc6 : has_card w6 card2) by (unfold has_card; rewrite Ha6; exact Hc5).
  rewrite (bind_gettimeu _ _ t0 (ts ++ [tlate; tend]))
    by (rewrite Hk6, Hk5; exact Hk3).
  set (w7 := with_clock _ _ w6).
  assert (Hc7 : has_card w7 card2) by exact Hc6.
  destruct (measure_poll_returns t0 card2 tlate tend Hlate ts
              (S (length (w_clock w7))) w7 Hc7 eq_refl)
    as (w8 & Hrun8 & Ha8 & _ & _ & t8 & rest8 & Hk8).
  { cbn [w_clock w7 with_clock]. rewrite length_app. lia. }
  rewrite (bind_ok (fun w0 => measure_poll t0 (S (length (w_clock w0))) w0)
             _ w7 tt w8 Hrun8).
  assert (Hc8 : has_card w8 card2) by (unfold has_card; rewrite Ha8; exact Hc7).
  destruct (measure_tail w8 card2 (freq_card (w_aui w)) t0 cr t8 rest8 Hc8 Hk8)
    as (w' & card' & Hrun & Hc' & Hdet & Hvra & Hdt & Hdm' & _ & Hcor & Hfreq & Hch & _).
  exists w', card'. split; [exact Hrun |]. split; [exact Hc' |].
  split; [exact Hdet |]. split; [exact Hvra |]. split; [exact Hdt |].
  split; [exact Hdm' |]. split; [exact Hcor |]. split; [exact Hfreq |].
  rewrite Hch, Ha8. cbn [w_aui w7 with_clock]. rewrite Ha6, Ha5. exact Hch3.
Qed.

(** ** The codec bus *)

(** X1.  snd_intel_codec_ready polls the global status register until the
    codec bit shows (the primary-codec bit when called with 0), waiting
    100 microseconds after every poll that missed.  Its result is 1000
    minus the number of polls that missed: 1000 when the first poll hits,
    0 exactly when all 1000 polls missed.  It writes no port and leaves
    the driver state alone. *)
Theorem codec_ready_counts_missed_polls codec w card :
  has_card w card ->
  let mask := if codec =? 0 then ICH_GLOB_STAT_PCR else codec in
  let stat := baseport_bm card + ICH_GLOB_STAT_REG in
  quietly (snd_intel_codec_ready codec) w (fun r evs =>
    exists missed hit,
      evs = missed_polls W32 stat 10 missed ++ hit /\
      Forall (fun v => Z.land v mask = 0) missed /\
      r = 1000 - Z.of_nat (length missed) /\
      0 <= r <= 1000 /\
      waited evs = 10 * (1000 - r) /\
      port_writes evs = [] /\
      (r <> 0 -> exists v, hit = [EvIn W32 stat v] /\ Z.land v mask <> 0) /\
      (r = 0 -> hit = [])).
Proof.
  intros Hc mask stat. unfold snd_intel_codec_ready. fold mask.
  eapply quietly_mono; [apply codec_ready_loop_polls, Hc |].
  intros r evs (vs & hit & -> & Hvs & Hr & Hlen & Hhit). fold stat.
  change (Z.of_nat ICH_DEFAULT_RETRY) with 1000 in Hr.
  assert (Hl : (length vs <= 1000)%nat) by exact Hlen.
  destruct (missed_polls_within W32 stat 10 vs ltac:(lia)) as (_ & Hw & Hp).
  exists vs, hit. split; [reflexivity |]. split; [exact Hvs |].
  split; [exact Hr |]. split; [lia |].
  rewrite waited_app, port_writes_app, Hw, Hp.
  destruct Hhit as [(Hnz & v & -> & Hv) | (Hz & ->)].
  - split; [cbn; lia |]. split; [reflexivity |].
    split; [intros _; exists v; auto | intros Hz; contradiction].
  - split; [cbn; lia |]. split; [reflexivity |].
    split; [intros Hnz; contradiction | reflexivity].
Qed.

(** X2.  INTELICH_writeMIXER always ends by writing the low 16 bits of
    the value to the codec register, also when the codec never gets ready
    and the semaphore never clears: before that write it reads at most
    2001 ports, waits at most 200 ms and writes nothing.  With a null
    handle it faults. *)
Theorem mixer_write_always_lands reg val w :
  (forall card, has_card w card ->
     quietly (INTELICH_writeMIXER reg val) w (fun _ evs =>
       exists pre,
         evs = pre ++ [EvOut W16 (baseport_codec card + reg) (u16 val)] /\
         within pre 2001 20000 [])) /\
  (card_private_data (w_aui w) = None ->
     INTELICH_writeMIXER reg val w = Fault).
Proof.
  split.
  - intros card Hc. apply codec_write_lands, Hc.
  - intros Hn. unfold INTELICH_writeMIXER, snd_intel_codec_write, bind at 1.
    rewrite codec_semaphore_null by exact Hn. reflexivity.
Qed.

(** X3.  INTELICH_readMIXER returns a 16-bit value, the last one it
    sampled from the codec register: the trace ends with that sample, the
    status read after it, and a delay exactly when the status still showed
    the read-completion bit (all 1000 samples timed out).  It writes no
    port, reads at most 4001 and waits at most 300 ms.  With a null
    handle it faults. *)
Theorem mixer_read_returns_last_sample reg w :
  (forall card, has_card w card ->
     quietly (INTELICH_readMIXER reg) w (fun r evs =>
       0 <= r < 65536 /\
       within evs 4001 30000 [] /\
       exists pre st,
         evs = pre ++
           [EvIn W16 (baseport_codec card + reg) r;
            EvIn W32 (baseport_bm card + ICH_GLOB_STAT_REG) st] ++
           (if Z.land st ICH_GLOB_STAT_RCS =? 0 then [] else [EvDelay 10]))) /\
  (card_private_data (w_aui w) = None -> INTELICH_readMIXER reg w = Fault).
Proof.
  split.
  - intros card Hc. apply codec_read_samples, Hc.
  - intros Hn. unfold INTELICH_readMIXER, snd_intel_codec_read, bind at 1.
    rewrite codec_semaphore_null by exact Hn. reflexivity.
Qed.

(** ** Bring-up *)

(** X4.  snd_intel_chip_init returns whatever the hardware answers, after
    at most 6006 port reads and 500 ms of delay, and leaves the driver
    state alone.  It starts by writing back the global status masked to
    the four sticky bits and the global control word computed from the
    word read: link-off bit and the channel mask of the family cleared,
    cold-reset bit set, warm-reset bit set when the word read had the
    cold-reset bit set and kept otherwise.  Its port writes are, in
    order: these two, the channel reset, in SBEMU builds the three
    interrupt enables, and for SIS7012 the unmute bit of register 0x4c. *)
Theorem chip_init_write_sequence w card :
  has_card w card ->
  let bm := baseport_bm card in
  let mask := if device_type_eqb (device_type card) DEVICE_SIS
              then ICH_SIS_PCM_246_MASK else ICH_PCM_246_MASK in
  quietly snd_intel_chip_init w (fun _ evs =>
    exists stat cnt ctl unmute rest,
      evs =
        [EvIn W32 (bm + ICH_GLOB_STAT_REG) stat;
         EvOut W32 (bm + ICH_GLOB_STAT_REG) (Z.land stat 0x80e0);
         EvIn W32 (bm + ICH_GLOB_CNT_REG) cnt;
         EvOut W32 (bm + ICH_GLOB_CNT_REG) ctl] ++ rest /\
      within evs 6006 50000
        ([EvOut W32 (bm + ICH_GLOB_STAT_REG) (Z.land stat 0x80e0);
          EvOut W32 (bm + ICH_GLOB_CNT_REG) ctl;
          EvOut W8 (bm + ICH_PO_CR_REG) ICH_PO_CR_RESET] ++
         (if SBEMU then [EvOut W8 (bm + ICH_PO_CR_REG) 0x1c] else []) ++
         (if device_type_eqb (device_type card) DEVICE_SIS
          then [EvOut W16 (bm + 0x4c) (Z.lor unmute 1)] else [])) /\
      Z.land ctl ICH_GLOB_CNT_ACLINKOFF = 0 /\
      Z.land ctl mask = 0 /\
      Z.land ctl ICH_GLOB_CNT_AC97COLD = ICH_GLOB_CNT_AC97COLD /\
      (Z.land cnt ICH_GLOB_CNT_AC97COLD = 0 ->
         Z.land ctl ICH_GLOB_CNT_AC97WARM = Z.land cnt ICH_GLOB_CNT_AC97WARM) /\
      (Z.land cnt ICH_GLOB_CNT_AC97COLD <> 0 ->
         Z.land ctl ICH_GLOB_CNT_AC97WARM = ICH_GLOB_CNT_AC97WARM)).
Proof.
  intros Hc bm mask.
  eapply quietly_mono; [apply chip_init_run, Hc |].
  intros _ evs (stat & cnt & unmute & rest & Hcnt & Hevs & Hin).
  exists stat, cnt, (chip_init_control (device_type card) cnt), unmute, rest.
  split; [exact Hevs |]. split; [exact Hin |].
  apply chip_init_control_bits.
Qed.

(** X5.  snd_intel_ac97_init writes exactly four codec registers, in this
    order: master, PCM-out and headphone volume, each with 0x0202, and
    the extended status with the SPDIF bit alone.  It never sets the
    variable-rate bit and leaves the driver state, the card's
    variable-rate flag included, as it was. *)
Theorem ac97_init_sets_volumes_and_spdif freq_set w card :
  has_card w card ->
  let codec := baseport_codec card in
  exists w' evs,
    snd_intel_ac97_init freq_set w = Ok tt w' /\
    w_aui w' = w_aui w /\ w_mem w' = w_mem w /\
    w_trace w' = w_trace w ++ evs /\
    within evs 8004 80000
      [EvOut W16 (codec + AC97_MASTER_VOL_STEREO) 0x0202;
       EvOut W16 (codec + AC97_PCMOUT_VOL) 0x0202;
       EvOut W16 (codec + AC97_HEADPHONE_VOL) 0x0202;
       EvOut W16 (codec + AC97_EXTENDED_STATUS) (u16 AC97_EA_SPDIF)].
Proof.
  intros Hc codec.
  destruct (ac97_init_run freq_set w card Hc)
    as ([] & w' & Hrun & evs & (Ha & Hm & _ & _ & Ht) & Hin).
  exists w', evs. auto.
Qed.

(** X6.  INTELICH_start waits for the primary codec (at most 1000 polls)
    and then, in an SBEMU build, reads the transfer-control register and
    writes it back with the start bit and the last-valid-buffer and
    completion interrupt enables set, all other bits as read.  In a build
    without SBEMU it writes no port at all: the start bit is never set. *)
Theorem start_sets_run_bits_in_sbemu_only w card :
  has_card w card ->
  let cr := baseport_bm card + ICH_PO_CR_REG in
  quietly INTELICH_start w (fun _ evs =>
    exists pre v,
      within pre 1000 10000 [] /\
      evs = pre ++ (if SBEMU then [EvIn W8 cr v; EvOut W8 cr (Z.lor v 0x15)]
                    else []) /\
      Z.land (Z.lor v 0x15) 0x15 = 0x15 /\
      Z.land (Z.lor v 0x15) (Z.lnot 0x15) = Z.land v (Z.lnot 0x15) /\
      (SBEMU = false -> port_writes evs = [])).
Proof.
  intros Hc cr.
  eapply quietly_mono; [apply start_run, Hc |].
  intros _ evs (pre & v & Hpre & ->).
  exists pre, v. split; [exact Hpre |]. split; [reflexivity |].
  split; [apply (land_enable_set v 0x15) |].
  split; [bitwise |].
  intros HS. rewrite HS, app_nil_r. destruct Hpre as (_ & _ & Hw). exact Hw.
Qed.

(** ** The position query *)

(** X7.  When the current index is inside the ring, the remaining count
    (in bytes: the register value for SIS7012, the value times the bytes
    per sample otherwise) is between 1 and the period size, the index
    reads the same again (builds without SBEMU read it twice) and the
    position is below the DMA buffer size, INTELICH_getbufpos returns
    index * period + (period - remaining) on the first attempt, stores it
    as the last good position, and does nothing but these two or three
    port reads. *)
Theorem getbufpos_reports_position w card index left rest :
  has_card w card ->
  w_ports w = index :: left :: (if SBEMU then rest else index :: rest) ->
  0 <= index < ICH_DMABUF_PERIODS ->
  0 <= left < 65536 ->
  let period := period_size_bytes card in
  let bytes := if device_type_eqb (device_type card) DEVICE_SIS then left
               else left * Z.shiftr (bits_card (w_aui w)) 3 in
  0 < bytes <= period -> period < 2 ^ 30 ->
  let pos := index * period + (period - bytes) in
  pos < card_dmasize (w_aui w) ->
  INTELICH_getbufpos w =
  Ok pos
    (with_aui (set_card_dma_lastgoodpos pos (w_aui w))
       (with_io rest
          (w_trace w ++
             [EvIn W8 (baseport_bm card + ICH_PO_CIV_REG) index;
              EvIn W16 (baseport_bm card + ICH_PO_PICB_REG card) left] ++
             (if SBEMU then []
              else [EvIn W8 (baseport_bm card + ICH_PO_CIV_REG) index])) w)).
Proof.
  intros Hc Hports Hidx Hleft period bytes Hbytes Hper pos Hpos.
  unfold INTELICH_getbufpos. cbn [getbufpos_loop]. run_pure.
  rewrite (bind_ok _ _ _ _ _
             (getbufpos_attempt_accepts 3 w card index left rest
                Hc Hports Hidx Hleft Hbytes Hper Hpos)).
  reflexivity.
Qed.

(** X8.  INTELICH_getbufpos always returns with a card in place.  It
    never waits, reads at most 9 ports, and writes at most one: 0 to the
    current-index register, and that in builds without SBEMU only.  Of
    the driver state it changes nothing but the stored position and the
    underrun flag, which it may set and never clears. *)
Theorem getbufpos_only_polls w card :
  has_card w card ->
  exists pos w' evs,
    INTELICH_getbufpos w = Ok pos w' /\
    pos = card_dma_lastgoodpos (w_aui w') /\
    position_only w w' /\
    w_trace w' = w_trace w ++ evs /\
    waited evs = 0 /\ (port_reads evs <= 9)%nat /\
    (port_writes evs = [] \/
     SBEMU = false /\
     port_writes evs = [EvOut W8 (baseport_bm card + ICH_PO_CIV_REG) 0]).
Proof.
  intros Hc.
  destruct (getbufpos_loop_footprint 3 w card Hc)
    as (acc & w' & evs & Hrun & Hpo & Htr & Hwt & Hrd & Hwr).
  exists (card_dma_lastgoodpos (w_aui w')), w', evs.
  split.
  { unfold INTELICH_getbufpos. rewrite (bind_ok _ _ _ _ _ Hrun).
    run_pure. reflexivity. }
  split; [reflexivity |]. split; [exact Hpo |]. split; [exact Htr |].
  split; [exact Hwt |]. split; [exact Hrd | exact Hwr].
Qed.

(** X9.  In an SBEMU build a remaining count beyond the period size is
    not turned away.  The last valid index is read, the buffer is cleared
    and the underrun flag set when it equals the current index, and then
    the position is computed modulo 2^32 all the same: for a count of at
    most index + 1 periods it is (index + 1) * period - remaining, which
    lies before the start of the current period, and it is returned and
    stored when it is below the DMA buffer size. *)
Theorem getbufpos_stale_count_wraps_in_sbemu w card index left lvi rest :
  SBEMU = true ->
  has_card w card ->
  w_ports w = index :: left :: lvi :: rest ->
  0 <= index < ICH_DMABUF_PERIODS ->
  0 <= left < 65536 -> 0 <= lvi < 256 ->
  let period := period_size_bytes card in
  let bytes := if device_type_eqb (device_type card) DEVICE_SIS then left
               else left * Z.shiftr (bits_card (w_aui w)) 3 in
  period < bytes -> bytes <= (index + 1) * period -> period < 2 ^ 30 ->
  let pos := (index + 1) * period - bytes in
  pos < card_dmasize (w_aui w) ->
  let drained := lvi =? index in
  pos < index * period /\
  INTELICH_getbufpos w =
  Ok pos
    (with_aui
       (set_card_dma_lastgoodpos pos
          (if drained then flag_underrun (w_aui w) else w_aui w))
       (with_io rest
          (w_trace w ++
             [EvIn W8 (baseport_bm card + ICH_PO_CIV_REG) index;
              EvIn W16 (baseport_bm card + ICH_PO_PICB_REG card) left;
              EvIn W8 (baseport_bm card + ICH_PO_LVI_REG) lvi] ++
             (if drained then [EvClearBuf] else [])) w)).
Proof.
  intros HS Hc Hports Hidx Hleft Hlvi period bytes Hstale Hfit Hper pos Hpos
    drained.
  split; [unfold pos; lia |].
  unfold INTELICH_getbufpos. cbn [getbufpos_loop]. run_pure.
  rewrite (bind_ok _ _ _ _ _
             (getbufpos_attempt_stale_sbemu 3 w card index left lvi rest
                HS Hc Hports Hidx Hleft Hlvi Hstale Hfit Hper Hpos)).
  fold drained. destruct drained; reflexivity.
Qed.

(** ** The interrupt routine *)

(** X10.  INTELICH_IRQRoutine, which is compiled in SBEMU builds only,
    adds one (with 32-bit wrap-around) to the counter of each interrupt
    cause whose bit is set in the status byte and leaves the other
    counters, the handle and the DMA memory alone; sis7012_get then
    returns the three counters, and faults for an index past the last
    one. *)
Theorem irq_counts_each_cause w card c0 c1 c2 :
  has_card w card ->
  w_counts w = [c0; c1; c2] ->
  let status := u8 (hd 0 (w_ports w)) in
  let bump (bit c : Z) := if Z.land status bit =? 0 then c else s32 (c + 1) in
  exists handled w',
    INTELICH_IRQRoutine w = Ok handled w' /\
    w_aui w' = w_aui w /\ w_mem w' = w_mem w /\
    sis7012_get SIS7012_DEBUG_IOC_COUNT w' = Ok (bump ICH_PO_SR_BCIS c0) w' /\
    sis7012_get SIS7012_DEBUG_BUP_COUNT w' = Ok (bump ICH_PO_SR_LVBCI c1) w' /\
    sis7012_get SIS7012_DEBUG_FIFO_COUNT w' = Ok (bump ICH_PO_SR_FIFO c2) w' /\
    sis7012_get SIS7012_DEBUG_LAST w' = Fault.
Proof.
  intros Hc Hcnt status bump.
  destruct (irq_run w card c0 c1 c2 Hc Hcnt)
    as (w' & cr & lvi & Hrun & Ha & Hm & _ & Hn & _).
  eexists _, w'. split; [exact Hrun |]. split; [exact Ha |]. split; [exact Hm |].
  unfold sis7012_get. rewrite Hn. repeat split; reflexivity.
Qed.

(** X11.  Whatever status it reads, INTELICH_IRQRoutine reads at most 3
    ports, never waits, and writes only three registers: the transfer
    control, always with the start bit and the three interrupt enables
    set; the last valid index, always with a value from 0 to 3; and the
    status register, with interrupt-cause bits only. *)
Theorem irq_keeps_last_valid_index_in_ring w card c0 c1 c2 :
  has_card w card ->
  w_counts w = [c0; c1; c2] ->
  exists handled w' evs,
    INTELICH_IRQRoutine w = Ok handled w' /\
    w_trace w' = w_trace w ++ evs /\
    waited evs = 0 /\ (port_reads evs <= 3)%nat /\
    Forall (irq_write card) (port_writes evs).
Proof.
  intros Hc Hcnt.
  destruct (irq_run w card c0 c1 c2 Hc Hcnt)
    as (w' & cr & lvi & Hrun & _ & _ & _ & _ & Htr & Hcr & Hlvi).
  eexists _, w', _. split; [exact Hrun |]. split; [exact Htr |].
  set (status := u8 (hd 0 (w_ports w))).
  assert (Hack : irq_write card
            (EvOut W8 (baseport_bm card + ICH_PO_SR_REG card) (Z.land status 0x1c))).
  { exists (Z.land status 0x1c). split.
    - rewrite <- (u8_land status 0x1c) by lia. apply u8_range.
    - right. right. split; [reflexivity | bitwise]. }
  assert (Hrearm : irq_write card
            (EvOut W8 (baseport_bm card + ICH_PO_CR_REG) (Z.lor cr 0x1d))).
  { exists (Z.lor cr 0x1d). split.
    - replace (Z.lor cr 0x1d) with (u8 (Z.lor cr 0x1d)); [apply u8_range |].
      unfold u8. rewrite trunc_lor, (trunc_small W8 cr) by exact Hcr. reflexivity.
    - left. split; [reflexivity | apply (land_enable_set cr 0x1d)]. }
  assert (Hlast : irq_write card (EvOut W8 (baseport_bm card + ICH_PO_LVI_REG) 3)).
  { exists 3. split; [lia |]. right. left. split; reflexivity. }
  assert (Hnext : irq_write card
            (EvOut W8 (baseport_bm card + ICH_PO_LVI_REG)
               ((lvi + 1) mod ICH_DMABUF_PERIODS))).
  { pose proof (Z.mod_pos_bound (lvi + 1) ICH_DMABUF_PERIODS eq_refl) as Hb.
    exists ((lvi + 1) mod ICH_DMABUF_PERIODS).
    split; [unfold ICH_DMABUF_PERIODS in *; lia |].
    right. left. split; [reflexivity | lia]. }
  fold status.
  destruct (Z.land status ICH_PO_SR_LVBCI =? 0),
           (Z.land status ICH_PO_SR_BCIS =? 0);
    (split; [reflexivity |]); (split; [cbn; lia |]);
    cbn; repeat constructor; assumption.
Qed.

(** ** Preparation, end to end *)

(** X12.  With the DMA memory allocated, no clock correction stored and
    16 effective bits on entry, snd_intel_prepare_playback returns
    whatever the hardware answers, after at most 9006 port reads and
    726.1 ms of delay.  Its port writes are, in order: the channel reset,
    the global control word, the SPDIF control register of the codec, the
    front DAC rate with the low 16 bits of the card frequency, the
    physical address of the descriptor list, last valid index 3, current
    index 0, and the three interrupt causes to the status register. *)
Theorem prepare_playback_write_sequence w card cm :
  has_card w card -> dm card = Some cm ->
  f_nonzero (ac97_clock_corrector card) = false ->
  bits_card (w_aui w) = 16 ->
  exists w' evs cr cmd spdif,
    snd_intel_prepare_playback w = Ok tt w' /\
    w_trace w' = w_trace w ++ evs /\
    within evs 9006 72610
      (prepare_writes card cm (freq_card (w_aui w)) cr cmd spdif).
Proof.
  intros Hc Hdm Hz Hbits.
  destruct (prepare_playback_moving w card cm Hc Hdm Hz Hbits)
    as ([] & w' & Hrun & evs & cr & cmd & spdif & M & Hin & _).
  exists w', evs, cr, cmd, spdif. split; [exact Hrun |].
  split; [| exact Hin]. destruct M as (_ & _ & _ & _ & _ & Ht). exact Ht.
Qed.

(** X13.  Under the same conditions, when snd_intel_prepare_playback
    returns the DMA memory holds the ring the hardware was pointed to:
    descriptors 0 to 3 address the four periods of the PCM buffer, with
    the period length in the unit of the family computed from the
    effective sample width the call leaves (16, or 32 when the 20-bit
    format was switched on), descriptors 4 to 31 are zero, and no word
    outside the descriptor list has changed.  Card, frequency, channel
    count and declared buffer size are as before; in SBEMU builds the
    samples per interrupt are half a period. *)
Theorem prepare_playback_publishes_ring w card cm :
  has_card w card -> dm card = Some cm ->
  f_nonzero (ac97_clock_corrector card) = false ->
  bits_card (w_aui w) = 16 ->
  exists w',
    snd_intel_prepare_playback w = Ok tt w' /\
    has_card w' card /\
    freq_card (w_aui w') = freq_card (w_aui w) /\
    chan_card (w_aui w') = chan_card (w_aui w) /\
    card_dmasize (w_aui w') = card_dmasize (w_aui w) /\
    (bits_card (w_aui w') = 16 \/ bits_card (w_aui w') = 32) /\
    ring_at card cm (period_size_bytes card) (bits_card (w_aui w')) (w_mem w') /\
    (forall a, outside_bdl card a -> w_mem w' !! a = w_mem w !! a) /\
    (SBEMU = true ->
     card_samples_per_int (w_aui w') =
     period_size_bytes card / Z.shiftr (bits_card (w_aui w')) 3 / 2).
Proof.
  intros Hc Hdm Hz Hbits.
  destruct (prepare_playback_moving w card cm Hc Hdm Hz Hbits)
    as ([] & w' & Hrun & evs & cr & cmd & spdif & M & _ & Hring & Hspi).
  exists w'. split; [exact Hrun |].
  split; [eapply moved_has_card; eassumption |].
  destruct M as ((_ & Hf & Hch & Hb) & (_ & _ & _ & Hsz & _) & Hm & _).
  split; [exact Hf |]. split; [exact Hch |]. split; [exact Hsz |].
  split; [destruct Hb as [Hb | Hb]; [left; rewrite Hb; exact Hbits | right; exact Hb] |].
  split; [exact Hring |]. split; [exact Hm | exact Hspi].
Qed.

(** X14.  When no clock measurement is due and no clock correction is
    stored, INTELICH_setrate returns with the ring inside the buffer the
    host declared: the period is a quarter of the declared DMA buffer
    size (rounded down), descriptor i addresses the buffer base plus i
    periods, and the end of each of the four periods is within the
    declared size.  The DMA memory outside the descriptor list is
    untouched. *)
Theorem setrate_ring_fits_buffer w card cm :
  has_card w card -> dm card = Some cm ->
  f_nonzero (ac97_clock_corrector card) = false ->
  device_type card <> DEVICE_INTEL \/ ac97_clock_detected card <> 0 ->
  let size := u32 (hd 0 (w_ports w)) in
  let period := size / ICH_DMABUF_PERIODS in
  let card' := set_period_size_bytes period card in
  exists w',
    INTELICH_setrate w = Ok tt w' /\
    has_card w' card' /\
    card_dmasize (w_aui w') = size /\
    ring_at card' cm period (bits_card (w_aui w')) (w_mem w') /\
    (forall i, 0 <= i < ICH_DMABUF_PERIODS ->
       0 <= i * period /\ (i + 1) * period <= size) /\
    (forall a, outside_bdl card a -> w_mem w' !! a = w_mem w !! a).
Proof.
  intros Hc Hdm Hz Hskip size period card'.
  pose proof (calibrate_skips w card Hc Hskip) as Hcal.
  pose proof (setrate_configure_ok w card Hc) as Hcfg.
  fold size in Hcfg. set (w1 := with_aui _ _) in Hcfg.
  assert (Hc1 : has_card w1 card') by reflexivity.
  destruct (prepare_playback_moving w1 card' cm Hc1 Hdm Hz eq_refl)
    as ([] & w' & Hrun & evs & cr & cmd & spdif & M & _ & Hring & _).
  exists w'. split.
  { unfold INTELICH_setrate.
    rewrite (bind_ok _ _ _ _ _ Hcal), (bind_ok _ _ _ _ _ Hcfg). exact Hrun. }
  split; [eapply moved_has_card; eassumption |].
  destruct M as (_ & (_ & _ & _ & Hsz & _) & Hm & _).
  split; [rewrite Hsz; reflexivity |].
  split; [exact Hring |]. split.
  { intros i Hi. unfold period, ICH_DMABUF_PERIODS in *.
    assert (Hs : 0 <= size) by apply (trunc_range W32).
    pose proof (Z.mul_div_le size 4 ltac:(lia)).
    assert (0 <= size / 4) by (apply Z.div_pos; lia).
    nia. }
  intros a Ha. rewrite Hm by exact Ha. reflexivity.
Qed.

(** ** Clock calibration *)

(** X15.  snd_intel_measure_ac97_clock returns as soon as the clock has
    passed the one-second limit, whatever the hardware index does: it is
    enough that the clock delivers a reading more than 1000000
    microseconds after the first one, and one more.  It leaves the card
    frequency as requested, 2 channels, the clock marked as detected, the
    variable-rate flag, family and DMA memory of the card as they were,
    and a corrector that is the one stored before or has gone through the
    plausibility filter; the one-time calibration of INTELICH_setrate is
    a no-op from then on. *)
Theorem measure_clock_returns_and_runs_once w card cm t0 ts tlate tend :
  has_card w card -> dm card = Some cm ->
  f_nonzero (ac97_clock_corrector card) = false ->
  w_clock w = t0 :: ts ++ [tlate; tend] ->
  t0 + 1000000 < tlate ->
  exists w' card',
    snd_intel_measure_ac97_clock w = Ok tt w' /\
    has_card w' card' /\
    ac97_clock_detected card' = 1 /\
    vra card' = vra card /\ device_type card' = device_type card /\
    dm card' = dm card /\
    (ac97_clock_corrector card' = ac97_clock_corrector card \/
     exists c, ac97_clock_corrector card' = filter_corrector c) /\
    freq_card (w_aui w') = freq_card (w_aui w) /\
    chan_card (w_aui w') = 2 /\
    setrate_calibrate w' = Ok tt w'.
Proof.
  intros Hc Hdm Hz Hk Hlate.
  destruct (measure_clock_run w card cm t0 ts tlate tend Hc Hdm Hz Hk Hlate)
    as (w' & card' & Hrun & Hc' & Hdet & Hrest).
  exists w', card'. split; [exact Hrun |]. split; [exact Hc' |].
  split; [exact Hdet |].
  destruct Hrest as (Hv & Hd & Hm & Hcor & Hf & Hch).
  repeat (split; [assumption |]).
  apply (calibrate_skips w' card' Hc'). right. rewrite Hdet. discriminate.
Qed.

(** ** The device table *)

(** X16.  No two rows of ich_devices have the same vendor and device id,
    so a lookup by id can find only one row, and no row has the ids 0, 0
    of the terminator.  The family follows the vendor: SIS7012 is the one
    row of vendor 0x1039, the NForce rows are exactly those of vendor
    0x10de, every ICH4 row is an Intel (0x8086) device, and the two AMD
    rows (0x1022) are of the Standard family, the one whose clock is
    measured. *)
Theorem table_ids_unique_family_by_vendor d d' :
  In d ich_devices -> In d' ich_devices ->
  (dev_vendor_id d = dev_vendor_id d' -> dev_device_id d = dev_device_id d' ->
   d = d') /\
  dev_vendor_id d <> 0 /\ dev_device_id d <> 0 /\
  (dev_device_type d = DEVICE_SIS <-> dev_vendor_id d = 0x1039) /\
  (dev_device_type d = DEVICE_NFORCE <-> dev_vendor_id d = 0x10de) /\
  (dev_device_type d = DEVICE_INTEL_ICH4 -> dev_vendor_id d = 0x8086) /\
  (dev_vendor_id d = 0x1022 -> dev_device_type d = DEVICE_INTEL).
Proof.
  intros Hin Hin'. split.
  - intros Hv Hd. unfold ich_devices in Hin, Hin'. cbn [In] in Hin, Hin'.
    repeat (destruct Hin as [<- | Hin]; [| try contradiction]);
      cbn [dev_vendor_id dev_device_id] in Hv, Hd;
      repeat (destruct Hin' as [<- | Hin']; [| try contradiction]);
      first [reflexivity | discriminate Hd | discriminate Hv].
  - clear d' Hin'. unfold ich_devices in Hin. cbn [In] in Hin.
    repeat (destruct Hin as [<- | Hin];
            [cbn; repeat split; intros; (reflexivity || discriminate) |]).
    contradiction.
Qed.

End Coverage.

(** ** The SPDIF rate field *)

Section SpdifRate.
Context {H : Headers} {F : FloatOps}.
Implicit Types (w : world) (card : intel_card_s) (evs : list event).

(** Lines 449-452.  The SPDIF block reads the SPDIF control register of
    the codec, keeps of the word read the bits of the rate-field mask and
    nothing else (line 450, [cmd&=AC97_SC_SPSR_MASK]), and ors the rate
    code selected for the card frequency into what it kept (line 451).
    The block always returns and leaves the driver state alone; its one
    port write is the word (old & mask) | code to the SPDIF control
    register, [old] being the sample of that register the read
    returned. *)
Lemma prepare_spdif_merges_old_field w card :
  has_card w card ->
  quietly prepare_spdif w (fun _ evs =>
    exists pre old st sem,
      evs =
        (pre ++
         [EvIn W16 (baseport_codec card + AC97_SPDIF_CONTROL) old;
          EvIn W32 (baseport_bm card + ICH_GLOB_STAT_REG) st] ++
         (if Z.land st ICH_GLOB_STAT_RCS =? 0 then [] else [EvDelay 10])) ++
        sem ++
        [EvOut W16 (baseport_codec card + AC97_SPDIF_CONTROL)
           (u16 (Z.lor (Z.land old AC97_SC_SPSR_MASK)
                   (spdif_rate_of (freq_card (w_aui w)))));
         EvDelay 10] /\
      0 <= old < 65536 /\
      within
        (pre ++
         [EvIn W16 (baseport_codec card + AC97_SPDIF_CONTROL) old;
          EvIn W32 (baseport_bm card + ICH_GLOB_STAT_REG) st] ++
         (if Z.land st ICH_GLOB_STAT_RCS =? 0 then [] else [EvDelay 10]))
        4001 30000 [] /\
      within sem 2001 20000 []).
Proof.
  intros Hc. unfold prepare_spdif.
  eapply quietly_bind with (P := fun a evs => a = w_aui w /\ evs = []).
  { eexists _, _. split; [reflexivity |]. exists []. split; [apply quiet_refl | auto]. }
  intros aui w1 e1 Hq1 [-> ->]. cbv beta.
  assert (Hc1 : has_card w1 card) by (eapply quiet_has_card; eassumption).
  eapply quietly_bind; [eapply codec_read_samples, Hc1 |].
  intros old w2 e2 Hq2 (Hold & Hin & pre & st & ->). cbv beta.
  assert (Hc2 : has_card w2 card) by (eapply quiet_has_card; eassumption).
  eapply quietly_bind; [eapply codec_write_lands, Hc2 |].
  intros _ w3 e3 Hq3 (sem & -> & Hsem). cbv beta.
  eapply quietly_mono; [apply emit_quietly |].
  intros _ evs ->.
  exists pre, old, st, sem. cbn [app].
  split; [rewrite <- !app_assoc; reflexivity |].
  split; [exact Hold |]. split; [exact Hin | exact Hsem].
Qed.

End SpdifRate.

(** C8 (code defect).  A caller asks INTELICH_setrate for 44100 on a card
    whose codec has the SPDIF rate field at the code of 32000: the SPDIF
    control register reads 0x3000.  The card runs at 48000, as every card
    does (the variable-rate flag is never set), and the member of
    {32000, 44100, 48000} nearest to 48000 is 48000, with the code 0x2000.
    The block means to replace the rate field (it reads the register,
    masks, ors the code in and writes back), but line 450 keeps the field
    where it should clear it, so the word written is 0x3000 | 0x2000 =
    0x3000: the rate field stays at the code of 32000 and is neither at
    the code of 48000 nor at that of 44100. *)
Theorem spdif_rate_48000_leaves_32000_code :
  spdif_nearest 48000 = 48000 /\ spdif_nearest 44100 = 44100 /\
  spdif_code_of (H := headers true) 48000 = 0x2000 /\
  spdif_code_of (H := headers true) 44100 = 0x0000 /\
  spdif_code_of (H := headers true) 32000 = 0x3000 /\
  exists w',
    INTELICH_setrate (H := headers true)
      (sample_world DEVICE_INTEL 0 44100 16
         [16384; 1; 0; 0; 0x100; 0; 0x3000; 0x100; 0x100; 0; 0x100; 0]) =
      Ok tt w' /\
    freq_card (w_aui w') = 48000 /\
    w_trace w' =
      [EvInitBuf 16384 256 16384; EvIn W8 0xd016 1;
       EvIn W8 0xd01b 0; EvOut W8 0xd01b 2; EvIn W32 0xd02c 0;
       EvOut W32 0xd02c 0; EvIn W32 0xd030 0x100; EvIn W8 0xd034 0;
       EvIn W16 0xd43a 0x3000; EvIn W32 0xd030 0x100;
       EvIn W32 0xd030 0x100; EvIn W8 0xd034 0; EvOut W16 0xd43a 0x3000;
       EvDelay 10; EvIn W32 0xd030 0x100; EvIn W8 0xd034 0;
       EvOut W16 0xd42c 48000; EvDelay 1600; EvOut W32 0xd010 0x200000;
       EvOut W8 0xd015 3; EvOut W8 0xd014 0; EvOut W8 0xd016 0x1c] /\
    Z.land 0x3000 (AC97_SC_SPSR_MASK (Headers := headers true)) =
      spdif_code_of (H := headers true) 32000 /\
    Z.land 0x3000 (AC97_SC_SPSR_MASK (Headers := headers true)) <>
      spdif_code_of (H := headers true) (spdif_nearest 48000) /\
    Z.land 0x3000 (AC97_SC_SPSR_MASK (Headers := headers true)) <>
      spdif_code_of (H := headers true) (spdif_nearest 44100).
Proof.
  split; [reflexivity |]. split; [reflexivity |]. split; [reflexivity |].
  split; [reflexivity |]. split; [reflexivity |].
  assert (Hobs :
    match INTELICH_setrate (H := headers true)
            (sample_world DEVICE_INTEL 0 44100 16
               [16384; 1; 0; 0; 0x100; 0; 0x3000; 0x100; 0x100; 0; 0x100; 0])
    with
    | Ok _ w' =>
        freq_card (w_aui w') = 48000 /\
        w_trace w' =
          [EvInitBuf 16384 256 16384; EvIn W8 0xd016 1;
           EvIn W8 0xd01b 0; EvOut W8 0xd01b 2; EvIn W32 0xd02c 0;
           EvOut W32 0xd02c 0; EvIn W32 0xd030 0x100; EvIn W8 0xd034 0;
           EvIn W16 0xd43a 0x3000; EvIn W32 0xd030 0x100;
           EvIn W32 0xd030 0x100; EvIn W8 0xd034 0; EvOut W16 0xd43a 0x3000;
           EvDelay 10; EvIn W32 0xd030 0x100; EvIn W8 0xd034 0;
           EvOut W16 0xd42c 48000; EvDelay 1600; EvOut W32 0xd010 0x200000;
           EvOut W8 0xd015 3; EvOut W8 0xd014 0; EvOut W8 0xd016 0x1c]
    | _ => False
    end) by (vm_compute; split; reflexivity).
  destruct (INTELICH_setrate _) as [[] w' | |]; [| contradiction | contradiction].
  exists w'. split; [reflexivity |].
  split; [exact (proj1 Hobs) |]. split; [exact (proj2 Hobs) |].
  split; [reflexivity |]. split; vm_compute; discriminate.
Qed.

(** ** The clock corrector *)

Section ClockCorrector.
Context {H : Headers} {F : FloatOps}.
Implicit Types (w : world) (card : intel_card_s) (evs : list event).

(** The end of the measurement, from the second reading of the clock
    on, with the corrector it stores. *)
Lemma measure_tail_corrector w card freq_save starttime cr t rest :
  has_card w card ->
  w_clock w = t :: rest ->
  exists w' card',
    (let* endtime := pds_gettimeu in
     let timelen := if starttime <? endtime then endtime - starttime else 0 in
     INTELICH_stop ;;;
     (if SBEMU then snd_intel_write_8 ICH_PO_CR_REG cr else ret tt) ;;;
     (if negb (timelen =? 0) && (timelen <? 1000000) then
        let* card := deref_card in
        let* aui := get_aui in
        let dmabufsize :=
          s32 (u32 (period_size_bytes card * (ICH_DMABUF_PERIODS - 1))) in
        modify_card (set_ac97_clock_corrector
                       (filter_corrector
                          (measured_corrector (freq_card aui) (chan_card aui)
                             (bits_card aui) dmabufsize timelen)))
      else ret tt) ;;;
     modify_aui (set_freq_card freq_save) ;;;
     modify_card (set_ac97_clock_detected 1)) w = Ok tt w' /\
    has_card w' card' /\
    (ac97_clock_corrector card' = ac97_clock_corrector card \/
     exists dmabufsize timelen,
       0 < timelen < 1000000 /\
       ac97_clock_corrector card' =
       filter_corrector
         (measured_corrector (freq_card (w_aui w)) (chan_card (w_aui w))
            (bits_card (w_aui w)) dmabufsize timelen)).
Proof.
  intros Hc Hk.
  rewrite (bind_gettimeu _ _ t rest) by exact Hk. cbv zeta.
  set (w1 := with_clock rest (w_trace w ++ [EvTime t]) w).
  assert (Hc1 : has_card w1 card) by exact Hc.
  rewrite (bind_ok _ _ _ _ _ (INTELICH_stop_ok w1 card Hc1)).
  set (w2 := with_io _ _ w1).
  assert (Hc2 : has_card w2 card) by exact Hc.
  assert (Hsb : exists w3,
            (if SBEMU then snd_intel_write_8 ICH_PO_CR_REG cr else ret tt) w2 =
            Ok tt w3 /\ w_aui w3 = w_aui w /\ w_mem w3 = w_mem w).
  { destruct SBEMU.
    - rewrite (snd_intel_write_8_ok _ _ _ _ Hc2). eexists. split; [reflexivity |].
      split; reflexivity.
    - eexists. split; [reflexivity |]. split; reflexivity. }
  destruct Hsb as (w3 & Hrun3 & Ha3 & Hm3).
  rewrite (bind_ok _ _ _ _ _ Hrun3).
  assert (Hc3 : has_card w3 card) by (unfold has_card; rewrite Ha3; exact Hc).
  set (timelen := if starttime <? t then t - starttime else 0).
  destruct (negb (timelen =? 0) && (timelen <? 1000000)) eqn:Huse.
  - run_pure. run_step Hc3. run_pure.
    rewrite (bind_ok _ _ _ _ _ (modify_card_ok _ _ _ Hc3)).
    run_pure. unfold modify_card. cbn.
    eexists _, _. split; [reflexivity |].
    split; [reflexivity |]. cbn. rewrite Ha3.
    right. eexists _, timelen. split; [| reflexivity].
    apply andb_prop in Huse as [Hnz Hlt].
    apply negb_true_iff, Z.eqb_neq in Hnz. apply Z.ltb_lt in Hlt.
    unfold timelen in *. destruct (starttime <? t) eqn:E; [| lia].
    apply Z.ltb_lt in E. lia.
  - run_pure. unfold modify_card. cbn. rewrite Hc3.
    eexists _, _. split; [reflexivity |].
    split; [reflexivity |]. cbn. left. reflexivity.
Qed.

(** The clock measurement returns once the clock has passed the
    one-second limit; the corrector is the one the card had, or the
    filtered quotient for 48000 Hz, 2 channels and a duration below one
    second. *)
Lemma measure_clock_corrector w card cm t0 ts tlate tend :
  has_card w card -> dm card = Some cm ->
  f_nonzero (ac97_clock_corrector card) = false ->
  w_clock w = t0 :: ts ++ [tlate; tend] ->
  t0 + 1000000 < tlate ->
  exists w' card',
    snd_intel_measure_ac97_clock w = Ok tt w' /\
    has_card w' card' /\
    (ac97_clock_corrector card' = ac97_clock_corrector card \/
     exists bits dmabufsize timelen,
       (bits = 16 \/ bits = 32) /\
       0 < timelen < 1000000 /\
       ac97_clock_corrector card' =
       filter_corrector (measured_corrector 48000 2 bits dmabufsize timelen)).
Proof.
  intros Hc Hdm Hz Hk Hlate.
  unfold snd_intel_measure_ac97_clock. run_pure. run_step Hc. run_norm.
  rewrite bind_init_pcmoutbuf. run_norm.
  set (size := u32 (hd 0 (w_ports w))).
  set (card2 := set_period_size_bytes
                  (u32 (Z.quot (s32 size) ICH_DMABUF_PERIODS)) card).
  match goal with
  | |- context [bind (modify_card ?f) ?k ?w0] =>
      rewrite (bind_ok _ k w0 _ _ (modify_card_ok f w0 card Hc))
  end.
  fold card2. set (w2 := with_aui (set_card_private_data (Some card2) _) _).
  assert (Hc2 : has_card w2 card2) by reflexivity.
  assert (Hk2 : w_clock w2 = t0 :: ts ++ [tlate; tend]) by exact Hk.
  assert (Hfr2 : freq_card (w_aui w2) = 48000) by reflexivity.
  assert (Hch2 : chan_card (w_aui w2) = 2) by reflexivity.
  assert (Hbi2 : bits_card (w_aui w2) = 16) by reflexivity.
  destruct (prepare_playback_moving w2 card2 cm Hc2 Hdm Hz eq_refl)
    as ([] & w3 & Hrun3 & e3 & cr3 & cmd3 & sp3 & M3 & _).
  rewrite (bind_ok _ _ _ _ _ Hrun3).
  assert (Hc3 : has_card w3 card2) by (eapply moved_has_card; eassumption).
  assert (Hk3 : w_clock w3 = t0 :: ts ++ [tlate; tend]).
  { destruct M3 as (_ & _ & _ & _ & Hkk & _). rewrite Hkk. exact Hk2. }
  assert (Hfr3 : freq_card (w_aui w3) = 48000).
  { destruct M3 as ((_ & Hfr & _) & _). rewrite Hfr. exact Hfr2. }
  assert (Hch3 : chan_card (w_aui w3) = 2).
  { destruct M3 as ((_ & _ & Hch & _) & _). rewrite Hch. exact Hch2. }
  assert (Hbi3 : bits_card (w_aui w3) = 16 \/ bits_card (w_aui w3) = 32).
  { destruct M3 as ((_ & _ & _ & [Hbi | Hbi]) & _);
      [left; rewrite Hbi; exact Hbi2 | right; exact Hbi]. }
  unfold MDma_clearbuf. run_pure.
  set (w4 := with_io _ _ w3).
  assert (Hc4 : has_card w4 card2) by exact Hc3.
  assert (Hcr : exists cr w5,
            (if SBEMU
             then let* cr := snd_intel_read_8 ICH_PO_CR_REG in
                  snd_intel_write_8 ICH_PO_CR_REG 0 ;;; ret cr
             else ret 0) w4 = Ok cr w5 /\
            w_aui w5 = w_aui w3 /\ w_clock w5 = w_clock w3).
  { destruct SBEMU.
    - run Hc4. eexists _, _. split; [reflexivity |]. split; reflexivity.
    - eexists _, _. split; [reflexivity |]. split; reflexivity. }
  destruct Hcr as (cr & w5 & Hrun5 & Ha5 & Hk5).
  rewrite (bind_ok _ _ _ _ _ Hrun5).
  assert (Hc5 : has_card w5 card2) by (unfold has_card; rewrite Ha5; exact Hc3).
  destruct (start_run w5 card2 Hc5)
    as ([] & w6 & Hrun6 & e6 & (Ha6 & _ & _ & Hk6 & _) & _).
  rewrite (bind_ok _ _ _ _ _ Hrun6).
  assert (Hc6 : has_card w6 card2) by (unfold has_card; rewrite Ha6; exact Hc5).
  rewrite (bind_gettimeu _ _ t0 (ts ++ [tlate; tend]))
    by (rewrite Hk6, Hk5; exact Hk3).
  set (w7 := with_clock _ _ w6).
  assert (Hc7 : has_card w7 card2) by exact Hc6.
  destruct (measure_poll_returns t0 card2 tlate tend Hlate ts
              (S (length (w_clock w7))) w7 Hc7 eq_refl)
    as (w8 & Hrun8 & Ha8 & _ & _ & t8 & rest8 & Hk8).
  { cbn [w_clock w7 with_clock]. rewrite length_app. lia. }
  rewrite (bind_ok (fun w0 => measure_poll t0 (S (length (w_clock w0))) w0)
             _ w7 tt w8 Hrun8).
  assert (Hc8 : has_card w8 card2) by (unfold has_card; rewrite Ha8; exact Hc7).
  assert (Ha83 : w_aui w8 = w_aui w3).
  { rewrite Ha8. cbn [w_aui w7 with_clock]. rewrite Ha6, Ha5. reflexivity. }
  destruct (measure_tail_corrector w8 card2 (freq_card (w_aui w)) t0 cr t8 rest8
              Hc8 Hk8)
    as (w' & card' & Hrun & Hc' & Hcor).
  exists w', card'. split; [exact Hrun |]. split; [exact Hc' |].
  destruct Hcor as [Hsame | (dmabufsize & timelen & Hlen & Hcor)];
    [left; exact Hsame | right].
  rewrite Ha83, Hfr3, Hch3 in Hcor.
  exists (bits_card (w_aui w3)), dmabufsize, timelen. auto.
Qed.

End ClockCorrector.

Section FilterAnyFloat.
Context {F : FloatOps}.

(** Whatever the floating-point arithmetic, the filter of lines 756-759
    stores 0.0 or leaves a corrector for which its three tests fail. *)
Lemma filter_corrector_collapses (c : cfloat) :
  filter_corrector c = f_store (f_dec 0 0) \/
  (filter_corrector c = c /\
   f_lt (f_dec 99 (-2)) c && f_lt c (f_dec 101 (-2)) = false /\
   f_lt c (f_dec 60 (-2)) = false /\
   f_lt (f_dec 15 (-1)) c = false).
Proof.
  unfold filter_corrector.
  destruct (f_lt (f_dec 99 (-2)) c && f_lt c (f_dec 101 (-2))).
  - left. destruct (_ || _); reflexivity.
  - destruct (f_lt c (f_dec 60 (-2))) eqn:T2; [left; reflexivity |].
    destruct (f_lt (f_dec 15 (-1)) c) eqn:T3; [left; reflexivity |].
    right. auto.
Qed.

End FilterAnyFloat.

(** ** Rounding to binary32 and binary64 *)

Lemma digits2_pos_bounds p :
  2 ^ (Zpos (digits2_pos p) - 1) <= Zpos p < 2 ^ Zpos (digits2_pos p).
Proof.
  induction p as [p IH | p IH |]; cbn [digits2_pos].
  - rewrite Pos2Z.inj_succ, Pos2Z.inj_xI.
    replace (Z.succ (Zpos (digits2_pos p)) - 1) with (Z.succ (Zpos (digits2_pos p) - 1)) by lia.
    rewrite !Z.pow_succ_r by lia. lia.
  - rewrite Pos2Z.inj_succ. change (Zpos p~0) with (2 * Zpos p).
    replace (Z.succ (Zpos (digits2_pos p)) - 1) with (Z.succ (Zpos (digits2_pos p) - 1)) by lia.
    rewrite !Z.pow_succ_r by lia. lia.
  - cbn. lia.
Qed.

Lemma Zdigits2_bounds m :
  0 < m -> 2 ^ (Zdigits2 m - 1) <= m < 2 ^ Zdigits2 m.
Proof. destruct m as [| p | p]; [lia | intros _ | lia]. apply digits2_pos_bounds. Qed.

Lemma Zdigits2_nonneg m : 0 <= m -> 0 <= Zdigits2 m.
Proof. destruct m; cbn; lia. Qed.

Lemma Zdigits2_le m k : 0 <= k -> 0 <= m < 2 ^ k -> Zdigits2 m <= k.
Proof.
  intros Hk [H0 Hm]. destruct (Z.eq_dec m 0) as [-> | Hne]; [cbn; lia |].
  destruct (Zdigits2_bounds m ltac:(lia)) as [Hlo _].
  destruct (Z_le_gt_dec (Zdigits2 m) k) as [Hle | Hgt]; [exact Hle | exfalso].
  assert (2 ^ k <= 2 ^ (Zdigits2 m - 1)) by (apply Z.pow_le_mono_r; lia). lia.
Qed.

Lemma Zdigits2_ge m k : 2 ^ (k - 1) <= m -> 0 < m -> k <= Zdigits2 m.
Proof.
  intros Hm H0. destruct (Zdigits2_bounds m H0) as [_ Hhi].
  destruct (Z_le_gt_dec k (Zdigits2 m)) as [Hle | Hgt]; [exact Hle | exfalso].
  assert (0 <= Zdigits2 m) by (apply Zdigits2_nonneg; lia).
  assert (2 ^ Zdigits2 m <= 2 ^ (k - 1)) by (apply Z.pow_le_mono_r; lia). lia.
Qed.

Lemma shr_m_shr_1 r : 0 <= shr_m r -> shr_m (shr_1 r) = shr_m r / 2.
Proof.
  destruct r as [m b s]. cbn [shr_m]. intros Hm.
  destruct m as [| [p | p |] | p]; cbn [shr_1 shr_m]; try lia.
  - reflexivity.
  - apply Z.div_unique with 1; lia.
  - apply Z.div_unique with 0; lia.
  - reflexivity.
Qed.

Lemma shr_m_iter n : forall r,
  0 <= shr_m r -> shr_m (SpecFloat.iter_pos shr_1 n r) = shr_m r / 2 ^ Zpos n.
Proof.
  assert (Hpow : forall a k, 0 <= a -> 0 <= a / 2 ^ Zpos k).
  { intros. apply Z.div_pos; [lia | apply Z.pow_pos_nonneg; lia]. }
  assert (H1 : forall r, 0 <= shr_m r -> 0 <= shr_m (shr_1 r)).
  { intros r Hr. rewrite shr_m_shr_1 by exact Hr. apply Z.div_pos; lia. }
  induction n as [n IH | n IH |]; intros r Hr; cbn [SpecFloat.iter_pos].
  - assert (Ha : 0 <= shr_m (SpecFloat.iter_pos shr_1 n (shr_1 r)))
      by (rewrite IH by auto; apply Hpow; auto).
    rewrite (IH _ Ha), (IH _ (H1 _ Hr)), shr_m_shr_1 by exact Hr.
    rewrite !Z.div_div by (try apply Z.pow_pos_nonneg; lia).
    f_equal. change (Zpos n~1) with (2 * Zpos n + 1).
    replace (2 * Zpos n + 1) with (1 + Zpos n + Zpos n) by lia.
    rewrite !Z.pow_add_r by lia. lia.
  - assert (Ha : 0 <= shr_m (SpecFloat.iter_pos shr_1 n r))
      by (rewrite IH by auto; apply Hpow; auto).
    rewrite (IH _ Ha), (IH _ Hr).
    rewrite !Z.div_div by (try apply Z.pow_pos_nonneg; lia).
    f_equal. change (Zpos n~0) with (2 * Zpos n).
    replace (2 * Zpos n) with (Zpos n + Zpos n) by lia.
    rewrite !Z.pow_add_r by lia. lia.
  - rewrite shr_m_shr_1 by exact Hr. reflexivity.
Qed.

Lemma shr_m_of_loc m l : shr_m (shr_record_of_loc m l) = m.
Proof. destruct l as [| []]; reflexivity. Qed.

(** What [shr] does to a mantissa that is not negative. *)
Lemma shr_spec r e n :
  0 <= shr_m r ->
  shr_m (fst (shr r e n)) = (if 0 <? n then shr_m r / 2 ^ n else shr_m r) /\
  snd (shr r e n) = (if 0 <? n then e + n else e).
Proof.
  intros Hr. destruct n as [| p | p]; cbn [shr fst snd Z.ltb Z.compare];
    [auto | | auto].
  split; [apply shr_m_iter, Hr | reflexivity].
Qed.

Lemma round_nearest_even_range m l :
  m <= round_nearest_even m l <= m + 1.
Proof. destruct l as [| []]; cbn [round_nearest_even]; try destruct (Z.even m); lia. Qed.

Lemma div_pow2_lt m d n :
  0 <= m < 2 ^ d -> 0 <= n <= d -> m / 2 ^ n < 2 ^ (d - n).
Proof.
  intros [H0 Hm] Hn. apply Z.div_lt_upper_bound; [apply Z.pow_pos_nonneg; lia |].
  rewrite <- Z.pow_add_r by lia. replace (n + (d - n)) with d by lia. exact Hm.
Qed.

Lemma div_pow2_ge m k n :
  2 ^ k <= m -> 0 <= n <= k -> 2 ^ (k - n) <= m / 2 ^ n.
Proof.
  intros Hm Hn. apply Z.div_le_lower_bound; [apply Z.pow_pos_nonneg; lia |].
  rewrite <- Z.pow_add_r by lia. replace (n + (k - n)) with k by lia. exact Hm.
Qed.

Lemma div_pow2_small m d n :
  0 <= m < 2 ^ d -> 0 <= d <= n -> m / 2 ^ n = 0.
Proof.
  intros [H0 Hm] Hn. apply Z.div_small. split; [exact H0 |].
  assert (2 ^ d <= 2 ^ n) by (apply Z.pow_le_mono_r; lia). lia.
Qed.

Lemma shr_fexp_spec prec emax m e l :
  0 <= m ->
  let n := fexp prec emax (Zdigits2 m + e) - e in
  shr_m (fst (shr_fexp prec emax m e l)) = (if 0 <? n then m / 2 ^ n else m) /\
  snd (shr_fexp prec emax m e l) = (if 0 <? n then e + n else e).
Proof.
  intros Hm n. unfold shr_fexp. fold n.
  destruct (shr_spec (shr_record_of_loc m l) e n) as [H1 H2];
    [rewrite shr_m_of_loc; exact Hm |].
  rewrite shr_m_of_loc in H1. auto.
Qed.

Lemma fexp24 x : fexp 24 128 x = Z.max (x - 24) (-149).
Proof. reflexivity. Qed.

Lemma fexp53 x : fexp 53 1024 x = Z.max (x - 53) (-1074).
Proof. reflexivity. Qed.

(** Rounding a positive mantissa that has at least the digits of its
    format gives a number of binary32. *)
Lemma round_aux24_valid s m e l :
  0 < m -> e <= fexp 24 128 (Zdigits2 m + e) ->
  valid_binary 24 128 (binary_round_aux 24 128 s m e l) = true /\
  binary_round_aux 24 128 s m e l <> S754_nan.
Proof.
  intros Hm Hn. unfold binary_round_aux.
  destruct (shr_fexp_spec 24 128 m e l ltac:(lia)) as [Hm' He'].
  destruct (shr_fexp 24 128 m e l) as [mrs' e']. cbn [fst snd] in Hm', He'.
  set (m1 := round_nearest_even (shr_m mrs') (loc_of_shr_record mrs')).
  pose proof (round_nearest_even_range (shr_m mrs') (loc_of_shr_record mrs')) as Hm1.
  fold m1 in Hm1.
  destruct (Zdigits2_bounds m Hm) as [Hlo Hhi].
  pose proof (Zdigits2_nonneg m ltac:(lia)) as Hd0.
  set (d := Zdigits2 m) in *.
  rewrite fexp24 in Hn, Hm', He'.
  set (f := Z.max (d + e - 24) (-149)) in *.
  assert (Hd1 : 1 <= d).
  { destruct (Z_le_gt_dec 1 d); [assumption |].
    assert (d = 0) by lia. replace d with 0 in Hhi by lia. cbn in Hhi. lia. }
  (* the mantissa after the first shift *)
  assert (He'f : e' = f) by (destruct (0 <? f - e) eqn:E; lia).
  clear He'. subst e'.
  assert (Hup : 0 <= shr_m mrs' < 2 ^ Z.max (d - (f - e)) 0).
  { rewrite Hm'. destruct (0 <? f - e) eqn:E.
    - apply Z.ltb_lt in E. destruct (Z_le_gt_dec (f - e) d).
      + rewrite Z.max_l by lia. split; [apply Z.div_pos; [lia | apply Z.pow_pos_nonneg; lia] |].
        apply div_pow2_lt; lia.
      + rewrite (div_pow2_small m d (f - e)) by lia.
        split; [lia | apply Z.pow_pos_nonneg; lia].
    - apply Z.ltb_ge in E. rewrite Z.max_l by lia.
      replace (d - (f - e)) with d by lia. lia. }
  assert (Hdown : f - e <= d - 1 -> 2 ^ (d - 1 - (f - e)) <= shr_m mrs').
  { intros Hle. rewrite Hm'. destruct (0 <? f - e) eqn:E.
    - apply Z.ltb_lt in E. apply div_pow2_ge; lia.
    - apply Z.ltb_ge in E. replace (d - 1 - (f - e)) with (d - 1) by lia. lia. }
  set (D := Z.max (d - (f - e)) 0) in *.
  assert (HD : 0 <= D <= 24) by lia.
  assert (H0m1 : 0 <= m1) by lia.
  destruct (shr_fexp_spec 24 128 m1 f loc_Exact H0m1) as [Hm'' He''].
  destruct (shr_fexp 24 128 m1 f loc_Exact) as [mrs'' e''].
  cbn [fst snd] in Hm'', He''. rewrite fexp24 in Hm'', He''.
  assert (Hd1up : Zdigits2 m1 <= D + 1).
  { apply Zdigits2_le; [lia |]. split; [lia |].
    rewrite Z.pow_add_r by lia. change (2 ^ 1) with 2. lia. }
  pose proof (Zdigits2_nonneg m1 H0m1) as Hd10.
  set (d1 := Zdigits2 m1) in *.
  destruct (0 <? Z.max (d1 + f - 24) (-149) - f) eqn:E1.
  - (* the increment carried into a 25th digit *)
    apply Z.ltb_lt in E1.
    assert (Hd25 : d1 = 25) by lia.
    assert (HD24 : D = 24) by lia.
    assert (Hm1lo : 2 ^ 24 <= m1).
    { assert (0 < m1).
      { destruct (Z.eq_dec m1 0) as [Hz | Hz]; [| lia].
        exfalso. unfold d1 in Hd25. rewrite Hz in Hd25. cbn in Hd25. lia. }
      destruct (Zdigits2_bounds m1 ltac:(lia)) as [Hl _]. fold d1 in Hl.
      rewrite Hd25 in Hl. exact Hl. }
    assert (Hm1eq : m1 = 2 ^ 24) by (rewrite HD24 in Hup; lia).
    replace (Z.max (d1 + f - 24) (-149) - f) with 1 in Hm'', He'' by lia.
    rewrite Hm1eq in Hm''. change (2 ^ 24 / 2 ^ 1) with (Zpos (2 ^ 23)) in Hm''.
    rewrite Hm''. destruct (e'' <=? 128 - 24) eqn:Eb; [| split; [reflexivity | discriminate]].
    split; [| discriminate].
    cbn [valid_binary]. unfold bounded, canonical_mantissa. rewrite Eb, andb_true_r.
    apply Z.eqb_eq. rewrite fexp24. cbn [digits2_pos Pos.pow]. 
    change (Zpos (digits2_pos (2 ^ 23))) with 24. lia.
  - apply Z.ltb_ge in E1.
    destruct (shr_m mrs'') as [| m'' | m''] eqn:Em''; [split; [reflexivity | discriminate] | | lia].
    destruct (e'' <=? 128 - 24) eqn:Eb; [| split; [reflexivity | discriminate]].
    split; [| discriminate].
    cbn [valid_binary]. unfold bounded, canonical_mantissa. rewrite Eb, andb_true_r.
    apply Z.eqb_eq. rewrite fexp24.
    change (Zpos (digits2_pos m'')) with (Zdigits2 (Zpos m'')).
    rewrite Hm''. fold d1. subst e''.
    destruct (Z.eq_dec f (-149)) as [Hf | Hf]; [lia |].
    assert (Hfe : f = d + e - 24) by lia.
    assert (Hlow : 2 ^ 23 <= shr_m mrs').
    { replace 23 with (d - 1 - (f - e)) by lia. apply Hdown. lia. }
    assert (24 <= d1); [| lia].
    apply Zdigits2_ge; [change (24 - 1) with 23|]; lia.
Qed.

Lemma iter_xO_value m k : Zpos (Pos.iter xO m k) = Zpos m * 2 ^ Zpos k.
Proof.
  induction k as [| k IH] using Pos.peano_ind.
  - cbn. lia.
  - rewrite Pos.iter_succ, Pos2Z.inj_succ, Z.pow_succ_r by lia.
    change (Zpos (Pos.iter xO m k)~0) with (2 * Zpos (Pos.iter xO m k)).
    rewrite IH. lia.
Qed.

Lemma iter_xO_digits m k :
  Zpos (digits2_pos (Pos.iter xO m k)) = Zpos (digits2_pos m) + Zpos k.
Proof.
  induction k as [| k IH] using Pos.peano_ind.
  - cbn [Pos.iter digits2_pos]. lia.
  - rewrite Pos.iter_succ. cbn [digits2_pos]. rewrite !Pos2Z.inj_succ, IH. lia.
Qed.

(** What [shl_align] gives for the exponent [fexp] asks for: a mantissa
    with the same value at an exponent not above it. *)
Lemma shl_align_spec prec emax m e :
  let d := Zpos (digits2_pos m) in
  let f := fexp prec emax (d + e) in
  let mz := fst (shl_align m e f) in
  let ez := snd (shl_align m e f) in
  ez = Z.min e f /\
  Zpos mz = Zpos m * 2 ^ (e - ez) /\
  Zpos (digits2_pos mz) = d + (e - ez).
Proof.
  intros d f. unfold shl_align.
  destruct (f - e) as [| k | k] eqn:E; cbn [fst snd].
  - split; [lia |]. replace (e - e) with 0 by lia. cbn. fold d. lia.
  - split; [lia |]. replace (e - e) with 0 by lia. cbn. fold d. lia.
  - assert (e - f = Zpos k) by lia.
    split; [lia |]. rewrite iter_xO_value, iter_xO_digits. fold d.
    replace (e - f) with (Zpos k) by lia. auto.
Qed.

(** Rounding to binary32 gives a number of binary32. *)
Lemma binary_round24_valid s m e :
  valid_binary 24 128 (binary_round 24 128 s m e) = true /\
  binary_round 24 128 s m e <> S754_nan.
Proof.
  unfold binary_round.
  destruct (shl_align_spec 24 128 m e) as (Hez & Hmz & Hdz).
  destruct (shl_align m e _) as [mz ez]. cbn [fst snd] in Hez, Hmz, Hdz.
  apply round_aux24_valid; [lia |].
  cbn [Zdigits2]. rewrite Hdz.
  replace (Zpos (digits2_pos m) + (e - ez) + ez) with (Zpos (digits2_pos m) + e) by lia.
  lia.
Qed.

Lemma canon_finite prec emax s m e :
  Ieee.canon prec emax (S754_finite s m e) = binary_round prec emax s m e.
Proof. destruct s; reflexivity. Qed.

Lemma canon24_valid x :
  x <> S754_nan ->
  valid_binary 24 128 (Ieee.canon 24 128 x) = true /\
  Ieee.canon 24 128 x <> S754_nan.
Proof.
  intros Hx. destruct x as [s | s | | s m e]; try (split; [reflexivity | discriminate]).
  - contradiction.
  - rewrite canon_finite. apply binary_round24_valid.
Qed.

(** A mantissa already in the form of the format passes through the
    rounding untouched. *)
Lemma round_aux_canonical prec emax s m e :
  fexp prec emax (Zpos (digits2_pos m) + e) = e ->
  binary_round_aux prec emax s (Zpos m) e loc_Exact =
  if e <=? emax - prec then S754_finite s m e else S754_infinity s.
Proof.
  intros Hc. unfold binary_round_aux, shr_fexp. cbn [Zdigits2 shr_record_of_loc].
  rewrite Hc, Z.sub_diag. cbn [shr shr_m loc_of_shr_record round_nearest_even Zdigits2].
  rewrite Hc, Z.sub_diag. reflexivity.
Qed.

(** A mantissa of at most [prec] digits whose value lies in the normal
    range is represented exactly. *)
Lemma binary_round_exact prec emax s m e :
  let d := Zpos (digits2_pos m) in
  d <= prec -> 3 - emax - prec <= d + e - prec -> d + e <= emax ->
  exists m',
    binary_round prec emax s m e = S754_finite s m' (d + e - prec) /\
    Zpos m' = Zpos m * 2 ^ (prec - d) /\
    Zpos (digits2_pos m') = prec.
Proof.
  intros d Hd Hlo Hhi. unfold binary_round.
  destruct (shl_align_spec prec emax m e) as (Hez & Hmz & Hdz). fold d in Hez, Hmz, Hdz.
  assert (Hf : fexp prec emax (d + e) = d + e - prec).
  { unfold fexp, emin. lia. }
  fold d. rewrite Hf in *.
  destruct (shl_align m e (d + e - prec)) as [mz ez]. cbn [fst snd] in Hez, Hmz, Hdz.
  assert (Hez' : ez = d + e - prec) by lia. clear Hez. subst ez.
  rewrite round_aux_canonical.
  - replace (d + e - prec <=? emax - prec) with true by (symmetry; apply Z.leb_le; lia).
    exists mz. split; [reflexivity |]. split.
    + rewrite Hmz. f_equal. f_equal. lia.
    + rewrite Hdz. lia.
  - rewrite Hdz. unfold fexp, emin. lia.
Qed.

(** ** The plausibility filter of the clock corrector under IEEE 754 *)

Lemma SFltb_pos M E ML EL :
  SFltb (S754_finite false M E) (S754_finite false ML EL) =
  (E <? EL) || ((E =? EL) && (Zpos M <? Zpos ML)).
Proof.
  unfold SFltb, SFcompare.
  change (Pos.compare_cont Eq M ML) with (Zpos M ?= Zpos ML).
  destruct (Z.ltb_spec E EL), (Z.eqb_spec E EL), (Z.ltb_spec (Zpos M) (Zpos ML));
    cbn [orb andb]; try lia.
  all: try (replace (E ?= EL) with Lt by (symmetry; apply Z.compare_lt_iff; lia));
       try (replace (E ?= EL) with Eq by (symmetry; apply Z.compare_eq_iff; lia));
       try (replace (E ?= EL) with Gt by (symmetry; apply Z.compare_gt_iff; lia));
       try reflexivity.
  - replace (Zpos M ?= Zpos ML) with Lt by (symmetry; apply Z.compare_lt_iff; lia).
    reflexivity.
  - destruct (Z.compare_spec (Zpos M) (Zpos ML)); try reflexivity; lia.
Qed.

(** A number of binary32 is a number of binary64: converting it shifts
    the mantissa to 53 digits. *)
Lemma canon53_binary32 s m e :
  valid_binary 24 128 (S754_finite s m e) = true ->
  let d := Zpos (digits2_pos m) in
  (d = 24 \/ (d < 24 /\ e = -149)) /\ -149 <= e <= 104 /\
  exists M,
    Ieee.canon 53 1024 (S754_finite s m e) = S754_finite s M (d + e - 53) /\
    Zpos M = Zpos m * 2 ^ (53 - d).
Proof.
  intros Hv d. cbn [valid_binary] in Hv. unfold bounded, canonical_mantissa in Hv.
  rewrite fexp24 in Hv. apply andb_prop in Hv as [Hc Hb].
  apply Z.eqb_eq in Hc. apply Z.leb_le in Hb. fold d in Hc.
  assert (Hd : 1 <= d) by (unfold d; lia).
  split; [lia |]. split; [lia |].
  rewrite canon_finite.
  destruct (binary_round_exact 53 1024 s m e) as (M & HM & HMv & _);
    [fold d; lia | fold d; lia | fold d; lia |].
  exists M. auto.
Qed.

Lemma literal_060 :
  Ieee.canon 53 1024 (Ieee.dec 60 (-2)) = S754_finite false 5404319552844595 (-53).
Proof. vm_compute. reflexivity. Qed.

Lemma literal_099 :
  Ieee.canon 53 1024 (Ieee.dec 99 (-2)) = S754_finite false 8917127262193582 (-53).
Proof. vm_compute. reflexivity. Qed.

Lemma literal_101 :
  Ieee.canon 53 1024 (Ieee.dec 101 (-2)) = S754_finite false 4548635623644201 (-52).
Proof. vm_compute. reflexivity. Qed.

Lemma literal_15 :
  Ieee.canon 53 1024 (Ieee.dec 15 (-1)) = S754_finite false 6755399441055744 (-52).
Proof. vm_compute. reflexivity. Qed.

(** The filter on a value that a test has already replaced by 0.0. *)
Lemma filter_second_test_on_zero :
  (let c := f_store (FloatOps := Ieee.ops) (f_dec 0 0) in
   if f_lt c (f_dec 60 (-2)) || f_lt (f_dec 15 (-1)) c
   then f_store (f_dec 0 0) else c) = S754_zero false.
Proof. vm_compute. reflexivity. Qed.

Lemma exact_den_pos k : 0 < 2 ^ Z.max k 0.
Proof. apply Z.pow_pos_nonneg; lia. Qed.

(** [corrector_in_range] on a positive number, in integers. *)
Lemma in_range_positive m e :
  let n := Zpos m * 2 ^ Z.max e 0 in
  let dn := 2 ^ Z.max (- e) 0 in
  corrector_in_range (S754_finite false m e) <->
  (60 * dn <= n * 100 /\ n * 100 < 99 * dn) \/
  (101 * dn < n * 100 /\ n * 10 <= 15 * dn).
Proof.
  intros n dn. unfold corrector_in_range, Ieee.exact, Qle, Qlt.
  cbn [Qnum Qden Ieee.finite cond_Zopp].
  rewrite Z2Pos.id by apply exact_den_pos. fold n dn. tauto.
Qed.

(** A number of binary32 below one half or from two on, by its
    exponent. *)
Lemma exact_small m e :
  Zpos (digits2_pos m) + e <= -1 ->
  2 * (Zpos m * 2 ^ Z.max e 0) < 2 ^ Z.max (- e) 0.
Proof.
  intros Ht. pose proof (digits2_pos_bounds m) as [_ Hm].
  set (d := Zpos (digits2_pos m)) in *.
  assert (Hd : 1 <= d) by (unfold d; lia).
  rewrite (Z.max_r e 0), (Z.max_l (- e) 0) by lia. rewrite Z.pow_0_r.
  assert (2 ^ (d + 1) <= 2 ^ (- e)) by (apply Z.pow_le_mono_r; lia).
  rewrite Z.pow_add_r in * by lia. change (2 ^ 1) with 2 in *. lia.
Qed.

Lemma exact_large m e :
  2 <= Zpos (digits2_pos m) + e ->
  2 * 2 ^ Z.max (- e) 0 <= Zpos m * 2 ^ Z.max e 0.
Proof.
  intros Ht. pose proof (digits2_pos_bounds m) as [Hm _].
  set (d := Zpos (digits2_pos m)) in *.
  assert (Hd : 1 <= d) by (unfold d; lia).
  destruct (Z_le_gt_dec 0 e) as [He | He].
  - rewrite (Z.max_l e 0), (Z.max_r (- e) 0) by lia. rewrite Z.pow_0_r.
    assert (2 ^ 1 <= 2 ^ (d - 1 + e)) by (apply Z.pow_le_mono_r; lia).
    rewrite Z.pow_add_r in * by lia. change (2 ^ 1) with 2 in *.
    assert (0 < 2 ^ e) by (apply Z.pow_pos_nonneg; lia). nia.
  - rewrite (Z.max_r e 0), (Z.max_l (- e) 0) by lia. rewrite Z.pow_0_r.
    assert (2 ^ (1 + - e) <= 2 ^ (d - 1)) by (apply Z.pow_le_mono_r; lia).
    rewrite Z.pow_add_r in * by lia. change (2 ^ 1) with 2 in *. lia.
Qed.

(** The outcome of a test of the filter as a statement on integers. *)
Ltac test_arith T :=
  rewrite ?andb_true_iff, ?orb_true_iff, ?andb_false_iff, ?orb_false_iff,
    ?Z.ltb_lt, ?Z.ltb_ge, ?Z.eqb_eq, ?Z.eqb_neq in T.

(** The filter on a number of the binade [d + e] = 0 or 1, whose
    mantissa the conversion to binary64 shifts by 29 digits. *)
Ltac filter_binade HM HMv :=
  match goal with
  | |- context [if ?t1 && ?t2 then S754_zero false else _] =>
      destruct (t1 && t2) eqn:T1; test_arith T1
  end;
  [ right; split; [lia | reflexivity]
  | rewrite HM, !SFltb_pos;
    match goal with
    | |- context [if ?t1 || ?t2 then S754_zero false else _] =>
        destruct (t1 || t2) eqn:T2; test_arith T2
    end;
    [ right; split; [lia | reflexivity]
    | left; split; [lia | reflexivity] ] ].

(** The filter of lines 756-759 on a number of binary32: it keeps the
    numbers within [0.60, 0.99) and (1.01, 1.5] and replaces every other
    by 0.0. *)
Lemma filter_corrector_binary32 c :
  valid_binary 24 128 c = true -> c <> S754_nan ->
  (corrector_in_range c /\ filter_corrector (F := Ieee.ops) c = c) \/
  (~ corrector_in_range c /\
   filter_corrector (F := Ieee.ops) c = S754_zero false).
Proof.
  intros Hv Hnan. destruct c as [s | s | | s m e]; [| | contradiction |].
  - right. split; [| destruct s; vm_compute; reflexivity].
    intros (_ & [[H1 _] | [H1 _]]); vm_compute in H1;
      first [discriminate H1 | apply H1; reflexivity].
  - right. split; [| destruct s; vm_compute; reflexivity].
    intros (H1 & _). discriminate H1.
  - destruct (canon53_binary32 s m e Hv) as (Hd & He & M & HM & HMv).
    pose proof (digits2_pos_bounds m) as Hm.
    pose proof (exact_small m e) as Hsmall.
    pose proof (exact_large m e) as Hlarge.
    set (d := Zpos (digits2_pos m)) in *.
    assert (Hd1 : 1 <= d) by (unfold d; lia).
    unfold filter_corrector. cbn [f_lt f_dec f_store Ieee.ops].
    unfold Ieee.ltb.
    rewrite literal_099, literal_101, literal_060, literal_15, HM.
    change (Ieee.canon 24 128 (Ieee.dec 0 0)) with (S754_zero false).
    destruct s.
    { (* a negative number *)
      right. split.
      - intros (_ & [[H1 _] | [H1 _]]); unfold Qle, Qlt, Ieee.exact in H1;
          cbn [Qnum Qden cond_Zopp] in H1;
          pose proof (exact_den_pos e); pose proof (exact_den_pos (- e)); nia.
      - cbn [SFltb SFcompare andb]. rewrite HM. reflexivity. }
    rewrite (in_range_positive m e).
    set (n := Zpos m * 2 ^ Z.max e 0) in *.
    set (dn := 2 ^ Z.max (- e) 0) in *.
    assert (Hdn : 0 < dn) by apply exact_den_pos.
    rewrite !SFltb_pos.
    (* the binade of the number *)
    assert (Hcase : d + e <= -1 \/ (d = 24 /\ e = -24) \/ (d = 24 /\ e = -23) \/
                    2 <= d + e) by lia.
    destruct Hcase as [Ht | [[Hd24 He24] | [[Hd24 He24] | Ht]]].
    + specialize (Hsmall Ht). right. split; [lia |].
      destruct (_ && _); [reflexivity |].
      rewrite HM, !SFltb_pos.
      replace (d + e - 53 <? -53) with true by (symmetry; apply Z.ltb_lt; lia).
      reflexivity.
    + clearbody d. subst d e. unfold n, dn in *.
      change (2 ^ (53 - 24)) with 536870912 in HMv.
      change (2 ^ Z.max (-24) 0) with 1. change (2 ^ Z.max (- -24) 0) with 16777216.
      change (2 ^ (24 - 1)) with 8388608 in Hm. change (2 ^ 24) with 16777216 in Hm.
      change (24 + -24 - 53) with (-53). filter_binade HM HMv.
    + clearbody d. subst d e. unfold n, dn in *.
      change (2 ^ (53 - 24)) with 536870912 in HMv.
      change (2 ^ Z.max (-23) 0) with 1. change (2 ^ Z.max (- -23) 0) with 8388608.
      change (2 ^ (24 - 1)) with 8388608 in Hm. change (2 ^ 24) with 16777216 in Hm.
      change (24 + -23 - 53) with (-52). filter_binade HM HMv.
    + specialize (Hlarge Ht). right. split; [lia |].
      destruct (_ && _); [reflexivity |].
      rewrite HM, !SFltb_pos.
      replace (-52 <? d + e - 53) with true by (symmetry; apply Z.ltb_lt; lia).
      rewrite orb_true_r. reflexivity.
Qed.

(** ** The measured corrector is a number *)

Lemma round_aux_not_nan prec emax s m e l :
  0 <= m -> binary_round_aux prec emax s m e l <> S754_nan.
Proof.
  intros Hm. unfold binary_round_aux.
  destruct (shr_fexp_spec prec emax m e l Hm) as [Hm' _].
  destruct (shr_fexp prec emax m e l) as [mrs' e']. cbn [fst snd] in Hm'.
  assert (H1 : 0 <= shr_m mrs').
  { rewrite Hm'.
    match goal with |- context [if ?b then _ else _] => destruct b eqn:E end;
      [| exact Hm].
    apply Z.ltb_lt in E. apply Z.div_pos; [exact Hm | apply Z.pow_pos_nonneg; lia]. }
  pose proof (round_nearest_even_range (shr_m mrs') (loc_of_shr_record mrs')) as Hr.
  set (m1 := round_nearest_even _ _) in *.
  assert (H0m1 : 0 <= m1) by lia.
  destruct (shr_fexp_spec prec emax m1 e' loc_Exact H0m1) as [Hm'' _].
  destruct (shr_fexp prec emax m1 e' loc_Exact) as [mrs'' e'']. cbn [fst snd] in Hm''.
  assert (H2 : 0 <= shr_m mrs'').
  { rewrite Hm''.
    match goal with |- context [if ?b then _ else _] => destruct b eqn:E end;
      [| exact H0m1].
    apply Z.ltb_lt in E. apply Z.div_pos; [exact H0m1 | apply Z.pow_pos_nonneg; lia]. }
  destruct (shr_m mrs'') as [| p | p]; [discriminate | | lia].
  destruct (_ <=? _); discriminate.
Qed.

Lemma SFmul_finite_not_nan prec emax sx mx ex sy my ey :
  SFmul prec emax (S754_finite sx mx ex) (S754_finite sy my ey) <> S754_nan.
Proof. cbn [SFmul]. apply round_aux_not_nan. lia. Qed.

Lemma SFdiv_finite_not_nan prec emax sx mx ex sy my ey :
  SFdiv prec emax (S754_finite sx mx ex) (S754_finite sy my ey) <> S754_nan.
Proof.
  cbn [SFdiv]. unfold SFdiv_core_binary.
  set (m' := match _ with Zpos _ => _ | Z0 => _ | Zneg _ => _ end).
  assert (Hm' : 0 <= m').
  { unfold m'. destruct (_ - _ - _) as [| p | p]; [lia | | lia].
    apply Z.shiftl_nonneg. lia. }
  pose proof (Z.div_pos m' (Zpos my) Hm' ltac:(lia)) as Hq.
  unfold Z.div in Hq. destruct (Z.div_eucl m' (Zpos my)) as [q r].
  apply round_aux_not_nan. exact Hq.
Qed.

Lemma of_int_not_nan z : Ieee.of_int z <> S754_nan.
Proof.
  unfold Ieee.of_int, binary_normalize.
  destruct z; [discriminate | apply binary_round24_valid | apply binary_round24_valid].
Qed.

(** A duration below one second converts to a positive number. *)
Lemma of_int_timelen timelen :
  0 < timelen < 1000000 ->
  exists m e, Ieee.of_int timelen = S754_finite false m e.
Proof.
  intros Ht. destruct timelen as [| p | p]; [lia | | lia].
  unfold Ieee.of_int, binary_normalize.
  destruct (binary_round_exact 24 128 false p 0) as (m' & Hr & _).
  - change (Zpos (digits2_pos p)) with (Zdigits2 (Zpos p)).
    apply Zdigits2_le; [lia |]. change (2 ^ 24) with 16777216. lia.
  - pose proof (Pos2Z.is_pos (digits2_pos p)). lia.
  - change (Zpos (digits2_pos p)) with (Zdigits2 (Zpos p)).
    assert (Zdigits2 (Zpos p) <= 24); [| lia].
    apply Zdigits2_le; [lia |]. change (2 ^ 24) with 16777216. lia.
  - eauto.
Qed.

(** Lines 753-755 on the values the measurement passes: the quotient is
    a number of binary32, possibly an infinity, never a NaN. *)
Lemma measured_corrector_binary32 bits dmabufsize timelen :
  bits = 16 \/ bits = 32 ->
  0 < timelen < 1000000 ->
  valid_binary 24 128
    (measured_corrector (F := Ieee.ops) 48000 2 bits dmabufsize timelen) = true /\
  measured_corrector (F := Ieee.ops) 48000 2 bits dmabufsize timelen <> S754_nan.
Proof.
  intros Hbits Ht. unfold measured_corrector.
  cbn [f_store f_mul f_div d_mul d_div f_of_int f_dec Ieee.ops].
  apply canon24_valid.
  destruct (of_int_timelen timelen Ht) as (mt & et & ->).
  assert (HN : exists mn en,
            SFmul 24 128 (SFmul 24 128 (Ieee.of_int 48000) (Ieee.of_int 2))
              (Ieee.of_int (bits / 8)) = S754_finite false mn en).
  { destruct Hbits as [-> | ->]; eexists _, _; vm_compute; reflexivity. }
  destruct HN as (mn & en & ->).
  change (Ieee.dec 1000000 0) with (S754_finite false 8589934592000000 (-33)).
  pose proof (of_int_not_nan dmabufsize) as HP.
  destruct (Ieee.of_int dmabufsize) as [sp | sp | | sp mp ep]; [| | contradiction |].
  - cbn. discriminate.
  - cbn. discriminate.
  - pose proof (SFmul_finite_not_nan 53 1024 sp mp ep false 8589934592000000 (-33)) as HA.
    destruct (SFmul 53 1024 _ _) as [sa | sa | | sa ma ea]; [| | contradiction |].
    + cbn. discriminate.
    + cbn. discriminate.
    + pose proof (SFdiv_finite_not_nan 53 1024 sa ma ea false mt et) as HY.
      destruct (SFdiv 53 1024 (S754_finite sa ma ea) _) as [sy | sy | | sy my ey];
        [| | contradiction |].
      * cbn. discriminate.
      * cbn. discriminate.
      * apply SFdiv_finite_not_nan.
Qed.

(** C4.  Under IEEE 754 arithmetic (the corrector a binary32 object, the
    comparisons of lines 756-759 in binary64), on a card whose corrector
    is still zero, as INTELICH_adetect allocates it, and with a clock that
    passes the one-second limit, the clock measurement returns and the
    corrector it leaves is a zero or a number whose exact value lies
    within [0.60, 0.99) or (1.01, 1.5].  Either no corrector was computed
    (the duration measured was 0 or a second or more) and the stored one
    is the one the card had, or one was computed, for 48000 Hz, 2
    channels, 16 or 32 bits and a duration below one second: it is stored
    when its exact value lies within [0.60, 0.99) or (1.01, 1.5], and any
    other, so any within [0.99, 1.01] or outside [0.60, 1.5], is
    replaced by +0.0. *)
Theorem clock_corrector_zero_or_in_range {H : Headers}
    (w : @world Ieee.ops) card cm t0 ts tlate tend :
  has_card w card -> dm card = Some cm ->
  Ieee.nonzero (ac97_clock_corrector card) = false ->
  w_clock w = t0 :: ts ++ [tlate; tend] ->
  t0 + 1000000 < tlate ->
  exists w' card',
    snd_intel_measure_ac97_clock w = Ok tt w' /\
    has_card w' card' /\
    (Ieee.nonzero (ac97_clock_corrector card') = false \/
     corrector_in_range (ac97_clock_corrector card')) /\
    (ac97_clock_corrector card' = ac97_clock_corrector card \/
     exists bits dmabufsize timelen,
       (bits = 16 \/ bits = 32) /\
       0 < timelen < 1000000 /\
       let c : spec_float :=
         measured_corrector (F := Ieee.ops) 48000 2 bits dmabufsize timelen in
       (corrector_in_range c /\ ac97_clock_corrector card' = c) \/
       (~ corrector_in_range c /\
        ac97_clock_corrector card' = S754_zero false)).
Proof.
  intros Hc Hdm Hz Hk Hlate.
  destruct (measure_clock_corrector w card cm t0 ts tlate tend Hc Hdm Hz Hk Hlate)
    as (w' & card' & Hrun & Hc' & Hcor).
  exists w', card'. split; [exact Hrun |]. split; [exact Hc' |].
  destruct Hcor as [Hsame | (bits & dmabufsize & timelen & Hbits & Hlen & Hcor)].
  { split; [left; rewrite Hsame; exact Hz | left; exact Hsame]. }
  destruct (measured_corrector_binary32 bits dmabufsize timelen Hbits Hlen)
    as [Hv Hn].
  destruct (filter_corrector_binary32 _ Hv Hn) as [[Hin Hf] | [Hout Hf]];
    rewrite Hf in Hcor.
  - split; [right; rewrite Hcor; exact Hin |].
    right. exists bits, dmabufsize, timelen.
    split; [exact Hbits |]. split; [exact Hlen |]. left. auto.
  - split; [left; rewrite Hcor; reflexivity |].
    right. exists bits, dmabufsize, timelen.
    split; [exact Hbits |]. split; [exact Hlen |]. right. auto.
Qed.

(** C4 on a card that plays its three test periods, 12288 bytes, in 70000
    microseconds: the corrector computed and stored is 1.09375. *)
Lemma clock_corrector_zero_or_in_range_witness :
  has_card
    (with_clock [0; 70000; 2000000; 2000001] []
       (sample_world DEVICE_INTEL 0 44100 16
          [16384; 1; 0; 0; 0x100; 0; 0x2000; 0x100; 0x100; 0; 0x100; 0;
           0x100; 3; 3; 1]))
    (sample_card DEVICE_INTEL 0) /\
  0 + 1000000 < 2000000 /\
  exists w' card',
    snd_intel_measure_ac97_clock (H := headers false)
      (with_clock [0; 70000; 2000000; 2000001] []
         (sample_world DEVICE_INTEL 0 44100 16
            [16384; 1; 0; 0; 0x100; 0; 0x2000; 0x100; 0x100; 0; 0x100; 0;
             0x100; 3; 3; 1])) = Ok tt w' /\
    has_card w' card' /\
    ac97_clock_corrector card' = S754_finite false 9175040 (-23) /\
    corrector_in_range (ac97_clock_corrector card').
Proof.
  split; [reflexivity |]. split; [reflexivity |].
  destruct (clock_corrector_zero_or_in_range (H := headers false)
              (with_clock [0; 70000; 2000000; 2000001] []
                 (sample_world DEVICE_INTEL 0 44100 16
                    [16384; 1; 0; 0; 0x100; 0; 0x2000; 0x100; 0x100; 0;
                     0x100; 0; 0x100; 3; 3; 1]))
              (sample_card DEVICE_INTEL 0)
              {| linearptr := 0x100000; physicalptr := 0x200000 |}
              0 [70000] 2000000 2000001 eq_refl eq_refl eq_refl eq_refl eq_refl)
    as (w' & card' & Hrun & Hc & Hcor & _).
  assert (Hobs :
    match snd_intel_measure_ac97_clock (H := headers false)
            (with_clock [0; 70000; 2000000; 2000001] []
               (sample_world DEVICE_INTEL 0 44100 16
                  [16384; 1; 0; 0; 0x100; 0; 0x2000; 0x100; 0x100; 0;
                   0x100; 0; 0x100; 3; 3; 1]))
    with
    | Ok _ w1 =>
        option_map ac97_clock_corrector (card_private_data (w_aui w1)) =
        Some (S754_finite false 9175040 (-23))
    | _ => False
    end) by (vm_compute; reflexivity).
  rewrite Hrun in Hobs. unfold has_card in Hc. rewrite Hc in Hobs.
  cbn [option_map] in Hobs.
  assert (Hval : ac97_clock_corrector card' = S754_finite false 9175040 (-23))
    by congruence.
  exists w', card'. split; [exact Hrun |]. split; [exact Hc |].
  split; [exact Hval |].
  destruct Hcor as [Hzero | Hin]; [| exact Hin].
  rewrite Hval in Hzero. discriminate Hzero.
Defined.

(** ** Detection *)

Section DetectionSteps.
Context {H : Headers} {F : FloatOps} {B : BringupHeaders} {P : PciHeaders}.
Implicit Types (w : world) (card : intel_card_s) (evs : list event) (h : host).
Implicit Types (calloc : list bool) (cfg : list Z) (calls : list host_call).

Lemma with_card_same w card : has_card w card -> with_card card w = w.
Proof.
  destruct w as [[cpd ? ? ? ? ? ? ? ? ?] ? ? ? ? ?]. unfold has_card. cbn.
  intros ->. reflexivity.
Qed.

(** *** One step of detection on a machine in the form [probed] *)

Lemma dbind_ret {A C} (a : A) (k : A -> D C) h : bind (ret a) k h = k a h.
Proof. reflexivity. Qed.

Lemma dbind_assoc {A A' C} (m : D A) (k1 : A -> D A') (k2 : A' -> D C) h :
  bind (bind m k1) k2 h = bind m (fun a => bind (k1 a) k2) h.
Proof. unfold bind. destruct (m h); reflexivity. Qed.

Lemma dbind_ok {A C} (m : D A) (k : A -> D C) h a h1 :
  m h = Ok a h1 -> bind m k h = k a h1.
Proof. intros Hm. unfold bind. rewrite Hm. reflexivity. Qed.

Lemma probed_call card irq dmabuff calloc cfg calloc' cfg' calls h c0 :
  with_call calloc' cfg' c0 (probed card irq dmabuff calloc cfg calls h) =
  probed card irq dmabuff calloc' cfg' (calls ++ [c0]) h.
Proof. unfold with_call, probed. cbn. rewrite <- app_assoc. reflexivity. Qed.

Lemma lift_modify_card f card irq dmabuff calloc cfg calls h :
  lift (modify_card f) (probed card irq dmabuff calloc cfg calls h) =
  Ok tt (probed (f card) irq dmabuff calloc cfg calls h).
Proof. reflexivity. Qed.

Lemma lift_deref_card card irq dmabuff calloc cfg calls h :
  lift deref_card (probed card irq dmabuff calloc cfg calls h) =
  Ok card (probed card irq dmabuff calloc cfg calls h).
Proof. reflexivity. Qed.

Lemma lift_get_aui card irq dmabuff calloc cfg calls h :
  lift get_aui (probed card irq dmabuff calloc cfg calls h) =
  Ok (set_card_private_data (Some card) (w_aui (h_world h)))
     (probed card irq dmabuff calloc cfg calls h).
Proof. reflexivity. Qed.

Lemma call_probed c0 card irq dmabuff calloc cfg calls h :
  call c0 (probed card irq dmabuff calloc cfg calls h) =
  Ok tt (probed card irq dmabuff calloc cfg (calls ++ [c0]) h).
Proof. unfold call. cbn [h_calloc h_config probed]. rewrite probed_call. reflexivity. Qed.

Lemma read_dword_probed reg card irq dmabuff calloc cfg calls h :
  pcibios_ReadConfig_Dword reg (probed card irq dmabuff calloc cfg calls h) =
  Ok (u32 (hd 0 cfg))
     (probed card irq dmabuff calloc (tl cfg)
        (calls ++ [HcReadConfigDword reg (u32 (hd 0 cfg))]) h).
Proof.
  unfold pcibios_ReadConfig_Dword. cbn [h_calloc h_config probed].
  rewrite probed_call. reflexivity.
Qed.

Lemma read_byte_probed reg card irq dmabuff calloc cfg calls h :
  pcibios_ReadConfig_Byte reg (probed card irq dmabuff calloc cfg calls h) =
  Ok (u8 (hd 0 cfg))
     (probed card irq dmabuff calloc (tl cfg)
        (calls ++ [HcReadConfigByte reg (u8 (hd 0 cfg))]) h).
Proof.
  unfold pcibios_ReadConfig_Byte. cbn [h_calloc h_config probed].
  rewrite probed_call. reflexivity.
Qed.

Lemma calloc_probed what card irq dmabuff calloc cfg calls h :
  pds_calloc what (probed card irq dmabuff calloc cfg calls h) =
  Ok (hd false calloc)
     (probed card irq dmabuff (tl calloc) cfg
        (calls ++ [what (hd false calloc)]) h).
Proof.
  unfold pds_calloc. cbn [h_calloc h_config probed].
  rewrite probed_call. reflexivity.
Qed.

Lemma search_probed card irq dmabuff calloc cfg calls h :
  pcibios_search_devices (probed card irq dmabuff calloc cfg calls h) =
  Ok (h_found h)
     (probed card irq dmabuff calloc cfg
        (calls ++ [HcSearchDevices (h_found h)]) h).
Proof.
  unfold pcibios_search_devices. cbn [h_calloc h_config h_found probed].
  rewrite probed_call. reflexivity.
Qed.

Lemma get_max_probed m p s fc card irq dmabuff calloc cfg calls h :
  MDma_get_max_pcmoutbufsize m p s fc (probed card irq dmabuff calloc cfg calls h) =
  Ok (h_max_bufsize h)
     (probed card irq dmabuff calloc cfg
        (calls ++ [HcGetMaxBufsize m p s fc (h_max_bufsize h)]) h).
Proof.
  unfold MDma_get_max_pcmoutbufsize. cbn [h_calloc h_config h_max_bufsize probed].
  rewrite probed_call. reflexivity.
Qed.

Lemma alloc_probed size card irq dmabuff calloc cfg calls h :
  MDma_alloc_cardmem size (probed card irq dmabuff calloc cfg calls h) =
  Ok (h_cardmem h)
     (probed card irq dmabuff calloc cfg
        (calls ++ [HcAllocCardmem size (h_cardmem h)]) h).
Proof.
  unfold MDma_alloc_cardmem. cbn [h_calloc h_config h_cardmem probed].
  rewrite probed_call. reflexivity.
Qed.

Lemma get_freq_set_probed card irq dmabuff calloc cfg calls h :
  get_freq_set (probed card irq dmabuff calloc cfg calls h) =
  Ok (h_freq_set h) (probed card irq dmabuff calloc cfg calls h).
Proof. reflexivity. Qed.

Lemma get_card_irq_probed card irq dmabuff calloc cfg calls h :
  get_card_irq (probed card irq dmabuff calloc cfg calls h) =
  Ok irq (probed card irq dmabuff calloc cfg calls h).
Proof. reflexivity. Qed.

Lemma set_card_irq_probed v card irq dmabuff calloc cfg calls h :
  set_card_irq v (probed card irq dmabuff calloc cfg calls h) =
  Ok tt (probed card v dmabuff calloc cfg calls h).
Proof. reflexivity. Qed.

Lemma set_card_DMABUFF_probed v card irq dmabuff calloc cfg calls h :
  set_card_DMABUFF v (probed card irq dmabuff calloc cfg calls h) =
  Ok tt (probed card irq v calloc cfg calls h).
Proof. reflexivity. Qed.

Lemma read_allowed c : is_config_write c = false -> config_write_allowed c.
Proof.
  unfold config_write_allowed. intros Hr Hw. rewrite Hr in Hw. discriminate Hw.
Qed.

Lemma write_allowed c :
  SBEMU = true ->
  c = HcWriteConfigByte 0x41 1 \/
  c = HcWriteConfigDword PCIR_NABMBAR 0xF000 \/
  c = HcWriteConfigDword PCIR_NAMBAR 0xEF00 \/
  c = HcWriteConfigByte PCIR_INTR_LN 11 ->
  config_write_allowed c.
Proof. unfold config_write_allowed. auto. Qed.

Lemma detection_calls_cons reached c calls :
  is_config_write c = false ->
  detection_calls reached calls -> detection_calls reached (c :: calls).
Proof.
  intros Hc. unfold detection_calls. destruct reached.
  - intros (pre & post & -> & Hpre & Hpost). exists (c :: pre), post.
    split; [reflexivity |]. split; [| exact Hpost].
    constructor; [apply read_allowed, Hc | exact Hpre].
  - intros Hall. constructor; [apply read_allowed, Hc | exact Hall].
Qed.

End DetectionSteps.

(** Run the head of detection code on a machine in the form [probed]. *)
Ltac dstep :=
  first
    [ rewrite dbind_assoc
    | rewrite dbind_ret
    | rewrite (dbind_ok _ _ _ _ _ (lift_modify_card _ _ _ _ _ _ _ _))
    | rewrite (dbind_ok _ _ _ _ _ (lift_deref_card _ _ _ _ _ _ _))
    | rewrite (dbind_ok _ _ _ _ _ (lift_get_aui _ _ _ _ _ _ _))
    | rewrite (dbind_ok _ _ _ _ _ (read_dword_probed _ _ _ _ _ _ _ _))
    | rewrite (dbind_ok _ _ _ _ _ (read_byte_probed _ _ _ _ _ _ _ _))
    | rewrite (dbind_ok _ _ _ _ _ (calloc_probed _ _ _ _ _ _ _ _))
    | rewrite (dbind_ok _ _ _ _ _ (search_probed _ _ _ _ _ _ _))
    | rewrite (dbind_ok _ _ _ _ _ (get_max_probed _ _ _ _ _ _ _ _ _ _ _))
    | rewrite (dbind_ok _ _ _ _ _ (alloc_probed _ _ _ _ _ _ _ _))
    | rewrite (dbind_ok _ _ _ _ _ (get_freq_set_probed _ _ _ _ _ _ _))
    | rewrite (dbind_ok _ _ _ _ _ (get_card_irq_probed _ _ _ _ _ _ _))
    | rewrite (dbind_ok _ _ _ _ _ (set_card_irq_probed _ _ _ _ _ _ _ _))
    | rewrite (dbind_ok _ _ _ _ _ (set_card_DMABUFF_probed _ _ _ _ _ _ _ _))
    | rewrite (dbind_ok _ _ _ _ _ (call_probed _ _ _ _ _ _ _ _)) ];
  cbv beta.

Ltac drun := repeat dstep.

(** Split a statement about a list of host calls into its writes to the
    configuration space. *)
Ltac allowed :=
  repeat (cbn [app];
          match goal with
          | |- Forall _ [] => constructor
          | |- Forall _ (_ :: _) =>
              constructor; [try (apply read_allowed; reflexivity) |]
          | |- Forall _ (_ ++ _) => apply Forall_app; split
          end).

Section DetectionProperties.
Context {H : Headers} {F : FloatOps} {B : BringupHeaders} {P : PciHeaders}.
Implicit Types (w : world) (card : intel_card_s) (evs : list event) (h : host).
Implicit Types (calloc : list bool) (cfg : list Z) (calls : list host_call).

(** *** The stages of INTELICH_adetect *)

Lemma adetect_legacy_io_run card irq dmabuff calloc cfg calls h pci :
  pci_dev card = Some pci ->
  adetect_legacy_io (probed card irq dmabuff calloc cfg calls h) =
  Ok tt
    (probed card irq dmabuff calloc cfg
       (calls ++
        (if SBEMU && device_type_eqb (pci_device_type pci) DEVICE_INTEL_ICH4
         then [HcWriteConfigByte 0x41 1] else [])) h).
Proof.
  intros Hpci. unfold adetect_legacy_io.
  destruct SBEMU; cbn [andb]; [| rewrite app_nil_r; reflexivity].
  drun. rewrite Hpci.
  destruct (device_type_eqb (pci_device_type pci) DEVICE_INTEL_ICH4).
  - unfold pcibios_WriteConfig_Byte. rewrite call_probed. reflexivity.
  - rewrite app_nil_r. reflexivity.
Qed.


(** Lines 580-594.  [iobase] exists in SBEMU builds only. *)
Lemma adetect_bm_base_plain card irq dmabuff calloc cfg calls h :
  SBEMU && (Z.land (u32 (hd 0 cfg)) 0xfff0 =? 0) = false ->
  adetect_bm_base (probed card irq dmabuff calloc cfg calls h) =
  Ok (if SBEMU then 0xF000 else 0)
    (probed (set_baseport_bm (Z.land (u32 (hd 0 cfg)) 0xfff0) card)
       irq dmabuff calloc (tl cfg)
       (calls ++ [HcReadConfigDword PCIR_NABMBAR (u32 (hd 0 cfg))]) h).
Proof.
  intros Hplain. unfold adetect_bm_base. drun.
  destruct SBEMU; cbn [andb] in Hplain; [| reflexivity].
  drun. cbn [baseport_bm set_baseport_bm]. rewrite Hplain. reflexivity.
Qed.

Lemma adetect_bm_base_retry card irq dmabuff calloc cfg calls h :
  SBEMU = true -> Z.land (u32 (hd 0 cfg)) 0xfff0 = 0 ->
  adetect_bm_base (probed card irq dmabuff calloc cfg calls h) =
  Ok 0xF000
    (probed (set_baseport_bm (Z.land (u32 (hd 0 (tl cfg))) 0xfff0) card)
       irq dmabuff calloc (tl (tl cfg))
       (calls ++ [HcReadConfigDword PCIR_NABMBAR (u32 (hd 0 cfg));
                  HcWriteConfigDword PCIR_NABMBAR 0xF000;
                  HcReadConfigDword PCIR_NABMBAR (u32 (hd 0 (tl cfg)))]) h).
Proof.
  intros HS Hz. unfold adetect_bm_base. drun. rewrite HS.
  drun. cbn [baseport_bm set_baseport_bm]. rewrite Hz. cbn [Z.eqb].
  unfold pcibios_WriteConfig_Dword. drun.
  rewrite <- !app_assoc. reflexivity.
Qed.

(** Lines 599-611, entered with [iobase] 0xF000 in SBEMU builds. *)
Lemma adetect_codec_base_plain iobase card irq dmabuff calloc cfg calls h :
  SBEMU && (Z.land (u32 (hd 0 cfg)) 0xfff0 =? 0) = false ->
  adetect_codec_base iobase (probed card irq dmabuff calloc cfg calls h) =
  Ok tt
    (probed (set_baseport_codec (Z.land (u32 (hd 0 cfg)) 0xfff0) card)
       irq dmabuff calloc (tl cfg)
       (calls ++ [HcReadConfigDword PCIR_NAMBAR (u32 (hd 0 cfg))]) h).
Proof.
  intros Hplain. unfold adetect_codec_base. drun.
  destruct SBEMU; cbn [andb] in Hplain.
  - drun. cbn [baseport_codec set_baseport_codec]. rewrite Hplain. reflexivity.
  - reflexivity.
Qed.

Lemma adetect_codec_base_retry card irq dmabuff calloc cfg calls h :
  SBEMU = true -> Z.land (u32 (hd 0 cfg)) 0xfff0 = 0 ->
  adetect_codec_base 0xF000 (probed card irq dmabuff calloc cfg calls h) =
  Ok tt
    (probed (set_baseport_codec (Z.land (u32 (hd 0 (tl cfg))) 0xfff0) card)
       irq dmabuff calloc (tl (tl cfg))
       (calls ++ [HcReadConfigDword PCIR_NAMBAR (u32 (hd 0 cfg));
                  HcWriteConfigDword PCIR_NAMBAR 0xEF00;
                  HcReadConfigDword PCIR_NAMBAR (u32 (hd 0 (tl cfg)))]) h).
Proof.
  intros HS Hz. unfold adetect_codec_base. drun. rewrite HS.
  drun. cbn [baseport_codec set_baseport_codec]. rewrite Hz. cbn [Z.eqb].
  unfold pcibios_WriteConfig_Dword. drun. rewrite ?lift_modify_card.
  rewrite <- !app_assoc. reflexivity.
Qed.

(** Lines 612-623. *)
Lemma adetect_irq_plain card irq dmabuff calloc cfg calls h :
  SBEMU && ((u8 (hd 0 cfg) =? 0xFF) || (u8 (hd 0 cfg) =? 0)) = false ->
  adetect_irq (probed card irq dmabuff calloc cfg calls h) =
  Ok tt
    (probed (set_irq (u8 (hd 0 cfg)) card) (u8 (hd 0 cfg)) dmabuff calloc
       (tl cfg)
       (calls ++ [HcReadConfigByte PCIR_INTR_LN (u8 (hd 0 cfg))]) h).
Proof.
  intros Hplain. unfold adetect_irq, adetect_read_irq. drun.
  destruct SBEMU; cbn [andb] in Hplain; [| reflexivity].
  drun. rewrite Hplain. reflexivity.
Qed.

Lemma adetect_irq_retry card irq dmabuff calloc cfg calls h :
  SBEMU = true ->
  (u8 (hd 0 cfg) =? 0xFF) || (u8 (hd 0 cfg) =? 0) = true ->
  adetect_irq (probed card irq dmabuff calloc cfg calls h) =
  Ok tt
    (probed (set_irq (u8 (hd 0 (tl cfg))) card) (u8 (hd 0 (tl cfg))) dmabuff
       calloc (tl (tl cfg))
       (calls ++ [HcReadConfigByte PCIR_INTR_LN (u8 (hd 0 cfg));
                  HcWriteConfigByte PCIR_INTR_LN 11;
                  HcReadConfigByte PCIR_INTR_LN (u8 (hd 0 (tl cfg)))]) h).
Proof.
  intros HS Hz. unfold adetect_irq, adetect_read_irq. drun. rewrite HS.
  drun. rewrite Hz. unfold pcibios_WriteConfig_Byte. drun.
  rewrite ?set_card_irq_probed.
  rewrite <- !app_assoc. reflexivity.
Qed.

Lemma buffer_init_run card irq dmabuff calloc cfg calls h cm :
  h_cardmem h = Some cm ->
  snd_intel_buffer_init (probed card irq dmabuff calloc cfg calls h) =
  Ok 1
    (probed (buffer_init_card cm (h_max_bufsize h) card) irq
       (linearptr cm + ICH_DMABUF_ALIGN) calloc cfg
       (calls ++
        buffer_init_calls cm (bits_set (w_aui (h_world h))) (h_max_bufsize h))
       h).
Proof.
  intros Hcm. unfold snd_intel_buffer_init. drun. rewrite Hcm. drun.
  unfold buffer_init_card, buffer_init_calls.
  destruct SBEMU.
  - unfold memset. drun. unfold ret. rewrite <- !app_assoc. reflexivity.
  - drun. unfold ret. rewrite <- !app_assoc. reflexivity.
Qed.

Lemma buffer_init_null card irq dmabuff calloc cfg calls h :
  h_cardmem h = None ->
  snd_intel_buffer_init (probed card irq dmabuff calloc cfg calls h) = Fault.
Proof.
  intros Hcm. unfold snd_intel_buffer_init. drun. rewrite Hcm. drun.
  reflexivity.
Qed.

Lemma err_adetect_run card irq dmabuff calloc cfg calls h :
  err_adetect (probed card irq dmabuff calloc cfg calls h) =
  Ok 0 (with_world (closed card (h_world h))
          (probed card irq dmabuff calloc cfg calls h)).
Proof.
  unfold err_adetect.
  assert (Hc : has_card (h_world (probed card irq dmabuff calloc cfg calls h)) card)
    by reflexivity.
  unfold bind, lift. rewrite (INTELICH_close_ok _ _ Hc). reflexivity.
Qed.

(** Lines 625-633 with an allocation: the card is laid out, then the
    chip and the codec are brought up. *)
Lemma adetect_bringup_run card irq dmabuff calloc cfg calls h pci cm :
  pci_dev card = Some pci -> h_cardmem h = Some cm ->
  let card' := buffer_init_card cm (h_max_bufsize h)
                 (set_device_type (pci_device_type pci) card) in
  exists w' evs,
    adetect_bringup (probed card irq dmabuff calloc cfg calls h) =
    Ok 1
      (with_world w'
         (probed card' irq (linearptr cm + ICH_DMABUF_ALIGN) calloc cfg
            (calls ++
             buffer_init_calls cm (bits_set (w_aui (h_world h)))
               (h_max_bufsize h)) h)) /\
    quiet (with_card card' (h_world h)) w' evs /\
    bringup_traffic card' evs.
Proof.
  intros Hpci Hcm card'. unfold adetect_bringup. drun. rewrite Hpci. drun.
  rewrite (dbind_ok _ _ _ _ _ (buffer_init_run _ _ _ _ _ _ _ _ Hcm)).
  cbn [Z.eqb]. fold card'.
  assert (Hc : has_card (with_card card' (h_world h)) card') by reflexivity.
  destruct (chip_init_run _ _ Hc)
    as ([] & w1 & Hrun1 & e1 & Hq1 & stat & cnt & unmute & rest & _ & _ & Hin1).
  destruct (ac97_init_run (h_freq_set h) w1 card' (quiet_has_card _ _ _ _ Hq1 Hc))
    as ([] & w2 & Hrun2 & e2 & Hq2 & Hin2).
  exists w2, (e1 ++ e2). split; [| split].
  - unfold bind at 1, lift at 1. cbn [h_world probed]. rewrite Hrun1.
    unfold bind at 1, get_freq_set. cbn [h_freq_set with_world probed].
    unfold bind, lift. cbn [h_world with_world]. rewrite Hrun2. reflexivity.
  - eapply quiet_trans; eassumption.
  - eexists e1, e2, _. split; [reflexivity |]. split; [exact Hin1 | exact Hin2].
Qed.

Lemma adetect_bringup_null card irq dmabuff calloc cfg calls h pci :
  pci_dev card = Some pci -> h_cardmem h = None ->
  adetect_bringup (probed card irq dmabuff calloc cfg calls h) = Fault.
Proof.
  intros Hpci Hcm. unfold adetect_bringup. drun. rewrite Hpci. drun.
  unfold bind. rewrite (buffer_init_null _ _ _ _ _ _ _ Hcm). reflexivity.
Qed.


(** *** Every path through detection *)

Lemma adetect_legacy_io_allowed pci :
  Forall config_write_allowed
    (if SBEMU && device_type_eqb (pci_device_type pci) DEVICE_INTEL_ICH4
     then [HcWriteConfigByte 0x41 1] else []).
Proof.
  destruct SBEMU eqn:HS; cbn [andb]; [| constructor].
  destruct (device_type_eqb _ _); allowed.
  apply write_allowed; [exact HS | left; reflexivity].
Qed.

Lemma adetect_bm_base_any card irq dmabuff calloc cfg calls h :
  exists iobase bm cfg' cs,
    adetect_bm_base (probed card irq dmabuff calloc cfg calls h) =
    Ok iobase
       (probed (set_baseport_bm bm card) irq dmabuff calloc cfg' (calls ++ cs) h) /\
    Forall config_write_allowed cs /\
    (SBEMU = true -> iobase = 0xF000).
Proof.
  destruct (SBEMU && (Z.land (u32 (hd 0 cfg)) 0xfff0 =? 0)) eqn:Hr.
  - apply andb_prop in Hr as [HS Hz]. apply Z.eqb_eq in Hz.
    eexists _, _, _, _. split; [apply adetect_bm_base_retry; assumption |].
    split; [| reflexivity].
    allowed.
    apply write_allowed; [exact HS | right; left; reflexivity].
  - eexists _, _, _, _. split; [apply adetect_bm_base_plain; exact Hr |].
    split; [| intros HS; rewrite HS; reflexivity].
    allowed.
Qed.

Lemma adetect_codec_base_any iobase card irq dmabuff calloc cfg calls h :
  (SBEMU = true -> iobase = 0xF000) ->
  exists codec cfg' cs,
    adetect_codec_base iobase (probed card irq dmabuff calloc cfg calls h) =
    Ok tt
       (probed (set_baseport_codec codec card) irq dmabuff calloc cfg'
          (calls ++ cs) h) /\
    Forall config_write_allowed cs.
Proof.
  intros Hio.
  destruct (SBEMU && (Z.land (u32 (hd 0 cfg)) 0xfff0 =? 0)) eqn:Hr.
  - apply andb_prop in Hr as [HS Hz]. apply Z.eqb_eq in Hz.
    rewrite (Hio HS).
    eexists _, _, _. split; [apply adetect_codec_base_retry; assumption |].
    allowed.
    apply write_allowed; [exact HS | right; right; left; reflexivity].
  - eexists _, _, _. split; [apply adetect_codec_base_plain; exact Hr |].
    allowed.
Qed.

Lemma adetect_irq_any card irq dmabuff calloc cfg calls h :
  exists v cfg' cs,
    adetect_irq (probed card irq dmabuff calloc cfg calls h) =
    Ok tt (probed (set_irq v card) v dmabuff calloc cfg' (calls ++ cs) h) /\
    Forall config_write_allowed cs.
Proof.
  destruct (SBEMU && ((u8 (hd 0 cfg) =? 0xFF) || (u8 (hd 0 cfg) =? 0))) eqn:Hr.
  - apply andb_prop in Hr as [HS Hz].
    eexists _, _, _. split; [apply adetect_irq_retry; assumption |].
    allowed.
    apply write_allowed; [exact HS | right; right; right; reflexivity].
  - eexists _, _, _. split; [apply adetect_irq_plain; exact Hr |].
    allowed.
Qed.

Lemma buffer_init_calls_allowed cm bits size :
  Forall config_write_allowed (buffer_init_calls cm bits size).
Proof.
  unfold buffer_init_calls.
  destruct SBEMU; cbn [app]; allowed.
Qed.


Lemma adetect_start_null h :
  hd false (h_calloc h) = false ->
  INTELICH_adetect h =
  Ok 0 (with_call (tl (h_calloc h)) (h_config h) (HcCallocCard false) h).
Proof.
  intros Hok. unfold INTELICH_adetect, bind, pds_calloc. rewrite Hok.
  reflexivity.
Qed.

Lemma adetect_start h :
  hd false (h_calloc h) = true ->
  INTELICH_adetect h =
  adetect_probe
    (probed calloc_card (h_card_irq h) (h_card_DMABUFF h) (tl (h_calloc h))
       (h_config h) [HcCallocCard true] h).
Proof.
  intros Hok. unfold INTELICH_adetect, bind at 1, pds_calloc. rewrite Hok.
  reflexivity.
Qed.

Ltac ends_card :=
  split; [reflexivity |]; split; [reflexivity |];
  split; [split; intros Hx;
         first [reflexivity | assumption | cbn in Hx; discriminate Hx | congruence] |].

(** Split the calls of a run that reached a device at its one call of
    pcibios_set_master. *)
Ltac around_set_master Hok Hfound :=
  unfold detection_calls; rewrite Hok, Hfound; cbn [andb];
  eexists (_ :: _ :: _), _; split; [reflexivity |]; split.

Lemma adetect_probe_runs irq dmabuff calloc cfg h :
  runs adetect_probe
    (probed calloc_card irq dmabuff calloc cfg [HcCallocCard true] h)
    (probe_ends h calloc) (h_cardmem h = None).
Proof.
  unfold runs, adetect_probe. drun.
  destruct (hd false calloc) eqn:Hok; cbn [negb].
  2: { rewrite err_adetect_run. split.
       - eexists. cbn [h_calls probed with_world]. split; [reflexivity |].
         unfold detection_calls. rewrite Hok. cbn [andb]. allowed.
       - left. split; [reflexivity |]. exists calloc_card. ends_card.
         intros Hbm. exfalso. apply Hbm. reflexivity. }
  drun. destruct (h_found h) as [pci |] eqn:Hfound.
  2: { rewrite err_adetect_run. split.
       - eexists. cbn [h_calls probed with_world]. rewrite <- !app_assoc.
         split; [reflexivity |].
         unfold detection_calls. rewrite Hok, Hfound. cbn [andb]. allowed.
       - left. split; [reflexivity |].
         exists (set_pci_dev (Some calloc_pci_config) calloc_card). ends_card.
         intros Hbm. exfalso. apply Hbm. reflexivity. }
  drun.
  match goal with
  | |- context [bind adetect_legacy_io _ (probed ?c ?i ?d ?a ?g ?cs ?h0)] =>
      rewrite (dbind_ok _ _ _ _ _
                 (adetect_legacy_io_run c i d a g cs h0 pci eq_refl))
  end.
  unfold pcibios_set_master. drun.
  match goal with
  | |- context [bind adetect_bm_base _ (probed ?c ?i ?d ?a ?g ?cs ?h0)] =>
      destruct (adetect_bm_base_any c i d a g cs h0)
        as (iobase & bm & cfg1 & cs1 & Hbm & Hcs1 & Hio)
  end.
  rewrite (dbind_ok _ _ _ _ _ Hbm). drun.
  cbn [baseport_bm set_baseport_bm].
  destruct (bm =? 0) eqn:Hbm0.
  { rewrite err_adetect_run. split.
    - eexists. cbn [h_calls probed with_world]. rewrite <- !app_assoc.
      split; [reflexivity |]. around_set_master Hok Hfound.
      all: allowed; first [apply adetect_legacy_io_allowed | assumption].
    - left. split; [reflexivity |]. eexists. ends_card.
      cbn [baseport_bm set_baseport_bm]. apply Z.eqb_eq in Hbm0.
      intros Hne. contradiction. }
  match goal with
  | |- context [bind (adetect_codec_base iobase) _ (probed ?c ?i ?d ?a ?g ?cs ?h0)] =>
      destruct (adetect_codec_base_any iobase c i d a g cs h0 Hio)
        as (codec & cfg2 & cs2 & Hcodec & Hcs2)
  end.
  rewrite (dbind_ok _ _ _ _ _ Hcodec). drun.
  cbn [baseport_codec set_baseport_codec].
  destruct (codec =? 0) eqn:Hcodec0.
  { rewrite err_adetect_run. split.
    - eexists. cbn [h_calls probed with_world]. rewrite <- !app_assoc.
      split; [reflexivity |]. around_set_master Hok Hfound.
      all: allowed; first [apply adetect_legacy_io_allowed | assumption].
    - left. split; [reflexivity |]. eexists. ends_card.
      cbn [baseport_codec set_baseport_codec]. apply Z.eqb_eq in Hcodec0.
      intros _. exact Hcodec0. }
  match goal with
  | |- context [bind adetect_irq _ (probed ?c ?i ?d ?a ?g ?cs ?h0)] =>
      destruct (adetect_irq_any c i d a g cs h0)
        as (v & cfg3 & cs3 & Hirq & Hcs3)
  end.
  rewrite (dbind_ok _ _ _ _ _ Hirq).
  destruct (h_cardmem h) as [cm |] eqn:Hcm.
  2: { match goal with
       | |- context [adetect_bringup (probed ?c ?i ?d ?a ?g ?cs ?h0)] =>
           rewrite (adetect_bringup_null c i d a g cs h0 pci eq_refl Hcm)
       end.
       reflexivity. }
  match goal with
  | |- context [adetect_bringup (probed ?c ?i ?d ?a ?g ?cs ?h0)] =>
      destruct (adetect_bringup_run c i d a g cs h0 pci cm eq_refl Hcm)
        as (w' & evs & Hrun & Hq & Htr)
  end.
  rewrite Hrun. split.
  - eexists. cbn [h_calls probed with_world]. rewrite <- !app_assoc.
    split; [reflexivity |]. around_set_master Hok Hfound.
    all: allowed;
      first [apply adetect_legacy_io_allowed
            | apply buffer_init_calls_allowed | assumption].
  - right. split; [reflexivity |].
    eexists _, cm, pci, evs.
    split; [exact Hfound |]. split; [exact Hcm |].
    split; [exact Hq |]. split; [exact Htr |].
    apply Z.eqb_neq in Hbm0, Hcodec0.
    repeat split; try reflexivity; assumption.
Qed.

Lemma probed_same h card :
  has_card (h_world h) card ->
  probed card (h_card_irq h) (h_card_DMABUFF h) (h_calloc h) (h_config h) [] h = h.
Proof.
  intros Hc. destruct h. unfold probed. cbn in *.
  rewrite (with_card_same _ _ Hc), app_nil_r. reflexivity.
Qed.

(** Every run of INTELICH_adetect: how it ends and what it asked of the
    host. *)
Lemma adetect_runs h :
  runs INTELICH_adetect h
    (fun r h' =>
       ((r = 0 /\ detection_failed h h') \/ (r = 1 /\ detection_succeeded h h')) /\
       exists calls,
         h_calls h' = h_calls h ++ calls /\
         detection_calls (reaches_device h) calls)
    (h_cardmem h = None).
Proof.
  unfold runs.
  destruct (hd false (h_calloc h)) eqn:Hok.
  - rewrite (adetect_start h Hok).
    pose proof (adetect_probe_runs (h_card_irq h) (h_card_DMABUFF h)
                  (tl (h_calloc h)) (h_config h) h) as Hr.
    unfold runs in Hr.
    destruct (adetect_probe _) as [r h' | |]; [| exact Hr | exact Hr].
    destruct Hr as ((calls & Hcalls & Hall) & Hend). split.
    + destruct Hend as [(-> & card & Hw & Hdm & Hpci & Hbm) | Hs];
        [left | right; exact Hs].
      split; [reflexivity |]. right. split; [exact Hok |].
      exists card. auto.
    + exists (HcCallocCard true :: calls). split; [exact Hcalls |].
      unfold reaches_device. rewrite Hok. cbn [andb].
      apply detection_calls_cons; [reflexivity | exact Hall].
  - rewrite (adetect_start_null h Hok). split.
    + left. split; [reflexivity |]. left. split; [exact Hok | reflexivity].
    + eexists. split; [reflexivity |].
      unfold reaches_device, detection_calls. rewrite Hok. cbn [andb]. allowed.
Qed.

(** *** What detection guarantees *)

(** X17.  INTELICH_adetect returns 0 or 1, or it faults, and it faults
    only when MDma_alloc_cardmem hands out NULL.  When it returns 0 it has
    read no port and left the DMA memory alone, and either the card could
    not be allocated and the driver state is untouched, or INTELICH_close
    has run: the handle is NULL again and the trace has grown by the
    release of the DMA memory (none had been allocated), of the PCI
    record exactly when its allocation had succeeded, and of the card,
    each once, preceded by the channel reset exactly when a bus-master
    base had been found.  When it returns 1 the card behind the handle
    has the PCI record and the family of the device found, both bases
    nonzero, the DMA allocation with the descriptor list at its start and
    the PCM buffer 256 bytes further, and no rate, clock or period
    configured; the only port traffic is that of the chip and codec
    bring-up. *)
Theorem adetect_returns_card_or_releases_it h :
  match INTELICH_adetect h with
  | Ok r h' =>
      let w := h_world h in
      let w' := h_world h' in
      (r = 0 /\
       w_ports w' = w_ports w /\ w_mem w' = w_mem w /\
       ((hd false (h_calloc h) = false /\ w' = w) \/
        (hd false (h_calloc h) = true /\
         card_private_data (w_aui w') = None /\
         exists reset,
           w_trace w' =
             w_trace w ++ reset ++ [EvFreeCardmem] ++
             (if hd false (tl (h_calloc h)) then [EvFreePciDev] else []) ++
             [EvFreeCard] /\
           (reset = [] \/
            exists bm, bm <> 0 /\
              reset = [EvOut W8 (bm + ICH_PO_CR_REG) ICH_PO_CR_RESET])))) \/
      (r = 1 /\ detection_succeeded h h')
  | Fault => h_cardmem h = None
  | Exhausted => False
  end.
Proof.
  pose proof (adetect_runs h) as Hr. unfold runs in Hr.
  destruct (INTELICH_adetect h) as [r h' | |]; [| exact Hr | exact Hr].
  destruct Hr as ([(-> & Hf) | Hs] & _); [left | right; exact Hs].
  split; [reflexivity |].
  destruct Hf as [(Hok & ->) | (Hok & card & -> & Hdm & Hpci & Hbm)].
  - split; [reflexivity |]. split; [reflexivity |]. left. auto.
  - split; [reflexivity |]. split; [reflexivity |]. right.
    split; [exact Hok |]. split; [reflexivity |].
    exists (if baseport_bm card =? 0 then []
            else [EvOut W8 (baseport_bm card + ICH_PO_CR_REG) ICH_PO_CR_RESET]).
    split.
    + cbn [closed w_trace with_aui with_io]. unfold close_events.
      destruct (pci_dev card) eqn:Hp.
      * destruct (hd false (tl (h_calloc h))); [reflexivity |].
        destruct Hpci as [_ Hpci]. discriminate (Hpci eq_refl).
      * destruct Hpci as [Hpci _]. rewrite (Hpci eq_refl). reflexivity.
    + destruct (Z.eqb_spec (baseport_bm card) 0); [left; reflexivity |].
      right. exists (baseport_bm card). auto.
Qed.

(** X18.  INTELICH_adetect changes the PCI configuration space through
    pcibios_set_master, which it calls in every build, exactly once on a
    run where both allocations succeed and a device is found and not at
    all on any other run.  Every other call of the run that changes the
    configuration space is a register write of an SBEMU build, with one
    of four values: 1 to register 0x41 (the legacy I/O enable of ICH4),
    0xF000 to NABMBAR, 0xEF00 to NAMBAR and 11 to the interrupt line.  In
    a build without SBEMU pcibios_set_master is the only call of a run of
    detection that changes the configuration space. *)
Theorem adetect_config_writes h :
  match INTELICH_adetect h with
  | Ok r h' =>
      let sbemu_write c :=
        is_config_write c = true ->
        SBEMU = true /\
        In c [HcWriteConfigByte 0x41 1;
              HcWriteConfigDword PCIR_NABMBAR 0xF000;
              HcWriteConfigDword PCIR_NAMBAR 0xEF00;
              HcWriteConfigByte PCIR_INTR_LN 11] in
      exists calls,
        h_calls h' = h_calls h ++ calls /\
        (if reaches_device h
         then exists pre post,
                calls = pre ++ HcSetMaster :: post /\
                Forall sbemu_write pre /\ Forall sbemu_write post
         else Forall sbemu_write calls) /\
        (SBEMU = false ->
         Forall (fun c => is_config_write c = true -> c = HcSetMaster) calls)
  | Fault => h_cardmem h = None
  | Exhausted => False
  end.
Proof.
  pose proof (adetect_runs h) as Hr. unfold runs in Hr.
  destruct (INTELICH_adetect h) as [r h' | |]; [| exact Hr | exact Hr].
  destruct Hr as (_ & calls & Hcalls & Hall). cbv zeta.
  assert (Hin : forall l, Forall config_write_allowed l ->
            Forall (fun c =>
                      is_config_write c = true ->
                      SBEMU = true /\
                      In c [HcWriteConfigByte 0x41 1;
                            HcWriteConfigDword PCIR_NABMBAR 0xF000;
                            HcWriteConfigDword PCIR_NAMBAR 0xEF00;
                            HcWriteConfigByte PCIR_INTR_LN 11]) l).
  { intros l Hl. eapply Forall_impl; [exact Hl |].
    intros c Hc Hw. destruct (Hc Hw) as (HS & Hor). split; [exact HS |].
    destruct Hor as [-> | [-> | [-> | ->]]]; cbn [In]; auto 6. }
  assert (Hplain : forall l, SBEMU = false -> Forall config_write_allowed l ->
            Forall (fun c => is_config_write c = true -> c = HcSetMaster) l).
  { intros l HS Hl. eapply Forall_impl; [exact Hl |].
    intros c Hc Hw. destruct (Hc Hw) as (HS' & _). congruence. }
  exists calls. split; [exact Hcalls |].
  unfold detection_calls in Hall. destruct (reaches_device h).
  - destruct Hall as (pre & post & -> & Hpre & Hpost). split.
    + exists pre, post. split; [reflexivity |]. split; apply Hin; assumption.
    + intros HS. apply Forall_app. split; [apply Hplain; assumption |].
      constructor; [intros _; reflexivity | apply Hplain; assumption].
  - split; [apply Hin, Hall | intros HS; apply Hplain; assumption].
Qed.

(** X19.  On a machine where both allocations succeed, a device is found
    and its two base registers and (in SBEMU builds) its interrupt line
    are set, INTELICH_adetect returns 1 after exactly these host calls,
    in order: the two allocations, the search, in SBEMU builds the legacy
    I/O enable when the device is an ICH4, bus mastering, one read each
    of NABMBAR, NAMBAR and the interrupt line, and the buffer set-up.
    The bases are the values read masked with 0xfff0, the interrupt line
    is stored in the card and in the handle, and the chip and the codec
    are brought up on the ports of that card. *)
Theorem adetect_plain_machine h pci cm v1 v2 v3 calloc cfg :
  h_calloc h = true :: true :: calloc ->
  h_found h = Some pci -> h_cardmem h = Some cm ->
  h_config h = v1 :: v2 :: v3 :: cfg ->
  Z.land (u32 v1) 0xfff0 <> 0 -> Z.land (u32 v2) 0xfff0 <> 0 ->
  (SBEMU = true -> u8 v3 <> 0xFF /\ u8 v3 <> 0) ->
  let card :=
    {| baseport_bm := Z.land (u32 v1) 0xfff0;
       baseport_codec := Z.land (u32 v2) 0xfff0;
       irq := u8 v3; device_type := pci_device_type pci;
       pci_dev := Some pci; dm := Some cm;
       buffer_descriptor_list := linearptr cm;
       pcmout_buffer := linearptr cm + ICH_DMABUF_ALIGN;
       pcmout_bufsize := h_max_bufsize h; period_size_bytes := 0;
       vra := 0; ac97_clock_detected := 0;
       ac97_clock_corrector := f_of_int 0 |} in
  exists h' evs,
    INTELICH_adetect h = Ok 1 h' /\
    quiet (with_card card (h_world h)) (h_world h') evs /\
    bringup_traffic card evs /\
    h_card_irq h' = u8 v3 /\
    h_card_DMABUFF h' = linearptr cm + ICH_DMABUF_ALIGN /\
    h_calloc h' = calloc /\ h_config h' = cfg /\
    h_calls h' =
      h_calls h ++
      [HcCallocCard true; HcCallocPciDev true; HcSearchDevices (Some pci)] ++
      (if SBEMU && device_type_eqb (pci_device_type pci) DEVICE_INTEL_ICH4
       then [HcWriteConfigByte 0x41 1] else []) ++
      [HcSetMaster;
       HcReadConfigDword PCIR_NABMBAR (u32 v1);
       HcReadConfigDword PCIR_NAMBAR (u32 v2);
       HcReadConfigByte PCIR_INTR_LN (u8 v3)] ++
      buffer_init_calls cm (bits_set (w_aui (h_world h))) (h_max_bufsize h).
Proof.
  intros Hcalloc Hfound Hcm Hconfig Hbm Hcodec Hirq card.
  assert (Hok : hd false (h_calloc h) = true) by (rewrite Hcalloc; reflexivity).
  rewrite (adetect_start h Hok), Hcalloc, Hconfig. cbn [tl].
  unfold adetect_probe. drun. cbn [hd tl negb]. drun. rewrite Hfound. drun.
  match goal with
  | |- context [bind adetect_legacy_io _ (probed ?c ?i ?d ?a ?g ?cs ?h0)] =>
      rewrite (dbind_ok _ _ _ _ _
                 (adetect_legacy_io_run c i d a g cs h0 pci eq_refl))
  end.
  unfold pcibios_set_master. drun.
  apply Z.eqb_neq in Hbm, Hcodec.
  assert (Hp1 : SBEMU && (Z.land (u32 (hd 0 (v1 :: v2 :: v3 :: cfg))) 0xfff0 =? 0)
                = false)
    by (cbn [hd]; rewrite Hbm; apply andb_false_r).
  assert (Hp2 : SBEMU && (Z.land (u32 (hd 0 (v2 :: v3 :: cfg))) 0xfff0 =? 0)
                = false)
    by (cbn [hd]; rewrite Hcodec; apply andb_false_r).
  assert (Hp3 : SBEMU && ((u8 (hd 0 (v3 :: cfg)) =? 0xFF) ||
                          (u8 (hd 0 (v3 :: cfg)) =? 0)) = false).
  { cbn [hd]. destruct SBEMU; [| reflexivity].
    destruct (Hirq eq_refl) as [Hff Hz].
    apply Z.eqb_neq in Hff, Hz. rewrite Hff, Hz. reflexivity. }
  rewrite (dbind_ok _ _ _ _ _ (adetect_bm_base_plain _ _ _ _ _ _ _ Hp1)).
  drun. cbn [hd tl baseport_bm set_baseport_bm]. rewrite Hbm.
  rewrite (dbind_ok _ _ _ _ _ (adetect_codec_base_plain _ _ _ _ _ _ _ _ Hp2)).
  drun. cbn [hd tl baseport_codec set_baseport_codec]. rewrite Hcodec.
  rewrite (dbind_ok _ _ _ _ _ (adetect_irq_plain _ _ _ _ _ _ _ Hp3)).
  cbn [hd tl].
  match goal with
  | |- context [adetect_bringup (probed ?c ?i ?d ?a ?g ?cs ?h0)] =>
      destruct (adetect_bringup_run c i d a g cs h0 pci cm eq_refl Hcm)
        as (w' & evs & Hrun & Hq & Htr)
  end.
  rewrite Hrun. eexists _, evs. split; [reflexivity |].
  split; [exact Hq |]. split; [exact Htr |].
  cbn [h_card_irq h_card_DMABUFF h_calloc h_config h_calls with_world probed].
  repeat (split; [reflexivity |]).
  rewrite <- !app_assoc. reflexivity.
Qed.

(** X20.  In an SBEMU build, on a machine whose BIOS has set neither base
    register nor the interrupt line (the registers read 0 under the mask
    0xfff0, the line reads 0 or 0xFF), INTELICH_adetect assigns 0xF000 to
    NABMBAR, 0xEF00 to NAMBAR and line 11, reads each register again
    right after the write, and goes on with what it reads then: the
    detection succeeds when the bases read nonzero the second time, and
    the interrupt line is taken as read, without a further check. *)
Theorem adetect_assigns_what_bios_left_unset h pci cm v1 v2 v3 v4 v5 v6
    calloc cfg :
  SBEMU = true ->
  h_calloc h = true :: true :: calloc ->
  h_found h = Some pci -> h_cardmem h = Some cm ->
  h_config h = v1 :: v2 :: v3 :: v4 :: v5 :: v6 :: cfg ->
  Z.land (u32 v1) 0xfff0 = 0 -> Z.land (u32 v2) 0xfff0 <> 0 ->
  Z.land (u32 v3) 0xfff0 = 0 -> Z.land (u32 v4) 0xfff0 <> 0 ->
  u8 v5 = 0xFF \/ u8 v5 = 0 ->
  exists h' card,
    INTELICH_adetect h = Ok 1 h' /\
    has_card (h_world h') card /\
    baseport_bm card = Z.land (u32 v2) 0xfff0 /\
    baseport_codec card = Z.land (u32 v4) 0xfff0 /\
    irq card = u8 v6 /\ h_card_irq h' = u8 v6 /\
    h_calls h' =
      h_calls h ++
      [HcCallocCard true; HcCallocPciDev true; HcSearchDevices (Some pci)] ++
      (if device_type_eqb (pci_device_type pci) DEVICE_INTEL_ICH4
       then [HcWriteConfigByte 0x41 1] else []) ++
      [HcSetMaster;
       HcReadConfigDword PCIR_NABMBAR (u32 v1);
       HcWriteConfigDword PCIR_NABMBAR 0xF000;
       HcReadConfigDword PCIR_NABMBAR (u32 v2);
       HcReadConfigDword PCIR_NAMBAR (u32 v3);
       HcWriteConfigDword PCIR_NAMBAR 0xEF00;
       HcReadConfigDword PCIR_NAMBAR (u32 v4);
       HcReadConfigByte PCIR_INTR_LN (u8 v5);
       HcWriteConfigByte PCIR_INTR_LN 11;
       HcReadConfigByte PCIR_INTR_LN (u8 v6)] ++
      buffer_init_calls cm (bits_set (w_aui (h_world h))) (h_max_bufsize h).
Proof.
  intros HS Hcalloc Hfound Hcm Hconfig Hbm1 Hbm2 Hc1 Hc2 Hirq.
  assert (Hok : hd false (h_calloc h) = true) by (rewrite Hcalloc; reflexivity).
  rewrite (adetect_start h Hok), Hcalloc, Hconfig. cbn [tl].
  unfold adetect_probe. drun. cbn [hd tl negb]. drun. rewrite Hfound. drun.
  match goal with
  | |- context [bind adetect_legacy_io _ (probed ?c ?i ?d ?a ?g ?cs ?h0)] =>
      rewrite (dbind_ok _ _ _ _ _
                 (adetect_legacy_io_run c i d a g cs h0 pci eq_refl))
  end.
  unfold pcibios_set_master. drun.
  rewrite (dbind_ok _ _ _ _ _ (adetect_bm_base_retry _ _ _ _
               (v1 :: v2 :: v3 :: v4 :: v5 :: v6 :: cfg) _ _ HS Hbm1)).
  drun. cbn [hd tl baseport_bm set_baseport_bm].
  apply Z.eqb_neq in Hbm2. rewrite Hbm2.
  rewrite (dbind_ok _ _ _ _ _ (adetect_codec_base_retry _ _ _ _
               (v3 :: v4 :: v5 :: v6 :: cfg) _ _ HS Hc1)).
  drun. cbn [hd tl baseport_codec set_baseport_codec].
  apply Z.eqb_neq in Hc2. rewrite Hc2.
  assert (Hr3 : (u8 (hd 0 (v5 :: v6 :: cfg)) =? 0xFF) ||
                 (u8 (hd 0 (v5 :: v6 :: cfg)) =? 0) = true)
    by (cbn [hd]; destruct Hirq as [-> | ->]; reflexivity).
  rewrite (dbind_ok _ _ _ _ _ (adetect_irq_retry _ _ _ _ _ _ _ HS Hr3)).
  cbn [hd tl].
  match goal with
  | |- context [adetect_bringup (probed ?c ?i ?d ?a ?g ?cs ?h0)] =>
      destruct (adetect_bringup_run c i d a g cs h0 pci cm eq_refl Hcm)
        as (w' & evs & Hrun & Hq & Htr)
  end.
  rewrite Hrun. eexists _, _. split; [reflexivity |].
  split; [eapply quiet_has_card; [exact Hq | reflexivity] |].
  cbn [h_card_irq h_calls with_world probed].
  repeat (split; [reflexivity |]).
  rewrite HS. cbn [andb]. rewrite <- !app_assoc. reflexivity.
Qed.


(** X21.  snd_intel_buffer_init never returns 0, so the error branch
    behind its call in INTELICH_adetect is never taken.  With a card
    behind the handle it asks the host for the largest PCM buffer with 2
    bytes per sample, or 4 when more than 16 bits were requested, asks for
    one allocation of that size plus the 256 bytes of the descriptor list,
    and then uses the allocation without a test: with an allocation it
    lays out the card, points aui->card_DMABUFF to the PCM buffer, in
    SBEMU builds clears the buffer, and returns 1; on NULL it faults. *)
Theorem buffer_init_returns_1_or_faults h card :
  has_card (h_world h) card ->
  match h_cardmem h with
  | Some cm =>
      exists h',
        snd_intel_buffer_init h = Ok 1 h' /\
        h_world h' =
          with_card (buffer_init_card cm (h_max_bufsize h) card) (h_world h) /\
        laid_out (buffer_init_card cm (h_max_bufsize h) card) cm (h_max_bufsize h) /\
        h_card_DMABUFF h' = linearptr cm + ICH_DMABUF_ALIGN /\
        h_calls h' =
          h_calls h ++
          buffer_init_calls cm (bits_set (w_aui (h_world h))) (h_max_bufsize h)
  | None => snd_intel_buffer_init h = Fault
  end.
Proof.
  intros Hc. pose proof (probed_same h card Hc) as Hh.
  destruct (h_cardmem h) as [cm |] eqn:Hcm.
  - pose proof (buffer_init_run card (h_card_irq h) (h_card_DMABUFF h)
                  (h_calloc h) (h_config h) [] h cm Hcm) as Hrun.
    rewrite Hh in Hrun. eexists. split; [exact Hrun |].
    cbn [h_world h_card_DMABUFF h_calls probed app].
    repeat split; reflexivity.
  - pose proof (buffer_init_null card (h_card_irq h) (h_card_DMABUFF h)
                  (h_calloc h) (h_config h) [] h Hcm) as Hrun.
    rewrite Hh in Hrun. exact Hrun.
Qed.

(** X22.  A card that INTELICH_adetect has detected plays at 48000 Hz
    whatever rate is asked for: the variable-rate flag is zero in the
    zero-filled card and nothing between detection and rate selection
    sets it.  For every family whose clock is not measured (ICH4, NForce,
    SIS7012), INTELICH_setrate on the detected handle, with any requested
    frequency, returns with card frequency 48000, 2 channels and 16 or 32
    effective bits. *)
Theorem detected_card_plays_at_48000 h cm request :
  h_cardmem h = Some cm ->
  f_nonzero (f_of_int 0) = false ->
  exists r h',
    INTELICH_adetect h = Ok r h' /\ (r = 0 \/ r = 1) /\
    (r = 1 ->
     exists card,
       has_card (h_world h') card /\ vra card = 0 /\
       (device_type card <> DEVICE_INTEL ->
        exists w',
          INTELICH_setrate
            (with_aui (set_freq_card request (w_aui (h_world h'))) (h_world h')) =
            Ok tt w' /\
          freq_card (w_aui w') = 48000 /\ chan_card (w_aui w') = 2 /\
          (bits_card (w_aui w') = 16 \/ bits_card (w_aui w') = 32))).
Proof.
  intros Hcm Hzero.
  pose proof (adetect_runs h) as Hends. unfold runs in Hends.
  destruct (INTELICH_adetect h) as [r h' | |];
    [| rewrite Hcm in Hends; discriminate | contradiction].
  exists r, h'. split; [reflexivity |].
  destruct Hends as ([(-> & _) | (-> & Hs)] & _).
  { split; [left; reflexivity | discriminate]. }
  split; [right; reflexivity |]. intros _.
  destruct Hs as (card & cm' & pci & evs & _ & _ & Hq & _ & _ & _ & _ & _ & _ &
                  (Hdm & _) & _ & (Hvra & Hdet & Hcor & _)).
  assert (Hc : has_card (h_world h') card)
    by (eapply quiet_has_card; [exact Hq | reflexivity]).
  exists card. split; [exact Hc |]. split; [exact Hvra |].
  intros Hfam.
  set (w := with_aui (set_freq_card request (w_aui (h_world h'))) (h_world h')).
  assert (Hcw : has_card w card) by exact Hc.
  pose proof (calibrate_skips w card Hcw (or_introl Hfam)) as Hcal.
  pose proof (setrate_configure_ok w card Hcw) as Hcfg.
  set (w1 := with_aui _ _) in Hcfg.
  assert (Hc1 : has_card w1
            (set_period_size_bytes (u32 (hd 0 (w_ports w)) / ICH_DMABUF_PERIODS) card))
    by reflexivity.
  assert (Hz : f_nonzero (ac97_clock_corrector
                 (set_period_size_bytes
                    (u32 (hd 0 (w_ports w)) / ICH_DMABUF_PERIODS) card)) = false)
    by (cbn [ac97_clock_corrector set_period_size_bytes]; rewrite Hcor; exact Hzero).
  destruct (prepare_playback_moving w1 _ cm' Hc1 Hdm Hz eq_refl)
    as ([] & w' & Hrun & evs' & cr & cmd & spdif & M & _).
  exists w'. split.
  { unfold INTELICH_setrate.
    rewrite (bind_ok _ _ _ _ _ Hcal), (bind_ok _ _ _ _ _ Hcfg). exact Hrun. }
  destruct M as ((_ & Hf & Hch & Hb) & _).
  split; [rewrite Hf; unfold w1; cbn; rewrite Hvra; reflexivity |].
  split; [rewrite Hch; reflexivity |].
  destruct Hb as [Hb | Hb]; [left; rewrite Hb; reflexivity | right; exact Hb].
Qed.

End DetectionProperties.

(** ** The further properties at concrete inputs *)

(** X1 at a codec that is ready at the second poll. *)
Lemma codec_ready_counts_missed_polls_witness :
  has_card (sample_world DEVICE_INTEL 0 48000 16 [0; 0x100])
           (sample_card DEVICE_INTEL 0) /\
  quietly (snd_intel_codec_ready 0)
    (sample_world DEVICE_INTEL 0 48000 16 [0; 0x100])
    (fun r evs => 0 <= r <= 1000 /\ waited evs = 10 * (1000 - r) /\
                  port_writes evs = []).
Proof.
  split; [reflexivity |].
  eapply quietly_mono;
    [apply (codec_ready_counts_missed_polls 0
              (sample_world DEVICE_INTEL 0 48000 16 [0; 0x100])
              (sample_card DEVICE_INTEL 0) eq_refl) |].
  intros r evs (missed & hit & _ & _ & _ & Hr & Hw & Hp & _). auto.
Defined.

(** X2 at a Standard card: master volume. *)
Lemma mixer_write_always_lands_witness :
  has_card (sample_world DEVICE_INTEL 0 48000 16 []) (sample_card DEVICE_INTEL 0) /\
  quietly (INTELICH_writeMIXER 0x02 0x10808)
    (sample_world DEVICE_INTEL 0 48000 16 [])
    (fun _ evs => exists pre,
       evs = pre ++ [EvOut W16 0xd402 0x0808] /\ within pre 2001 20000 []).
Proof.
  split; [reflexivity |].
  exact (proj1 (mixer_write_always_lands 0x02 0x10808
                  (sample_world DEVICE_INTEL 0 48000 16 []))
           (sample_card DEVICE_INTEL 0) eq_refl).
Defined.

(** X3 at the same card. *)
Lemma mixer_read_returns_last_sample_witness :
  has_card (sample_world DEVICE_INTEL 0 48000 16 []) (sample_card DEVICE_INTEL 0) /\
  quietly (INTELICH_readMIXER 0x02)
    (sample_world DEVICE_INTEL 0 48000 16 [])
    (fun r evs => 0 <= r < 65536 /\ port_writes evs = []).
Proof.
  split; [reflexivity |].
  eapply quietly_mono;
    [exact (proj1 (mixer_read_returns_last_sample 0x02
                     (sample_world DEVICE_INTEL 0 48000 16 []))
              (sample_card DEVICE_INTEL 0) eq_refl) |].
  intros r evs (Hr & (_ & _ & Hw) & _). split; [exact Hr | exact Hw].
Defined.

(** X4 at an SIS7012 in an SBEMU build. *)
Lemma chip_init_write_sequence_witness :
  has_card (sample_world DEVICE_SIS 0 48000 16 []) (sample_card DEVICE_SIS 0) /\
  quietly (snd_intel_chip_init (H := headers true) (B := bringup_headers true))
    (sample_world DEVICE_SIS 0 48000 16 [])
    (fun _ evs => exists ws, within evs 6006 50000 ws /\ length ws = 5%nat).
Proof.
  split; [reflexivity |].
  eapply quietly_mono;
    [apply (chip_init_write_sequence (H := headers true)
              (BH := bringup_headers true)
              (sample_world DEVICE_SIS 0 48000 16 [])
              (sample_card DEVICE_SIS 0) eq_refl) |].
  intros _ evs (stat & cnt & ctl & unmute & rest & _ & Hin & _).
  eexists. split; [exact Hin | reflexivity].
Defined.

(** X5 at a Standard card. *)
Lemma ac97_init_sets_volumes_and_spdif_witness :
  has_card (sample_world DEVICE_INTEL 0 48000 16 []) (sample_card DEVICE_INTEL 0) /\
  exists w' evs,
    snd_intel_ac97_init (B := bringup_headers true) 48000
      (sample_world DEVICE_INTEL 0 48000 16 []) = Ok tt w' /\
    w_aui w' = sample_aui DEVICE_INTEL 0 48000 16 /\
    port_writes evs =
      [EvOut W16 (0xd400 + 0x02) 0x0202; EvOut W16 (0xd400 + 0x18) 0x0202;
       EvOut W16 (0xd400 + 0x04) 0x0202; EvOut W16 (0xd400 + 0x2a) 0x0004].
Proof.
  split; [reflexivity |].
  destruct (ac97_init_sets_volumes_and_spdif (BH := bringup_headers true) 48000
              (sample_world DEVICE_INTEL 0 48000 16 [])
              (sample_card DEVICE_INTEL 0) eq_refl)
    as (w' & evs & Hrun & Ha & _ & _ & (_ & _ & Hw)).
  exists w', evs. split; [exact Hrun |]. split; [exact Ha | exact Hw].
Defined.

(** X6 in a build without SBEMU. *)
Lemma start_sets_run_bits_in_sbemu_only_witness :
  has_card (sample_world DEVICE_INTEL 0 48000 16 [0x100])
           (sample_card DEVICE_INTEL 0) /\
  quietly (INTELICH_start (H := headers false))
    (sample_world DEVICE_INTEL 0 48000 16 [0x100])
    (fun _ evs => port_writes evs = []).
Proof.
  split; [reflexivity |].
  eapply quietly_mono;
    [apply (start_sets_run_bits_in_sbemu_only (H := headers false)
              (sample_world DEVICE_INTEL 0 48000 16 [0x100])
              (sample_card DEVICE_INTEL 0) eq_refl) |].
  intros _ evs (pre & v & _ & _ & _ & _ & Hw). exact (Hw eq_refl).
Defined.

(** X7 at a Standard card with period 4096: period 1, 100 samples left. *)
Lemma getbufpos_reports_position_witness :
  has_card (sample_world DEVICE_INTEL 0 48000 16 [1; 100; 1])
           (sample_card DEVICE_INTEL 0) /\
  INTELICH_getbufpos (H := headers false)
    (sample_world DEVICE_INTEL 0 48000 16 [1; 100; 1]) =
  Ok 7992
    (with_aui (set_card_dma_lastgoodpos 7992 (sample_aui DEVICE_INTEL 0 48000 16))
       (with_io []
          [EvIn W8 0xd014 1; EvIn W16 0xd018 100; EvIn W8 0xd014 1]
          (sample_world DEVICE_INTEL 0 48000 16 [1; 100; 1]))).
Proof.
  split; [reflexivity |].
  assert (Hidx : 0 <= 1 < ICH_DMABUF_PERIODS) by (unfold ICH_DMABUF_PERIODS; lia).
  assert (Hleft : 0 <= 100 < 65536) by lia.
  assert (Hbytes : 0 < 200 <= 4096) by lia.
  assert (Hper : 4096 < 2 ^ 30) by reflexivity.
  assert (Hpos : 7992 < 16384) by reflexivity.
  exact (getbufpos_reports_position (H := headers false)
           (sample_world DEVICE_INTEL 0 48000 16 [1; 100; 1])
           (sample_card DEVICE_INTEL 0) 1 100 [] eq_refl eq_refl
           Hidx Hleft Hbytes Hper Hpos).
Defined.

(** X8 at the same card. *)
Lemma getbufpos_only_polls_witness :
  has_card (sample_world DEVICE_INTEL 0 48000 16 [1; 100; 1])
           (sample_card DEVICE_INTEL 0) /\
  exists pos w' evs,
    INTELICH_getbufpos (H := headers false)
      (sample_world DEVICE_INTEL 0 48000 16 [1; 100; 1]) = Ok pos w' /\
    w_trace w' = evs /\ waited evs = 0 /\ (port_reads evs <= 9)%nat.
Proof.
  split; [reflexivity |].
  destruct (getbufpos_only_polls (H := headers false)
              (sample_world DEVICE_INTEL 0 48000 16 [1; 100; 1])
              (sample_card DEVICE_INTEL 0) eq_refl)
    as (pos & w' & evs & Hrun & _ & _ & Htr & Hwt & Hrd & _).
  exists pos, w', evs. split; [exact Hrun |]. split; [exact Htr |].
  split; [exact Hwt | exact Hrd].
Defined.

(** X9 in an SBEMU build: period 3 with 3000 samples (6000 bytes) left of
    a period of 4096 bytes. *)
Lemma getbufpos_stale_count_wraps_in_sbemu_witness :
  has_card (sample_world DEVICE_INTEL 0 48000 16 [3; 3000; 0])
           (sample_card DEVICE_INTEL 0) /\
  10384 < 3 * 4096 /\
  INTELICH_getbufpos (H := headers true)
    (sample_world DEVICE_INTEL 0 48000 16 [3; 3000; 0]) =
  Ok 10384
    (with_aui (set_card_dma_lastgoodpos 10384 (sample_aui DEVICE_INTEL 0 48000 16))
       (with_io []
          [EvIn W8 0xd014 3; EvIn W16 0xd018 3000; EvIn W8 0xd015 0]
          (sample_world DEVICE_INTEL 0 48000 16 [3; 3000; 0]))).
Proof.
  split; [reflexivity |].
  assert (Hidx : 0 <= 3 < ICH_DMABUF_PERIODS) by (unfold ICH_DMABUF_PERIODS; lia).
  assert (Hleft : 0 <= 3000 < 65536) by lia.
  assert (Hlvi : 0 <= 0 < 256) by lia.
  assert (Hstale : 4096 < 6000) by reflexivity.
  assert (Hfit : 6000 <= (3 + 1) * 4096) by discriminate.
  assert (Hper : 4096 < 2 ^ 30) by reflexivity.
  assert (Hpos : 10384 < 16384) by reflexivity.
  exact (getbufpos_stale_count_wraps_in_sbemu (H := headers true)
           (sample_world DEVICE_INTEL 0 48000 16 [3; 3000; 0])
           (sample_card DEVICE_INTEL 0) 3 3000 0 [] eq_refl eq_refl eq_refl
           Hidx Hleft Hlvi Hstale Hfit Hper Hpos).
Defined.

(** X10 at a status with the two completion causes set. *)
Lemma irq_counts_each_cause_witness :
  has_card (sample_world DEVICE_INTEL 0 48000 16 [0x0c; 0x15; 2])
           (sample_card DEVICE_INTEL 0) /\
  exists handled w',
    INTELICH_IRQRoutine (sample_world DEVICE_INTEL 0 48000 16 [0x0c; 0x15; 2]) =
      Ok handled w' /\
    sis7012_get SIS7012_DEBUG_IOC_COUNT w' = Ok 1 w' /\
    sis7012_get SIS7012_DEBUG_BUP_COUNT w' = Ok 1 w' /\
    sis7012_get SIS7012_DEBUG_FIFO_COUNT w' = Ok 0 w' /\
    sis7012_get SIS7012_DEBUG_LAST w' = Fault.
Proof.
  split; [reflexivity |].
  destruct (irq_counts_each_cause
              (sample_world DEVICE_INTEL 0 48000 16 [0x0c; 0x15; 2])
              (sample_card DEVICE_INTEL 0) 0 0 0 eq_refl eq_refl)
    as (handled & w' & Hrun & _ & _ & H0 & H1 & H2 & H3).
  exists handled, w'. split; [exact Hrun |].
  split; [exact H0 |]. split; [exact H1 |]. split; [exact H2 | exact H3].
Defined.

(** X11 at the same status. *)
Lemma irq_keeps_last_valid_index_in_ring_witness :
  has_card (sample_world DEVICE_INTEL 0 48000 16 [0x0c; 0x15; 2])
           (sample_card DEVICE_INTEL 0) /\
  exists handled w' evs,
    INTELICH_IRQRoutine (sample_world DEVICE_INTEL 0 48000 16 [0x0c; 0x15; 2]) =
      Ok handled w' /\
    w_trace w' = evs /\
    Forall (irq_write (sample_card DEVICE_INTEL 0)) (port_writes evs).
Proof.
  split; [reflexivity |].
  destruct (irq_keeps_last_valid_index_in_ring
              (sample_world DEVICE_INTEL 0 48000 16 [0x0c; 0x15; 2])
              (sample_card DEVICE_INTEL 0) 0 0 0 eq_refl eq_refl)
    as (handled & w' & evs & Hrun & Htr & _ & _ & Hall).
  exists handled, w', evs. split; [exact Hrun |]. split; [exact Htr | exact Hall].
Defined.

(** X12 at a Standard card asked for 44100 Hz. *)
Lemma prepare_playback_write_sequence_witness :
  has_card (sample_world DEVICE_INTEL 0 44100 16 []) (sample_card DEVICE_INTEL 0) /\
  exists w' evs cr cmd spdif,
    snd_intel_prepare_playback (H := headers true)
      (sample_world DEVICE_INTEL 0 44100 16 []) = Ok tt w' /\
    w_trace w' = evs /\
    port_writes evs =
      [EvOut W8 0xd01b (Z.lor cr 2); EvOut W32 0xd02c cmd;
       EvOut W16 0xd43a spdif; EvOut W16 0xd42c 44100;
       EvOut W32 0xd010 0x200000; EvOut W8 0xd015 3; EvOut W8 0xd014 0;
       EvOut W8 0xd016 0x1c].
Proof.
  split; [reflexivity |].
  destruct (prepare_playback_write_sequence (H := headers true)
              (sample_world DEVICE_INTEL 0 44100 16 [])
              (sample_card DEVICE_INTEL 0)
              {| linearptr := 0x100000; physicalptr := 0x200000 |}
              eq_refl eq_refl eq_refl eq_refl)
    as (w' & evs & cr & cmd & spdif & Hrun & Htr & (_ & _ & Hw)).
  exists w', evs, cr, cmd, spdif.
  split; [exact Hrun |]. split; [exact Htr | exact Hw].
Defined.

(** X13 at the same card: period 4096, 16 or 32 bits. *)
Lemma prepare_playback_publishes_ring_witness :
  has_card (sample_world DEVICE_INTEL 0 44100 16 []) (sample_card DEVICE_INTEL 0) /\
  exists w',
    snd_intel_prepare_playback (H := headers true)
      (sample_world DEVICE_INTEL 0 44100 16 []) = Ok tt w' /\
    w_mem w' !! (0x100000 + 8 * 2) = Some (0x200100 + 2 * 4096) /\
    w_mem w' !! (0x100000 + 8 * 31) = Some 0 /\
    w_mem w' !! 0x100100 = None.
Proof.
  split; [reflexivity |].
  destruct (prepare_playback_publishes_ring (H := headers true)
              (sample_world DEVICE_INTEL 0 44100 16 [])
              (sample_card DEVICE_INTEL 0)
              {| linearptr := 0x100000; physicalptr := 0x200000 |}
              eq_refl eq_refl eq_refl eq_refl)
    as (w' & Hrun & _ & _ & _ & _ & _ & (Hslots & Hrest) & Hout & _).
  exists w'. split; [exact Hrun |].
  assert (R2 : 0 <= 2 < ICH_DMABUF_PERIODS)
    by (unfold ICH_DMABUF_PERIODS; lia).
  assert (R31 : ICH_DMABUF_PERIODS <= 31 < ICH_DMABUF_MAX_PERIODS)
    by (unfold ICH_DMABUF_PERIODS, ICH_DMABUF_MAX_PERIODS; lia).
  split; [exact (proj1 (Hslots 2 R2)) |].
  split; [exact (proj1 (Hrest 31 R31)) |].
  rewrite (Hout 0x100100); [reflexivity | right; discriminate].
Defined.

(** X14 at a host that declares a DMA buffer of 16386 bytes. *)
Lemma setrate_ring_fits_buffer_witness :
  has_card (sample_world DEVICE_INTEL 0 44100 16 [16386])
           (sample_card DEVICE_INTEL 0) /\
  exists w',
    INTELICH_setrate (H := headers true)
      (sample_world DEVICE_INTEL 0 44100 16 [16386]) = Ok tt w' /\
    has_card w' (sample_card DEVICE_INTEL 0) /\
    card_dmasize (w_aui w') = 16386 /\
    w_mem w' !! (0x100000 + 8 * 3) = Some (0x200100 + 3 * 4096).
Proof.
  split; [reflexivity |].
  assert (Hdone : ac97_clock_detected (sample_card DEVICE_INTEL 0) <> 0)
    by discriminate.
  destruct (setrate_ring_fits_buffer (H := headers true)
              (sample_world DEVICE_INTEL 0 44100 16 [16386])
              (sample_card DEVICE_INTEL 0)
              {| linearptr := 0x100000; physicalptr := 0x200000 |}
              eq_refl eq_refl eq_refl (or_intror Hdone))
    as (w' & Hrun & Hc & Hsz & (Hslots & _) & _).
  exists w'. split; [exact Hrun |]. split; [exact Hc |]. split; [exact Hsz |].
  assert (R3 : 0 <= 3 < ICH_DMABUF_PERIODS)
    by (unfold ICH_DMABUF_PERIODS; lia).
  exact (proj1 (Hslots 3 R3)).
Defined.

(** X15 with a clock that has passed the limit at its second reading. *)
Lemma measure_clock_returns_and_runs_once_witness :
  has_card (with_clock [0; 2000000; 2000001] []
              (sample_world DEVICE_INTEL 0 44100 16 [16384]))
           (sample_card DEVICE_INTEL 0) /\
  0 + 1000000 < 2000000 /\
  exists w' card',
    snd_intel_measure_ac97_clock (H := headers true)
      (with_clock [0; 2000000; 2000001] []
         (sample_world DEVICE_INTEL 0 44100 16 [16384])) = Ok tt w' /\
    has_card w' card' /\
    ac97_clock_detected card' = 1 /\
    freq_card (w_aui w') = 44100 /\
    setrate_calibrate (H := headers true) w' = Ok tt w'.
Proof.
  split; [reflexivity |]. split; [reflexivity |].
  destruct (measure_clock_returns_and_runs_once (H := headers true)
              (with_clock [0; 2000000; 2000001] []
                 (sample_world DEVICE_INTEL 0 44100 16 [16384]))
              (sample_card DEVICE_INTEL 0)
              {| linearptr := 0x100000; physicalptr := 0x200000 |}
              0 [] 2000000 2000001 eq_refl eq_refl eq_refl eq_refl eq_refl)
    as (w' & card' & Hrun & Hc & Hdet & _ & _ & _ & _ & Hf & _ & Hcal).
  exists w', card'. split; [exact Hrun |]. split; [exact Hc |].
  split; [exact Hdet |]. split; [exact Hf | exact Hcal].
Defined.

(** X16 at the SIS7012 row and the first NForce row. *)
Lemma table_ids_unique_family_by_vendor_witness :
  In (Build_pci_device_s "SI7012" 0x1039 0x7012 DEVICE_SIS) ich_devices /\
  In (Build_pci_device_s "NFORCE" 0x10de 0x01b1 DEVICE_NFORCE) ich_devices /\
  (dev_device_type (Build_pci_device_s "SI7012" 0x1039 0x7012 DEVICE_SIS) =
     DEVICE_SIS <-> 0x1039 = 0x1039).
Proof.
  assert (Hin : In (Build_pci_device_s "SI7012" 0x1039 0x7012 DEVICE_SIS)
                  ich_devices).
  { unfold ich_devices. do 11 right. left. reflexivity. }
  assert (Hin' : In (Build_pci_device_s "NFORCE" 0x10de 0x01b1 DEVICE_NFORCE)
                   ich_devices).
  { unfold ich_devices. do 12 right. left. reflexivity. }
  split; [exact Hin |]. split; [exact Hin' |].
  destruct (table_ids_unique_family_by_vendor _ _ Hin Hin')
    as (_ & _ & _ & Hsis & _).
  exact Hsis.
Defined.

(** X17 on a machine without a matching device. *)
Lemma adetect_returns_card_or_releases_it_witness :
  exists r h',
    INTELICH_adetect (H := headers true) (B := bringup_headers true)
      (P := pci_headers)
      (sample_host None [true; true] []
         (Some {| linearptr := 0x100000; physicalptr := 0x200000 |})) =
      Ok r h' /\
    r = 0 /\ card_private_data (w_aui (h_world h')) = None.
Proof.
  pose proof (adetect_returns_card_or_releases_it (H := headers true)
                (B := bringup_headers true) (P := pci_headers)
                (sample_host None [true; true] []
                   (Some {| linearptr := 0x100000;
                            physicalptr := 0x200000 |}))) as Hends.
  destruct (INTELICH_adetect _) as [r h' | |];
    [| discriminate Hends | contradiction].
  exists r, h'. split; [reflexivity |].
  destruct Hends as [(-> & _ & _ & [(Hok & _) | (_ & Hnull & _)])
                    | (_ & card & cm & pci & evs & Hfound & _)];
    [discriminate Hok | auto | discriminate Hfound].
Defined.

(** X18 in a build without SBEMU, on a machine whose BIOS has set
    nothing: pcibios_set_master is the one call that changes the
    configuration space. *)
Lemma adetect_config_writes_witness :
  exists r h' pre post,
    INTELICH_adetect (H := headers false) (B := bringup_headers true)
      (P := pci_headers)
      (sample_host (Some sample_ich4) [true; true] [0; 0; 0]
         (Some {| linearptr := 0x100000; physicalptr := 0x200000 |})) =
      Ok r h' /\
    h_calls h' = pre ++ HcSetMaster :: post /\
    Forall (fun c => is_config_write c = false) pre /\
    Forall (fun c => is_config_write c = false) post.
Proof.
  pose proof (adetect_config_writes (H := headers false)
                (B := bringup_headers true) (P := pci_headers)
                (sample_host (Some sample_ich4) [true; true] [0; 0; 0]
                   (Some {| linearptr := 0x100000;
                            physicalptr := 0x200000 |}))) as Hw.
  destruct (INTELICH_adetect _) as [r h' | |];
    [| discriminate Hw | contradiction].
  destruct Hw as (calls & Hcalls & (pre & post & -> & Hpre & Hpost) & _).
  exists r, h', pre, post. split; [reflexivity |]. split; [exact Hcalls |].
  assert (Hno : forall l,
            Forall (fun c =>
                      is_config_write c = true ->
                      SBEMU (Headers := headers false) = true /\
                      In c [HcWriteConfigByte 0x41 1;
                            HcWriteConfigDword (PCIR_NABMBAR (PciHeaders := pci_headers)) 0xF000;
                            HcWriteConfigDword (PCIR_NAMBAR (PciHeaders := pci_headers)) 0xEF00;
                            HcWriteConfigByte (PCIR_INTR_LN (PciHeaders := pci_headers)) 11]) l ->
            Forall (fun c => is_config_write c = false) l).
  { intros l Hl. eapply Forall_impl; [exact Hl |].
    intros c Hc. cbv beta in Hc. destruct (is_config_write c); [| reflexivity].
    destruct (Hc eq_refl) as (HS & _). discriminate HS. }
  split; apply Hno; assumption.
Defined.

(** X19 on a machine with an ICH4 whose BIOS has set everything. *)
Lemma adetect_plain_machine_witness :
  exists h',
    INTELICH_adetect (H := headers true) (B := bringup_headers true)
      (P := pci_headers)
      (sample_host (Some sample_ich4) [true; true] [0xd001; 0xd401; 11]
         (Some {| linearptr := 0x100000; physicalptr := 0x200000 |})) =
      Ok 1 h' /\
    h_card_irq h' = 11 /\ h_card_DMABUFF h' = 0x100100 /\
    h_calls h' =
      [HcCallocCard true; HcCallocPciDev true;
       HcSearchDevices (Some sample_ich4); HcWriteConfigByte 0x41 1;
       HcSetMaster; HcReadConfigDword 0x14 0xd001;
       HcReadConfigDword 0x10 0xd401; HcReadConfigByte 0x3c 11;
       HcGetMaxBufsize 0 256 2 0 16384;
       HcAllocCardmem 16640
         (Some {| linearptr := 0x100000; physicalptr := 0x200000 |});
       HcMemset 0x100100 0 16384].
Proof.
  assert (Hbm : Z.land (u32 0xd001) 0xfff0 <> 0) by discriminate.
  assert (Hcodec : Z.land (u32 0xd401) 0xfff0 <> 0) by discriminate.
  assert (Hirq : @SBEMU (headers true) = true -> u8 11 <> 0xFF /\ u8 11 <> 0)
    by (intros _; split; discriminate).
  destruct (adetect_plain_machine (H := headers true)
              (B := bringup_headers true) (P := pci_headers)
              (sample_host (Some sample_ich4) [true; true] [0xd001; 0xd401; 11]
                 (Some {| linearptr := 0x100000; physicalptr := 0x200000 |}))
              sample_ich4 {| linearptr := 0x100000; physicalptr := 0x200000 |}
              0xd001 0xd401 11 [] [] eq_refl eq_refl eq_refl eq_refl
              Hbm Hcodec Hirq)
    as (h' & evs & Hrun & _ & _ & Hi & Hd & _ & _ & Hcalls).
  exists h'. split; [exact Hrun |]. split; [exact Hi |].
  split; [exact Hd | exact Hcalls].
Defined.

(** X20 on a machine with an ICH4 whose BIOS has set nothing. *)
Lemma adetect_assigns_what_bios_left_unset_witness :
  exists h' card,
    INTELICH_adetect (H := headers true) (B := bringup_headers true)
      (P := pci_headers)
      (sample_host (Some sample_ich4) [true; true]
         [0; 0xF001; 0; 0xEF01; 0xFF; 11]
         (Some {| linearptr := 0x100000; physicalptr := 0x200000 |})) =
      Ok 1 h' /\
    has_card (h_world h') card /\
    baseport_bm card = 0xF000 /\ baseport_codec card = 0xEF00 /\
    irq card = 11.
Proof.
  assert (Hbm : Z.land (u32 0xF001) 0xfff0 <> 0) by discriminate.
  assert (Hcodec : Z.land (u32 0xEF01) 0xfff0 <> 0) by discriminate.
  destruct (adetect_assigns_what_bios_left_unset (H := headers true)
              (B := bringup_headers true) (P := pci_headers)
              (sample_host (Some sample_ich4) [true; true]
                 [0; 0xF001; 0; 0xEF01; 0xFF; 11]
                 (Some {| linearptr := 0x100000; physicalptr := 0x200000 |}))
              sample_ich4 {| linearptr := 0x100000; physicalptr := 0x200000 |}
              0 0xF001 0 0xEF01 0xFF 11 [] []
              eq_refl eq_refl eq_refl eq_refl eq_refl eq_refl Hbm eq_refl Hcodec
              (or_introl eq_refl))
    as (h' & card & Hrun & Hc & Hb & Hco & Hi & _).
  exists h', card. split; [exact Hrun |]. split; [exact Hc |].
  split; [exact Hb |]. split; [exact Hco | exact Hi].
Defined.

(** X21 on the sample card, when the allocator hands out NULL. *)
Lemma buffer_init_returns_1_or_faults_witness :
  has_card (sample_world DEVICE_INTEL 0 48000 16 []) (sample_card DEVICE_INTEL 0) /\
  snd_intel_buffer_init (H := headers true)
    {| h_world := sample_world DEVICE_INTEL 0 48000 16 [];
       h_freq_set := 48000; h_card_irq := 11; h_card_DMABUFF := 0;
       h_calloc := []; h_found := None; h_config := [];
       h_max_bufsize := 16384; h_cardmem := None; h_calls := [] |} = Fault.
Proof.
  split; [reflexivity |].
  exact (buffer_init_returns_1_or_faults (H := headers true)
           {| h_world := sample_world DEVICE_INTEL 0 48000 16 [];
              h_freq_set := 48000; h_card_irq := 11; h_card_DMABUFF := 0;
              h_calloc := []; h_found := None; h_config := [];
              h_max_bufsize := 16384; h_cardmem := None; h_calls := [] |}
           (sample_card DEVICE_INTEL 0) eq_refl).
Defined.

(** X22 on the machine of X19, asked for 44100 Hz. *)
Lemma detected_card_plays_at_48000_witness :
  h_cardmem
    (sample_host (Some sample_ich4) [true; true] [0xd001; 0xd401; 11]
       (Some {| linearptr := 0x100000; physicalptr := 0x200000 |})) =
    Some {| linearptr := 0x100000; physicalptr := 0x200000 |} /\
  f_nonzero (FloatOps := Ieee.ops) (f_of_int 0) = false /\
  exists r h',
    INTELICH_adetect (H := headers true) (B := bringup_headers true)
      (P := pci_headers)
      (sample_host (Some sample_ich4) [true; true] [0xd001; 0xd401; 11]
         (Some {| linearptr := 0x100000; physicalptr := 0x200000 |})) =
      Ok r h' /\
    (r = 0 \/ r = 1).
Proof.
  split; [reflexivity |]. split; [reflexivity |].
  destruct (detected_card_plays_at_48000 (H := headers true)
              (B := bringup_headers true) (P := pci_headers)
              (sample_host (Some sample_ich4) [true; true] [0xd001; 0xd401; 11]
                 (Some {| linearptr := 0x100000; physicalptr := 0x200000 |}))
              {| linearptr := 0x100000; physicalptr := 0x200000 |} 44100
              eq_refl eq_refl)
    as (r & h' & Hrun & Hr & _).
  exists r, h'. split; [exact Hrun | exact Hr].
Defined.
